(** * lodestar-cli: round lifecycle and automated-decision engine

    A shallow embedding of the decision core of lodestar-cli
    (constants.mjs, solana.mjs, ev.mjs, detection.mjs, state.mjs,
    automation.mjs, transactions.mjs, game.mjs) and the properties of it
    that the specification states.

    Conventions.
    - A JavaScript [number] is an IEEE 754 binary64 value: it is modelled
      by Rocq's primitive floats, whose operations are the binary64
      operations with round-to-nearest-even.
    - A [bigint], a [BN] and a [u64] field are modelled by [Z].
    - A [Buffer] is a list of bytes.
    - The module-level mutable [appState] is threaded explicitly; what a
      handler does to the outside world (log lines, calls into other
      modules, RPC requests) is recorded, in order, in a list of
      [Effect]s. *)

From Stdlib Require Import ZArith List Bool String Ascii Lia Floats.
From Stdlib Require Import Sorted Permutation.
From Stdlib.Strings Require Import Byte.
From Stdlib Require Import DecimalString.
Import ListNotations.

Local Open Scope Z_scope.

(* ===================================================================== *)
(** * constants.mjs *)

Module Constants.

Definition ACCOUNT_DISCRIMINATOR_SIZE : nat := 8.
Definition MS_PER_SLOT : Z := 400.

Module APP_MODES.
Definition IDLE : string := "idle".
Definition ONE_X_EV : string := "1x EV".
Definition THREE_X_EV : string := "3x EV".
Definition FIVE_X_EV : string := "5x EV".
Definition TWENTY_FIVE_X_EV : string := "25x EV".
(** [Object.values(APP_MODES)] *)
Definition values : list string :=
  [IDLE; ONE_X_EV; THREE_X_EV; FIVE_X_EV; TWENTY_FIVE_X_EV].
End APP_MODES.

(** The numeric constants are built with the binary64 operations the
    source uses to build them; a decimal literal that is not a binary64
    value is written as the binary64 value JavaScript reads it as. *)
Definition SOL_PER_LAMPORT : float := (1 / 1000000000)%float.
Definition REF_MULT : float := 0x1.ccccccccccccdp-1%float.     (* 0.9 *)
Definition ADMIN_FEE : float := 0x1.47ae147ae147bp-7%float.    (* 0.01 *)
Definition PROTOCOL_CUT : float := 0x1.999999999999ap-4%float. (* 0.10 *)
Definition P_WIN : float := (1 / 25)%float.
Definition HIT_PROB : float := (1 / 625)%float.
Definition ADMIN_COST_FACTOR : float := (ADMIN_FEE / (1 - ADMIN_FEE))%float.
Definition C : float := (24 + ADMIN_COST_FACTOR / P_WIN)%float.

End Constants.

(* ===================================================================== *)
(** * solana.mjs: account decoding and outcome derivation *)

Module Solana.

Definition Buffer := list byte.

Definition byteZ (b : byte) : Z := Z.of_N (Byte.to_N b).

(** [buf.readUInt32LE(offset)] on the four bytes it is given. *)
Definition u32le (b0 b1 b2 b3 : byte) : Z :=
  byteZ b0 + byteZ b1 * 2 ^ 8 + byteZ b2 * 2 ^ 16 + byteZ b3 * 2 ^ 24.

(** [Buffer.prototype.readBigUInt64LE(offset)]: a [RangeError] ([None])
    when fewer than eight bytes are left at [offset]; otherwise the low
    and the high 32-bit halves are read and combined as
    [lo + (hi << 32n)]. *)
Definition readBigUInt64LE (buf : Buffer) (offset : nat) : option Z :=
  match firstn 8 (skipn offset buf) with
  | [b0; b1; b2; b3; b4; b5; b6; b7] =>
      let lo := u32le b0 b1 b2 b3 in
      let hi := u32le b4 b5 b6 b7 in
      Some (lo + Z.shiftl hi 32)
  | _ => None
  end.

(** [slotHash.some(byte => byte !== 0)] *)
Definition isSlotHashPopulated (slotHash : Buffer) : bool :=
  existsb (fun b => negb (Byte.eqb b "000"%byte)) slotHash.

(** [r1 ^ r2 ^ r3 ^ r4] on the four words of the hash. *)
Definition calculateRng (slotHash : Buffer) : option Z :=
  match readBigUInt64LE slotHash 0, readBigUInt64LE slotHash 8,
        readBigUInt64LE slotHash 16, readBigUInt64LE slotHash 24 with
  | Some r1, Some r2, Some r3, Some r4 =>
      Some (Z.lxor (Z.lxor (Z.lxor r1 r2) r3) r4)
  | _, _, _, _ => None
  end.

(** [Number(rng % 25n)]; the bigint remainder truncates towards zero. *)
Definition getWinningSquare (rng : Z) : Z := Z.rem rng 25.

(** ** Account layouts

    The layouts are decoded field by field by the buffer-layout library:
    a field reads at the current offset and the offset moves on by the
    span of the field, whatever the length of the buffer. No field
    raises an error on a buffer that ends early: it reads the bytes
    that are there. A decoder returns its value and the rest of the
    buffer; [None] stands for an exception, which these layouts do not
    raise on a buffer of bytes. *)
Definition Decoder (A : Type) := Buffer -> option (A * Buffer).

(** [toBigIntLE(buf)] of bigint-buffer: the bytes as a little-endian
    integer, least significant byte first; no bytes give 0. *)
Fixpoint toBigIntLE (buf : Buffer) : Z :=
  match buf with
  | [] => 0
  | b :: rest => byteZ b + 256 * toBigIntLE rest
  end.

(** [blob(n)]: [Blob.decode] is [b.slice(offset, offset + n)], which
    holds fewer than [n] bytes, or none, when the buffer ends before. *)
Definition blob (n : nat) : Decoder Buffer := fun b =>
  Some (firstn n b, skipn n b).

(** [u64()] of buffer-layout-utils: [toBigIntLE] of the blob of eight
    bytes, so that bytes missing at the end of the buffer count as 0. *)
Definition u64 : Decoder Z := fun b =>
  match blob 8 b with
  | Some (src, rest) => Some (toBigIntLE src, rest)
  | None => None
  end.

Fixpoint seqOf {A} (d : Decoder A) (n : nat) : Decoder (list A) := fun b =>
  match n with
  | O => Some ([], b)
  | S n' =>
      match d b with
      | Some (x, b') =>
          match seqOf d n' b' with
          | Some (xs, b'') => Some (x :: xs, b'')
          | None => None
          end
      | None => None
      end
  end.

Definition dbind {A B} (d : Decoder A) (k : A -> Decoder B) : Decoder B :=
  fun b => match d b with
           | Some (x, b') => k x b'
           | None => None
           end.
Definition dret {A} (x : A) : Decoder A := fun b => Some (x, b).

Notation "x <~ d ;; k" := (dbind d (fun x => k))
  (at level 61, d at next level, right associativity).

(** A public key, as the 32 bytes of [toBuffer()]. *)
Definition PublicKey := Buffer.

(** [publicKey()] of buffer-layout-utils: [new PublicKey(src)] of the
    blob of 32 bytes. The key keeps the bytes as a big-endian number;
    its 32 bytes are the bytes read, with zeros in front when fewer
    than 32 were there. *)
Definition publicKey : Decoder PublicKey := fun b =>
  match blob 32 b with
  | Some (src, rest) =>
      Some (repeat "000"%byte (32 - List.length src) ++ src, rest)
  | None => None
  end.

Module Board.
Record t := {
  round_id : Z;
  start_slot : Z;
  end_slot : Z
}.
End Board.

Module Round.
Record t := {
  id : Z;
  deployed : list Z;
  slot_hash : Buffer;
  count : list Z;
  expires_at : Z;
  motherlode : Z;
  rent_payer : PublicKey;
  top_miner : PublicKey;
  top_miner_reward : Z;
  total_deployed : Z;
  total_vaulted : Z;
  total_winnings : Z
}.
End Round.

Module Miner.
Record t := {
  authority : PublicKey;
  deployed : list Z;
  cumulative : list Z;
  checkpoint_fee : Z;
  checkpoint_id : Z;
  last_claim_ore_at : Z;
  last_claim_sol_at : Z;
  rewards_factor : Buffer;
  rewards_sol : Z;
  rewards_ore : Z;
  refined_ore : Z;
  round_id : Z;
  lifetime_rewards_sol : Z;
  lifetime_rewards_ore : Z
}.
End Miner.

Definition BoardData := Board.t.
Definition RoundData := Round.t.
Definition MinerData := Miner.t.

Definition BOARD_LAYOUT : Decoder BoardData :=
  r <~ u64 ;; s <~ u64 ;; e <~ u64 ;;
  dret {| Board.round_id := r; Board.start_slot := s; Board.end_slot := e |}.

Definition ROUND_LAYOUT : Decoder RoundData :=
  i <~ u64 ;; d <~ seqOf u64 25 ;; h <~ blob 32 ;; c <~ seqOf u64 25 ;;
  x <~ u64 ;; m <~ u64 ;; rp <~ publicKey ;; tm <~ publicKey ;;
  tr <~ u64 ;; td <~ u64 ;; tv <~ u64 ;; tw <~ u64 ;;
  dret {| Round.id := i; Round.deployed := d; Round.slot_hash := h;
          Round.count := c; Round.expires_at := x; Round.motherlode := m;
          Round.rent_payer := rp; Round.top_miner := tm;
          Round.top_miner_reward := tr; Round.total_deployed := td;
          Round.total_vaulted := tv; Round.total_winnings := tw |}.

Definition MINER_LAYOUT : Decoder MinerData :=
  a <~ publicKey ;; d <~ seqOf u64 25 ;; c <~ seqOf u64 25 ;;
  cf <~ u64 ;; ci <~ u64 ;; lo <~ u64 ;; ls <~ u64 ;; rf <~ blob 16 ;;
  rs <~ u64 ;; ro <~ u64 ;; re <~ u64 ;; ri <~ u64 ;;
  l1 <~ u64 ;; l2 <~ u64 ;;
  dret {| Miner.authority := a; Miner.deployed := d; Miner.cumulative := c;
          Miner.checkpoint_fee := cf; Miner.checkpoint_id := ci;
          Miner.last_claim_ore_at := lo; Miner.last_claim_sol_at := ls;
          Miner.rewards_factor := rf; Miner.rewards_sol := rs;
          Miner.rewards_ore := ro; Miner.refined_ore := re;
          Miner.round_id := ri; Miner.lifetime_rewards_sol := l1;
          Miner.lifetime_rewards_ore := l2 |}.

Definition decode {A} (d : Decoder A) (b : Buffer) : option A :=
  option_map fst (d b).

(** [LAYOUT.decode(data.slice(ACCOUNT_DISCRIMINATOR_SIZE))] *)
Definition parseBoard (data : Buffer) : option BoardData :=
  decode BOARD_LAYOUT (skipn Constants.ACCOUNT_DISCRIMINATOR_SIZE data).
Definition parseRound (data : Buffer) : option RoundData :=
  decode ROUND_LAYOUT (skipn Constants.ACCOUNT_DISCRIMINATOR_SIZE data).
Definition parseMiner (data : Buffer) : option MinerData :=
  decode MINER_LAYOUT (skipn Constants.ACCOUNT_DISCRIMINATOR_SIZE data).

(** Program-derived addresses, kept symbolic: the seeds identify them. *)
Inductive Pda :=
| BoardPda
| RoundPda (roundId : Z)
| MinerPda (authority : PublicKey)
| AutomationPda (authority : PublicKey)
| TreasuryPda.

Definition getBoardPda : Pda := BoardPda.
Definition getRoundPda (roundId_bn : Z) : Pda := RoundPda roundId_bn.
Definition getMinerPda (authority : PublicKey) : Pda := MinerPda authority.
Definition getAutomationPda (authority : PublicKey) : Pda := AutomationPda authority.
Definition getTreasuryPda : Pda := TreasuryPda.

End Solana.


(* ===================================================================== *)
(** * JavaScript numbers *)

Module JS.

(** [Number(n.toString())] for an integer [n]: the binary64 value
    nearest to [n], ties to even. *)
Definition Number_of_Z (n : Z) : float :=
  SF2Prim (binary_normalize prec emax n 0 false).

(** [isFinite(x)] *)
Definition isFinite (x : float) : bool := PrimFloat.is_finite x.

(** [Math.max(a, b)]: [NaN] when either is; [+0] is larger than [-0]. *)
Definition Math_max (a b : float) : float :=
  if PrimFloat.is_nan a || PrimFloat.is_nan b then PrimFloat.nan
  else if (a <? b)%float then b
  else if (b <? a)%float then a
  else if PrimFloat.get_sign a then b else a.

(** [BigInt(Math.floor(x))]: a [RangeError] ([None]) when [x] is [NaN]
    or infinite. *)
Definition BigInt_floor (x : float) : option Z :=
  match Prim2SF x with
  | S754_zero _ => Some 0
  | S754_finite s m e => Some (Z.shiftl (cond_Zopp s (Zpos m)) e)
  | S754_infinity _ | S754_nan => None
  end.

End JS.

(* ===================================================================== *)
(** * state.mjs *)

Module State.

(** The fields of [appState] that the decision core reads or writes.
    The wallet statistics, the USD prices and the sound timer are only
    used by the dashboard and are left out. *)
Record AppState := {
  appMode : string;
  isSpeculating : bool;
  isAudioEnabled : bool;
  customDeployAmount : float;
  userBalance : float;
  priceOreSol : float;
  currentRoundId : Z;
  currentBoardData : option Solana.BoardData;
  currentRoundData : option Solana.RoundData;
  isTransitioningRound : bool;
  checkpointHasRunThisRound : bool;
  automationHasRunThisRound : bool;
  winnerAnnounced : bool;
  lastWinner : string;
  roundSubscriptionId : option Z
}.

Definition initialState : AppState :=
  {| appMode := Constants.APP_MODES.IDLE;
     isSpeculating := false;
     isAudioEnabled := false;
     customDeployAmount := 0x1.a36e2eb1c432dp-14%float; (* 0.0001 *)
     userBalance := 0%float;
     priceOreSol := 0%float;
     currentRoundId := -1;
     currentBoardData := None;
     currentRoundData := None;
     isTransitioningRound := false;
     checkpointHasRunThisRound := false;
     automationHasRunThisRound := false;
     winnerAnnounced := false;
     lastWinner := "--";
     roundSubscriptionId := None |}.

(** One [property: value] pair of the object given to [setAppState]. *)
Inductive Assign :=
| Set_appMode (v : string)
| Set_isSpeculating (v : bool)
| Set_isAudioEnabled (v : bool)
| Set_customDeployAmount (v : float)
| Set_userBalance (v : float)
| Set_priceOreSol (v : float)
| Set_currentRoundId (v : Z)
| Set_currentBoardData (v : option Solana.BoardData)
| Set_currentRoundData (v : option Solana.RoundData)
| Set_isTransitioningRound (v : bool)
| Set_checkpointHasRunThisRound (v : bool)
| Set_automationHasRunThisRound (v : bool)
| Set_winnerAnnounced (v : bool)
| Set_lastWinner (v : string)
| Set_roundSubscriptionId (v : option Z).

Definition assign (a : Assign) (s : AppState) : AppState :=
  match a with
  | Set_appMode v =>
      {| appMode := v;
         isSpeculating := s.(isSpeculating);
         isAudioEnabled := s.(isAudioEnabled);
         customDeployAmount := s.(customDeployAmount);
         userBalance := s.(userBalance);
         priceOreSol := s.(priceOreSol);
         currentRoundId := s.(currentRoundId);
         currentBoardData := s.(currentBoardData);
         currentRoundData := s.(currentRoundData);
         isTransitioningRound := s.(isTransitioningRound);
         checkpointHasRunThisRound := s.(checkpointHasRunThisRound);
         automationHasRunThisRound := s.(automationHasRunThisRound);
         winnerAnnounced := s.(winnerAnnounced);
         lastWinner := s.(lastWinner);
         roundSubscriptionId := s.(roundSubscriptionId) |}
  | Set_isSpeculating v =>
      {| appMode := s.(appMode);
         isSpeculating := v;
         isAudioEnabled := s.(isAudioEnabled);
         customDeployAmount := s.(customDeployAmount);
         userBalance := s.(userBalance);
         priceOreSol := s.(priceOreSol);
         currentRoundId := s.(currentRoundId);
         currentBoardData := s.(currentBoardData);
         currentRoundData := s.(currentRoundData);
         isTransitioningRound := s.(isTransitioningRound);
         checkpointHasRunThisRound := s.(checkpointHasRunThisRound);
         automationHasRunThisRound := s.(automationHasRunThisRound);
         winnerAnnounced := s.(winnerAnnounced);
         lastWinner := s.(lastWinner);
         roundSubscriptionId := s.(roundSubscriptionId) |}
  | Set_isAudioEnabled v =>
      {| appMode := s.(appMode);
         isSpeculating := s.(isSpeculating);
         isAudioEnabled := v;
         customDeployAmount := s.(customDeployAmount);
         userBalance := s.(userBalance);
         priceOreSol := s.(priceOreSol);
         currentRoundId := s.(currentRoundId);
         currentBoardData := s.(currentBoardData);
         currentRoundData := s.(currentRoundData);
         isTransitioningRound := s.(isTransitioningRound);
         checkpointHasRunThisRound := s.(checkpointHasRunThisRound);
         automationHasRunThisRound := s.(automationHasRunThisRound);
         winnerAnnounced := s.(winnerAnnounced);
         lastWinner := s.(lastWinner);
         roundSubscriptionId := s.(roundSubscriptionId) |}
  | Set_customDeployAmount v =>
      {| appMode := s.(appMode);
         isSpeculating := s.(isSpeculating);
         isAudioEnabled := s.(isAudioEnabled);
         customDeployAmount := v;
         userBalance := s.(userBalance);
         priceOreSol := s.(priceOreSol);
         currentRoundId := s.(currentRoundId);
         currentBoardData := s.(currentBoardData);
         currentRoundData := s.(currentRoundData);
         isTransitioningRound := s.(isTransitioningRound);
         checkpointHasRunThisRound := s.(checkpointHasRunThisRound);
         automationHasRunThisRound := s.(automationHasRunThisRound);
         winnerAnnounced := s.(winnerAnnounced);
         lastWinner := s.(lastWinner);
         roundSubscriptionId := s.(roundSubscriptionId) |}
  | Set_userBalance v =>
      {| appMode := s.(appMode);
         isSpeculating := s.(isSpeculating);
         isAudioEnabled := s.(isAudioEnabled);
         customDeployAmount := s.(customDeployAmount);
         userBalance := v;
         priceOreSol := s.(priceOreSol);
         currentRoundId := s.(currentRoundId);
         currentBoardData := s.(currentBoardData);
         currentRoundData := s.(currentRoundData);
         isTransitioningRound := s.(isTransitioningRound);
         checkpointHasRunThisRound := s.(checkpointHasRunThisRound);
         automationHasRunThisRound := s.(automationHasRunThisRound);
         winnerAnnounced := s.(winnerAnnounced);
         lastWinner := s.(lastWinner);
         roundSubscriptionId := s.(roundSubscriptionId) |}
  | Set_priceOreSol v =>
      {| appMode := s.(appMode);
         isSpeculating := s.(isSpeculating);
         isAudioEnabled := s.(isAudioEnabled);
         customDeployAmount := s.(customDeployAmount);
         userBalance := s.(userBalance);
         priceOreSol := v;
         currentRoundId := s.(currentRoundId);
         currentBoardData := s.(currentBoardData);
         currentRoundData := s.(currentRoundData);
         isTransitioningRound := s.(isTransitioningRound);
         checkpointHasRunThisRound := s.(checkpointHasRunThisRound);
         automationHasRunThisRound := s.(automationHasRunThisRound);
         winnerAnnounced := s.(winnerAnnounced);
         lastWinner := s.(lastWinner);
         roundSubscriptionId := s.(roundSubscriptionId) |}
  | Set_currentRoundId v =>
      {| appMode := s.(appMode);
         isSpeculating := s.(isSpeculating);
         isAudioEnabled := s.(isAudioEnabled);
         customDeployAmount := s.(customDeployAmount);
         userBalance := s.(userBalance);
         priceOreSol := s.(priceOreSol);
         currentRoundId := v;
         currentBoardData := s.(currentBoardData);
         currentRoundData := s.(currentRoundData);
         isTransitioningRound := s.(isTransitioningRound);
         checkpointHasRunThisRound := s.(checkpointHasRunThisRound);
         automationHasRunThisRound := s.(automationHasRunThisRound);
         winnerAnnounced := s.(winnerAnnounced);
         lastWinner := s.(lastWinner);
         roundSubscriptionId := s.(roundSubscriptionId) |}
  | Set_currentBoardData v =>
      {| appMode := s.(appMode);
         isSpeculating := s.(isSpeculating);
         isAudioEnabled := s.(isAudioEnabled);
         customDeployAmount := s.(customDeployAmount);
         userBalance := s.(userBalance);
         priceOreSol := s.(priceOreSol);
         currentRoundId := s.(currentRoundId);
         currentBoardData := v;
         currentRoundData := s.(currentRoundData);
         isTransitioningRound := s.(isTransitioningRound);
         checkpointHasRunThisRound := s.(checkpointHasRunThisRound);
         automationHasRunThisRound := s.(automationHasRunThisRound);
         winnerAnnounced := s.(winnerAnnounced);
         lastWinner := s.(lastWinner);
         roundSubscriptionId := s.(roundSubscriptionId) |}
  | Set_currentRoundData v =>
      {| appMode := s.(appMode);
         isSpeculating := s.(isSpeculating);
         isAudioEnabled := s.(isAudioEnabled);
         customDeployAmount := s.(customDeployAmount);
         userBalance := s.(userBalance);
         priceOreSol := s.(priceOreSol);
         currentRoundId := s.(currentRoundId);
         currentBoardData := s.(currentBoardData);
         currentRoundData := v;
         isTransitioningRound := s.(isTransitioningRound);
         checkpointHasRunThisRound := s.(checkpointHasRunThisRound);
         automationHasRunThisRound := s.(automationHasRunThisRound);
         winnerAnnounced := s.(winnerAnnounced);
         lastWinner := s.(lastWinner);
         roundSubscriptionId := s.(roundSubscriptionId) |}
  | Set_isTransitioningRound v =>
      {| appMode := s.(appMode);
         isSpeculating := s.(isSpeculating);
         isAudioEnabled := s.(isAudioEnabled);
         customDeployAmount := s.(customDeployAmount);
         userBalance := s.(userBalance);
         priceOreSol := s.(priceOreSol);
         currentRoundId := s.(currentRoundId);
         currentBoardData := s.(currentBoardData);
         currentRoundData := s.(currentRoundData);
         isTransitioningRound := v;
         checkpointHasRunThisRound := s.(checkpointHasRunThisRound);
         automationHasRunThisRound := s.(automationHasRunThisRound);
         winnerAnnounced := s.(winnerAnnounced);
         lastWinner := s.(lastWinner);
         roundSubscriptionId := s.(roundSubscriptionId) |}
  | Set_checkpointHasRunThisRound v =>
      {| appMode := s.(appMode);
         isSpeculating := s.(isSpeculating);
         isAudioEnabled := s.(isAudioEnabled);
         customDeployAmount := s.(customDeployAmount);
         userBalance := s.(userBalance);
         priceOreSol := s.(priceOreSol);
         currentRoundId := s.(currentRoundId);
         currentBoardData := s.(currentBoardData);
         currentRoundData := s.(currentRoundData);
         isTransitioningRound := s.(isTransitioningRound);
         checkpointHasRunThisRound := v;
         automationHasRunThisRound := s.(automationHasRunThisRound);
         winnerAnnounced := s.(winnerAnnounced);
         lastWinner := s.(lastWinner);
         roundSubscriptionId := s.(roundSubscriptionId) |}
  | Set_automationHasRunThisRound v =>
      {| appMode := s.(appMode);
         isSpeculating := s.(isSpeculating);
         isAudioEnabled := s.(isAudioEnabled);
         customDeployAmount := s.(customDeployAmount);
         userBalance := s.(userBalance);
         priceOreSol := s.(priceOreSol);
         currentRoundId := s.(currentRoundId);
         currentBoardData := s.(currentBoardData);
         currentRoundData := s.(currentRoundData);
         isTransitioningRound := s.(isTransitioningRound);
         checkpointHasRunThisRound := s.(checkpointHasRunThisRound);
         automationHasRunThisRound := v;
         winnerAnnounced := s.(winnerAnnounced);
         lastWinner := s.(lastWinner);
         roundSubscriptionId := s.(roundSubscriptionId) |}
  | Set_winnerAnnounced v =>
      {| appMode := s.(appMode);
         isSpeculating := s.(isSpeculating);
         isAudioEnabled := s.(isAudioEnabled);
         customDeployAmount := s.(customDeployAmount);
         userBalance := s.(userBalance);
         priceOreSol := s.(priceOreSol);
         currentRoundId := s.(currentRoundId);
         currentBoardData := s.(currentBoardData);
         currentRoundData := s.(currentRoundData);
         isTransitioningRound := s.(isTransitioningRound);
         checkpointHasRunThisRound := s.(checkpointHasRunThisRound);
         automationHasRunThisRound := s.(automationHasRunThisRound);
         winnerAnnounced := v;
         lastWinner := s.(lastWinner);
         roundSubscriptionId := s.(roundSubscriptionId) |}
  | Set_lastWinner v =>
      {| appMode := s.(appMode);
         isSpeculating := s.(isSpeculating);
         isAudioEnabled := s.(isAudioEnabled);
         customDeployAmount := s.(customDeployAmount);
         userBalance := s.(userBalance);
         priceOreSol := s.(priceOreSol);
         currentRoundId := s.(currentRoundId);
         currentBoardData := s.(currentBoardData);
         currentRoundData := s.(currentRoundData);
         isTransitioningRound := s.(isTransitioningRound);
         checkpointHasRunThisRound := s.(checkpointHasRunThisRound);
         automationHasRunThisRound := s.(automationHasRunThisRound);
         winnerAnnounced := s.(winnerAnnounced);
         lastWinner := v;
         roundSubscriptionId := s.(roundSubscriptionId) |}
  | Set_roundSubscriptionId v =>
      {| appMode := s.(appMode);
         isSpeculating := s.(isSpeculating);
         isAudioEnabled := s.(isAudioEnabled);
         customDeployAmount := s.(customDeployAmount);
         userBalance := s.(userBalance);
         priceOreSol := s.(priceOreSol);
         currentRoundId := s.(currentRoundId);
         currentBoardData := s.(currentBoardData);
         currentRoundData := s.(currentRoundData);
         isTransitioningRound := s.(isTransitioningRound);
         checkpointHasRunThisRound := s.(checkpointHasRunThisRound);
         automationHasRunThisRound := s.(automationHasRunThisRound);
         winnerAnnounced := s.(winnerAnnounced);
         lastWinner := s.(lastWinner);
         roundSubscriptionId := v |}
  end.

(** [Object.assign(appState, newState)] *)
Definition setAppState (newState : list Assign) (s : AppState) : AppState :=
  fold_left (fun acc a => assign a acc) newState s.

Definition setAppMode (mode : string) (s : AppState) : AppState * bool :=
  if existsb (String.eqb mode) Constants.APP_MODES.values
  then (assign (Set_appMode mode) s, true)
  else (s, false).

Definition toggleSpeculate (s : AppState) : AppState * bool :=
  (assign (Set_isSpeculating (negb s.(isSpeculating))) s, negb s.(isSpeculating)).

End State.

(* ===================================================================== *)
(** * ev.mjs: the valuation model *)

Module Ev.
Import Constants.

Record EvStar := { y : float; EV : float }.

Section Float.
Local Open Scope float_scope.

(** The pool value seen by a stake [yStar] added to a square:
  [(1 - PROTOCOL_CUT) * (T - O - yStar) + oreValueInSOL]. *)
Definition poolValue (O T oreValueInSOL yStar : float) : float :=
(1 - PROTOCOL_CUT) * (T - O - yStar) + oreValueInSOL.

(** One pass of the body of the [for] loop, for the [n] passes that are
  left; the result is the pair [(yStar, V)] the loop ends with. A
  non-positive [V] leaves the loop with [yStar] as it was. *)
Fixpoint refine (n : nat) (O T oreValueInSOL yStar V : float) : float * float :=
match n with
| O => (yStar, V)
| S n' =>
    let V' := poolValue O T oreValueInSOL yStar in
    if V' <=? 0 then (yStar, V')
    else refine n' O T oreValueInSOL
           (JS.Math_max 0 (sqrt ((V' * O) / C) - O)) V'
end.

Definition computeEVStarForBlock (O T oreValueInSOL : float) : EvStar :=
if negb (JS.isFinite O) || (O <=? 0) then {| y := 0; EV := neg_infinity |}
else if negb (JS.isFinite T) || (T <=? 0) then {| y := 0; EV := neg_infinity |}
else
  let V_initial := (1 - PROTOCOL_CUT) * (T - O) + oreValueInSOL in
  if V_initial <=? 0 then {| y := 0; EV := neg_infinity |}
  else
    let '(yStar, V) :=
      refine 3 O T oreValueInSOL (sqrt ((oreValueInSOL * O) / C)) V_initial in
    if yStar <=? 0 then {| y := 0; EV := 0 |}
    else
      let f := yStar / (O + yStar) in
      let adminCost := ADMIN_COST_FACTOR * yStar in
      let EV := P_WIN * ((-(24)) * yStar + V * f) - adminCost in
      {| y := yStar; EV := EV |}.

(** [getOreValueInSOL] after the motherlode has been read as a number:
  [Mraw] is [Number(roundData.motherlode.toString())]. The test
  [M != null] holds of every number. *)
Definition oreValueOfNumber (priceOreSol Mraw : float) : float :=
let M := Mraw * (1 / 100000000000) in
let expectedMotherlodeOREThisRound :=
  if JS.isFinite M then M * HIT_PROB
  else 0x1.999999999999ap-3 (* 0.2 *) * HIT_PROB in
priceOreSol * REF_MULT * (1 + expectedMotherlodeOREThisRound).

End Float.

Definition getOreValueInSOL (st : State.AppState) (roundData : Solana.RoundData) : float :=
  oreValueOfNumber st.(State.priceOreSol)
    (JS.Number_of_Z roundData.(Solana.Round.motherlode)).

End Ev.

(* ===================================================================== *)
(** * Array.prototype.sort *)

Module JSArray.

(** [l.sort(cmp)]: a negative [cmp a b] puts [a] before [b]. The sort is
    stable, and for a comparator that orders the elements consistently
    the result does not depend on the algorithm; it is modelled by the
    stable insertion sort. *)
Section Sort.
Context {A : Type} (cmp : A -> A -> float).

Fixpoint insert (x : A) (l : list A) : list A :=
  match l with
  | [] => [x]
  | h :: t => if (cmp x h <? 0)%float then x :: h :: t else h :: insert x t
  end.

Definition sort (l : list A) : list A :=
  fold_left (fun acc x => insert x acc) l [].
End Sort.

End JSArray.

(* ===================================================================== *)
(** * detection.mjs: the board analyzer *)

Module Detection.
Import Constants.

Definition NUM_SQUARES : nat := 25.

Record RatioEntry := { r_id : Z; r_sol : float; r_count : float; ratio : float }.
Record EvEntry := { id : Z; sol : float; ev : float }.
Record FullEntry := {
  f_id : Z; f_sol : float; f_count : float; f_ratio : float; f_ev : float
}.

Record Analysis := {
  bestEV : option EvEntry;
  bestRatio : option RatioEntry;
  byEV : list EvEntry;
  byRatio : list RatioEntry;
  fullAnalysis : list FullEntry
}.

Definition emptyAnalysis : Analysis :=
  {| bestEV := None; bestRatio := None; byEV := []; byRatio := [];
     fullAnalysis := [] |}.

Section Float.
Local Open Scope float_scope.

(** The body of the loop over the squares, for square [i]. Reading
  [roundData.count[i]] or [roundData.deployed[i]] past the end of the
  array gives [undefined], whose [toString] is a [TypeError] ([None]). *)
Definition square (roundData : Solana.RoundData) (T oreValueInSOL : float) (i : nat)
: option FullEntry :=
match nth_error roundData.(Solana.Round.count) i,
      nth_error roundData.(Solana.Round.deployed) i with
| Some c, Some d =>
    let countVal := JS.Number_of_Z c in
    let deployedVal := JS.Number_of_Z d in
    let sol := deployedVal * SOL_PER_LAMPORT in
    let ratio := if 0 <? countVal then sol / countVal else infinity in
    let EV := (Ev.computeEVStarForBlock sol T oreValueInSOL).(Ev.EV) in
    let evValue := if JS.isFinite EV then EV else neg_infinity in
    Some {| f_id := Z.of_nat i + 1; f_sol := sol; f_count := countVal;
            f_ratio := ratio; f_ev := evValue |}
| _, _ => None
end.

Fixpoint squares (roundData : Solana.RoundData) (T oreValueInSOL : float)
  (idxs : list nat) : option (list FullEntry) :=
match idxs with
| [] => Some []
| i :: idxs' =>
    match square roundData T oreValueInSOL i with
    | Some e =>
        match squares roundData T oreValueInSOL idxs' with
        | Some es => Some (e :: es)
        | None => None
        end
    | None => None
    end
end.

Definition evOf (e : FullEntry) : EvEntry :=
{| id := e.(f_id); sol := e.(f_sol); ev := e.(f_ev) |}.
Definition ratioOf (e : FullEntry) : RatioEntry :=
{| r_id := e.(f_id); r_sol := e.(f_sol); r_count := e.(f_count);
   ratio := e.(f_ratio) |}.

(** [None] is an exception thrown out of the analysis. *)
Definition analyzeBoardState (st : State.AppState) (roundData : option Solana.RoundData)
: option Analysis :=
match roundData with
| None => Some emptyAnalysis
| Some rd =>
    let T := JS.Number_of_Z rd.(Solana.Round.total_deployed) * SOL_PER_LAMPORT in
    let oreValueInSOL := Ev.getOreValueInSOL st rd in
    match squares rd T oreValueInSOL (seq 0 NUM_SQUARES) with
    | None => None
    | Some full =>
        let evs := map evOf full in
        let ratios := map ratioOf full in
        let sortedByEV :=
          JSArray.sort (fun a b => b.(ev) - a.(ev))
            (filter (fun e => 0 <? e.(ev)) evs) in
        let sortedByRatio :=
          JSArray.sort (fun a b => a.(ratio) - b.(ratio))
            (filter (fun r => (r.(ratio) <? infinity) && (0 <? r.(ratio))) ratios) in
        Some {| bestEV := hd_error sortedByEV;
                bestRatio := hd_error sortedByRatio;
                byEV := sortedByEV;
                byRatio := sortedByRatio;
                fullAnalysis := full |}
    end
end.

End Float.

End Detection.

(* ===================================================================== *)
(** * What a handler does: effects, outcomes and the handler monad *)

Module Effects.

Record Keypair := { publicKey : Solana.PublicKey }.

(** The account addresses an instruction names. *)
Inductive Address :=
| Wallet (key : Solana.PublicKey)
| Derived (pda : Solana.Pda)
| SYSTEM_PROGRAM_ID
| ORE_VAR_ADDRESS
| ENTROPY_PROGRAM_ID.

Record AccountMeta := { pubkey : Address; isSigner : bool; isWritable : bool }.

Inductive Instruction :=
| SetComputeUnitLimit (units : Z)
| SetComputeUnitPrice (microLamports : Z)
| OreInstruction (keys : list AccountMeta) (data : Solana.Buffer).

(** A [Transaction] is the list of its instructions, in the order of
    the calls of [transaction.add]. *)
Definition Transaction := list Instruction.

(** The lines written with [log]; the text is kept as a tag with the
    values it interpolates. *)
Inductive LogLine :=
| L_trigger (appMode : string) (secondsRemaining : Z)
| L_no_positive_ev
| L_no_valid_targets (appMode : string)
| L_deploying (perTarget total : float)
| L_auto_target (id : Z) (ev : float)
| L_skipping_deploy_speculate
| L_deploy_failed_keypair_not_loaded
| L_make_sure_id_json_exists
| L_deploy_failed_signer_not_loaded
| L_deploy_skipped_no_targets
| L_deploy_skipped_round_not_found (roundId : Z)
| L_deploy_skipped_round_not_initialized (roundId : Z)
| L_warning_state_dirty (minerRoundId : Z)
| L_sending_deploy_tx (targets : nat)
| L_deploy_successful (signature : string)
| L_deploy_skipped_too_late
| L_fetching_final_data (roundId : Z)
| L_no_winner_hash (roundId : Z)
| L_error_fetching_final (message : string)
| L_error_parsing_round (message : string)
| L_clearing_old_round
| L_no_unsub_needed
| L_current_round (roundId : Z)
| L_error_processing_board (message : string).

Inductive Effect :=
| Write (newState : list State.Assign)
| Log (line : LogLine)
| Call_analyzeBoardState (roundData : option Solana.RoundData)
| Call_sendDeployTx (targets : list Detection.EvEntry) (signer : Keypair)
| Call_updateTUI (roundData : Solana.RoundData)
| Call_finalizeOldRound (roundId : Z)
| Rpc_getAccountInfo (pda : Solana.Pda)
| Rpc_removeAccountChangeListener (subscriptionId : Z)
| Rpc_onAccountChange (pda : Solana.Pda)
| Rpc_sendAndConfirmTransaction (transaction : Transaction) (signer : Keypair)
| Rpc_getBalance (key : Solana.PublicKey)
| Fetch_transaction_logs (message : string)
| Show_lastWinner (winnerStr : string)
| Show_countdown_waiting
| PlayNotificationSound_winner (roundIdStr winnerStr : string)
| Screen_render.

(** How a call ends: it returns, or it throws an error with a message. *)
Inductive Outcome (A : Type) :=
| Returned (a : A)
| Threw (message : string).
Arguments Returned {A} a.
Arguments Threw {A} message.

(** A settled promise of the RPC client. *)
Inductive Settled (A : Type) :=
| Resolved (a : A)
| Rejected (message : string).
Arguments Resolved {A} a.
Arguments Rejected {A} message.

(** The answers of the RPC node during one run of a handler. *)
Record Connection := {
  getAccountInfo : Solana.Pda -> Settled (option Solana.Buffer);
  removeAccountChangeListener : Z -> Settled unit;
  onAccountChange : Solana.Pda -> Z;
  sendAndConfirmTransaction : Transaction -> Settled string;
  getBalance : Solana.PublicKey -> Settled float
}.

(** A handler: from the state it starts in, to how it ends, the state
    it leaves and what it did, in order. *)
Definition M (A : Type) : Type :=
  State.AppState -> Outcome A * State.AppState * list Effect.

Definition ret {A} (a : A) : M A := fun s => (Returned a, s, []).
Definition throw {A} (message : string) : M A := fun s => (Threw message, s, []).

Definition stateOf {A} (r : Outcome A * State.AppState * list Effect) : State.AppState :=
  snd (fst r).
Definition traceOf {A} (r : Outcome A * State.AppState * list Effect) : list Effect :=
  snd r.
Definition outcomeOf {A} (r : Outcome A * State.AppState * list Effect) : Outcome A :=
  fst (fst r).

Definition bind {A B} (m : M A) (k : A -> M B) : M B := fun s =>
  let r1 := m s in
  match outcomeOf r1 with
  | Returned a =>
      let r2 := k a (stateOf r1) in
      (outcomeOf r2, stateOf r2, traceOf r1 ++ traceOf r2)
  | Threw e => (Threw e, stateOf r1, traceOf r1)
  end.

(** [try { m } catch (e) { h e }] *)
Definition tryCatch {A} (m : M A) (h : string -> M A) : M A := fun s =>
  let r1 := m s in
  match outcomeOf r1 with
  | Returned a => r1
  | Threw e =>
      let r2 := h e (stateOf r1) in
      (outcomeOf r2, stateOf r2, traceOf r1 ++ traceOf r2)
  end.

(** The run [r] after the effects [t]. *)
Definition prepend {A} (t : list Effect)
    (r : Outcome A * State.AppState * list Effect)
  : Outcome A * State.AppState * list Effect :=
  (outcomeOf r, stateOf r, t ++ traceOf r).

Definition getState : M State.AppState := fun s => (Returned s, s, []).
Definition emit (e : Effect) : M unit := fun s => (Returned tt, s, [e]).
Definition log (line : LogLine) : M unit := emit (Log line).

(** [setAppState(newState)] *)
Definition setAppState (newState : list State.Assign) : M unit := fun s =>
  (Returned tt, State.setAppState newState s, [Write newState]).

(** [await p]: the request is recorded; a rejection is thrown. *)
Definition await {A} (request : Effect) (p : Settled A) : M A := fun s =>
  match p with
  | Resolved a => (Returned a, s, [request])
  | Rejected e => (Threw e, s, [request])
  end.

(** A library call that throws when it has no result. *)
Definition orThrow {A} (o : option A) (message : string) : M A :=
  match o with
  | Some a => ret a
  | None => throw message
  end.

End Effects.

Declare Scope handler_scope.
Delimit Scope handler_scope with handler.
Notation "x <- m ;; k" := (Effects.bind m (fun x => k))
  (at level 61, m at next level, right associativity) : handler_scope.
Notation "m ;; k" := (Effects.bind m (fun _ => k))
  (at level 61, right associativity) : handler_scope.

(* ===================================================================== *)
(** * transactions.mjs: the deployment sequencer *)

Module Transactions.
Import Effects.
Local Open Scope handler_scope.

Definition LAMPORTS_PER_SOL : float := 1000000000%float.

(** [haystack.includes(needle)] *)
Fixpoint includes (needle haystack : string) : bool :=
  String.prefix needle haystack ||
  match haystack with
  | EmptyString => false
  | String _ rest => includes needle rest
  end.

Definition byte_of_Z (z : Z) : byte :=
  match Byte.of_N (Z.to_N (z mod 256)) with
  | Some b => b
  | None => "000"%byte
  end.

(** The [n] low bytes of [z], least significant first. *)
Fixpoint bytesLE (n : nat) (z : Z) : Solana.Buffer :=
  match n with
  | O => []
  | S n' => byte_of_Z z :: bytesLE n' (z / 256)
  end.

(** [buf.writeBigUInt64LE(value, offset)] throws a [RangeError] unless
    [0 <= value < 2^64]. *)
Definition writeBigUInt64LE (value : Z) : option Solana.Buffer :=
  if (0 <=? value) && (value <? 2 ^ 64) then Some (bytesLE 8 value) else None.

(** [buf.writeUInt32LE(value, offset)] throws a [RangeError] unless
    [0 <= value < 2^32]. *)
Definition writeUInt32LE (value : Z) : option Solana.Buffer :=
  if (0 <=? value) && (value <? 2 ^ 32) then Some (bytesLE 4 value) else None.

Definition createSquaresMask (targets : list Detection.EvEntry) : Z :=
  fold_left
    (fun mask target =>
       let squareIndex := target.(Detection.id) - 1 in
       if (0 <=? squareIndex) && (squareIndex <? 25)
       then Z.lor mask (Z.shiftl 1 squareIndex)
       else mask)
    targets 0.

Definition meta (a : Address) (signer writable : bool) : AccountMeta :=
  {| pubkey := a; isSigner := signer; isWritable := writable |}.

Definition checkpointAccounts (signer : Keypair) (minerRoundId : Z) : list AccountMeta :=
  let authority := signer.(publicKey) in
  [ meta (Wallet signer.(publicKey)) true true;
    meta (Derived Solana.getBoardPda) false false;
    meta (Derived (Solana.getMinerPda authority)) false true;
    meta (Derived (Solana.getRoundPda minerRoundId)) false true;
    meta (Derived Solana.getTreasuryPda) false true;
    meta SYSTEM_PROGRAM_ID false false ].

(** Instruction 2 *)
Definition checkpointInstruction (signer : Keypair) (minerRoundId : Z) : Instruction :=
  OreInstruction (checkpointAccounts signer minerRoundId) ["002"%byte].

Definition deployAccounts (signer : Keypair) (currentRoundId : Z) : list AccountMeta :=
  let authority := signer.(publicKey) in
  [ meta (Wallet signer.(publicKey)) true true;
    meta (Wallet authority) false true;
    meta (Derived (Solana.getAutomationPda authority)) false true;
    meta (Derived Solana.getBoardPda) false true;
    meta (Derived (Solana.getMinerPda authority)) false true;
    meta (Derived (Solana.getRoundPda currentRoundId)) false true;
    meta SYSTEM_PROGRAM_ID false false;
    meta ORE_VAR_ADDRESS false true;
    meta ENTROPY_PROGRAM_ID false false ].

(** Instruction 6: opcode, amount, bitmask. *)
Definition deployInstruction (signer : Keypair) (currentRoundId : Z)
    (amount mask : Solana.Buffer) : Instruction :=
  OreInstruction (deployAccounts signer currentRoundId)
    ("006"%byte :: amount ++ mask).

Definition isStateDirty (minerRoundId minerCheckpointId : Z) : bool :=
  negb (minerRoundId =? minerCheckpointId).
Definition canCheckpoint (minerRoundId currentRoundId : Z) : bool :=
  minerRoundId <? currentRoundId.

(** The messages of the errors thrown by library calls; none of them
    mentions [InvalidAccountData]. *)
Definition E_decode : string := "RangeError: offset is out of bounds".
Definition E_bigint : string := "RangeError: the number cannot be converted to a BigInt".
Definition E_range : string := "RangeError: value is out of range".

(** The body of the [try] block once the round account has been found
    and parsed. *)
Definition buildAndSend (targets : list Detection.EvEntry) (connection : Connection)
    (signer : Keypair) (currentRoundId : Z) (customDeployAmount : float) : M unit :=
  let authority := signer.(publicKey) in
  let minerPda := Solana.getMinerPda authority in
  minerAccountInfo <- await (Rpc_getAccountInfo minerPda)
                            (connection.(getAccountInfo) minerPda) ;;
  ids <- match minerAccountInfo with
         | Some data =>
             minerData <- orThrow (Solana.parseMiner data) E_decode ;;
             ret (minerData.(Solana.Miner.round_id),
                  minerData.(Solana.Miner.checkpoint_id))
         | None => ret (0, 0)
         end ;;
  let minerRoundId := fst ids in
  let minerCheckpointId := snd ids in
  let transaction : Transaction :=
    [SetComputeUnitLimit 750000; SetComputeUnitPrice 100000] in
  let dirty := isStateDirty minerRoundId minerCheckpointId in
  let can := canCheckpoint minerRoundId currentRoundId in
  transaction <-
    (if dirty && can
     then ret (transaction ++ [checkpointInstruction signer minerRoundId])
     else if dirty && negb can
     then log (L_warning_state_dirty minerRoundId) ;; ret transaction
     else ret transaction) ;;
  amountLamports <-
    orThrow (JS.BigInt_floor (customDeployAmount / Constants.SOL_PER_LAMPORT)%float)
            E_bigint ;;
  let squaresMask := createSquaresMask targets in
  amount <- orThrow (writeBigUInt64LE amountLamports) E_range ;;
  mask <- orThrow (writeUInt32LE squaresMask) E_range ;;
  let transaction :=
    transaction ++ [deployInstruction signer currentRoundId amount mask] in
  log (L_sending_deploy_tx (List.length targets)) ;;
  signature <- await (Rpc_sendAndConfirmTransaction transaction signer)
                     (connection.(sendAndConfirmTransaction) transaction) ;;
  log (L_deploy_successful (String.substring 0 16 signature)) ;;
  newBalance <- await (Rpc_getBalance authority) (connection.(getBalance) authority) ;;
  setAppState [State.Set_userBalance (newBalance / LAMPORTS_PER_SOL)%float].

Definition sendDeployTx (targets : list Detection.EvEntry) (connection : Connection)
    (signer : option Keypair) : M unit :=
  match signer with
  | None => log L_deploy_failed_signer_not_loaded
  | Some signer =>
      if (List.length targets =? 0)%nat then log L_deploy_skipped_no_targets
      else
        tryCatch
          (st <- getState ;;
           let currentRoundId := st.(State.currentRoundId) in
           let customDeployAmount := st.(State.customDeployAmount) in
           let newRoundPda := Solana.getRoundPda currentRoundId in
           newRoundAccountInfo <- await (Rpc_getAccountInfo newRoundPda)
                                        (connection.(getAccountInfo) newRoundPda) ;;
           match newRoundAccountInfo with
           | None => log (L_deploy_skipped_round_not_found currentRoundId)
           | Some data =>
               match Solana.parseRound data with
               | None => log (L_deploy_skipped_round_not_initialized currentRoundId)
               | Some _ =>
                   buildAndSend targets connection signer currentRoundId
                     customDeployAmount
               end
           end)
          (fun errMessage =>
             if includes "InvalidAccountData" errMessage
             then log L_deploy_skipped_too_late
             else emit (Fetch_transaction_logs errMessage))
  end.

End Transactions.

(* ===================================================================== *)
(** * automation.mjs: the automation trigger *)

Module Automation.
Import Effects Constants.
Local Open Scope handler_scope.

Definition AUTOMATION_TRIGGER_SECONDS : Z := 8.

(** The message of the [TypeError] of a failed property read. *)
Definition E_type : string := "TypeError: cannot read properties of undefined".

Definition resetRoundFlags : M unit :=
  setAppState [State.Set_automationHasRunThisRound false;
               State.Set_checkpointHasRunThisRound false].

(** The [switch] on the mode: the targets it leaves in [targets]. *)
Definition selectTargets (appMode : string) (analysis : Detection.Analysis)
  : list Detection.EvEntry :=
  if String.eqb appMode APP_MODES.ONE_X_EV then
    match analysis.(Detection.bestEV) with
    | Some best => [best]
    | None => []
    end
  else if String.eqb appMode APP_MODES.THREE_X_EV then
    firstn 3 analysis.(Detection.byEV)
  else if String.eqb appMode APP_MODES.FIVE_X_EV then
    firstn 5 analysis.(Detection.byEV)
  else [].

(** Steps 3 to 5, after the flag has been set and the trigger logged. *)
Definition analyzeAndDeploy (appMode : string) (isSpeculating : bool)
    (customDeployAmount : float) (roundData : option Solana.RoundData)
    (signer : option Keypair) : M unit :=
  emit (Call_analyzeBoardState roundData) ;;
  st <- getState ;;
  analysis <- orThrow (Detection.analyzeBoardState st roundData) E_type ;;
  match analysis.(Detection.bestEV) with
  | None => log L_no_positive_ev
  | Some _ =>
      let targets := selectTargets appMode analysis in
      if (List.length targets =? 0)%nat then log (L_no_valid_targets appMode)
      else
        log (L_deploying customDeployAmount
               (customDeployAmount
                * JS.Number_of_Z (Z.of_nat (List.length targets)))%float) ;;
        (fun s => (Returned tt, s,
                   map (fun target =>
                          Log (L_auto_target target.(Detection.id)
                                             target.(Detection.ev)))
                       targets)) ;;
        if isSpeculating then log L_skipping_deploy_speculate
        else
          match signer with
          | Some signer => emit (Call_sendDeployTx targets signer)
          | None =>
              log L_deploy_failed_keypair_not_loaded ;;
              log L_make_sure_id_json_exists
          end
  end.

(** [secondsRemaining] is the integer the countdown computes with
    [Math.floor]; [signer] is what [getSigner()] returns. The deployment
    is started and not awaited: it is recorded as the call. *)
Definition runAutomationCheck (roundData : option Solana.RoundData)
    (secondsRemaining : Z) (signer : option Keypair) : M unit :=
  st <- getState ;;
  let appMode := st.(State.appMode) in
  let isSpeculating := st.(State.isSpeculating) in
  let customDeployAmount := st.(State.customDeployAmount) in
  let automationHasRunThisRound := st.(State.automationHasRunThisRound) in
  if String.eqb appMode APP_MODES.IDLE then ret tt
  else if (AUTOMATION_TRIGGER_SECONDS <? secondsRemaining) || (secondsRemaining <=? 0)
  then ret tt
  else if automationHasRunThisRound then ret tt
  else
    setAppState [State.Set_automationHasRunThisRound true] ;;
    log (L_trigger appMode secondsRemaining) ;;
    analyzeAndDeploy appMode isSpeculating customDeployAmount roundData signer.

End Automation.

(* ===================================================================== *)
(** * game.mjs: the round state tracker *)

Module Game.
Import Effects.
Local Open Scope handler_scope.

(** [n.toString()] for an integer. *)
Definition toString (n : Z) : string := NilZero.string_of_int (Z.to_int n).

(** The winner [displayWinner] computes from the slot hash:
    [getWinningSquare(calculateRng(slot_hash)) + 1]. *)
Definition winnerOf (slot_hash : Solana.Buffer) : option Z :=
  match Solana.calculateRng slot_hash with
  | Some rng => Some (Solana.getWinningSquare rng + 1)
  | None => None
  end.

Definition displayWinner (roundData : Solana.RoundData) (roundIdStr : string) : M unit :=
  st <- getState ;;
  if negb st.(State.winnerAnnounced) then
    winner <- orThrow (winnerOf roundData.(Solana.Round.slot_hash))
                      Transactions.E_decode ;;
    let winnerStr := toString winner in
    setAppState [State.Set_lastWinner winnerStr; State.Set_winnerAnnounced true] ;;
    emit (Show_lastWinner winnerStr) ;;
    emit Show_countdown_waiting ;;
    emit (PlayNotificationSound_winner roundIdStr winnerStr) ;;
    emit Screen_render
  else ret tt.

(** The dashboard refresh [updateTUI] is recorded as a call. *)
Definition processRoundUpdate (data : Solana.Buffer) : M unit :=
  tryCatch
    (roundData <- orThrow (Solana.parseRound data) Transactions.E_decode ;;
     setAppState [State.Set_currentRoundData (Some roundData)] ;;
     emit (Call_updateTUI roundData))
    (fun message => log (L_error_parsing_round message)).

Definition finalizeOldRound (connection : Connection) (roundId : Z) : M unit :=
  log (L_fetching_final_data roundId) ;;
  tryCatch
    (let oldRoundPda := Solana.getRoundPda roundId in
     oldRoundAccountInfo <- await (Rpc_getAccountInfo oldRoundPda)
                                  (connection.(getAccountInfo) oldRoundPda) ;;
     match oldRoundAccountInfo with
     | Some data =>
         oldRoundData <- orThrow (Solana.parseRound data) Transactions.E_decode ;;
         setAppState [State.Set_currentRoundData (Some oldRoundData)] ;;
         emit (Call_updateTUI oldRoundData) ;;
         if Solana.isSlotHashPopulated oldRoundData.(Solana.Round.slot_hash)
         then displayWinner oldRoundData (toString roundId)
         else log (L_no_winner_hash roundId)
     | None => ret tt
     end)
    (fun message => log (L_error_fetching_final message)).

(** Step 5 of [processBoardUpdate]: set up the new round. A
    subscription id is truthy when it is neither [null] nor [0]. *)
Definition setUpNewRound (connection : Connection) (newRoundId_BN : Z)
    (roundSubscriptionId : option Z) : M unit :=
  Automation.resetRoundFlags ;;
  setAppState [State.Set_currentRoundId newRoundId_BN;
               State.Set_currentRoundData None;
               State.Set_winnerAnnounced false] ;;
  match roundSubscriptionId with
  | Some subscription =>
      if subscription =? 0 then ret tt
      else
        tryCatch
          (await (Rpc_removeAccountChangeListener subscription)
                 (connection.(removeAccountChangeListener) subscription) ;;
           log L_clearing_old_round)
          (fun _ => log L_no_unsub_needed)
  | None => ret tt
  end ;;
  let roundPda := Solana.getRoundPda newRoundId_BN in
  log (L_current_round newRoundId_BN) ;;
  emit (Rpc_onAccountChange roundPda) ;;
  setAppState [State.Set_roundSubscriptionId
                 (Some (connection.(onAccountChange) roundPda))] ;;
  roundAccountInfo <- await (Rpc_getAccountInfo roundPda)
                            (connection.(getAccountInfo) roundPda) ;;
  match roundAccountInfo with
  | Some data => processRoundUpdate data
  | None => ret tt
  end.

Definition processBoardUpdate (connection : Connection) (data : Solana.Buffer) : M unit :=
  tryCatch
    (boardData <- orThrow (Solana.parseBoard data) Transactions.E_decode ;;
     setAppState [State.Set_currentBoardData (Some boardData)] ;;
     let newRoundId_BN := boardData.(Solana.Board.round_id) in
     st <- getState ;;
     let currentRoundId := st.(State.currentRoundId) in
     let roundSubscriptionId := st.(State.roundSubscriptionId) in
     (if (currentRoundId <? newRoundId_BN) && (-1 <? currentRoundId) then
        setAppState [State.Set_isTransitioningRound true] ;;
        emit (Call_finalizeOldRound currentRoundId) ;;
        finalizeOldRound connection currentRoundId ;;
        setAppState [State.Set_isTransitioningRound false]
      else ret tt) ;;
     if newRoundId_BN =? currentRoundId then
       let roundPda := Solana.getRoundPda currentRoundId in
       roundAccountInfo <- await (Rpc_getAccountInfo roundPda)
                                 (connection.(getAccountInfo) roundPda) ;;
       match roundAccountInfo with
       | Some data => processRoundUpdate data
       | None => ret tt
       end
     else setUpNewRound connection newRoundId_BN roundSubscriptionId)
    (fun message =>
       log (L_error_processing_board message) ;;
       setAppState [State.Set_isTransitioningRound false]).

End Game.

(* ===================================================================== *)
(** * Reference definitions used to state the properties *)

Module Spec.

(** The little-endian value of a run of bytes. *)
Fixpoint le_value (bs : list byte) : Z :=
  match bs with
  | [] => 0
  | b :: bs' => Solana.byteZ b + 256 * le_value bs'
  end.

(** The [i]-th 8-byte little-endian word of a block. *)
Definition word (block : Solana.Buffer) (i : nat) : Z :=
  le_value (firstn 8 (skipn (8 * i) block)).

(** The unsigned 64-bit integer an account stores at [offset], least
    significant byte first; bytes past the end of the account count as
    zero. *)
Definition u64At (offset : nat) (data : Solana.Buffer) : Z :=
  le_value (firstn 8 (skipn offset data)).

(** The bytes of an account from [offset], at most [n] of them. *)
Definition bytesAt (offset n : nat) (data : Solana.Buffer) : Solana.Buffer :=
  firstn n (skipn offset data).

(** The key an account stores at [offset]: its 32 bytes, with zeros in
    front of the bytes that are there when the account ends early. *)
Definition keyAt (offset : nat) (data : Solana.Buffer) : Solana.PublicKey :=
  repeat "000"%byte (32 - List.length (bytesAt offset 32 data))
  ++ bytesAt offset 32 data.

(** The XOR of the four words of a block. *)
Definition xor4 (block : Solana.Buffer) : Z :=
  Z.lxor (Z.lxor (Z.lxor (word block 0) (word block 1)) (word block 2))
         (word block 3).

(** ** The automation trigger *)

(** The guard of [runAutomationCheck] as the specification words it: the
    mode is not idle, the remaining seconds lie in (0, 8], and the
    trigger has not fired in this round. *)
Definition qualifies (st : State.AppState) (secondsRemaining : Z) : bool :=
  negb (String.eqb st.(State.appMode) Constants.APP_MODES.IDLE)
  && (0 <? secondsRemaining) && (secondsRemaining <=? 8)
  && negb st.(State.automationHasRunThisRound).

Definition isAnalysis (e : Effects.Effect) : bool :=
  match e with Effects.Call_analyzeBoardState _ => true | _ => false end.

Definition isDeployment (e : Effects.Effect) : bool :=
  match e with Effects.Call_sendDeployTx _ _ => true | _ => false end.

Definition analyses (t : list Effects.Effect) : nat :=
  List.length (filter isAnalysis t).
Definition deployments (t : list Effects.Effect) : nat :=
  List.length (filter isDeployment t).

(** A handler that did nothing: it returned, left the state as it was and
    had no effect. *)
Definition noop (st : State.AppState)
    (r : Effects.Outcome unit * State.AppState * list Effects.Effect) : Prop :=
  r = (Effects.Returned tt, st, []).

(** What happens within one round, between two resets of the round
    flags: countdown ticks that invoke the trigger, and writes to the
    state by other handlers and by the user, none of which assigns
    [automationHasRunThisRound]. *)
Inductive RoundStep :=
| Tick (roundData : option Solana.RoundData) (secondsRemaining : Z)
       (signer : option Effects.Keypair)
| Update (newState : list State.Assign).

Definition assignsFired (a : State.Assign) : bool :=
  match a with State.Set_automationHasRunThisRound _ => true | _ => false end.

Definition withinRound (step : RoundStep) : bool :=
  match step with
  | Tick _ _ _ => true
  | Update newState => negb (existsb assignsFired newState)
  end.

(** The state and the effects of the trigger after the steps, in order. *)
Fixpoint runRound (steps : list RoundStep) (st : State.AppState)
  : State.AppState * list Effects.Effect :=
  match steps with
  | [] => (st, [])
  | Tick roundData secondsRemaining signer :: rest =>
      let r := Automation.runAutomationCheck roundData secondsRemaining signer st in
      let '(st', t) := runRound rest (Effects.stateOf r) in
      (st', Effects.traceOf r ++ t)
  | Update newState :: rest => runRound rest (State.setAppState newState st)
  end.

(** The effects of a trace that come before the first one satisfying [p]. *)
Fixpoint before (p : Effects.Effect -> bool) (t : list Effects.Effect)
  : list Effects.Effect :=
  match t with
  | [] => []
  | e :: t' => if p e then [] else e :: before p t'
  end.

Definition setsFired (e : Effects.Effect) : bool :=
  match e with
  | Effects.Write newState =>
      existsb (fun a => match a with
                        | State.Set_automationHasRunThisRound true => true
                        | _ => false
                        end) newState
  | _ => false
  end.

(** ** The deployment sequencer *)

(** The transactions a handler submitted, in order. *)
Definition submissions (t : list Effects.Effect) : list Effects.Transaction :=
  flat_map (fun e => match e with
                     | Effects.Rpc_sendAndConfirmTransaction tx _ => [tx]
                     | _ => []
                     end) t.

(** The signer's tracked round marker and the round it last synced to, as
    the miner account the node reports stores them: [round_id] at offset
    512 and [checkpoint_id] at offset 448. Both are 0 when the signer has
    no miner account. *)
Definition minerMarkers (connection : Effects.Connection) (signer : Effects.Keypair)
  : Z * Z :=
  match connection.(Effects.getAccountInfo)
          (Solana.MinerPda signer.(Effects.publicKey)) with
  | Effects.Resolved (Some data) => (u64At 512 data, u64At 448 data)
  | _ => (0, 0)
  end.

(** The checkpoint of round [roundId] (instruction 2 of the program) and
    the deployment to round [roundId] (instruction 6), written out. *)
Definition checkpointOf (signer : Effects.Keypair) (roundId : Z)
  : Effects.Instruction :=
  let key := signer.(Effects.publicKey) in
  Effects.OreInstruction
    [ {| Effects.pubkey := Effects.Wallet key;
         Effects.isSigner := true; Effects.isWritable := true |};
      {| Effects.pubkey := Effects.Derived Solana.BoardPda;
         Effects.isSigner := false; Effects.isWritable := false |};
      {| Effects.pubkey := Effects.Derived (Solana.MinerPda key);
         Effects.isSigner := false; Effects.isWritable := true |};
      {| Effects.pubkey := Effects.Derived (Solana.RoundPda roundId);
         Effects.isSigner := false; Effects.isWritable := true |};
      {| Effects.pubkey := Effects.Derived Solana.TreasuryPda;
         Effects.isSigner := false; Effects.isWritable := true |};
      {| Effects.pubkey := Effects.SYSTEM_PROGRAM_ID;
         Effects.isSigner := false; Effects.isWritable := false |} ]
    ["002"%byte].

Definition deploymentOf (signer : Effects.Keypair) (roundId : Z)
    (amount mask : Solana.Buffer) : Effects.Instruction :=
  let key := signer.(Effects.publicKey) in
  Effects.OreInstruction
    [ {| Effects.pubkey := Effects.Wallet key;
         Effects.isSigner := true; Effects.isWritable := true |};
      {| Effects.pubkey := Effects.Wallet key;
         Effects.isSigner := false; Effects.isWritable := true |};
      {| Effects.pubkey := Effects.Derived (Solana.AutomationPda key);
         Effects.isSigner := false; Effects.isWritable := true |};
      {| Effects.pubkey := Effects.Derived Solana.BoardPda;
         Effects.isSigner := false; Effects.isWritable := true |};
      {| Effects.pubkey := Effects.Derived (Solana.MinerPda key);
         Effects.isSigner := false; Effects.isWritable := true |};
      {| Effects.pubkey := Effects.Derived (Solana.RoundPda roundId);
         Effects.isSigner := false; Effects.isWritable := true |};
      {| Effects.pubkey := Effects.SYSTEM_PROGRAM_ID;
         Effects.isSigner := false; Effects.isWritable := false |};
      {| Effects.pubkey := Effects.ORE_VAR_ADDRESS;
         Effects.isSigner := false; Effects.isWritable := true |};
      {| Effects.pubkey := Effects.ENTROPY_PROGRAM_ID;
         Effects.isSigner := false; Effects.isWritable := false |} ]
    ("006"%byte :: amount ++ mask).

(** ** The valuation model *)

(** The iterates of the refinement: the starting point
    [sqrt(V0 * O / C)], then [max(0, sqrt(V * O / C) - O)] with [V] the
    pool value at the iterate before. *)
Fixpoint yIter (O T V0 : float) (k : nat) : float :=
  match k with
  | 0%nat => sqrt ((V0 * O) / Constants.C)
  | S k' =>
      JS.Math_max 0
        (sqrt ((Ev.poolValue O T V0 (yIter O T V0 k') * O) / Constants.C) - O)
  end%float.

(** The final expected value for a stake [y] when the pool is valued at
    [V]: [P_WIN * (-24 * y + V * f) - ADMIN_COST_FACTOR * y] with
    [f = y / (O + y)]. *)
Definition evAt (O V y : float) : float :=
  (Constants.P_WIN * ((-(24)) * y + V * (y / (O + y)))
   - Constants.ADMIN_COST_FACTOR * y)%float.

(** The final expected value as the specification words it: the pool
    value is recomputed with the converged stake subtracted. *)
Definition claimedEV (O T V0 y : float) : float :=
  evAt O (Ev.poolValue O T V0 y) y.

(** The external reward valuation as the specification words it. *)
Definition claimedOreValue (rewardPoolSize externalPriceRatio : float) : float :=
  (rewardPoolSize * Constants.HIT_PROB * Constants.REF_MULT
   * externalPriceRatio)%float.

(** ** The board analyzer *)

(** A positive finite binary64 number. *)
Definition posfin (x : float) : Prop :=
  exists m e, Prim2SF x = S754_finite false m e.

Definition SFzero : spec_float := S754_zero false.

(** The rank of a positive finite number: an integer that orders the
    positive finite numbers as they are ordered. *)
Definition rank (x : float) : Z :=
  match Prim2SF x with
  | S754_finite false m e => e * 2 ^ 53 + Zpos m
  | _ => 0
  end.

(** The order a stable sort by the integer key [r] leaves: by key, and
    by position [idx] in the input among equal keys. *)
Definition sortsBefore {A} (r idx : A -> Z) (a b : A) : Prop :=
  r a < r b \/ (r a = r b /\ idx a < idx b).

(** The comparator [cmp] orders the elements of [l] as the key [r] does. *)
Definition comparatorAgrees {A} (cmp : A -> A -> float) (r : A -> Z)
    (l : list A) : Prop :=
  forall a b, In a l -> In b l -> (cmp a b <? 0)%float = (r a <? r b).

(** Descending by EV, ties by ascending square index. *)
Definition evBefore (a b : Detection.EvEntry) : Prop :=
  (b.(Detection.ev) <? a.(Detection.ev))%float = true
  \/ ((a.(Detection.ev) =? b.(Detection.ev))%float = true
      /\ a.(Detection.id) < b.(Detection.id)).

(** Ascending by ratio, ties by ascending square index. *)
Definition ratioBefore (a b : Detection.RatioEntry) : Prop :=
  (a.(Detection.ratio) <? b.(Detection.ratio))%float = true
  \/ ((a.(Detection.ratio) =? b.(Detection.ratio))%float = true
      /\ a.(Detection.r_id) < b.(Detection.r_id)).

(** ** The round state tracker *)

(** The effects that belong to the finalization of a round: the call of
    [finalizeOldRound] and the first line it logs. *)
Definition isFinalization (e : Effects.Effect) : bool :=
  match e with
  | Effects.Call_finalizeOldRound _ => true
  | Effects.Log (Effects.L_fetching_final_data _) => true
  | _ => false
  end.

End Spec.

(** A decoder that spans [n] bytes: it returns what [rd] reads from the
    buffer and leaves the bytes after the first [n], whatever the length
    of the buffer. *)
Module Layout.

Definition Spans {A} (d : Solana.Decoder A) (n : nat)
    (rd : Solana.Buffer -> A) : Prop :=
  forall b, d b = Some (rd b, skipn n b).

End Layout.

(* ===================================================================== *)
(** * Sample inputs *)

Module Samples.

(** An entropy block whose four words are 7, 1, 2 and 3 * 2^56. *)
Definition block : Solana.Buffer :=
  ["007"; "000"; "000"; "000"; "000"; "000"; "000"; "000";
   "001"; "000"; "000"; "000"; "000"; "000"; "000"; "000";
   "002"; "000"; "000"; "000"; "000"; "000"; "000"; "000";
   "000"; "000"; "000"; "000"; "000"; "000"; "000"; "003"]%byte.

(** A round with stakes on every square but the fifth: squares 1 to 3
    have a positive expected value, squares 1 and 3 the same one. *)
Definition round : Solana.RoundData :=
  {| Solana.Round.id := 42;
     Solana.Round.deployed :=
       [1000000000; 500000000; 1000000000; 2000000000; 0]
       ++ repeat 1500000000 20;
     Solana.Round.slot_hash := repeat "000"%byte 32;
     Solana.Round.count := [3; 1; 2; 0; 0] ++ repeat 5 20;
     Solana.Round.expires_at := 1000;
     Solana.Round.motherlode := 0;
     Solana.Round.rent_payer := repeat "000"%byte 32;
     Solana.Round.top_miner := repeat "000"%byte 32;
     Solana.Round.top_miner_reward := 0;
     Solana.Round.total_deployed := 34500000000;
     Solana.Round.total_vaulted := 0;
     Solana.Round.total_winnings := 0 |}.

(** A running bot: round 42 is tracked, the ORE price is 1 SOL, the mode
    is the given one. *)
Definition running (appMode : string) : State.AppState :=
  State.setAppState
    [State.Set_appMode appMode; State.Set_priceOreSol 1%float;
     State.Set_currentRoundId 42; State.Set_currentRoundData (Some round)]
    State.initialState.

Definition keypair : Effects.Keypair :=
  {| Effects.publicKey := repeat "001"%byte 32 |}.

(** The bytes of an account: the discriminator, then the fields. *)
Definition u64bytes (z : Z) : Solana.Buffer := Transactions.bytesLE 8 z.

Definition roundAccount : Solana.Buffer :=
  repeat "000"%byte 8
  ++ u64bytes 42 ++ flat_map u64bytes round.(Solana.Round.deployed)
  ++ repeat "000"%byte 32 ++ flat_map u64bytes round.(Solana.Round.count)
  ++ u64bytes 1000 ++ u64bytes 0 ++ repeat "000"%byte 64
  ++ u64bytes 0 ++ u64bytes 34500000000 ++ u64bytes 0 ++ u64bytes 0.

(** A miner account whose tracked round is [roundId] and whose last
    synced round is [checkpointId]. *)
Definition minerAccount (roundId checkpointId : Z) : Solana.Buffer :=
  repeat "000"%byte 8
  ++ keypair.(Effects.publicKey) ++ repeat "000"%byte 400
  ++ u64bytes 0 ++ u64bytes checkpointId ++ repeat "000"%byte 32
  ++ repeat "000"%byte 24 ++ u64bytes roundId ++ repeat "000"%byte 16.

(** A node that knows round 42, the miner with the given markers, and
    accepts every transaction. *)
Definition node (roundId checkpointId : Z) : Effects.Connection :=
  {| Effects.getAccountInfo := fun pda =>
       match pda with
       | Solana.RoundPda 42 => Effects.Resolved (Some roundAccount)
       | Solana.MinerPda _ =>
           Effects.Resolved (Some (minerAccount roundId checkpointId))
       | _ => Effects.Resolved None
       end;
     Effects.removeAccountChangeListener := fun _ => Effects.Resolved tt;
     Effects.onAccountChange := fun _ => 1;
     Effects.sendAndConfirmTransaction := fun _ => Effects.Resolved "5sig"%string;
     Effects.getBalance := fun _ => Effects.Resolved 1000000000%float |}.

(** The board account announcing round 42, open from slot 100 to 250. *)
Definition board : Solana.BoardData :=
  {| Solana.Board.round_id := 42; Solana.Board.start_slot := 100;
     Solana.Board.end_slot := 250 |}.

Definition boardAccount : Solana.Buffer :=
  repeat "000"%byte 8 ++ u64bytes 42 ++ u64bytes 100 ++ u64bytes 250.

Definition targets : list Detection.EvEntry :=
  [{| Detection.id := 2; Detection.sol := 0.5%float; Detection.ev := 0.125%float |}].

End Samples.

(* ===================================================================== *)
(** * The order of binary64 numbers *)

Module Float64.

(** An integer for every number that is not NaN, in the order of the
    numbers: the two zeros share 0, the infinities lie beyond every
    finite number. *)
Definition ord (x : float) : Z :=
  match Prim2SF x with
  | S754_zero _ => 0
  | S754_finite false m e => (e + 1075) * 2 ^ 53 + Zpos m
  | S754_finite true m e => - ((e + 1075) * 2 ^ 53 + Zpos m)
  | S754_infinity false => 2 ^ 64
  | S754_infinity true => - 2 ^ 64
  | S754_nan => 0
  end.

End Float64.

(* ===================================================================== *)
(** * Further reference definitions *)

Module Ref.

(** The requests a handler sent to the RPC node. *)
Definition isRpc (e : Effects.Effect) : bool :=
  match e with
  | Effects.Rpc_getAccountInfo _ | Effects.Rpc_removeAccountChangeListener _
  | Effects.Rpc_onAccountChange _ | Effects.Rpc_sendAndConfirmTransaction _ _
  | Effects.Rpc_getBalance _ => true
  | _ => false
  end.

Definition isBalanceRequest (e : Effects.Effect) : bool :=
  match e with Effects.Rpc_getBalance _ => true | _ => false end.

(** The two rankings of [analyzeBoardState], from the entries of the
    squares. *)
Definition byEV_of (full : list Detection.FullEntry) : list Detection.EvEntry :=
  JSArray.sort (fun a b => (b.(Detection.ev) - a.(Detection.ev))%float)
    (filter (fun e => (0 <? e.(Detection.ev))%float) (map Detection.evOf full)).

Definition byRatio_of (full : list Detection.FullEntry) : list Detection.RatioEntry :=
  JSArray.sort (fun a b => (a.(Detection.ratio) - b.(Detection.ratio))%float)
    (filter (fun r => ((r.(Detection.ratio) <? infinity)
                       && (0 <? r.(Detection.ratio)))%float)
       (map Detection.ratioOf full)).

(** How many squares a mode deploys to at most. *)
Definition modeCount (appMode : string) : nat :=
  if String.eqb appMode Constants.APP_MODES.ONE_X_EV then 1
  else if String.eqb appMode Constants.APP_MODES.THREE_X_EV then 3
  else if String.eqb appMode Constants.APP_MODES.FIVE_X_EV then 5
  else 0.

(** The settings the user controls, the wallet balance and the price. *)
Definition settingsOf (s : State.AppState) :=
  (s.(State.appMode), s.(State.isSpeculating), s.(State.isAudioEnabled),
   s.(State.customDeployAmount), s.(State.userBalance), s.(State.priceOreSol)).

(** What the tracker keeps about the round it follows, apart from the
    round detail. *)
Definition trackingOf (s : State.AppState) :=
  (s.(State.currentRoundId), s.(State.currentBoardData),
   s.(State.automationHasRunThisRound), s.(State.checkpointHasRunThisRound),
   s.(State.roundSubscriptionId), s.(State.isTransitioningRound)).

(** The effects that change the subscription to a round account. *)
Definition isSubscription (e : Effects.Effect) : bool :=
  match e with
  | Effects.Rpc_onAccountChange _ | Effects.Rpc_removeAccountChangeListener _ => true
  | _ => false
  end.

Definition isAnnouncement (e : Effects.Effect) : bool :=
  match e with Effects.PlayNotificationSound_winner _ _ => true | _ => false end.

End Ref.

Module Samples2.

(** A node like [Samples.node] that rejects every transaction because
    the round has ended. *)
Definition lateNode : Effects.Connection :=
  {| Effects.getAccountInfo := (Samples.node 41 40).(Effects.getAccountInfo);
     Effects.removeAccountChangeListener := fun _ => Effects.Resolved tt;
     Effects.onAccountChange := fun _ => 1;
     Effects.sendAndConfirmTransaction := fun _ =>
       Effects.Rejected
         "failed to send transaction: custom program error: InvalidAccountData"%string;
     Effects.getBalance := fun _ => Effects.Resolved 1000000000%float |}.

End Samples2.

(* ===================================================================== *)
(** * Handlers with further effects

    The handlers of the dashboard and of the cash-out do what the
    handlers above do and more: they ask the node for the slot, write the
    countdown, transfer funds. They are handlers over a wider type of
    effects [E], into which the effects above are injected. *)

Module Wide.
Import Effects.

Section Over.
Context {E : Type}.

Definition M (A : Type) : Type :=
  State.AppState -> Outcome A * State.AppState * list E.

Definition ret {A} (a : A) : M A := fun s => (Returned a, s, []).
Definition throw {A} (message : string) : M A := fun s => (Threw message, s, []).

Definition stateOf {A} (r : Outcome A * State.AppState * list E) : State.AppState :=
  snd (fst r).
Definition traceOf {A} (r : Outcome A * State.AppState * list E) : list E :=
  snd r.
Definition outcomeOf {A} (r : Outcome A * State.AppState * list E) : Outcome A :=
  fst (fst r).

Definition bind {A B} (m : M A) (k : A -> M B) : M B := fun s =>
  let r1 := m s in
  match outcomeOf r1 with
  | Returned a =>
      let r2 := k a (stateOf r1) in
      (outcomeOf r2, stateOf r2, traceOf r1 ++ traceOf r2)
  | Threw e => (Threw e, stateOf r1, traceOf r1)
  end.

(** [try { m } catch (e) { h e }] *)
Definition tryCatch {A} (m : M A) (h : string -> M A) : M A := fun s =>
  let r1 := m s in
  match outcomeOf r1 with
  | Returned a => r1
  | Threw e =>
      let r2 := h e (stateOf r1) in
      (outcomeOf r2, stateOf r2, traceOf r1 ++ traceOf r2)
  end.

Definition prepend {A} (t : list E) (r : Outcome A * State.AppState * list E)
  : Outcome A * State.AppState * list E :=
  (outcomeOf r, stateOf r, t ++ traceOf r).

Definition getState : M State.AppState := fun s => (Returned s, s, []).
Definition emit (e : E) : M unit := fun s => (Returned tt, s, [e]).

(** [await p]: the request is recorded; a rejection is thrown. *)
Definition await {A} (request : E) (p : Settled A) : M A := fun s =>
  match p with
  | Resolved a => (Returned a, s, [request])
  | Rejected e => (Threw e, s, [request])
  end.

Definition orThrow {A} (o : option A) (message : string) : M A :=
  match o with
  | Some a => ret a
  | None => throw message
  end.

(** A handler of the core, run as it is: its effects are injected. *)
Definition lift (inj : Effect -> E) {A} (m : Effects.M A) : M A := fun s =>
  let r := m s in
  (Effects.outcomeOf r, Effects.stateOf r, map inj (Effects.traceOf r)).

End Over.
End Wide.

Declare Scope wide_scope.
Delimit Scope wide_scope with wide.
Notation "x <- m ;; k" := (Wide.bind m (fun x => k))
  (at level 61, m at next level, right associativity) : wide_scope.
Notation "m ;; k" := (Wide.bind m (fun _ => k))
  (at level 61, right associativity) : wide_scope.

(* ===================================================================== *)
(** * game.mjs: the countdown *)

Module Countdown.
Import Effects.
Local Open Scope wide_scope.

(** What [updateCountdown] writes into the countdown widget. *)
Inductive Content :=
| C_no_board                          (* 'round ends in: --:--' *)
| C_ends_in (secondsRemaining : option Z)
    (* 'round ends in: mm:ss'; [None] is a number of seconds that is not
       finite *)
| C_waiting_next                      (* 'waiting for next round...' *)
| C_error_slot                        (* 'error fetching slot...' *)
| C_current.                          (* [countdownTimer.content] as it stands *)

Inductive Event :=
| Core (e : Effect)
| Rpc_getSlot
| Show_countdown (content : Content)
| Log_error_refetching (message : string).

(** [Math.floor(slotsRemaining * (MS_PER_SLOT / 1000))], as an integer
    when it is finite. *)
Definition secondsOf (slotsRemaining : float) : option Z :=
  JS.BigInt_floor
    (slotsRemaining * (JS.Number_of_Z Constants.MS_PER_SLOT / 1000))%float.

(** [getSlot] is the answer of the node to [conn.getSlot()]; [signer] is
    what [getSigner()] returns to the trigger (the fourth argument
    [walletSigner] of the call is not a parameter of
    [runAutomationCheck]). A number of seconds that is not finite is
    greater than the trigger window, so that the trigger returns at once. *)
Definition updateCountdown (getSlot : Settled float) (connection : Connection)
    (signer : option Keypair) : Wide.M unit :=
  st <- Wide.getState ;;
  let currentRoundData := st.(State.currentRoundData) in
  let currentRoundId := st.(State.currentRoundId) in
  let isTransitioningRound := st.(State.isTransitioningRound) in
  match st.(State.currentBoardData) with
  | None =>
      Wide.emit (Show_countdown C_no_board) ;; Wide.emit (Core Screen_render)
  | Some currentBoardData =>
      countdownString <-
        Wide.tryCatch
          (currentSlot <- Wide.await Rpc_getSlot getSlot ;;
           let endSlot := JS.Number_of_Z currentBoardData.(Solana.Board.end_slot) in
           let slotsRemaining := (endSlot - currentSlot)%float in
           if (0 <? slotsRemaining)%float then
             let secondsRemaining := secondsOf slotsRemaining in
             Wide.lift Core (setAppState [State.Set_winnerAnnounced false]) ;;
             match currentRoundData with
             | Some roundData =>
                 if negb isTransitioningRound then
                   match secondsRemaining with
                   | Some seconds =>
                       Wide.lift Core
                         (Automation.runAutomationCheck (Some roundData) seconds
                            signer)
                   | None => Wide.ret tt
                   end
                 else Wide.ret tt
             | None => Wide.ret tt
             end ;;
             Wide.ret (C_ends_in secondsRemaining)
           else
             let hashPopulated :=
               match currentRoundData with
               | Some roundData =>
                   Solana.isSlotHashPopulated roundData.(Solana.Round.slot_hash)
               | None => false
               end in
             if hashPopulated then
               match currentRoundData with
               | Some roundData =>
                   Wide.lift Core
                     (Game.displayWinner roundData (Game.toString currentRoundId))
               | None => Wide.throw Automation.E_type
               end ;;
               Wide.ret C_current
             else
               if -1 <? currentRoundId then
                 Wide.tryCatch
                   (let roundPda := Solana.getRoundPda currentRoundId in
                    roundAccountInfo <-
                      Wide.await (Core (Rpc_getAccountInfo roundPda))
                        (connection.(getAccountInfo) roundPda) ;;
                    match roundAccountInfo with
                    | Some data =>
                        freshRoundData <-
                          Wide.orThrow (Solana.parseRound data)
                            Transactions.E_decode ;;
                        Wide.lift Core
                          (setAppState
                             [State.Set_currentRoundData (Some freshRoundData)]) ;;
                        if Solana.isSlotHashPopulated
                             freshRoundData.(Solana.Round.slot_hash)
                        then
                          Wide.emit (Core (Call_updateTUI freshRoundData)) ;;
                          Wide.lift Core
                            (Game.displayWinner freshRoundData
                               (Game.toString currentRoundId)) ;;
                          Wide.ret C_current
                        else Wide.ret C_waiting_next
                    | None => Wide.ret C_waiting_next
                    end)
                   (fun message =>
                      Wide.emit (Log_error_refetching message) ;;
                      Wide.ret C_waiting_next)
               else Wide.ret C_waiting_next)
          (fun _ => Wide.ret C_error_slot) ;;
      Wide.emit (Show_countdown countdownString) ;;
      Wide.emit (Core Screen_render)
  end.

(** The slots that remain when a tick finds the round running: the
    board is known, the node answers, and the end slot lies ahead. *)
Definition activeSlots (getSlot : Settled float) (st : State.AppState)
  : option float :=
  match st.(State.currentBoardData), getSlot with
  | Some currentBoardData, Resolved currentSlot =>
      let slotsRemaining :=
        (JS.Number_of_Z currentBoardData.(Solana.Board.end_slot) - currentSlot)%float in
      if (0 <? slotsRemaining)%float then Some slotsRemaining else None
  | _, _ => None
  end.

Definition isTriggerWork (e : Event) : bool :=
  match e with
  | Core e => Spec.isAnalysis e || Spec.isDeployment e
  | _ => false
  end.

Definition isAnnouncement (e : Event) : bool :=
  match e with
  | Core (PlayNotificationSound_winner _ _) => true
  | _ => false
  end.

End Countdown.

(* ===================================================================== *)
(** * transactions.mjs: claiming and cashing out *)

Module CashOut.
Import Effects.
Local Open Scope wide_scope.

Inductive LogLine :=
| L_claim_failed_signer_not_loaded
| L_attempting_claim
| L_claim_successful (signature : string)
| L_claim_no_pending_rewards
| L_claim_failed (errorMsg : string)
| L_cash_out_failed_signer_not_loaded
| L_cash_out_invalid_address (targetAddress : string)
| L_cash_out_aborted_claim_failed
| L_waiting_for_balance
| L_new_total_balance (newBalanceSol : float)
| L_cash_out_failed_balance (message : string)
| L_wallet_empty (newBalance : float)
| L_cashing_out (sol : float)
| L_cash_out_successful (signature : string)
| L_cash_out_transfer_failed (message : string).

Inductive Event :=
| Core (e : Effect)
| Log (line : LogLine)
| Sleep (milliseconds : Z)
| Rpc_transfer (fromPubkey toPubkey : Solana.PublicKey) (lamports : float)
    (signer : Keypair).

(** The answers of the node during one run, one for each place that
    asks: every place asks at most once in a run. A rejection carries
    the text the handler reads from the error
    ([e.message || e.logs?.join(' ') || '']). *)
Record Node := {
  claimAnswer : Transaction -> Settled string;
  balanceAfterClaim : Settled float;
  newBalanceAnswer : Settled float;
  transferAnswer : Solana.PublicKey -> Solana.PublicKey -> float -> Settled string;
  finalBalance : Settled float
}.

Definition FEE_BUFFER : float := 5000%float.

Definition claimAccounts (signer : Keypair) : list AccountMeta :=
  let authority := signer.(publicKey) in
  [ Transactions.meta (Wallet authority) true true;
    Transactions.meta (Derived (Solana.getMinerPda authority)) false true;
    Transactions.meta SYSTEM_PROGRAM_ID false false ].

(** Instruction 3: ClaimSOL *)
Definition claimInstruction (signer : Keypair) : Instruction :=
  OreInstruction (claimAccounts signer) ["003"%byte].

Definition log (line : LogLine) : Wide.M unit := Wide.emit (Log line).

Definition sendClaimSolTx (node : Node) (signer : option Keypair) : Wide.M bool :=
  match signer with
  | None => log L_claim_failed_signer_not_loaded ;; Wide.ret false
  | Some signer =>
      log L_attempting_claim ;;
      Wide.tryCatch
        (let authority := signer.(publicKey) in
         let transaction : Transaction := [claimInstruction signer] in
         signature <-
           Wide.await (Core (Rpc_sendAndConfirmTransaction transaction signer))
             (node.(claimAnswer) transaction) ;;
         log (L_claim_successful (String.substring 0 16 signature)) ;;
         newBalance <-
           Wide.await (Core (Rpc_getBalance authority)) node.(balanceAfterClaim) ;;
         Wide.lift Core
           (setAppState
              [State.Set_userBalance
                 (newBalance / Transactions.LAMPORTS_PER_SOL)%float]) ;;
         Wide.ret true)
        (fun errorMsg =>
           if Transactions.includes "custom program error" errorMsg
           then log L_claim_no_pending_rewards ;; Wide.ret true
           else log (L_claim_failed errorMsg) ;; Wide.ret false)
  end.

Section Address.

(** [new PublicKey(targetAddress)]: the key, or an error ([None]) when
    the text is not an address. *)
Variable parsePublicKey : string -> option Solana.PublicKey.

(** The steps after the new balance is known; they are skipped when the
    balance could not be fetched. *)
Definition sendEntireBalance (node : Node) (signer : Keypair)
    (toPubkey : Solana.PublicKey) (newBalance : float) : Wide.M unit :=
  let authority := signer.(publicKey) in
  let amountToSend := (newBalance - FEE_BUFFER)%float in
  if (amountToSend <=? 0)%float then log (L_wallet_empty newBalance)
  else
    log (L_cashing_out (amountToSend / Transactions.LAMPORTS_PER_SOL)%float) ;;
    Wide.tryCatch
      (signature <-
         Wide.await (Rpc_transfer authority toPubkey amountToSend signer)
           (node.(transferAnswer) authority toPubkey amountToSend) ;;
       log (L_cash_out_successful (String.substring 0 16 signature)) ;;
       finalBalance <-
         Wide.await (Core (Rpc_getBalance authority)) node.(finalBalance) ;;
       Wide.lift Core
         (setAppState
            [State.Set_userBalance
               (finalBalance / Transactions.LAMPORTS_PER_SOL)%float]))
      (fun message => log (L_cash_out_transfer_failed message)).

Definition executeFullCashOut (targetAddress : string) (node : Node)
    (signer : option Keypair) : Wide.M unit :=
  match signer with
  | None => log L_cash_out_failed_signer_not_loaded
  | Some signerKeypair =>
      let authority := signerKeypair.(publicKey) in
      match parsePublicKey targetAddress with
      | None => log (L_cash_out_invalid_address targetAddress)
      | Some toPubkey =>
          claimSuccess <- sendClaimSolTx node signer ;;
          if negb claimSuccess then log L_cash_out_aborted_claim_failed
          else
            log L_waiting_for_balance ;;
            Wide.emit (Sleep 2000) ;;
            fetched <-
              Wide.tryCatch
                (newBalance <-
                   Wide.await (Core (Rpc_getBalance authority))
                     node.(newBalanceAnswer) ;;
                 let newBalanceSol :=
                   (newBalance / Transactions.LAMPORTS_PER_SOL)%float in
                 Wide.lift Core
                   (setAppState [State.Set_userBalance newBalanceSol]) ;;
                 log (L_new_total_balance newBalanceSol) ;;
                 Wide.ret (Some newBalance))
                (fun message =>
                   log (L_cash_out_failed_balance message) ;;
                   Wide.ret None) ;;
            match fetched with
            | None => Wide.ret tt
            | Some newBalance =>
                sendEntireBalance node signerKeypair toPubkey newBalance
            end
      end
  end.

End Address.

Definition isTransfer (e : Event) : bool :=
  match e with Rpc_transfer _ _ _ _ => true | _ => false end.

Definition isClaim (e : Event) : bool :=
  match e with Core (Rpc_sendAndConfirmTransaction _ _) => true | _ => false end.

End CashOut.

Module Samples3.

(** A running bot that knows the board: round 42 ends at slot 250. *)
Definition ticking (appMode : string) : State.AppState :=
  State.assign (State.Set_currentBoardData (Some Samples.board))
    (Samples.running appMode).

(** The account of round 42 once its slot hash is known. *)
Definition finishedRoundAccount : Solana.Buffer :=
  repeat "000"%byte 8
  ++ Samples.u64bytes 42
  ++ flat_map Samples.u64bytes Samples.round.(Solana.Round.deployed)
  ++ Samples.block
  ++ flat_map Samples.u64bytes Samples.round.(Solana.Round.count)
  ++ Samples.u64bytes 1000 ++ Samples.u64bytes 0 ++ repeat "000"%byte 64
  ++ Samples.u64bytes 0 ++ Samples.u64bytes 34500000000
  ++ Samples.u64bytes 0 ++ Samples.u64bytes 0.

Definition finishedNode : Effects.Connection :=
  {| Effects.getAccountInfo := fun pda =>
       match pda with
       | Solana.RoundPda 42 => Effects.Resolved (Some finishedRoundAccount)
       | _ => Effects.Resolved None
       end;
     Effects.removeAccountChangeListener := fun _ => Effects.Resolved tt;
     Effects.onAccountChange := fun _ => 1;
     Effects.sendAndConfirmTransaction := fun _ => Effects.Resolved "5sig"%string;
     Effects.getBalance := fun _ => Effects.Resolved 1000000000%float |}.

(** A node whose account of round 42 is cut off after 300 bytes: the
    slot hash is there, most of the counts and the totals are not. *)
Definition cutNode : Effects.Connection :=
  {| Effects.getAccountInfo := fun pda =>
       match pda with
       | Solana.RoundPda 42 =>
           Effects.Resolved (Some (firstn 300 finishedRoundAccount))
       | _ => Effects.Resolved None
       end;
     Effects.removeAccountChangeListener := fun _ => Effects.Resolved tt;
     Effects.onAccountChange := fun _ => 1;
     Effects.sendAndConfirmTransaction := fun _ => Effects.Resolved "5sig"%string;
     Effects.getBalance := fun _ => Effects.Resolved 1000000000%float |}.

(** A node with no rewards to claim: the program rejects the claim; the
    wallet holds 1 SOL, and nothing once it is sent. *)
Definition nothingToClaim : CashOut.Node :=
  {| CashOut.claimAnswer := fun _ =>
       Effects.Rejected "failed to send transaction: custom program error: 0x1"%string;
     CashOut.balanceAfterClaim := Effects.Resolved 1000000000%float;
     CashOut.newBalanceAnswer := Effects.Resolved 1000000000%float;
     CashOut.transferAnswer := fun _ _ _ => Effects.Resolved "3transfer"%string;
     CashOut.finalBalance := Effects.Resolved 0%float |}.

Definition destination : Solana.PublicKey := repeat "002"%byte 32.

(** One text is an address, every other text is refused. *)
Definition parseAddress (text : string) : option Solana.PublicKey :=
  if String.eqb text "destination" then Some destination else None.

End Samples3.

(* ===================================================================== *)
(** * game.mjs: the best EV of the dashboard *)

(** Steps 2 to 4 of [updateTUI]: the loop that fills [blockEVs] and keeps
    the best square, and the choice of what the best-EV widget shows.
    The rest of the function formats the squares. *)
Module Dashboard.
Import Constants.

Record BestEV := { ev : float; id : Z }.

(** What [bestEVDisplay.setContent] is given: the square and its EV, or
    'n/a (all negative)'. *)
Inductive Content :=
| Best_square (id : Z) (ev : float)
| Best_none.

Section Float.
Local Open Scope float_scope.

(** The EV of square [i]. Reading [roundData.deployed[i]] past the end
    of the array gives [undefined], whose [toString] is a [TypeError]
    ([None]). *)
Definition blockEV (roundData : Solana.RoundData) (T oreValueInSOL : float)
    (i : nat) : option float :=
  match nth_error roundData.(Solana.Round.deployed) i with
  | Some d =>
      let O := JS.Number_of_Z d * SOL_PER_LAMPORT in
      Some (Ev.computeEVStarForBlock O T oreValueInSOL).(Ev.EV)
  | None => None
  end.

(** The passes of the loop for the indices [idxs], from the best square
    and the [blockEVs] so far. *)
Fixpoint scan (roundData : Solana.RoundData) (T oreValueInSOL : float)
    (idxs : list nat) (bestEV : BestEV) (blockEVs : list float)
  : option (BestEV * list float) :=
  match idxs with
  | [] => Some (bestEV, blockEVs)
  | i :: idxs' =>
      match blockEV roundData T oreValueInSOL i with
      | Some EV =>
          scan roundData T oreValueInSOL idxs'
            (if JS.isFinite EV && (bestEV.(ev) <? EV)
             then {| ev := EV; id := Z.of_nat i + 1 |}
             else bestEV)
            (blockEVs ++ [EV])
      | None => None
      end
  end.

Definition bestOf (st : State.AppState) (roundData : Solana.RoundData)
  : option (BestEV * list float) :=
  let T := JS.Number_of_Z roundData.(Solana.Round.total_deployed) * SOL_PER_LAMPORT in
  let oreValueInSOL := Ev.getOreValueInSOL st roundData in
  scan roundData T oreValueInSOL (seq 0 25)
    {| ev := neg_infinity; id := -1 |} [].

End Float.

Definition contentOf (bestEV : BestEV) : Content :=
  if bestEV.(id) =? -1 then Best_none
  else Best_square bestEV.(id) bestEV.(ev).

(** The content of the best-EV widget and [blockEVs]; [None] is an
    exception thrown out of the loop. *)
Definition bestEVDisplay (st : State.AppState) (roundData : Solana.RoundData)
  : option (Content * list float) :=
  match bestOf st roundData with
  | Some (bestEV, blockEVs) => Some (contentOf bestEV, blockEVs)
  | None => None
  end.

(** What the loop has found after the indices [idxs], from the best
    square [b] it started with: [b'] is the first square whose finite EV
    is the greatest, when it exceeds that of [b]. *)
Definition Scanned (rd : Solana.RoundData) (T ore : float) (idxs : list nat)
    (b b' : BestEV) : Prop :=
  PrimFloat.is_nan b'.(ev) = false
  /\ Float64.ord b.(ev) <= Float64.ord b'.(ev)
  /\ (b' = b
      \/ (Float64.ord b.(ev) < Float64.ord b'.(ev)
          /\ PrimFloat.is_finite b'.(ev) = true
          /\ exists i, In i idxs
                       /\ blockEV rd T ore i = Some b'.(ev)
                       /\ b'.(id) = Z.of_nat i + 1))
  /\ forall j EV,
       In j idxs -> blockEV rd T ore j = Some EV ->
       PrimFloat.is_finite EV = true ->
       Float64.ord EV <= Float64.ord b'.(ev)
       /\ (Float64.ord EV = Float64.ord b'.(ev) ->
           b' = b \/ b'.(id) <= Z.of_nat j + 1).

End Dashboard.

(* ===================================================================== *)
(** * Properties *)

(** ** Running a handler step by step *)

Section Steps.
Import Effects.
Context {A B : Type}.

Lemma prepend_nil (r : Outcome A * State.AppState * list Effect) :
  prepend [] r = r.
Proof. now destruct r as [[o s] t]. Qed.

Lemma prepend_prepend t1 t2 (r : Outcome A * State.AppState * list Effect) :
  prepend t1 (prepend t2 r) = prepend (t1 ++ t2) r.
Proof. destruct r as [[o s] t]. unfold prepend. cbn. now rewrite app_assoc. Qed.

Lemma traceOf_prepend t (r : Outcome A * State.AppState * list Effect) :
  traceOf (prepend t r) = t ++ traceOf r.
Proof. reflexivity. Qed.

Lemma stateOf_prepend t (r : Outcome A * State.AppState * list Effect) :
  stateOf (prepend t r) = stateOf r.
Proof. reflexivity. Qed.

Lemma outcomeOf_prepend t (r : Outcome A * State.AppState * list Effect) :
  outcomeOf (prepend t r) = outcomeOf r.
Proof. reflexivity. Qed.

Lemma bind_ret (a : A) (k : A -> M B) s : bind (ret a) k s = k a s.
Proof. unfold bind, ret. cbn. now destruct (k a s) as [[o s'] t]. Qed.

Lemma bind_throw message (k : A -> M B) s :
  bind (throw message) k s = (Threw message, s, []).
Proof. reflexivity. Qed.

Lemma bind_getState (k : State.AppState -> M B) s : bind getState k s = k s s.
Proof. unfold bind, getState. cbn. now destruct (k s s) as [[o s'] t]. Qed.

Lemma bind_emit e (k : unit -> M B) s :
  bind (emit e) k s = prepend [e] (k tt s).
Proof. reflexivity. Qed.

Lemma bind_log line (k : unit -> M B) s :
  bind (log line) k s = prepend [Log line] (k tt s).
Proof. reflexivity. Qed.

Lemma bind_setAppState newState (k : unit -> M B) s :
  bind (setAppState newState) k s
  = prepend [Write newState] (k tt (State.setAppState newState s)).
Proof. reflexivity. Qed.

Lemma bind_await request (p : Settled A) (k : A -> M B) s :
  bind (await request p) k s
  = match p with
    | Resolved a => prepend [request] (k a s)
    | Rejected message => (Threw message, s, [request])
    end.
Proof. now destruct p. Qed.

Lemma bind_orThrow (o : option A) message (k : A -> M B) s :
  bind (orThrow o message) k s
  = match o with
    | Some a => k a s
    | None => (Threw message, s, [])
    end.
Proof. destruct o; [apply bind_ret|reflexivity]. Qed.

Lemma bind_assoc {C} (m : M A) (f : A -> M B) (g : B -> M C) s :
  bind (bind m f) g s = bind m (fun x => bind (f x) g) s.
Proof.
  unfold bind. destruct (m s) as [[[a|e] s1] t1]; cbn; [|reflexivity].
  destruct (f a s1) as [[[b|e] s2] t2]; cbn; [|reflexivity].
  destruct (g b s2) as [[o s3] t3]; cbn. now rewrite app_assoc.
Qed.

Lemma bind_tryCatch (m : M A) (h : string -> M A) (k : A -> M B) s :
  bind (tryCatch m h) k s
  = match outcomeOf (tryCatch m h s) with
    | Returned a =>
        prepend (traceOf (tryCatch m h s)) (k a (stateOf (tryCatch m h s)))
    | Threw message =>
        (Threw message, stateOf (tryCatch m h s), traceOf (tryCatch m h s))
    end.
Proof. reflexivity. Qed.

End Steps.

Section CatchSteps.
Import Effects.
Context {A B : Type}.
Variable h : string -> M B.

Lemma tryCatch_ret (b : B) s : tryCatch (ret b) h s = (Returned b, s, []).
Proof. reflexivity. Qed.

Lemma tryCatch_log (h' : string -> M unit) line s :
  tryCatch (log line) h' s = (Returned tt, s, [Log line]).
Proof. reflexivity. Qed.

Lemma tryCatch_emit (h' : string -> M unit) e s :
  tryCatch (emit e) h' s = (Returned tt, s, [e]).
Proof. reflexivity. Qed.

Lemma tryCatch_bind_ret (a : A) (k : A -> M B) s :
  tryCatch (bind (ret a) k) h s = tryCatch (k a) h s.
Proof. unfold tryCatch. now rewrite bind_ret. Qed.

Lemma tryCatch_bind_getState (k : State.AppState -> M B) s :
  tryCatch (bind getState k) h s = tryCatch (k s) h s.
Proof. unfold tryCatch. now rewrite bind_getState. Qed.

Lemma tryCatch_prepend t (m : M B) s :
  (let r := prepend t (m s) in
   match outcomeOf r with
   | Returned _ => r
   | Threw message =>
       (outcomeOf (h message (stateOf r)), stateOf (h message (stateOf r)),
        traceOf r ++ traceOf (h message (stateOf r)))
   end)
  = prepend t (tryCatch m h s).
Proof.
  unfold tryCatch, prepend. cbv zeta.
  destruct (m s) as [[[b|message] s1] t1]; cbn; [reflexivity|].
  now rewrite app_assoc.
Qed.

Lemma tryCatch_bind_emit e (k : unit -> M B) s :
  tryCatch (bind (emit e) k) h s = prepend [e] (tryCatch (k tt) h s).
Proof.
  rewrite <- tryCatch_prepend. unfold tryCatch at 1. now rewrite bind_emit.
Qed.

Lemma tryCatch_bind_log line (k : unit -> M B) s :
  tryCatch (bind (log line) k) h s = prepend [Log line] (tryCatch (k tt) h s).
Proof. apply tryCatch_bind_emit. Qed.

Lemma tryCatch_bind_setAppState newState (k : unit -> M B) s :
  tryCatch (bind (setAppState newState) k) h s
  = prepend [Write newState] (tryCatch (k tt) h (State.setAppState newState s)).
Proof.
  rewrite <- tryCatch_prepend. unfold tryCatch at 1.
  now rewrite bind_setAppState.
Qed.

Lemma tryCatch_bind_await request (p : Settled A) (k : A -> M B) s :
  tryCatch (bind (await request p) k) h s
  = match p with
    | Resolved a => prepend [request] (tryCatch (k a) h s)
    | Rejected message => prepend [request] (h message s)
    end.
Proof.
  destruct p as [a|message].
  - rewrite <- tryCatch_prepend. unfold tryCatch at 1. now rewrite bind_await.
  - unfold tryCatch. rewrite bind_await. reflexivity.
Qed.

Lemma tryCatch_bind_orThrow (o : option A) message0 (k : A -> M B) s :
  tryCatch (bind (orThrow o message0) k) h s
  = match o with
    | Some a => tryCatch (k a) h s
    | None => h message0 s
    end.
Proof.
  destruct o as [a|].
  - unfold tryCatch. now rewrite bind_orThrow.
  - unfold tryCatch. rewrite bind_orThrow. cbn.
    now destruct (h message0 s) as [[o' s'] t'].
Qed.

Lemma tryCatch_bind_assoc {C} (m : M C) (f : C -> M A) (g : A -> M B) s :
  tryCatch (bind (bind m f) g) h s
  = tryCatch (bind m (fun x => bind (f x) g)) h s.
Proof. unfold tryCatch. now rewrite bind_assoc. Qed.

End CatchSteps.

Lemma submissions_app t1 t2 :
  Spec.submissions (t1 ++ t2) = Spec.submissions t1 ++ Spec.submissions t2.
Proof. apply flat_map_app. Qed.

(** ** Outcome derivation *)

Lemma byteZ_nonneg b : 0 <= Solana.byteZ b.
Proof. unfold Solana.byteZ. apply N2Z.is_nonneg. Qed.

Lemma le_value_nonneg bs : 0 <= Spec.le_value bs.
Proof.
  induction bs as [|b bs IH]; cbn [Spec.le_value]; [lia|].
  pose proof (byteZ_nonneg b). lia.
Qed.

Lemma u64_halves b0 b1 b2 b3 b4 b5 b6 b7 :
  Solana.u32le b0 b1 b2 b3 + Z.shiftl (Solana.u32le b4 b5 b6 b7) 32
  = Spec.le_value [b0; b1; b2; b3; b4; b5; b6; b7].
Proof.
  unfold Solana.u32le. rewrite Z.shiftl_mul_pow2 by lia.
  cbn [Spec.le_value].
  change (2 ^ 8) with 256. change (2 ^ 16) with 65536.
  change (2 ^ 24) with 16777216. change (2 ^ 32) with 4294967296.
  lia.
Qed.

Lemma readBigUInt64LE_value (buf : Solana.Buffer) (offset : nat) :
  (offset + 8 <= List.length buf)%nat ->
  Solana.readBigUInt64LE buf offset
  = Some (Spec.le_value (firstn 8 (skipn offset buf))).
Proof.
  intros Hlen. unfold Solana.readBigUInt64LE.
  assert (Hl : List.length (firstn 8 (skipn offset buf)) = 8%nat).
  { rewrite length_firstn, length_skipn. lia. }
  destruct (firstn 8 (skipn offset buf))
    as [|b0 [|b1 [|b2 [|b3 [|b4 [|b5 [|b6 [|b7 [|b8 l]]]]]]]]];
    try discriminate Hl.
  now rewrite u64_halves.
Qed.

Lemma calculateRng_value (block : Solana.Buffer) :
  List.length block = 32%nat ->
  Solana.calculateRng block = Some (Spec.xor4 block).
Proof.
  intros Hlen. unfold Solana.calculateRng.
  rewrite !readBigUInt64LE_value by lia.
  reflexivity.
Qed.

Lemma xor4_nonneg block : 0 <= Spec.xor4 block.
Proof.
  unfold Spec.xor4, Spec.word.
  repeat (apply Z.lxor_nonneg; split; intros _);
    apply le_value_nonneg.
Qed.

Lemma isSlotHashPopulated_iff (slotHash : Solana.Buffer) :
  Solana.isSlotHashPopulated slotHash = true
  <-> exists b, In b slotHash /\ b <> "000"%byte.
Proof.
  unfold Solana.isSlotHashPopulated. rewrite existsb_exists.
  split; intros [b [Hin Hb]]; exists b; split; auto.
  - intros ->. discriminate Hb.
  - destruct (Byte.eqb b "000") eqn:E; [|reflexivity].
    apply Byte.byte_dec_bl in E. contradiction.
Qed.

(** ** The account layouts *)

Lemma toBigIntLE_le_value (buf : Solana.Buffer) :
  Solana.toBigIntLE buf = Spec.le_value buf.
Proof.
  induction buf as [|b rest IH]; cbn [Solana.toBigIntLE Spec.le_value];
    [reflexivity|now rewrite IH].
Qed.

(** Where eight bytes are left, the integer stored at an offset is the
    one [readBigUInt64LE] reads there. *)
Lemma readBigUInt64LE_u64At (data : Solana.Buffer) (offset : nat) :
  (offset + 8 <= List.length data)%nat ->
  Solana.readBigUInt64LE data offset = Some (Spec.u64At offset data).
Proof. intros H. now rewrite readBigUInt64LE_value. Qed.

Lemma keyAt_full (data : Solana.Buffer) (offset : nat) :
  (offset + 32 <= List.length data)%nat ->
  Spec.keyAt offset data = firstn 32 (skipn offset data).
Proof.
  intros H. unfold Spec.keyAt, Spec.bytesAt.
  rewrite length_firstn, length_skipn.
  replace (32 - Nat.min 32 (List.length data - offset))%nat with 0%nat by lia.
  reflexivity.
Qed.

Section Spans.
Import Solana.

Lemma spans_blob n : Layout.Spans (blob n) n (Spec.bytesAt 0 n).
Proof. intros b. reflexivity. Qed.

Lemma spans_u64 : Layout.Spans u64 8 (Spec.u64At 0).
Proof.
  intros b. unfold u64, blob, Spec.u64At. cbn [skipn].
  now rewrite toBigIntLE_le_value.
Qed.

Lemma spans_publicKey : Layout.Spans publicKey 32 (Spec.keyAt 0).
Proof. intros b. reflexivity. Qed.

Lemma spans_dret {A} (x : A) : Layout.Spans (dret x) 0 (fun _ => x).
Proof. intros b. reflexivity. Qed.

Lemma spans_dbind {A B} (d : Decoder A) (k : A -> Decoder B) n m rd rk :
  Layout.Spans d n rd ->
  (forall x, Layout.Spans (k x) m (rk x)) ->
  Layout.Spans (dbind d k) (n + m) (fun b => rk (rd b) (skipn n b)).
Proof.
  intros Hd Hk b. unfold dbind. rewrite (Hd b), (Hk (rd b) (skipn n b)).
  now rewrite skipn_skipn, Nat.add_comm.
Qed.

Lemma spans_seqOf {A} (d : Decoder A) n rd k :
  Layout.Spans d n rd ->
  Layout.Spans (seqOf d k) (k * n)
    (fun b => map (fun i => rd (skipn (i * n) b)) (seq 0 k)).
Proof.
  intros Hd. induction k as [|k IH]; intros b.
  - reflexivity.
  - change (S k * n)%nat with (n + k * n)%nat.
    cbn [seqOf]. rewrite (Hd b), (IH (skipn n b)).
    rewrite skipn_skipn. f_equal. f_equal.
    + cbn [seq map]. f_equal. rewrite <- seq_shift, map_map.
      apply map_ext. intros i. rewrite skipn_skipn. f_equal.
      change (S i * n)%nat with (n + i * n)%nat. f_equal. lia.
    + f_equal. lia.
Qed.

Ltac spans :=
  repeat first
    [ apply spans_dret
    | eapply spans_dbind;
      [ first [ apply spans_u64 | apply spans_blob | apply spans_publicKey
              | apply spans_seqOf; apply spans_u64 ]
      | intros ? ] ].

Ltac spanned HS :=
  match type of HS with
  | Layout.Spans _ ?n _ => let v := eval vm_compute in n in change n with v in HS
  end.

Ltac offsets :=
  repeat match goal with |- _ /\ _ => split end;
  unfold Spec.u64At, Spec.keyAt, Spec.bytesAt;
  rewrite ?skipn_skipn;
  repeat first [ reflexivity
               | apply map_ext; intros ?; rewrite ?skipn_skipn
               | f_equal; try lia ].

(** Every board account decodes: its three fields are the integers
    stored at offsets 8, 16 and 24. *)
Lemma parseBoard_reads (data : Buffer) :
  exists board,
    parseBoard data = Some board
    /\ board.(Board.round_id) = Spec.u64At 8 data
    /\ board.(Board.start_slot) = Spec.u64At 16 data
    /\ board.(Board.end_slot) = Spec.u64At 24 data.
Proof.
  eassert (HS : Layout.Spans BOARD_LAYOUT _ _).
  { unfold BOARD_LAYOUT. spans. }
  unfold parseBoard, decode.
  rewrite (HS (skipn Constants.ACCOUNT_DISCRIMINATOR_SIZE data)).
  change Constants.ACCOUNT_DISCRIMINATOR_SIZE with 8%nat.
  cbn [option_map fst]. eexists. split; [reflexivity|].
  cbn [Board.round_id Board.start_slot Board.end_slot].
  clear HS. offsets.
Qed.

(** Every round account decodes, and its fields are what the account
    stores at their offsets. *)
Lemma parseRound_reads (data : Buffer) :
  exists r,
    parseRound data = Some r
    /\ r.(Round.id) = Spec.u64At 8 data
    /\ r.(Round.deployed)
       = map (fun i => Spec.u64At (16 + 8 * i) data) (seq 0 25)
    /\ r.(Round.slot_hash) = Spec.bytesAt 216 32 data
    /\ r.(Round.count)
       = map (fun i => Spec.u64At (248 + 8 * i) data) (seq 0 25)
    /\ r.(Round.expires_at) = Spec.u64At 448 data
    /\ r.(Round.motherlode) = Spec.u64At 456 data
    /\ r.(Round.rent_payer) = Spec.keyAt 464 data
    /\ r.(Round.top_miner) = Spec.keyAt 496 data
    /\ r.(Round.top_miner_reward) = Spec.u64At 528 data
    /\ r.(Round.total_deployed) = Spec.u64At 536 data
    /\ r.(Round.total_vaulted) = Spec.u64At 544 data
    /\ r.(Round.total_winnings) = Spec.u64At 552 data.
Proof.
  eassert (HS : Layout.Spans ROUND_LAYOUT _ _).
  { unfold ROUND_LAYOUT. spans. }
  unfold parseRound, decode.
  rewrite (HS (skipn Constants.ACCOUNT_DISCRIMINATOR_SIZE data)).
  change Constants.ACCOUNT_DISCRIMINATOR_SIZE with 8%nat.
  cbn [option_map fst]. eexists. split; [reflexivity|].
  cbn [Round.id Round.deployed Round.slot_hash Round.count Round.expires_at
       Round.motherlode Round.rent_payer Round.top_miner Round.top_miner_reward
       Round.total_deployed Round.total_vaulted Round.total_winnings].
  clear HS. offsets.
Qed.

(** Every miner account decodes, and its fields are what the account
    stores at their offsets. *)
Lemma parseMiner_reads (data : Buffer) :
  exists miner,
    parseMiner data = Some miner
    /\ miner.(Miner.authority) = Spec.keyAt 8 data
    /\ miner.(Miner.deployed)
       = map (fun i => Spec.u64At (40 + 8 * i) data) (seq 0 25)
    /\ miner.(Miner.cumulative)
       = map (fun i => Spec.u64At (240 + 8 * i) data) (seq 0 25)
    /\ miner.(Miner.checkpoint_fee) = Spec.u64At 440 data
    /\ miner.(Miner.checkpoint_id) = Spec.u64At 448 data
    /\ miner.(Miner.last_claim_ore_at) = Spec.u64At 456 data
    /\ miner.(Miner.last_claim_sol_at) = Spec.u64At 464 data
    /\ miner.(Miner.rewards_factor) = Spec.bytesAt 472 16 data
    /\ miner.(Miner.rewards_sol) = Spec.u64At 488 data
    /\ miner.(Miner.rewards_ore) = Spec.u64At 496 data
    /\ miner.(Miner.refined_ore) = Spec.u64At 504 data
    /\ miner.(Miner.round_id) = Spec.u64At 512 data
    /\ miner.(Miner.lifetime_rewards_sol) = Spec.u64At 520 data
    /\ miner.(Miner.lifetime_rewards_ore) = Spec.u64At 528 data.
Proof.
  eassert (HS : Layout.Spans MINER_LAYOUT _ _).
  { unfold MINER_LAYOUT. spans. }
  unfold parseMiner, decode.
  rewrite (HS (skipn Constants.ACCOUNT_DISCRIMINATOR_SIZE data)).
  change Constants.ACCOUNT_DISCRIMINATOR_SIZE with 8%nat.
  cbn [option_map fst]. eexists. split; [reflexivity|].
  cbn [Miner.authority Miner.deployed Miner.cumulative Miner.checkpoint_fee
       Miner.checkpoint_id Miner.last_claim_ore_at Miner.last_claim_sol_at
       Miner.rewards_factor Miner.rewards_sol Miner.rewards_ore
       Miner.refined_ore Miner.round_id Miner.lifetime_rewards_sol
       Miner.lifetime_rewards_ore].
  clear HS. offsets.
Qed.

End Spans.

(** C6. For every 32-byte entropy block the winner that is announced is
    the XOR of the four 8-byte little-endian words of the block, reduced
    modulo 25, plus one; it lies in [1, 25]; equal blocks give equal
    winners; and a block is treated as populated exactly when one of its
    bytes is not zero, so an all-zero block never is. *)
Theorem outcome_derivation_deterministic (block : Solana.Buffer) :
  List.length block = 32%nat ->
  (exists w,
      Game.winnerOf block = Some w
      /\ w = Spec.xor4 block mod 25 + 1
      /\ 1 <= w <= 25)
  /\ (forall block', block' = block -> Game.winnerOf block' = Game.winnerOf block)
  /\ (forall zeros,
        Forall (fun b => b = "000"%byte) zeros ->
        Solana.isSlotHashPopulated zeros = false).
Proof.
  intros Hlen. split; [|split].
  - exists (Spec.xor4 block mod 25 + 1).
    pose proof (xor4_nonneg block) as Hnn.
    unfold Game.winnerOf. rewrite calculateRng_value by assumption.
    unfold Solana.getWinningSquare.
    rewrite Z.rem_mod_nonneg by lia.
    pose proof (Z.mod_pos_bound (Spec.xor4 block) 25 ltac:(lia)).
    repeat split; lia.
  - intros block' ->. reflexivity.
  - intros zeros Hz.
    destruct (Solana.isSlotHashPopulated zeros) eqn:E; [|reflexivity].
    apply isSlotHashPopulated_iff in E. destruct E as [b [Hin Hb]].
    rewrite Forall_forall in Hz. elim Hb. now apply Hz.
Qed.

Lemma outcome_derivation_witness :
  List.length Samples.block = 32%nat
  /\ exists w, Game.winnerOf Samples.block = Some w /\ 1 <= w <= 25.
Proof.
  split; [reflexivity|].
  destruct (outcome_derivation_deterministic Samples.block eq_refl)
    as [[w [Hw [_ Hr]]] _].
  exists w. split; assumption.
Defined.

(** ** The automation trigger *)

Section Trigger.
Import Effects.

Lemma setAppState_fired_true st :
  State.automationHasRunThisRound
    (State.setAppState [State.Set_automationHasRunThisRound true] st) = true.
Proof. reflexivity. Qed.

(** The guards, one by one. *)
Lemma runAutomationCheck_idle roundData secondsRemaining signer st :
  String.eqb st.(State.appMode) Constants.APP_MODES.IDLE = true ->
  Automation.runAutomationCheck roundData secondsRemaining signer st
  = (Returned tt, st, []).
Proof.
  intros H. unfold Automation.runAutomationCheck, bind, getState.
  cbn [outcomeOf stateOf traceOf fst snd]. now rewrite H.
Qed.

Lemma runAutomationCheck_outside_window roundData secondsRemaining signer st :
  8 < secondsRemaining \/ secondsRemaining <= 0 ->
  Automation.runAutomationCheck roundData secondsRemaining signer st
  = (Returned tt, st, []).
Proof.
  intros H. unfold Automation.runAutomationCheck, bind, getState.
  cbn [outcomeOf stateOf traceOf fst snd].
  destruct (String.eqb _ _); [reflexivity|].
  unfold Automation.AUTOMATION_TRIGGER_SECONDS.
  replace ((8 <? secondsRemaining) || (secondsRemaining <=? 0)) with true;
    [reflexivity|].
  symmetry. apply orb_true_iff. destruct H; [left|right]; lia.
Qed.

Lemma runAutomationCheck_already_fired roundData secondsRemaining signer st :
  st.(State.automationHasRunThisRound) = true ->
  Automation.runAutomationCheck roundData secondsRemaining signer st
  = (Returned tt, st, []).
Proof.
  intros H. unfold Automation.runAutomationCheck, bind, getState.
  cbn [outcomeOf stateOf traceOf fst snd].
  destruct (String.eqb _ _); [reflexivity|].
  destruct (_ || _); [reflexivity|].
  now rewrite H.
Qed.

Lemma qualifies_false_noop roundData secondsRemaining signer st :
  Spec.qualifies st secondsRemaining = false ->
  Automation.runAutomationCheck roundData secondsRemaining signer st
  = (Returned tt, st, []).
Proof.
  unfold Spec.qualifies. intros H.
  destruct (String.eqb st.(State.appMode) Constants.APP_MODES.IDLE) eqn:Hm.
  { now apply runAutomationCheck_idle. }
  destruct (st.(State.automationHasRunThisRound)) eqn:Hf.
  { now apply runAutomationCheck_already_fired. }
  apply runAutomationCheck_outside_window.
  cbn in H. rewrite andb_true_r in H. apply andb_false_iff in H.
  destruct H; lia.
Qed.

(** When the guards pass, the flag is written, the trigger is logged, and
    only then does the analysis start, in the state with the flag set. *)
Lemma qualifies_true_fires roundData secondsRemaining signer st :
  Spec.qualifies st secondsRemaining = true ->
  Automation.runAutomationCheck roundData secondsRemaining signer st
  = let st1 := State.setAppState [State.Set_automationHasRunThisRound true] st in
    let r := Automation.analyzeAndDeploy st.(State.appMode) st.(State.isSpeculating)
               st.(State.customDeployAmount) roundData signer st1 in
    (outcomeOf r, stateOf r,
     Write [State.Set_automationHasRunThisRound true]
     :: Log (L_trigger st.(State.appMode) secondsRemaining)
     :: traceOf r).
Proof.
  unfold Spec.qualifies. intros H.
  apply andb_true_iff in H. destruct H as [H Hf].
  apply andb_true_iff in H. destruct H as [H H8].
  apply andb_true_iff in H. destruct H as [Hm H0].
  apply negb_true_iff in Hm, Hf.
  unfold Automation.runAutomationCheck, bind at 1, getState.
  cbn [outcomeOf stateOf traceOf fst snd].
  rewrite Hm, Hf.
  unfold Automation.AUTOMATION_TRIGGER_SECONDS.
  replace ((8 <? secondsRemaining) || (secondsRemaining <=? 0)) with false
    by (symmetry; apply orb_false_iff; split; lia).
  unfold bind, setAppState, log, emit.
  cbn [outcomeOf stateOf traceOf fst snd app].
  reflexivity.
Qed.

Lemma filter_logs {A} (p : Effect -> bool) (f : A -> LogLine) (l : list A) :
  (forall line, p (Log line) = false) ->
  filter p (map (fun x => Log (f x)) l) = [].
Proof.
  intros Hp. induction l as [|x l IH]; cbn; [reflexivity|].
  now rewrite Hp.
Qed.

(** Steps 3 to 5 leave the state as it is; they start with the analysis,
    analyse once, and deploy at most once: exactly when the analysis has
    a best square, the mode selects a target, speculation is off and a
    signer is loaded. *)
Lemma analyzeAndDeploy_shape appMode isSpeculating customDeployAmount roundData
    signer st1 :
  exists o rest,
    Automation.analyzeAndDeploy appMode isSpeculating customDeployAmount
      roundData signer st1
    = (o, st1, Call_analyzeBoardState roundData :: rest)
    /\ Spec.analyses rest = 0%nat
    /\ (Spec.deployments rest <= 1)%nat
    /\ (Spec.deployments rest = 1%nat <->
        exists analysis best key,
          Detection.analyzeBoardState st1 roundData = Some analysis
          /\ analysis.(Detection.bestEV) = Some best
          /\ Automation.selectTargets appMode analysis <> []
          /\ isSpeculating = false
          /\ signer = Some key
          /\ In (Call_sendDeployTx (Automation.selectTargets appMode analysis) key)
                rest).
Proof.
  unfold Automation.analyzeAndDeploy, bind, emit, getState, orThrow, log, emit,
    ret, throw.
  cbn [outcomeOf stateOf traceOf fst snd app].
  destruct (Detection.analyzeBoardState st1 roundData) as [analysis|] eqn:Ha;
    cbn.
  2:{ eexists _, _. split; [reflexivity|]. cbn.
      repeat split; try lia; try (intros H; discriminate H);
      try (intros (a' & b' & k' & Ha' & Hb' & Ht' & Hs' & Hk' & _); congruence). }
  destruct (Detection.bestEV analysis) as [best|] eqn:Hb; cbn.
  2:{ eexists _, _. split; [reflexivity|]. cbn.
      repeat split; try lia; try (intros H; discriminate H);
      try (intros (a' & b' & k' & Ha' & Hb' & Ht' & Hs' & Hk' & _); congruence). }
  destruct (Automation.selectTargets appMode analysis) as [|t0 targets] eqn:Ht;
    cbn.
  { eexists _, _. split; [reflexivity|]. cbn.
    repeat split; try lia; try (intros H; discriminate H);
      try (intros (a' & b' & k' & Ha' & Hb' & Ht' & Hs' & Hk' & _); congruence). }
  destruct isSpeculating; cbn.
  { eexists _, _. split; [reflexivity|].
    unfold Spec.analyses, Spec.deployments. cbn.
    rewrite !filter_app, !filter_logs by reflexivity. cbn.
    repeat split; try lia; try (intros H; discriminate H);
      try (intros (a' & b' & k' & Ha' & Hb' & Ht' & Hs' & Hk' & _); congruence). }
  destruct signer as [key|]; cbn.
  - eexists _, _. split; [reflexivity|].
    unfold Spec.analyses, Spec.deployments. cbn.
    rewrite !filter_app, !filter_logs by reflexivity. cbn.
    repeat split; try lia.
    intros _. exists analysis, best, key. rewrite Hb, Ht.
    repeat split; try reflexivity.
    + discriminate.
    + right. right. apply in_or_app. right. now left.
  - eexists _, _. split; [reflexivity|].
    unfold Spec.analyses, Spec.deployments. cbn.
    rewrite !filter_app, !filter_logs by reflexivity. cbn.
    repeat split; try lia; try (intros H; discriminate H);
      try (intros (a' & b' & k' & Ha' & Hb' & Ht' & Hs' & Hk' & _); congruence).
Qed.

Lemma qualifies_true_iff st secondsRemaining :
  Spec.qualifies st secondsRemaining = true
  <-> st.(State.appMode) <> Constants.APP_MODES.IDLE
      /\ 0 < secondsRemaining <= 8
      /\ st.(State.automationHasRunThisRound) = false.
Proof.
  unfold Spec.qualifies.
  rewrite !andb_true_iff, !negb_true_iff, Z.ltb_lt, Z.leb_le.
  rewrite <- not_true_iff_false, String.eqb_eq. tauto.
Qed.

Lemma qualifies_false_iff st secondsRemaining :
  Spec.qualifies st secondsRemaining = false
  <-> st.(State.appMode) = Constants.APP_MODES.IDLE
      \/ secondsRemaining <= 0 \/ 8 < secondsRemaining
      \/ st.(State.automationHasRunThisRound) = true.
Proof.
  rewrite <- not_true_iff_false, qualifies_true_iff.
  destruct (String.string_dec st.(State.appMode) Constants.APP_MODES.IDLE);
    destruct st.(State.automationHasRunThisRound);
    split; intros H; try tauto; try lia.
  - right. destruct (Z_le_gt_dec secondsRemaining 0); [tauto|].
    destruct (Z_le_gt_dec secondsRemaining 8); [|right; left; lia].
    elim H. repeat split; auto; lia.
  - intros (_ & Hs & _). destruct H as [H|[H|[H|H]]];
      try contradiction; try discriminate; lia.
Qed.

(** The whole run of a qualifying invocation. *)
Lemma qualifying_run roundData secondsRemaining signer st :
  Spec.qualifies st secondsRemaining = true ->
  let st1 := State.setAppState [State.Set_automationHasRunThisRound true] st in
  exists o rest,
    Automation.runAutomationCheck roundData secondsRemaining signer st
    = (o, st1,
       Write [State.Set_automationHasRunThisRound true]
       :: Log (L_trigger st.(State.appMode) secondsRemaining)
       :: Call_analyzeBoardState roundData :: rest)
    /\ Spec.analyses rest = 0%nat
    /\ (Spec.deployments rest <= 1)%nat
    /\ (Spec.deployments rest = 1%nat <->
        exists analysis best key,
          Detection.analyzeBoardState st1 roundData = Some analysis
          /\ analysis.(Detection.bestEV) = Some best
          /\ Automation.selectTargets st.(State.appMode) analysis <> []
          /\ st.(State.isSpeculating) = false
          /\ signer = Some key
          /\ In (Call_sendDeployTx
                   (Automation.selectTargets st.(State.appMode) analysis) key)
                rest).
Proof.
  intros Hq st1. rewrite (qualifies_true_fires _ _ _ _ Hq). cbv zeta.
  fold st1.
  destruct (analyzeAndDeploy_shape st.(State.appMode) st.(State.isSpeculating)
              st.(State.customDeployAmount) roundData signer st1)
    as (o & rest & -> & Hrest).
  exists o, rest. split; [reflexivity|exact Hrest].
Qed.

Lemma setAppState_keeps_fired newState st :
  existsb Spec.assignsFired newState = false ->
  State.automationHasRunThisRound (State.setAppState newState st)
  = State.automationHasRunThisRound st.
Proof.
  unfold State.setAppState. revert st.
  induction newState as [|a l IH]; intros st H; cbn in *; [reflexivity|].
  apply orb_false_iff in H. destruct H as [Ha Hl].
  rewrite IH by assumption.
  destruct a; try reflexivity. discriminate Ha.
Qed.

(** Once the flag is set, the rest of the round is silent. *)
Lemma fired_round_silent steps st :
  forallb Spec.withinRound steps = true ->
  st.(State.automationHasRunThisRound) = true ->
  snd (Spec.runRound steps st) = []
  /\ State.automationHasRunThisRound (fst (Spec.runRound steps st)) = true.
Proof.
  revert st. induction steps as [|step steps IH]; intros st Hw Hf;
    cbn [Spec.runRound forallb] in *.
  { auto. }
  apply andb_true_iff in Hw. destruct Hw as [Hs Hw].
  destruct step as [rd s signer | newState].
  - rewrite runAutomationCheck_already_fired by assumption.
    cbn. specialize (IH st Hw Hf).
    destruct (Spec.runRound steps st) as [st' t]. cbn in *. tauto.
  - apply IH; [assumption|].
    cbn in Hs. apply negb_true_iff in Hs.
    now rewrite setAppState_keeps_fired.
Qed.

Lemma round_at_most_once steps st :
  forallb Spec.withinRound steps = true ->
  (Spec.analyses (snd (Spec.runRound steps st)) <= 1)%nat
  /\ (Spec.deployments (snd (Spec.runRound steps st)) <= 1)%nat.
Proof.
  revert st. induction steps as [|step steps IH]; intros st Hw;
    cbn [Spec.runRound forallb] in *.
  { unfold Spec.analyses, Spec.deployments. cbn. lia. }
  apply andb_true_iff in Hw. destruct Hw as [Hs Hw].
  destruct step as [rd s signer | newState]; [|now apply IH].
  destruct (Spec.qualifies st s) eqn:Hq.
  - destruct (qualifying_run rd s signer st Hq) as (o & rest & -> & Ha & Hd & _).
    cbn [stateOf traceOf fst snd].
    destruct (fired_round_silent steps
                (State.setAppState [State.Set_automationHasRunThisRound true] st)
                Hw eq_refl) as [Ht _].
    destruct (Spec.runRound steps _) as [st' t]. cbn in Ht. subst t.
    cbn [snd]. rewrite app_nil_r.
    unfold Spec.analyses, Spec.deployments in *. cbn. lia.
  - rewrite (qualifies_false_noop _ _ _ _ Hq). cbn [stateOf traceOf fst snd].
    specialize (IH st Hw).
    destruct (Spec.runRound steps st) as [st' t]. exact IH.
Qed.

End Trigger.

(** C4. The trigger analyses and deploys only when the mode is not idle,
    the remaining seconds lie in (0, 8] and the flag of the round is not
    set, and does nothing otherwise: it returns at once, with the state
    as it was and no effect. When all three hold it sets the flag and
    analyses the board. So 9 seconds and 0 seconds do nothing, and 1
    second qualifies. *)
Theorem trigger_guards (st : State.AppState)
    (roundData : option Solana.RoundData) (secondsRemaining : Z)
    (signer : option Effects.Keypair) :
  let r := Automation.runAutomationCheck roundData secondsRemaining signer st in
  ((st.(State.appMode) = Constants.APP_MODES.IDLE
    \/ secondsRemaining <= 0 \/ 8 < secondsRemaining
    \/ st.(State.automationHasRunThisRound) = true) ->
   Spec.noop st r)
  /\ ((st.(State.appMode) <> Constants.APP_MODES.IDLE
       /\ 0 < secondsRemaining <= 8
       /\ st.(State.automationHasRunThisRound) = false) ->
      Spec.analyses (Effects.traceOf r) = 1%nat
      /\ In (Effects.Call_analyzeBoardState roundData) (Effects.traceOf r)
      /\ State.automationHasRunThisRound (Effects.stateOf r) = true)
  /\ ((0 < Spec.analyses (Effects.traceOf r))%nat
      \/ (0 < Spec.deployments (Effects.traceOf r))%nat ->
      st.(State.appMode) <> Constants.APP_MODES.IDLE
      /\ 0 < secondsRemaining <= 8
      /\ st.(State.automationHasRunThisRound) = false).
Proof.
  intros r. subst r. split; [|split].
  - intros H. apply qualifies_false_iff in H.
    now apply qualifies_false_noop.
  - intros H. apply qualifies_true_iff in H.
    destruct (qualifying_run roundData secondsRemaining signer st H)
      as (o & rest & -> & Ha & _).
    cbn [Effects.traceOf Effects.stateOf fst snd].
    unfold Spec.analyses in *. cbn. rewrite Ha.
    repeat split; auto.
  - intros H. apply qualifies_true_iff.
    destruct (Spec.qualifies st secondsRemaining) eqn:Hq; [reflexivity|].
    rewrite (qualifies_false_noop _ _ _ _ Hq) in H.
    cbn in H. lia.
Qed.

Lemma trigger_guards_witness :
  Spec.noop (Samples.running "3x EV")
    (Automation.runAutomationCheck (Some Samples.round) 9 (Some Samples.keypair)
       (Samples.running "3x EV"))
  /\ Spec.noop (Samples.running "3x EV")
       (Automation.runAutomationCheck (Some Samples.round) 0 (Some Samples.keypair)
          (Samples.running "3x EV"))
  /\ Spec.analyses
       (Effects.traceOf
          (Automation.runAutomationCheck (Some Samples.round) 1
             (Some Samples.keypair) (Samples.running "3x EV"))) = 1%nat.
Proof.
  pose proof (trigger_guards (Samples.running "3x EV") (Some Samples.round) 9
                (Some Samples.keypair)) as [H9 _].
  pose proof (trigger_guards (Samples.running "3x EV") (Some Samples.round) 0
                (Some Samples.keypair)) as [H0 _].
  pose proof (trigger_guards (Samples.running "3x EV") (Some Samples.round) 1
                (Some Samples.keypair)) as [_ [H1 _]].
  split; [|split].
  - apply H9. right. right. left. lia.
  - apply H0. right. left. lia.
  - destruct H1 as [Ha _]; [|exact Ha].
    split; [|split; [lia|]].
    + vm_compute. discriminate.
    + vm_compute. reflexivity.
Defined.

(** C1. The trigger fires at most once per round. On the first qualifying
    tick the write of the flag is the first thing the trigger does, ahead
    of the analysis and of any deployment; an invocation that finds the
    flag set does nothing, whatever the mode and the remaining seconds;
    and so, over any run of ticks and other state updates within a round,
    the board is analysed at most once and at most one deployment is
    requested. *)
Theorem trigger_at_most_once_per_round :
  (forall st roundData secondsRemaining signer,
      Spec.qualifies st secondsRemaining = true ->
      let r := Automation.runAutomationCheck roundData secondsRemaining signer st in
      exists rest,
        Effects.traceOf r
        = Effects.Write [State.Set_automationHasRunThisRound true] :: rest
        /\ Spec.before Spec.setsFired (Effects.traceOf r) = []
        /\ State.automationHasRunThisRound (Effects.stateOf r) = true)
  /\ (forall st roundData secondsRemaining signer,
         st.(State.automationHasRunThisRound) = true ->
         Spec.noop st
           (Automation.runAutomationCheck roundData secondsRemaining signer st))
  /\ (forall steps st,
         forallb Spec.withinRound steps = true ->
         (Spec.analyses (snd (Spec.runRound steps st)) <= 1)%nat
         /\ (Spec.deployments (snd (Spec.runRound steps st)) <= 1)%nat).
Proof.
  split; [|split].
  - intros st roundData secondsRemaining signer Hq r. subst r.
    destruct (qualifying_run roundData secondsRemaining signer st Hq)
      as (o & rest & -> & _).
    eexists. cbn [Effects.traceOf Effects.stateOf fst snd].
    repeat split.
  - intros st roundData secondsRemaining signer Hf.
    now apply runAutomationCheck_already_fired.
  - apply round_at_most_once.
Qed.

Lemma trigger_at_most_once_witness :
  (Spec.deployments
     (snd (Spec.runRound
             [Spec.Tick (Some Samples.round) 8 (Some Samples.keypair);
              Spec.Update [State.Set_appMode "5x EV"];
              Spec.Tick (Some Samples.round) 7 (Some Samples.keypair);
              Spec.Tick (Some Samples.round) 6 (Some Samples.keypair)]
             (Samples.running "3x EV"))) <= 1)%nat.
Proof.
  apply (proj2 (proj2 trigger_at_most_once_per_round)).
  reflexivity.
Defined.

(** C9. A failed attempt consumes the trigger of the round. Once the
    guards pass, the flag is set before the board is analysed; if the
    attempt then ends without a deployment (the analysis throws or finds
    no positive-EV square, the mode selects no target, speculation is on,
    or no signer is loaded), the flag is still set, and every later
    invocation in the round does nothing. *)
Theorem failed_attempt_consumes_trigger (st : State.AppState)
    (roundData : option Solana.RoundData) (secondsRemaining : Z)
    (signer : option Effects.Keypair) :
  Spec.qualifies st secondsRemaining = true ->
  let st1 := State.setAppState [State.Set_automationHasRunThisRound true] st in
  let r := Automation.runAutomationCheck roundData secondsRemaining signer st in
  (match Detection.analyzeBoardState st1 roundData with
   | None => True
   | Some analysis =>
       analysis.(Detection.bestEV) = None
       \/ Automation.selectTargets st.(State.appMode) analysis = []
   end
   \/ st.(State.isSpeculating) = true
   \/ signer = None) ->
  Spec.deployments (Effects.traceOf r) = 0%nat
  /\ Spec.before Spec.isAnalysis (Effects.traceOf r)
     = [Effects.Write [State.Set_automationHasRunThisRound true];
        Effects.Log (Effects.L_trigger st.(State.appMode) secondsRemaining)]
  /\ State.automationHasRunThisRound (Effects.stateOf r) = true
  /\ (forall roundData' secondsRemaining' signer',
         Spec.noop (Effects.stateOf r)
           (Automation.runAutomationCheck roundData' secondsRemaining' signer'
              (Effects.stateOf r)))
  /\ (forall steps,
         forallb Spec.withinRound steps = true ->
         snd (Spec.runRound steps (Effects.stateOf r)) = []).
Proof.
  intros Hq st1 r Habort. subst r.
  destruct (qualifying_run roundData secondsRemaining signer st Hq)
    as (o & rest & -> & Ha & Hd & Hiff).
  fold st1 in Hiff |- *.
  cbn [Effects.traceOf Effects.stateOf fst snd].
  assert (Hnone : Spec.deployments rest = 0%nat).
  { destruct (Spec.deployments rest) as [|[|n]] eqn:E; [reflexivity| |lia].
    destruct (proj1 Hiff eq_refl)
      as (analysis & best & key & Han & Hb & Ht & Hs & Hk & _).
    rewrite Han in Habort.
    destruct Habort as [[H|H]|[H|H]]; congruence. }
  split; [|split; [|split; [|split]]].
  - unfold Spec.deployments in *. cbn. exact Hnone.
  - reflexivity.
  - reflexivity.
  - intros. now apply runAutomationCheck_already_fired.
  - intros steps Hw. now apply fired_round_silent.
Qed.

Lemma failed_attempt_witness :
  let st := State.assign (State.Set_isSpeculating true) (Samples.running "3x EV") in
  let r := Automation.runAutomationCheck (Some Samples.round) 5
             (Some Samples.keypair) st in
  Spec.deployments (Effects.traceOf r) = 0%nat
  /\ Spec.noop (Effects.stateOf r)
       (Automation.runAutomationCheck (Some Samples.round) 4
          (Some Samples.keypair) (Effects.stateOf r)).
Proof.
  intros st r.
  assert (Hq : Spec.qualifies st 5 = true) by (vm_compute; reflexivity).
  assert (Hs : st.(State.isSpeculating) = true) by (vm_compute; reflexivity).
  pose proof (failed_attempt_consumes_trigger st (Some Samples.round) 5
                (Some Samples.keypair) Hq (or_intror (or_introl Hs)))
    as (H1 & _ & _ & H4 & _).
  split; [exact H1|apply H4].
Defined.



(** ** The deployment sequencer *)

Section Sequencer.
Import Effects.

Ltac step :=
  first
    [ rewrite bind_assoc | rewrite bind_ret | rewrite bind_getState
    | rewrite bind_log | rewrite bind_emit | rewrite bind_setAppState
    | rewrite bind_await | rewrite bind_orThrow | rewrite bind_throw
    | rewrite traceOf_prepend | rewrite submissions_app
    | match goal with
      | |- context [bind (if ?c then _ else _) _ _] => destruct c eqn:?
      | |- context [bind (match ?x with _ => _ end) _ _] => destruct x eqn:?
      | |- context [traceOf (match ?x with _ => _ end)] => destruct x eqn:?
      | |- context [traceOf (if ?c then _ else _)] => destruct c eqn:?
      end ].

Ltac finish :=
  unfold ret, throw, log, emit, setAppState;
  cbn [Spec.submissions flat_map app traceOf stateOf outcomeOf fst snd].

(** What [buildAndSend] submits: nothing, or the one transaction made of
    the two compute-budget instructions, the checkpoint of the tracked
    round when the state is dirty and that round is older than the
    current one, and the deployment. *)
Lemma buildAndSend_submissions targets connection signer currentRoundId
    customDeployAmount st :
  let r := Transactions.buildAndSend targets connection signer currentRoundId
             customDeployAmount st in
  let minerRoundId := fst (Spec.minerMarkers connection signer) in
  let minerCheckpointId := snd (Spec.minerMarkers connection signer) in
  Spec.submissions (traceOf r) = []
  \/ exists amount mask,
      Spec.submissions (traceOf r)
      = [ [SetComputeUnitLimit 750000; SetComputeUnitPrice 100000]
          ++ (if Transactions.isStateDirty minerRoundId minerCheckpointId
                 && Transactions.canCheckpoint minerRoundId currentRoundId
              then [Spec.checkpointOf signer minerRoundId]
              else [])
          ++ [Spec.deploymentOf signer currentRoundId amount mask] ].
Proof.
  unfold Transactions.buildAndSend, Spec.minerMarkers. cbv zeta.
  change (Solana.getMinerPda (publicKey signer))
    with (Solana.MinerPda (publicKey signer)).
  rewrite bind_await.
  destruct (getAccountInfo connection _) as [[data|]|message];
    [|cbn [fst snd]|now left].
  - destruct (parseMiner_reads data)
      as (miner & Hm & _ & _ & _ & _ & Hc & _ & _ & _ & _ & _ & _ & Hr & _).
    rewrite <- Hr, <- Hc. cbn [fst snd].
    rewrite traceOf_prepend, submissions_app, bind_assoc, bind_orThrow, Hm.
    repeat step; finish.
    all: try (now left).
    all: right; eexists _, _.
    all: cbn [fst snd] in *.
    all: repeat match goal with
           | H : _ && _ = _ |- _ => rewrite H
           end.
    all: reflexivity.
  - repeat step; finish.
    all: try (now left).
    all: right; eexists _, _.
    all: repeat match goal with
           | H : _ && _ = _ |- _ => rewrite H
           end.
    all: reflexivity.
Qed.

Lemma submissions_tryCatch {A} (m : M A) (h : string -> M A) s :
  (forall message s', Spec.submissions (traceOf (h message s')) = []) ->
  Spec.submissions (traceOf (tryCatch m h s)) = Spec.submissions (traceOf (m s)).
Proof.
  intros Hh. unfold tryCatch. cbv zeta.
  destruct (outcomeOf (m s)) as [a|message]; [reflexivity|].
  cbn [traceOf snd]. fold (traceOf (m s)).
  rewrite submissions_app. fold (traceOf (h message (stateOf (m s)))).
  rewrite Hh. apply app_nil_r.
Qed.

Lemma needs_checkpoint_iff minerRoundId minerCheckpointId currentRoundId :
  Transactions.isStateDirty minerRoundId minerCheckpointId
  && Transactions.canCheckpoint minerRoundId currentRoundId = true
  <-> minerRoundId <> minerCheckpointId /\ minerRoundId < currentRoundId.
Proof.
  unfold Transactions.isStateDirty, Transactions.canCheckpoint.
  rewrite andb_true_iff, negb_true_iff, Z.eqb_neq, Z.ltb_lt. tauto.
Qed.

(** What [sendDeployTx] submits. *)
Lemma sendDeployTx_submissions targets connection signer st :
  let r := Transactions.sendDeployTx targets connection (Some signer) st in
  let currentRoundId := st.(State.currentRoundId) in
  let minerRoundId := fst (Spec.minerMarkers connection signer) in
  let minerCheckpointId := snd (Spec.minerMarkers connection signer) in
  Spec.submissions (traceOf r) = []
  \/ exists amount mask,
      Spec.submissions (traceOf r)
      = [ [SetComputeUnitLimit 750000; SetComputeUnitPrice 100000]
          ++ (if Transactions.isStateDirty minerRoundId minerCheckpointId
                 && Transactions.canCheckpoint minerRoundId currentRoundId
              then [Spec.checkpointOf signer minerRoundId]
              else [])
          ++ [Spec.deploymentOf signer currentRoundId amount mask] ].
Proof.
  unfold Transactions.sendDeployTx. cbv zeta.
  destruct (List.length targets =? 0)%nat; [now left|].
  rewrite submissions_tryCatch.
  2:{ intros message s'. destruct (Transactions.includes _ _); reflexivity. }
  rewrite bind_getState, bind_await.
  destruct (getAccountInfo connection _) as [[data|]|message];
    [|now left|now left].
  rewrite traceOf_prepend, submissions_app. cbn [Spec.submissions flat_map app].
  destruct (Solana.parseRound data); [|now left].
  apply buildAndSend_submissions.
Qed.

End Sequencer.

(** C5. A deployment submits at most one transaction. When the round
    the signer's miner account tracks (the integer at offset 512 of the
    account) differs from the round it last synced to (the integer at
    offset 448) and is older than the current round, that transaction
    holds, immediately before the deployment to the current round, the
    checkpoint of the tracked round: the instruction with opcode 2 on
    the signer, the board, the miner account, the account of the
    tracked round, the treasury and the system program. In every other
    case it holds the deployment and no checkpoint. *)
Theorem checkpoint_precedes_deploy (targets : list Detection.EvEntry)
    (connection : Effects.Connection) (signer : Effects.Keypair)
    (st : State.AppState) (tx : Effects.Transaction) :
  let r := Transactions.sendDeployTx targets connection (Some signer) st in
  let currentRoundId := st.(State.currentRoundId) in
  let minerRoundId := fst (Spec.minerMarkers connection signer) in
  let minerCheckpointId := snd (Spec.minerMarkers connection signer) in
  let key := signer.(Effects.publicKey) in
  let account address signs writable :=
    {| Effects.pubkey := address;
       Effects.isSigner := signs; Effects.isWritable := writable |} in
  let checkpoint :=
    Effects.OreInstruction
      [ account (Effects.Wallet key) true true;
        account (Effects.Derived Solana.BoardPda) false false;
        account (Effects.Derived (Solana.MinerPda key)) false true;
        account (Effects.Derived (Solana.RoundPda minerRoundId)) false true;
        account (Effects.Derived Solana.TreasuryPda) false true;
        account Effects.SYSTEM_PROGRAM_ID false false ]
      ["002"%byte] in
  let deployment amount mask :=
    Effects.OreInstruction
      [ account (Effects.Wallet key) true true;
        account (Effects.Wallet key) false true;
        account (Effects.Derived (Solana.AutomationPda key)) false true;
        account (Effects.Derived Solana.BoardPda) false true;
        account (Effects.Derived (Solana.MinerPda key)) false true;
        account (Effects.Derived (Solana.RoundPda currentRoundId)) false true;
        account Effects.SYSTEM_PROGRAM_ID false false;
        account Effects.ORE_VAR_ADDRESS false true;
        account Effects.ENTROPY_PROGRAM_ID false false ]
      ("006"%byte :: amount ++ mask) in
  In tx (Spec.submissions (Effects.traceOf r)) ->
  Spec.submissions (Effects.traceOf r) = [tx]
  /\ exists amount mask,
      ((minerRoundId <> minerCheckpointId /\ minerRoundId < currentRoundId) ->
       tx = [Effects.SetComputeUnitLimit 750000;
             Effects.SetComputeUnitPrice 100000;
             checkpoint;
             deployment amount mask])
      /\ (~ (minerRoundId <> minerCheckpointId /\ minerRoundId < currentRoundId) ->
          tx = [Effects.SetComputeUnitLimit 750000;
                Effects.SetComputeUnitPrice 100000;
                deployment amount mask]).
Proof.
  intros r currentRoundId minerRoundId minerCheckpointId key account checkpoint
    deployment Hin.
  destruct (sendDeployTx_submissions targets connection signer st)
    as [Hnone | (amount & mask & Hone)];
    fold r in Hnone || fold r in Hone.
  { rewrite Hnone in Hin. destruct Hin. }
  fold currentRoundId minerRoundId minerCheckpointId in Hone.
  rewrite Hone in Hin |- *. destruct Hin as [<-|[]].
  split; [reflexivity|]. exists amount, mask.
  pose proof (needs_checkpoint_iff minerRoundId minerCheckpointId currentRoundId)
    as Hiff.
  destruct (Transactions.isStateDirty minerRoundId minerCheckpointId
            && Transactions.canCheckpoint minerRoundId currentRoundId).
  - split; [reflexivity|]. intros Hn. elim Hn. now apply Hiff.
  - split; [|reflexivity]. intros Hy. apply Hiff in Hy. discriminate Hy.
Qed.

Lemma checkpoint_precedes_deploy_witness :
  let r := Transactions.sendDeployTx Samples.targets (Samples.node 41 40)
             (Some Samples.keypair) (Samples.running "3x EV") in
  let key := repeat "001"%byte 32 in
  exists tx deployment,
    Spec.submissions (Effects.traceOf r) = [tx]
    /\ Spec.minerMarkers (Samples.node 41 40) Samples.keypair = (41, 40)
    /\ tx = [Effects.SetComputeUnitLimit 750000;
             Effects.SetComputeUnitPrice 100000;
             Effects.OreInstruction
               [ {| Effects.pubkey := Effects.Wallet key;
                    Effects.isSigner := true; Effects.isWritable := true |};
                 {| Effects.pubkey := Effects.Derived Solana.BoardPda;
                    Effects.isSigner := false; Effects.isWritable := false |};
                 {| Effects.pubkey := Effects.Derived (Solana.MinerPda key);
                    Effects.isSigner := false; Effects.isWritable := true |};
                 {| Effects.pubkey := Effects.Derived (Solana.RoundPda 41);
                    Effects.isSigner := false; Effects.isWritable := true |};
                 {| Effects.pubkey := Effects.Derived Solana.TreasuryPda;
                    Effects.isSigner := false; Effects.isWritable := true |};
                 {| Effects.pubkey := Effects.SYSTEM_PROGRAM_ID;
                    Effects.isSigner := false; Effects.isWritable := false |} ]
               ["002"%byte];
             deployment].
Proof.
  intros r key.
  set (tx := hd [] (Spec.submissions (Effects.traceOf r))).
  assert (Hin : In tx (Spec.submissions (Effects.traceOf r)))
    by (vm_compute; left; reflexivity).
  assert (Hm : Spec.minerMarkers (Samples.node 41 40) Samples.keypair = (41, 40))
    by (vm_compute; reflexivity).
  assert (Hc : State.currentRoundId (Samples.running "3x EV") = 42)
    by (vm_compute; reflexivity).
  pose proof (checkpoint_precedes_deploy Samples.targets (Samples.node 41 40)
                Samples.keypair (Samples.running "3x EV") tx Hin) as H.
  cbv zeta in H. destruct H as [Hs (amount & mask & Hyes & _)].
  rewrite Hm, Hc in Hyes. cbn [fst snd] in Hyes.
  eexists tx, _.
  split; [exact Hs|]. split; [exact Hm|].
  rewrite Hyes by (split; [discriminate|reflexivity]).
  reflexivity.
Defined.

(** ** The round state tracker *)

Section Tracker.
Import Effects.

Ltac step :=
  first
    [ rewrite bind_assoc | rewrite bind_ret | rewrite bind_getState
    | rewrite bind_log | rewrite bind_emit | rewrite bind_setAppState
    | rewrite bind_await | rewrite bind_orThrow | rewrite bind_throw ].

Lemma u64_nonneg (b : Solana.Buffer) v rest :
  Solana.u64 b = Some (v, rest) -> 0 <= v.
Proof.
  unfold Solana.u64, Solana.blob. intros H.
  replace v with (Solana.toBigIntLE (firstn 8 b)) by congruence.
  rewrite toBigIntLE_le_value. apply le_value_nonneg.
Qed.

Lemma parseBoard_round_id_nonneg data boardData :
  Solana.parseBoard data = Some boardData ->
  0 <= boardData.(Solana.Board.round_id).
Proof.
  unfold Solana.parseBoard, Solana.decode, Solana.BOARD_LAYOUT, Solana.dbind,
    Solana.dret.
  destruct (Solana.u64 _) as [[r b1]|] eqn:Hr; [|discriminate].
  destruct (Solana.u64 b1) as [[s b2]|]; [|discriminate].
  destruct (Solana.u64 b2) as [[e b3]|]; [|discriminate].
  cbn. intros H. injection H as <-. cbn. eapply u64_nonneg; eassumption.
Qed.

Lemma first_notification_run connection data st boardData :
  st.(State.currentRoundId) = -1 ->
  Solana.parseBoard data = Some boardData ->
  let newRoundId := boardData.(Solana.Board.round_id) in
  let st1 := State.setAppState [State.Set_currentBoardData (Some boardData)] st in
  Game.processBoardUpdate connection data st
  = tryCatch
      (fun s =>
         prepend [Write [State.Set_currentBoardData (Some boardData)]]
           (Game.setUpNewRound connection newRoundId
              st.(State.roundSubscriptionId) st1))
      (fun message =>
         bind (log (L_error_processing_board message))
              (fun _ => setAppState [State.Set_isTransitioningRound false]))
      st.
Proof.
  intros Hcur Hparse newRoundId st1.
  pose proof (parseBoard_round_id_nonneg _ _ Hparse) as Hnn.
  unfold Game.processBoardUpdate, tryCatch. cbv zeta.
  repeat step. rewrite Hparse. repeat step.
  cbn [State.setAppState fold_left State.assign State.currentRoundId
       State.roundSubscriptionId].
  rewrite Hcur.
  replace ((-1 <? Solana.Board.round_id boardData) && (-1 <? -1)) with false
    by (now rewrite andb_false_r).
  repeat step.
  replace (Solana.Board.round_id boardData =? -1) with false
    by (symmetry; apply Z.eqb_neq; lia).
  reflexivity.
Qed.

Ltac split_run :=
  match goal with
  | |- context [match ?x with _ => _ end] =>
      lazymatch x with
      | context [match _ with _ => _ end] => fail
      | context [outcomeOf] => fail
      | _ => destruct x eqn:?
      end
  end.

Ltac run :=
  repeat first
    [ step
    | rewrite bind_tryCatch
    | rewrite tryCatch_bind_assoc | rewrite tryCatch_bind_ret
    | rewrite tryCatch_bind_getState | rewrite tryCatch_bind_log
    | rewrite tryCatch_bind_emit | rewrite tryCatch_bind_setAppState
    | rewrite tryCatch_bind_await | rewrite tryCatch_bind_orThrow
    | rewrite tryCatch_log | rewrite tryCatch_emit | rewrite tryCatch_ret
    | rewrite outcomeOf_prepend | rewrite stateOf_prepend
    | rewrite traceOf_prepend
    | progress cbn [outcomeOf stateOf traceOf fst snd]
    | split_run ].

(** Setting up a new round: the flags are reset and the round is tracked
    first; nothing that follows finalizes a round or touches the flags or
    the tracked id again. *)
Lemma setUpNewRound_run connection newRoundId roundSubscriptionId s :
  let r := Game.setUpNewRound connection newRoundId roundSubscriptionId s in
  firstn 2 (traceOf r)
  = [Write [State.Set_automationHasRunThisRound false;
            State.Set_checkpointHasRunThisRound false];
     Write [State.Set_currentRoundId newRoundId;
            State.Set_currentRoundData None;
            State.Set_winnerAnnounced false]]
  /\ existsb Spec.isFinalization (traceOf r) = false
  /\ State.currentRoundId (stateOf r) = newRoundId
  /\ State.automationHasRunThisRound (stateOf r) = false
  /\ State.checkpointHasRunThisRound (stateOf r) = false
  /\ State.isTransitioningRound (stateOf r) = State.isTransitioningRound s.
Proof.
  unfold Game.setUpNewRound, Automation.resetRoundFlags,
    Game.processRoundUpdate.
  cbv zeta.
  run.
  all: repeat split; vm_compute; reflexivity.
Qed.

End Tracker.

(** C10. On the first board notification after startup the tracked round
    id is still -1: no round is finalized ([finalizeOldRound] is not
    called and logs nothing), and the handler goes straight on, after
    storing the board, to reset the round flags and to track the notified
    round, which is the round it tracks when it ends. *)
Theorem first_notification_skips_finalization
    (connection : Effects.Connection) (data : Solana.Buffer)
    (st : State.AppState) (boardData : Solana.BoardData) :
  st.(State.currentRoundId) = -1 ->
  Solana.parseBoard data = Some boardData ->
  let r := Game.processBoardUpdate connection data st in
  existsb Spec.isFinalization (Effects.traceOf r) = false
  /\ firstn 3 (Effects.traceOf r)
     = [Effects.Write [State.Set_currentBoardData (Some boardData)];
        Effects.Write [State.Set_automationHasRunThisRound false;
                       State.Set_checkpointHasRunThisRound false];
        Effects.Write [State.Set_currentRoundId boardData.(Solana.Board.round_id);
                       State.Set_currentRoundData None;
                       State.Set_winnerAnnounced false]]
  /\ State.currentRoundId (Effects.stateOf r) = boardData.(Solana.Board.round_id)
  /\ State.automationHasRunThisRound (Effects.stateOf r) = false
  /\ State.checkpointHasRunThisRound (Effects.stateOf r) = false.
Proof.
  intros Hcur Hparse r. subst r.
  rewrite (first_notification_run connection data st boardData Hcur Hparse).
  cbv zeta.
  set (st1 := State.setAppState [State.Set_currentBoardData (Some boardData)] st).
  destruct (setUpNewRound_run connection boardData.(Solana.Board.round_id)
              st.(State.roundSubscriptionId) st1)
    as (Hfirst & Hfin & Hid & Hauto & Hcheck & Htrans).
  set (R := Game.setUpNewRound connection boardData.(Solana.Board.round_id)
              st.(State.roundSubscriptionId) st1) in *.
  destruct (Effects.traceOf R) as [|w1 [|w2 rest]] eqn:Htrace;
    try discriminate Hfirst.
  cbn [firstn] in Hfirst. injection Hfirst as -> ->.
  unfold Effects.tryCatch. cbv zeta.
  rewrite outcomeOf_prepend, stateOf_prepend, traceOf_prepend.
  rewrite Htrace.
  destruct (Effects.outcomeOf R) as [[]|message].
  - rewrite traceOf_prepend, stateOf_prepend, Htrace.
    cbn [app firstn]. cbn [existsb Spec.isFinalization orb] in Hfin |- *.
    repeat split; assumption.
  - unfold Effects.bind, Effects.log, Effects.emit, Effects.setAppState.
    cbn [Effects.traceOf Effects.stateOf Effects.outcomeOf fst snd app firstn].
    cbn [existsb Spec.isFinalization orb] in Hfin |- *.
    rewrite existsb_app. rewrite Hfin.
    repeat split; try assumption; destruct (Effects.stateOf R); cbn in *;
      assumption || reflexivity.
Qed.

Lemma first_notification_witness :
  let r := Game.processBoardUpdate (Samples.node 0 0) Samples.boardAccount
             State.initialState in
  existsb Spec.isFinalization (Effects.traceOf r) = false
  /\ State.currentRoundId (Effects.stateOf r) = 42.
Proof.
  intros r.
  assert (Hp : Solana.parseBoard Samples.boardAccount = Some Samples.board)
    by (vm_compute; reflexivity).
  destruct (first_notification_skips_finalization (Samples.node 0 0)
              Samples.boardAccount State.initialState Samples.board
              eq_refl Hp)
    as (Hfin & _ & Hid & _).
  split; [exact Hfin|exact Hid].
Defined.

(** ** Target selection *)

(** The targets each mode selects from an analysis. *)
Lemma selectTargets_modes (analysis : Detection.Analysis) :
  Automation.selectTargets Constants.APP_MODES.ONE_X_EV analysis
  = match analysis.(Detection.bestEV) with Some best => [best] | None => [] end
  /\ Automation.selectTargets Constants.APP_MODES.THREE_X_EV analysis
     = firstn 3 analysis.(Detection.byEV)
  /\ Automation.selectTargets Constants.APP_MODES.FIVE_X_EV analysis
     = firstn 5 analysis.(Detection.byEV)
  /\ (forall appMode,
         appMode <> Constants.APP_MODES.ONE_X_EV ->
         appMode <> Constants.APP_MODES.THREE_X_EV ->
         appMode <> Constants.APP_MODES.FIVE_X_EV ->
         Automation.selectTargets appMode analysis = []).
Proof.
  repeat split.
  intros appMode H1 H3 H5. unfold Automation.selectTargets.
  apply String.eqb_neq in H1, H3, H5. now rewrite H1, H3, H5.
Qed.

(** C2, at the input where the code departs from it. In the mode
    [25x EV], on a round with three positive-EV squares, the trigger
    selects no target: it logs that no valid target was found and
    requests no deployment. *)
Theorem top25_mode_selects_no_target :
  let st := Samples.running Constants.APP_MODES.TWENTY_FIVE_X_EV in
  let r := Automation.runAutomationCheck (Some Samples.round) 5
             (Some Samples.keypair) st in
  option_map (fun a => List.length a.(Detection.byEV))
    (Detection.analyzeBoardState st (Some Samples.round)) = Some 3%nat
  /\ option_map (Automation.selectTargets Constants.APP_MODES.TWENTY_FIVE_X_EV)
       (Detection.analyzeBoardState st (Some Samples.round)) = Some []
  /\ Effects.traceOf r
     = [Effects.Write [State.Set_automationHasRunThisRound true];
        Effects.Log (Effects.L_trigger "25x EV" 5);
        Effects.Call_analyzeBoardState (Some Samples.round);
        Effects.Log (Effects.L_no_valid_targets "25x EV")]
  /\ Spec.deployments (Effects.traceOf r) = 0%nat.
Proof.
  cbv zeta. repeat split; vm_compute; reflexivity.
Qed.

(** ** The valuation model *)

Section Valuation.
Local Open Scope float_scope.
Import Constants.

Lemma float_neq (x y : float) (p : float -> bool) :
  p x = true -> p y = false -> x <> y.
Proof. intros Hx Hy ->. congruence. Qed.

(** C7 as the specification states it fails: with an empty reward pool
    and an ORE price of 1 SOL the valuation is 0.9, not 0. *)
Lemma ore_value_counterexample :
  Ev.getOreValueInSOL (Samples.running "3x EV") Samples.round
  <> Spec.claimedOreValue
       (JS.Number_of_Z Samples.round.(Solana.Round.motherlode))
       (Samples.running "3x EV").(State.priceOreSol).
Proof.
  apply (float_neq _ _ (fun x => 0 <? x)); vm_compute; reflexivity.
Qed.

(** C7, amended. The external reward valuation is
    [priceOreSol * REF_MULT * (1 + M * HIT_PROB)], where [M] is the reward
    pool size scaled by 10^-11; when the scaled pool size is not finite,
    the default 0.2 stands in for [M]. *)
Theorem ore_value_formula (st : State.AppState) (roundData : Solana.RoundData) :
  let M := JS.Number_of_Z roundData.(Solana.Round.motherlode)
           * (1 / 100000000000) in
  (JS.isFinite M = true ->
   Ev.getOreValueInSOL st roundData
   = st.(State.priceOreSol) * REF_MULT * (1 + M * HIT_PROB))
  /\ (JS.isFinite M = false ->
      Ev.getOreValueInSOL st roundData
      = st.(State.priceOreSol) * REF_MULT
        * (1 + 0x1.999999999999ap-3 * HIT_PROB)).
Proof.
  intros M. unfold Ev.getOreValueInSOL, Ev.oreValueOfNumber. fold M.
  split; intros ->; reflexivity.
Qed.

Lemma ore_value_formula_witness :
  Ev.getOreValueInSOL (Samples.running "3x EV") Samples.round
  = 1 * REF_MULT * (1 + (0 * (1 / 100000000000)) * HIT_PROB).
Proof.
  assert (Hf : JS.isFinite
                 (JS.Number_of_Z Samples.round.(Solana.Round.motherlode)
                  * (1 / 100000000000)) = true)
    by (vm_compute; reflexivity).
  rewrite (proj1 (ore_value_formula (Samples.running "3x EV") Samples.round) Hf).
  vm_compute. reflexivity.
Defined.

(** C3 as the specification states it fails: for O = 1, T = 30 and
    V0 = 0.5 the stake is positive and the expected value returned is not
    the one computed from the pool value at the converged stake. *)
Lemma ev_final_pool_value_counterexample :
  let r := Ev.computeEVStarForBlock 1 30 0.5 in
  (0 <? r.(Ev.y)) = true
  /\ r.(Ev.EV) <> Spec.claimedEV 1 30 0.5 r.(Ev.y).
Proof.
  cbv zeta. split; [vm_compute; reflexivity|].
  apply (float_neq _ _ (fun x => x <? 0x1.126811p-9));
    vm_compute; reflexivity.
Qed.

Lemma refine_three O T V0 y0 V :
  let V1 := Ev.poolValue O T V0 y0 in
  let y1 := JS.Math_max 0 (sqrt ((V1 * O) / C) - O) in
  let V2 := Ev.poolValue O T V0 y1 in
  let y2 := JS.Math_max 0 (sqrt ((V2 * O) / C) - O) in
  let V3 := Ev.poolValue O T V0 y2 in
  let y3 := JS.Math_max 0 (sqrt ((V3 * O) / C) - O) in
  Ev.refine 3 O T V0 y0 V
  = if V1 <=? 0 then (y0, V1)
    else if V2 <=? 0 then (y1, V2)
    else if V3 <=? 0 then (y2, V3)
    else (y3, V3).
Proof. reflexivity. Qed.

(** C3, amended. When the stake returned is positive, the expected value
    returned is [P_WIN * (-24 * y + V * f) - ADMIN_COST_FACTOR * y] with
    [f = y / (O + y)], where [V] is the last pool value the refinement
    computed: after its three passes that is the pool value at the
    iterate before the returned one; when the refinement stopped early,
    on a non-positive pool value, it is that pool value, the one at the
    returned stake. *)
Theorem ev_uses_last_pool_value (O T V0 : float) :
  let r := Ev.computeEVStarForBlock O T V0 in
  (0 <? r.(Ev.y)) = true ->
  exists V,
    r.(Ev.EV) = Spec.evAt O V r.(Ev.y)
    /\ ((r.(Ev.y) = Spec.yIter O T V0 3
         /\ V = Ev.poolValue O T V0 (Spec.yIter O T V0 2)
         /\ (V <=? 0) = false)
        \/ (exists k, (k < 3)%nat
                      /\ r.(Ev.y) = Spec.yIter O T V0 k
                      /\ V = Ev.poolValue O T V0 (Spec.yIter O T V0 k)
                      /\ (V <=? 0) = true)).
Proof.
  cbv zeta. unfold Ev.computeEVStarForBlock.
  destruct (negb (JS.isFinite O) || (O <=? 0)); [discriminate|].
  destruct (negb (JS.isFinite T) || (T <=? 0)); [discriminate|].
  destruct ((1 - PROTOCOL_CUT) * (T - O) + V0 <=? 0); [discriminate|].
  rewrite refine_three. cbv zeta.
  change (sqrt (V0 * O / C)) with (Spec.yIter O T V0 0).
  destruct (Ev.poolValue O T V0 (Spec.yIter O T V0 0) <=? 0) eqn:H1.
  { destruct (Spec.yIter O T V0 0 <=? 0); [discriminate|].
    cbn [Ev.y Ev.EV]. intros _. eexists. split; [reflexivity|].
    right. exists 0%nat. repeat split; auto. }
  change (JS.Math_max 0
            (sqrt (Ev.poolValue O T V0 (Spec.yIter O T V0 0) * O / C) - O))
    with (Spec.yIter O T V0 1).
  destruct (Ev.poolValue O T V0 (Spec.yIter O T V0 1) <=? 0) eqn:H2.
  { destruct (Spec.yIter O T V0 1 <=? 0); [discriminate|].
    cbn [Ev.y Ev.EV]. intros _. eexists. split; [reflexivity|].
    right. exists 1%nat. repeat split; auto. }
  change (JS.Math_max 0
            (sqrt (Ev.poolValue O T V0 (Spec.yIter O T V0 1) * O / C) - O))
    with (Spec.yIter O T V0 2).
  destruct (Ev.poolValue O T V0 (Spec.yIter O T V0 2) <=? 0) eqn:H3.
  { destruct (Spec.yIter O T V0 2 <=? 0); [discriminate|].
    cbn [Ev.y Ev.EV]. intros _. eexists. split; [reflexivity|].
    right. exists 2%nat. repeat split; auto. }
  change (JS.Math_max 0
            (sqrt (Ev.poolValue O T V0 (Spec.yIter O T V0 2) * O / C) - O))
    with (Spec.yIter O T V0 3).
  destruct (Spec.yIter O T V0 3 <=? 0); [discriminate|].
  cbn [Ev.y Ev.EV]. intros _. eexists. split; [reflexivity|].
  left. repeat split; auto.
Qed.

Lemma ev_uses_last_pool_value_witness :
  let r := Ev.computeEVStarForBlock 1 30 0.5 in
  exists V, r.(Ev.EV) = Spec.evAt 1 V r.(Ev.y).
Proof.
  intros r.
  assert (Hy : (0 <? r.(Ev.y)) = true) by (vm_compute; reflexivity).
  destruct (ev_uses_last_pool_value 1 30 0.5 Hy) as (V & HV & _).
  exists V. exact HV.
Defined.

End Valuation.

(** ** Binary64 order and the sign of a difference *)

Section Binary64.
(** Binary digits *)
Lemma digits2_pos_bounds (p : positive) :
  2 ^ (Zpos (digits2_pos p) - 1) <= Zpos p < 2 ^ Zpos (digits2_pos p).
Proof.
  induction p as [p IH|p IH|]; cbn [digits2_pos].
  - rewrite Pos2Z.inj_succ.
    replace (Z.succ (Zpos (digits2_pos p)) - 1) with (Z.succ (Zpos (digits2_pos p) - 1)) by lia.
    rewrite !Z.pow_succ_r by lia. lia.
  - rewrite Pos2Z.inj_succ.
    replace (Z.succ (Zpos (digits2_pos p)) - 1) with (Z.succ (Zpos (digits2_pos p) - 1)) by lia.
    rewrite !Z.pow_succ_r by lia. lia.
  - cbn. lia.
Qed.

Lemma iter_xO_value (m d : positive) :
  Zpos (Pos.iter xO m d) = Zpos m * 2 ^ Zpos d.
Proof.
  revert m. induction d as [|d IH] using Pos.peano_ind; intros m.
  - cbn. lia.
  - rewrite Pos.iter_succ, Pos2Z.inj_succ, Z.pow_succ_r by lia.
    rewrite Pos2Z.inj_xO, IH. lia.
Qed.

Lemma shl_align_value m e e' :
  e' <= e -> Zpos (fst (shl_align m e e')) = Zpos m * 2 ^ (e - e').
Proof.
  intros H. unfold shl_align.
  destruct (e' - e) as [|d|d] eqn:E; try lia.
  - replace (e - e') with 0 by lia. cbn [fst]. lia.
  - cbn [fst]. rewrite iter_xO_value. f_equal. f_equal. lia.
Qed.


Lemma canonical_facts m e :
  canonical_mantissa prec emax m e = true ->
  -1074 <= e /\ Zpos (digits2_pos m) <= 53
  /\ (-1074 < e -> Zpos (digits2_pos m) = 53).
Proof.
  unfold canonical_mantissa, fexp, emin. rewrite Z.eqb_eq.
  change prec with 53. change emax with 1024. lia.
Qed.

Lemma valid_finite_canonical s m e :
  valid_binary (S754_finite s m e) = true ->
  canonical_mantissa prec emax m e = true.
Proof. cbn. unfold bounded. now intros H%andb_true_iff. Qed.

Lemma aligned_lt_iff mx ex my ey :
  canonical_mantissa prec emax mx ex = true ->
  canonical_mantissa prec emax my ey = true ->
  Zpos (fst (shl_align my ey (Z.min ey ex))) < Zpos (fst (shl_align mx ex (Z.min ey ex)))
  <-> SFcompare (S754_finite false my ey) (S754_finite false mx ex) = Some Lt.
Proof.
  intros Hx%canonical_facts Hy%canonical_facts.
  rewrite !shl_align_value by lia. cbn [SFcompare].
  pose proof (digits2_pos_bounds mx) as Bx.
  pose proof (digits2_pos_bounds my) as By.
  destruct (Z.compare_spec ey ex) as [E|E|E].
  - subst ey. rewrite Z.min_id, Z.sub_diag. cbn [Z.pow].
    rewrite !Z.mul_1_r. change (Pos.compare_cont Eq my mx) with (Pos.compare my mx).
    split.
    + intros H. f_equal. change (my < mx)%positive. lia.
    + intros [= H]. change (my < mx)%positive in H. lia.
  - rewrite Z.min_l by lia. rewrite Z.sub_diag. cbn [Z.pow]. rewrite Z.mul_1_r.
    split; [reflexivity|intros _].
    assert (Hd : Zpos (digits2_pos mx) = 53) by lia.
    rewrite Hd in Bx.
    assert (Hp : 2 ^ 1 <= 2 ^ (ex - ey)) by (apply Z.pow_le_mono_r; lia).
    assert (Hy53 : Zpos my < 2 ^ 53).
    { eapply Z.lt_le_trans; [apply By|]. apply Z.pow_le_mono_r; lia. }
    change (2 ^ 1) with 2 in Hp. change (2 ^ (53 - 1)) with 4503599627370496 in Bx.
    change (2 ^ 53) with 9007199254740992 in *. nia.
  - rewrite Z.min_r by lia. rewrite Z.sub_diag. cbn [Z.pow]. rewrite Z.mul_1_r.
    split; [|discriminate]. intros H. exfalso.
    assert (Hd : Zpos (digits2_pos my) = 53) by lia.
    rewrite Hd in By.
    assert (Hp : 2 ^ 1 <= 2 ^ (ey - ex)) by (apply Z.pow_le_mono_r; lia).
    assert (Hx53 : Zpos mx < 2 ^ 53).
    { eapply Z.lt_le_trans; [apply Bx|]. apply Z.pow_le_mono_r; lia. }
    change (2 ^ 1) with 2 in Hp. change (2 ^ (53 - 1)) with 4503599627370496 in By.
    change (2 ^ 53) with 9007199254740992 in *. nia.
Qed.

(** Rounding a negative number never gives a non-negative one *)
Lemma shr_1_m mrs : 0 <= shr_m mrs -> shr_m (shr_1 mrs) = shr_m mrs / 2.
Proof.
  destruct mrs as [m r s]. cbn [shr_m]. intros H.
  destruct m as [|[p|p|]|p]; try lia; cbn [shr_1 shr_m].
  - reflexivity.
  - apply Z.div_unique with 1; lia.
  - apply Z.div_unique with 0; lia.
  - reflexivity.
Qed.

Lemma iter_shr_1_m n mrs :
  0 <= shr_m mrs ->
  shr_m (iter_pos shr_1 n mrs) = shr_m mrs / 2 ^ Zpos n.
Proof.
  revert mrs. induction n as [n IH|n IH|]; intros mrs H; cbn [iter_pos].
  - assert (H1 : 0 <= shr_m (shr_1 mrs)).
    { rewrite shr_1_m by assumption. apply Z.div_pos; lia. }
    assert (H2 : 0 <= shr_m (iter_pos shr_1 n (shr_1 mrs))).
    { rewrite IH by assumption. apply Z.div_pos; lia. }
    rewrite IH, IH, shr_1_m by assumption.
    rewrite !Z.div_div by lia.
    f_equal. replace (Zpos n~1) with (1 + Zpos n + Zpos n) by lia.
    rewrite !Z.pow_add_r by lia. change (2 ^ 1) with 2. ring.
  - assert (H2 : 0 <= shr_m (iter_pos shr_1 n mrs)).
    { rewrite IH by assumption. apply Z.div_pos; lia. }
    rewrite IH, IH by assumption.
    rewrite !Z.div_div by lia.
    f_equal. replace (Zpos n~0) with (Zpos n + Zpos n) by lia.
    rewrite !Z.pow_add_r by lia. ring.
  - rewrite shr_1_m by assumption. reflexivity.
Qed.

Lemma shr_record_of_loc_m m l : shr_m (shr_record_of_loc m l) = m.
Proof. now destruct l as [|[]]. Qed.

(** Shifting a positive mantissa right by fewer bits than it has digits
    leaves a positive mantissa. *)
Lemma shr_positive (mrs : shr_record) (p : positive) (e n : Z) :
  shr_m mrs = Zpos p ->
  n < Zpos (digits2_pos p) ->
  0 < shr_m (fst (shr mrs e n)) /\ (e <= snd (shr mrs e n)).
Proof.
  intros Hm Hn. unfold shr.
  destruct n as [|k|k]; cbn [fst snd]; try (rewrite Hm; lia).
  rewrite iter_shr_1_m by (rewrite Hm; lia). rewrite Hm.
  split; [|lia].
  apply Z.div_str_pos. split; [lia|].
  pose proof (digits2_pos_bounds p) as [B _].
  eapply Z.le_trans; [|exact B].
  apply Z.pow_le_mono_r; lia.
Qed.

Lemma shr_fexp_positive (p : positive) (e : Z) (l : location) :
  -1074 <= e ->
  0 < shr_m (fst (shr_fexp prec emax (Zpos p) e l))
  /\ -1074 <= snd (shr_fexp prec emax (Zpos p) e l).
Proof.
  intros He. unfold shr_fexp.
  destruct (shr_positive (shr_record_of_loc (Zpos p) l) p e
              (fexp prec emax (Zdigits2 (Zpos p) + e) - e)) as [H1 H2].
  - apply shr_record_of_loc_m.
  - unfold fexp, emin. cbn [Zdigits2]. change prec with 53. change emax with 1024.
    lia.
  - split; [exact H1|lia].
Qed.

Lemma round_nearest_even_positive m l :
  0 < m -> 0 < round_nearest_even m l.
Proof.
  intros H. destruct l as [|[]]; cbn [round_nearest_even]; try lia.
  destruct (Z.even m); lia.
Qed.


Lemma binary_round_aux_negative (p : positive) (e : Z) (l : location) :
  -1074 <= e ->
  SFltb (binary_round_aux prec emax true (Zpos p) e l) Spec.SFzero = true.
Proof.
  intros He. unfold binary_round_aux.
  destruct (shr_fexp_positive p e l He) as [H1 H2].
  destruct (shr_fexp prec emax (Zpos p) e l) as [mrs' e']. cbn [fst snd] in *.
  pose proof (round_nearest_even_positive (shr_m mrs') (loc_of_shr_record mrs') H1)
    as Hr.
  destruct (round_nearest_even (shr_m mrs') (loc_of_shr_record mrs')) as [|q|q];
    try lia.
  destruct (shr_fexp_positive q e' loc_Exact H2) as [H3 _].
  destruct (shr_fexp prec emax (Zpos q) e' loc_Exact) as [mrs'' e''].
  cbn [fst snd] in *.
  destruct (shr_m mrs'') as [|m|m]; try lia.
  destruct (e'' <=? emax - prec); reflexivity.
Qed.

Lemma binary_round_aux_nonnegative m e l :
  SFltb (binary_round_aux prec emax false m e l) Spec.SFzero = false.
Proof.
  unfold binary_round_aux.
  destruct (shr_fexp prec emax m e l) as [mrs' e'].
  destruct (shr_fexp prec emax _ e' loc_Exact) as [mrs'' e''].
  destruct (shr_m mrs'') as [|q|q]; try reflexivity.
  destruct (e'' <=? emax - prec); reflexivity.
Qed.

Lemma binary_normalize_sign d e :
  -1074 <= e ->
  SFltb (binary_normalize prec emax d e false) Spec.SFzero = (d <? 0).
Proof.
  intros He. unfold binary_normalize, binary_round.
  destruct d as [|p|p].
  - reflexivity.
  - destruct (shl_align p e _) as [mz ez]. apply binary_round_aux_nonnegative.
  - change (Z.neg p <? 0) with true.
    assert (Hz : -1074 <= snd (shl_align p e (fexp prec emax (Zpos (digits2_pos p) + e)))).
    { unfold shl_align.
      destruct (fexp prec emax (Zpos (digits2_pos p) + e) - e) eqn:E;
        cbn [snd]; try lia.
      unfold fexp, emin. change prec with 53. change emax with 1024. lia. }
    destruct (shl_align p e _) as [mz ez]. cbn [snd] in Hz.
    now apply binary_round_aux_negative.
Qed.

(** The sign of a difference of positive finite numbers *)
Lemma SFsub_sign mx ex my ey :
  valid_binary (S754_finite false mx ex) = true ->
  valid_binary (S754_finite false my ey) = true ->
  SFltb (SF64sub (S754_finite false my ey) (S754_finite false mx ex)) Spec.SFzero
  = SFltb (S754_finite false my ey) (S754_finite false mx ex).
Proof.
  intros Hx%valid_finite_canonical Hy%valid_finite_canonical.
  unfold SF64sub, SFsub. cbv zeta. cbn [cond_Zopp].
  rewrite binary_normalize_sign.
  2:{ apply canonical_facts in Hx, Hy. lia. }
  pose proof (aligned_lt_iff mx ex my ey Hx Hy) as Hiff.
  unfold SFltb at 1.
  destruct (SFcompare (S754_finite false my ey) (S754_finite false mx ex))
    as [[| |]|] eqn:E.
  - apply Z.ltb_ge. destruct (Z.lt_ge_cases
      (Zpos (fst (shl_align my ey (Z.min ey ex))))
      (Zpos (fst (shl_align mx ex (Z.min ey ex))))) as [H|H]; [|lia].
    apply Hiff in H. discriminate H.
  - apply Z.ltb_lt. destruct Hiff as [_ H]. specialize (H eq_refl). lia.
  - apply Z.ltb_ge. destruct (Z.lt_ge_cases
      (Zpos (fst (shl_align my ey (Z.min ey ex))))
      (Zpos (fst (shl_align mx ex (Z.min ey ex))))) as [H|H]; [|lia].
    apply Hiff in H. discriminate H.
  - discriminate E.
Qed.

Lemma posfin_valid x m e :
  Prim2SF x = S754_finite false m e ->
  valid_binary (S754_finite false m e) = true.
Proof. intros <-. apply Prim2SF_valid. Qed.

Lemma sub_sign (x y : float) :
  Spec.posfin x -> Spec.posfin y -> (y - x <? 0)%float = (y <? x)%float.
Proof.
  intros (mx & ex & Hx) (my & ey & Hy).
  rewrite !ltb_spec, sub_spec, Hx, Hy.
  change (Prim2SF 0) with Spec.SFzero.
  apply SFsub_sign; eapply posfin_valid; eassumption.
Qed.


Lemma posfin_mantissa_bound x m e :
  Prim2SF x = S754_finite false m e -> Zpos m < 2 ^ 53.
Proof.
  intros H. pose proof (posfin_valid x m e H) as Hv.
  apply valid_finite_canonical, canonical_facts in Hv.
  pose proof (digits2_pos_bounds m) as [_ B].
  eapply Z.lt_le_trans; [exact B|]. apply Z.pow_le_mono_r; lia.
Qed.

Lemma compare_rank x y :
  Spec.posfin x -> Spec.posfin y ->
  SFcompare (Prim2SF x) (Prim2SF y) = Some (Spec.rank x ?= Spec.rank y).
Proof.
  intros (mx & ex & Hx) (my & ey & Hy).
  pose proof (posfin_mantissa_bound x mx ex Hx) as Bx.
  pose proof (posfin_mantissa_bound y my ey Hy) as By.
  unfold Spec.rank. rewrite Hx, Hy. cbn [SFcompare]. f_equal.
  change (2 ^ 53) with 9007199254740992 in *.
  destruct (Z.compare_spec ex ey) as [E|E|E].
  - subst ey. change (Pos.compare_cont Eq mx my) with (Pos.compare mx my).
    rewrite Z.add_compare_mono_l. reflexivity.
  - symmetry. apply Z.compare_lt_iff. lia.
  - symmetry. apply Z.compare_gt_iff. lia.
Qed.

Lemma ltb_rank x y : Spec.posfin x -> Spec.posfin y -> (x <? y)%float = (Spec.rank x <? Spec.rank y).
Proof.
  intros Hx Hy. rewrite ltb_spec. unfold SFltb. rewrite compare_rank by assumption.
  unfold Z.ltb. now destruct (Spec.rank x ?= Spec.rank y).
Qed.

Lemma eqb_rank x y : Spec.posfin x -> Spec.posfin y -> (x =? y)%float = (Spec.rank x =? Spec.rank y).
Proof.
  intros Hx Hy. rewrite eqb_spec. unfold SFeqb. rewrite compare_rank by assumption.
  destruct (Z.compare_spec (Spec.rank x) (Spec.rank y)) as [E|E|E]; symmetry.
  - now apply Z.eqb_eq.
  - apply Z.eqb_neq. lia.
  - apply Z.eqb_neq. lia.
Qed.

Lemma leb_rank x y : Spec.posfin x -> Spec.posfin y -> (x <=? y)%float = (Spec.rank x <=? Spec.rank y).
Proof.
  intros Hx Hy. rewrite leb_spec. unfold SFleb. rewrite compare_rank by assumption.
  unfold Z.leb. now destruct (Spec.rank x ?= Spec.rank y).
Qed.

Lemma posfin_of_bounds x :
  (0 <? x)%float = true -> (x <? infinity)%float = true -> Spec.posfin x.
Proof.
  rewrite !ltb_spec. change (Prim2SF 0) with Spec.SFzero.
  change (Prim2SF infinity) with (S754_infinity false).
  destruct (Prim2SF x) as [[]|[]| |[] m e] eqn:E; cbn;
    intros H1 H2; try discriminate H1; try discriminate H2.
  now exists m, e.
Qed.

Lemma posfin_of_finite x :
  (0 <? x)%float = true -> PrimFloat.is_finite x = true -> Spec.posfin x.
Proof.
  intros H0 Hf. apply posfin_of_bounds; [assumption|].
  unfold is_finite, is_infinity in Hf.
  apply negb_true_iff, orb_false_iff in Hf. destruct Hf as [_ Hi].
  rewrite ltb_spec in *. rewrite eqb_spec, abs_spec in Hi.
  change (Prim2SF 0) with Spec.SFzero in H0.
  change (Prim2SF infinity) with (S754_infinity false) in *.
  destruct (Prim2SF x) as [[]|[]| |[] m e]; cbn in *;
    try discriminate H0; try discriminate Hi; reflexivity.
Qed.

End Binary64.

(** ** The stable sort *)
Section StableSort.
Context {A : Type} (cmp : A -> A -> float) (r idx : A -> Z).



Lemma insert_perm x acc : Permutation (JSArray.insert cmp x acc) (x :: acc).
Proof.
  induction acc as [|h t IH]; cbn [JSArray.insert]; [reflexivity|].
  destruct (cmp x h <? 0)%float; [reflexivity|].
  rewrite IH. apply perm_swap.
Qed.

Lemma insert_sorted x acc :
  StronglySorted (Spec.sortsBefore r idx) acc ->
  (forall a, In a acc -> idx a < idx x) ->
  (forall a, In a acc -> (cmp x a <? 0)%float = (r x <? r a)) ->
  StronglySorted (Spec.sortsBefore r idx) (JSArray.insert cmp x acc).
Proof.
  intros Hs. induction Hs as [|h t Hs IH Hh]; intros Hidx Hcmp;
    cbn [JSArray.insert].
  { repeat constructor. }
  rewrite Forall_forall in Hh.
  rewrite (Hcmp h (or_introl eq_refl)).
  destruct (Z.ltb_spec (r x) (r h)) as [Hlt|Hge].
  - constructor; [now constructor; [|apply Forall_forall]|].
    constructor; [now left|].
    apply Forall_forall. intros y Hy. left.
    destruct (Hh y Hy) as [H|[H _]]; lia.
  - constructor.
    + apply IH; intros a Ha; [apply Hidx|apply Hcmp]; now right.
    + apply Forall_forall. intros y Hy.
      apply (Permutation_in _ (insert_perm x t)) in Hy.
      destruct Hy as [<-|Hy]; [|now apply Hh].
      pose proof (Hidx h (or_introl eq_refl)). unfold Spec.sortsBefore. lia.
Qed.

Lemma fold_insert_sorted l : forall acc,
  StronglySorted (Spec.sortsBefore r idx) acc ->
  StronglySorted (fun a b => idx a < idx b) l ->
  (forall a b, In a acc -> In b l -> idx a < idx b) ->
  Spec.comparatorAgrees cmp r (acc ++ l) ->
  StronglySorted (Spec.sortsBefore r idx) (fold_left (fun acc x => JSArray.insert cmp x acc) l acc)
  /\ Permutation (fold_left (fun acc x => JSArray.insert cmp x acc) l acc) (acc ++ l).
Proof.
  induction l as [|x l IH]; intros acc Hacc Hl Hidx Hag; cbn [fold_left].
  { rewrite app_nil_r. split; [assumption|reflexivity]. }
  inversion Hl as [|? ? Hl' Hx]; subst. rewrite Forall_forall in Hx.
  assert (Hp : Permutation (JSArray.insert cmp x acc ++ l) (acc ++ x :: l)).
  { rewrite insert_perm. cbn. apply Permutation_middle. }
  destruct (IH (JSArray.insert cmp x acc)) as [Hs Hperm].
  - apply insert_sorted; [assumption| |].
    + intros a Ha. apply Hidx; [assumption|now left].
    + intros a Ha. apply Hag; apply in_or_app; [right; now left|now left].
  - assumption.
  - intros a b Ha Hb. apply (Permutation_in _ (insert_perm x acc)) in Ha.
    destruct Ha as [<-|Ha]; [now apply Hx|].
    apply Hidx; [assumption|now right].
  - intros a b Ha Hb. apply Hag; eapply Permutation_in; eassumption.
  - split; [assumption|]. now rewrite Hperm.
Qed.

Lemma sort_sorted l :
  StronglySorted (fun a b => idx a < idx b) l ->
  Spec.comparatorAgrees cmp r l ->
  StronglySorted (Spec.sortsBefore r idx) (JSArray.sort cmp l)
  /\ Permutation (JSArray.sort cmp l) l.
Proof.
  intros Hl Hag. unfold JSArray.sort.
  apply (fold_insert_sorted l []); auto.
  - constructor.
  - intros a b [].
Qed.

End StableSort.

(** ** The board analyzer *)
Section Lists.
Context {A B : Type}.

Lemma StronglySorted_map (R : B -> B -> Prop) (f : A -> B) l :
  StronglySorted (fun a b => R (f a) (f b)) l -> StronglySorted R (map f l).
Proof.
  induction 1 as [|a l Hs IH Ha]; cbn; constructor; [assumption|].
  rewrite Forall_forall in *. intros y Hy. apply in_map_iff in Hy.
  destruct Hy as (x & <- & Hx). now apply Ha.
Qed.

Lemma StronglySorted_filter (R : A -> A -> Prop) (p : A -> bool) l :
  StronglySorted R l -> StronglySorted R (filter p l).
Proof.
  induction 1 as [|a l Hs IH Ha]; cbn; [constructor|].
  destruct (p a); [|assumption]. constructor; [assumption|].
  rewrite Forall_forall in *. intros y Hy. apply filter_In in Hy. now apply Ha.
Qed.

Lemma StronglySorted_weaken (R R' : A -> A -> Prop) l :
  StronglySorted R l ->
  (forall a b, In a l -> In b l -> R a b -> R' a b) ->
  StronglySorted R' l.
Proof.
  induction 1 as [|a l Hs IH Ha]; intros HR; constructor.
  - apply IH. intros x y Hx Hy. apply HR; now right.
  - rewrite Forall_forall in *. intros y Hy.
    apply HR; [now left|now right|now apply Ha].
Qed.

Lemma Forall2_In_right (P : A -> B -> Prop) l1 l2 y :
  Forall2 P l1 l2 -> In y l2 -> exists x, In x l1 /\ P x y.
Proof.
  induction 1 as [|a b l1 l2 Hab H IH]; intros Hy; [destruct Hy|].
  destruct Hy as [<-|Hy].
  - exists a. split; [now left|assumption].
  - destruct (IH Hy) as (x & Hx & Hp). exists x. split; [now right|assumption].
Qed.

End Lists.

Lemma seq_sorted a n : StronglySorted lt (seq a n).
Proof.
  revert a. induction n as [|n IH]; intros a; cbn; constructor; [apply IH|].
  apply Forall_forall. intros y Hy. apply in_seq in Hy. lia.
Qed.

Section Board.
Variables (rd : Solana.RoundData) (T ore : float).

Lemma squares_spec idxs : forall full,
  Detection.squares rd T ore idxs = Some full ->
  Forall2 (fun i f => Detection.square rd T ore i = Some f) idxs full.
Proof.
  induction idxs as [|i idxs IH]; intros full; cbn [Detection.squares].
  { intros [= <-]. constructor. }
  destruct (Detection.square rd T ore i) as [e|] eqn:He; [|discriminate].
  destruct (Detection.squares rd T ore idxs) as [es|]; [|discriminate].
  intros [= <-]. constructor; [assumption|now apply IH].
Qed.

Lemma square_id i f :
  Detection.square rd T ore i = Some f -> f.(Detection.f_id) = Z.of_nat i + 1.
Proof.
  unfold Detection.square.
  destruct (nth_error _ i); [|discriminate].
  destruct (nth_error _ i); [|discriminate].
  now intros [= <-].
Qed.

Lemma squares_ids_sorted idxs full :
  StronglySorted lt idxs ->
  Forall2 (fun i f => Detection.square rd T ore i = Some f) idxs full ->
  StronglySorted (fun a b => a.(Detection.f_id) < b.(Detection.f_id)) full.
Proof.
  intros Hs H. induction H as [|i f idxs full Hi H IH]; [constructor|].
  inversion Hs as [|? ? Hs' Hlt]; subst.
  constructor; [now apply IH|].
  rewrite Forall_forall in *. intros g Hg.
  destruct (Forall2_In_right _ _ _ _ H Hg) as (j & Hj & Hjg).
  rewrite (square_id _ _ Hi), (square_id _ _ Hjg).
  specialize (Hlt j Hj). lia.
Qed.

End Board.

Section Entries.
Variables (rd : Solana.RoundData) (T ore : float).

(** What the loop records for a square. *)
Lemma square_facts i f :
  Detection.square rd T ore i = Some f ->
  f.(Detection.f_id) = Z.of_nat i + 1
  /\ ((0 <? f.(Detection.f_ev))%float = true -> Spec.posfin f.(Detection.f_ev))
  /\ ((f.(Detection.f_ratio) <? infinity)%float = true ->
      exists c, nth_error rd.(Solana.Round.count) i = Some c
                /\ c <> 0
                /\ f.(Detection.f_count) = JS.Number_of_Z c
                /\ (0 <? f.(Detection.f_count))%float = true).
Proof.
  unfold Detection.square.
  destruct (nth_error _ i) as [c|]; [|discriminate].
  destruct (nth_error _ i) as [d|]; [|discriminate].
  intros [= <-]. cbn [Detection.f_id Detection.f_ev Detection.f_ratio
                      Detection.f_count].
  split; [reflexivity|split].
  - destruct (JS.isFinite _) eqn:Hf; [|discriminate].
    intros H. now apply posfin_of_finite.
  - destruct (0 <? JS.Number_of_Z c)%float eqn:Hc; [|discriminate].
    intros _. exists c. repeat split; auto.
    intros ->. discriminate Hc.
Qed.

End Entries.

Lemma ltb_opp_rank x y :
  Spec.posfin x -> Spec.posfin y -> (y - x <? 0)%float = (- Spec.rank x <? - Spec.rank y).
Proof.
  intros Hx Hy. rewrite sub_sign, ltb_rank by assumption.
  destruct (Z.ltb_spec (Spec.rank y) (Spec.rank x)), (Z.ltb_spec (- Spec.rank x) (- Spec.rank y));
    try reflexivity; lia.
Qed.

Lemma ltb_sub_rank x y :
  Spec.posfin x -> Spec.posfin y -> (x - y <? 0)%float = (Spec.rank x <? Spec.rank y).
Proof. intros Hx Hy. now rewrite sub_sign, ltb_rank. Qed.

(** C8. In the analysis of a round, [byRatio] holds no square with zero
    participants and [byEV] no square whose EV is not positive; [byEV]
    is in descending order of EV, squares of equal EV in ascending order
    of their index; [byRatio] is in ascending order of ratio, with the
    same order among equal ratios; and both hold every square that
    passes their filter. *)
Theorem analysis_rankings (st : State.AppState) (rd : Solana.RoundData)
    (analysis : Detection.Analysis) :
  Detection.analyzeBoardState st (Some rd) = Some analysis ->
  (forall r, In r analysis.(Detection.byRatio) ->
     (0 <? r.(Detection.r_count))%float = true
     /\ exists c,
         nth_error rd.(Solana.Round.count) (Z.to_nat (r.(Detection.r_id) - 1))
         = Some c
         /\ c <> 0 /\ r.(Detection.r_count) = JS.Number_of_Z c)
  /\ (forall e, In e analysis.(Detection.byEV) ->
        (0 <? e.(Detection.ev))%float = true)
  /\ StronglySorted Spec.evBefore analysis.(Detection.byEV)
  /\ StronglySorted Spec.ratioBefore analysis.(Detection.byRatio)
  /\ Permutation analysis.(Detection.byEV)
       (filter (fun e => (0 <? e.(Detection.ev))%float)
          (map Detection.evOf analysis.(Detection.fullAnalysis)))
  /\ Permutation analysis.(Detection.byRatio)
       (filter (fun r => ((r.(Detection.ratio) <? infinity)
                          && (0 <? r.(Detection.ratio)))%float)
          (map Detection.ratioOf analysis.(Detection.fullAnalysis))).
Proof.
  unfold Detection.analyzeBoardState.
  set (T := (JS.Number_of_Z _ * _)%float).
  set (ore := Ev.getOreValueInSOL st rd).
  destruct (Detection.squares rd T ore (seq 0 Detection.NUM_SQUARES))
    as [full|] eqn:Hsq; [|discriminate].
  intros [= <-]. cbn [Detection.byRatio Detection.byEV Detection.fullAnalysis].
  pose proof (squares_spec rd T ore _ _ Hsq) as Hall.
  pose proof (squares_ids_sorted rd T ore _ _ (seq_sorted 0 _) Hall) as Hids.
  (* the entries of the two filtered lists *)
  set (evs := filter (fun e => (0 <? e.(Detection.ev))%float)
                (map Detection.evOf full)).
  set (ratios := filter (fun r => ((r.(Detection.ratio) <? infinity)
                                   && (0 <? r.(Detection.ratio)))%float)
                   (map Detection.ratioOf full)).
  assert (Hev : forall e, In e evs ->
            (0 <? e.(Detection.ev))%float = true /\ Spec.posfin e.(Detection.ev)).
  { intros e He. apply filter_In in He. destruct He as [He Hpos].
    split; [assumption|].
    apply in_map_iff in He. destruct He as (f & <- & Hf).
    destruct (Forall2_In_right _ _ _ _ Hall Hf) as (i & _ & Hi).
    now apply (square_facts rd T ore i f Hi). }
  assert (Hra : forall r, In r ratios ->
            Spec.posfin r.(Detection.ratio)
            /\ (0 <? r.(Detection.r_count))%float = true
            /\ exists c,
                nth_error rd.(Solana.Round.count)
                  (Z.to_nat (r.(Detection.r_id) - 1)) = Some c
                /\ c <> 0 /\ r.(Detection.r_count) = JS.Number_of_Z c).
  { intros r Hr. apply filter_In in Hr. destruct Hr as [Hr Hb].
    apply andb_true_iff in Hb. destruct Hb as [Hinf Hpos].
    split; [now apply posfin_of_bounds|].
    apply in_map_iff in Hr. destruct Hr as (f & <- & Hf).
    destruct (Forall2_In_right _ _ _ _ Hall Hf) as (i & _ & Hi).
    destruct (square_facts rd T ore i f Hi) as (Hid & _ & Hc).
    destruct (Hc Hinf) as (c & Hnth & Hc0 & Hcount & Hcpos).
    split; [exact Hcpos|]. exists c. cbn [Detection.ratioOf Detection.r_id
      Detection.r_count]. rewrite Hid.
    replace (Z.to_nat (Z.of_nat i + 1 - 1)) with i by lia. auto. }
  (* both lists are in square order *)
  assert (Hevs : StronglySorted
                   (fun a b => a.(Detection.id) < b.(Detection.id)) evs).
  { apply StronglySorted_filter, StronglySorted_map. exact Hids. }
  assert (Hratios : StronglySorted
                      (fun a b => a.(Detection.r_id) < b.(Detection.r_id)) ratios).
  { apply StronglySorted_filter, StronglySorted_map. exact Hids. }
  destruct (sort_sorted (fun a b => (b.(Detection.ev) - a.(Detection.ev))%float)
              (fun e => - Spec.rank e.(Detection.ev)) Detection.id evs Hevs)
    as [HsE HpE].
  { intros a b Ha Hb. apply ltb_opp_rank; now apply Hev. }
  destruct (sort_sorted (fun a b => (a.(Detection.ratio) - b.(Detection.ratio))%float)
              (fun r => Spec.rank r.(Detection.ratio)) Detection.r_id ratios Hratios)
    as [HsR HpR].
  { intros a b Ha Hb. apply ltb_sub_rank; now apply Hra. }
  split; [|split; [|split; [|split; [|split]]]]; [| | | |exact HpE|exact HpR].
  - intros r Hr. apply (Permutation_in _ HpR) in Hr. now apply Hra.
  - intros e He. apply (Permutation_in _ HpE) in He. now apply Hev.
  - apply (StronglySorted_weaken _ _ _ HsE).
    intros a b Ha Hb. apply (Permutation_in _ HpE) in Ha, Hb.
    destruct (Hev a Ha) as [_ Pa]. destruct (Hev b Hb) as [_ Pb].
    unfold Spec.sortsBefore, Spec.evBefore. rewrite ltb_rank, eqb_rank by assumption.
    rewrite Z.ltb_lt, Z.eqb_eq. lia.
  - apply (StronglySorted_weaken _ _ _ HsR).
    intros a b Ha Hb. apply (Permutation_in _ HpR) in Ha, Hb.
    destruct (Hra a Ha) as [Pa _]. destruct (Hra b Hb) as [Pb _].
    unfold Spec.sortsBefore, Spec.ratioBefore. rewrite ltb_rank, eqb_rank by assumption.
    rewrite Z.ltb_lt, Z.eqb_eq. lia.
Qed.

Lemma analysis_rankings_witness :
  let st := Samples.running "3x EV" in
  exists analysis,
    Detection.analyzeBoardState st (Some Samples.round) = Some analysis
    /\ map Detection.id analysis.(Detection.byEV) = [2; 1; 3]
    /\ StronglySorted Spec.evBefore analysis.(Detection.byEV)
    /\ StronglySorted Spec.ratioBefore analysis.(Detection.byRatio).
Proof.
  intros st.
  set (analysis := match Detection.analyzeBoardState st (Some Samples.round) with
                   | Some a => a
                   | None => Detection.emptyAnalysis
                   end).
  assert (Ha : Detection.analyzeBoardState st (Some Samples.round) = Some analysis)
    by (vm_compute; reflexivity).
  destruct (analysis_rankings st Samples.round analysis Ha)
    as (_ & _ & HsE & HsR & _).
  exists analysis. split; [exact Ha|]. split; [vm_compute; reflexivity|].
  split; assumption.
Defined.

(** The analysis returns on every round detail that has its 25 squares,
    as every decoded round account has. *)
Lemma squares_return (rd : Solana.RoundData) (T ore : float) (idxs : list nat) :
  (forall i, In i idxs ->
             (i < List.length rd.(Solana.Round.count))%nat
             /\ (i < List.length rd.(Solana.Round.deployed))%nat) ->
  exists full, Detection.squares rd T ore idxs = Some full.
Proof.
  induction idxs as [|i idxs IH]; intros H; cbn [Detection.squares].
  { now exists []. }
  destruct (H i (or_introl eq_refl)) as [Hc Hd].
  unfold Detection.square.
  destruct (nth_error rd.(Solana.Round.count) i) eqn:Ec;
    [|apply nth_error_None in Ec; lia].
  destruct (nth_error rd.(Solana.Round.deployed) i) eqn:Ed;
    [|apply nth_error_None in Ed; lia].
  destruct IH as [full ->]; [intros j Hj; apply H; now right|].
  eexists. reflexivity.
Qed.

Lemma analyzeBoardState_returns (st : State.AppState) (rd : Solana.RoundData) :
  List.length rd.(Solana.Round.count) = 25%nat ->
  List.length rd.(Solana.Round.deployed) = 25%nat ->
  exists analysis, Detection.analyzeBoardState st (Some rd) = Some analysis.
Proof.
  intros Hc Hd. unfold Detection.analyzeBoardState.
  destruct (squares_return rd
              (JS.Number_of_Z rd.(Solana.Round.total_deployed)
               * Constants.SOL_PER_LAMPORT)%float
              (Ev.getOreValueInSOL st rd) (seq 0 Detection.NUM_SQUARES))
    as [full ->].
  - intros i Hi. apply in_seq in Hi. unfold Detection.NUM_SQUARES in Hi. lia.
  - eexists. reflexivity.
Qed.

Lemma seqOf_length {A} (d : Solana.Decoder A) n : forall b xs b',
  Solana.seqOf d n b = Some (xs, b') -> List.length xs = n.
Proof.
  induction n as [|n IH]; intros b xs b'; cbn [Solana.seqOf].
  { now intros [= <- _]. }
  destruct (d b) as [[x b1]|]; [|discriminate].
  destruct (Solana.seqOf d n b1) as [[ys b2]|] eqn:E; [|discriminate].
  intros [= <- _]. cbn. f_equal. eapply IH, E.
Qed.

Lemma parseRound_squares (data : Solana.Buffer) (rd : Solana.RoundData) :
  Solana.parseRound data = Some rd ->
  List.length rd.(Solana.Round.count) = 25%nat
  /\ List.length rd.(Solana.Round.deployed) = 25%nat.
Proof.
  unfold Solana.parseRound, Solana.decode, Solana.ROUND_LAYOUT, Solana.dbind,
    Solana.dret.
  repeat match goal with
         | |- context [match ?d ?b with _ => _ end] =>
             lazymatch d with
             | Solana.seqOf _ _ => destruct (d b) as [[? ?]|] eqn:?
             | Solana.u64 => destruct (d b) as [[? ?]|]
             | Solana.blob _ => destruct (d b) as [[? ?]|]
             | Solana.publicKey => destruct (d b) as [[? ?]|]
             end; [|discriminate]
         end.
  cbn. intros [= <-]. cbn [Solana.Round.count Solana.Round.deployed].
  split; eapply seqOf_length; eassumption.
Qed.

(** ** Outcome announcement *)

(** The announcement is made once: it sets [winnerAnnounced], and with
    [winnerAnnounced] set [displayWinner] does nothing. *)
Lemma displayWinner_once (roundData : Solana.RoundData) (roundIdStr : string)
    (st : State.AppState) :
  (st.(State.winnerAnnounced) = true ->
   Game.displayWinner roundData roundIdStr st = (Effects.Returned tt, st, []))
  /\ (st.(State.winnerAnnounced) = false ->
      forall w, Game.winnerOf roundData.(Solana.Round.slot_hash) = Some w ->
      let r := Game.displayWinner roundData roundIdStr st in
      State.winnerAnnounced (Effects.stateOf r) = true
      /\ State.lastWinner (Effects.stateOf r) = Game.toString w
      /\ Game.displayWinner roundData roundIdStr (Effects.stateOf r)
         = (Effects.Returned tt, Effects.stateOf r, [])).
Proof.
  unfold Game.displayWinner. split.
  - intros H. rewrite bind_getState, H. reflexivity.
  - intros H w Hw. cbv zeta. rewrite !bind_getState, H, Hw. cbn [negb].
    rewrite bind_orThrow, bind_setAppState, !bind_emit.
    rewrite !stateOf_prepend.
    unfold Effects.emit. cbn [Effects.stateOf fst snd].
    repeat split.
Qed.

(* ===================================================================== *)
(** * Further properties of the code *)

(** ** The order of binary64 numbers *)

Lemma is_nan_false x : PrimFloat.is_nan x = false <-> Prim2SF x <> S754_nan.
Proof.
  unfold PrimFloat.is_nan. rewrite negb_false_iff, eqb_spec. unfold SFeqb.
  destruct (Prim2SF x) as [[]|[]| |[] m e]; cbn [SFcompare];
    try (split; [intros _; discriminate|reflexivity]).
  - split; [discriminate|intros H; now elim H].
  - rewrite Z.compare_refl.
    change (Pos.compare_cont Eq m m) with (Pos.compare m m).
    rewrite Pos.compare_refl. split; [intros _; discriminate|reflexivity].
  - rewrite Z.compare_refl.
    change (Pos.compare_cont Eq m m) with (Pos.compare m m).
    rewrite Pos.compare_refl. split; [intros _; discriminate|reflexivity].
Qed.

Lemma finite_bounds x s m e :
  Prim2SF x = S754_finite s m e ->
  -1074 <= e <= 971 /\ 0 < Zpos m < 2 ^ 53.
Proof.
  intros H. pose proof (Prim2SF_valid x) as Hv. rewrite H in Hv.
  cbn in Hv. unfold bounded in Hv. apply andb_true_iff in Hv.
  destruct Hv as [Hc He]. apply canonical_facts in Hc.
  apply Z.leb_le in He. change (emax - prec) with 971 in He.
  pose proof (digits2_pos_bounds m) as [_ B].
  split; [lia|]. split; [lia|].
  eapply Z.lt_le_trans; [exact B|]. apply Z.pow_le_mono_r; lia.
Qed.

Lemma compare_ord x y :
  PrimFloat.is_nan x = false -> PrimFloat.is_nan y = false ->
  SFcompare (Prim2SF x) (Prim2SF y) = Some (Float64.ord x ?= Float64.ord y).
Proof.
  intros Hx%is_nan_false Hy%is_nan_false. unfold Float64.ord.
  destruct (Prim2SF x) as [sx|sx| |sx mx ex] eqn:Ex; try (now elim Hx);
    destruct (Prim2SF y) as [sy|sy| |sy my ey] eqn:Ey; try (now elim Hy);
    try (pose proof (finite_bounds x _ _ _ Ex) as [Bex Bmx]);
    try (pose proof (finite_bounds y _ _ _ Ey) as [Bey Bmy]);
    change (2 ^ 64) with 18446744073709551616 in *;
    change (2 ^ 53) with 9007199254740992 in *;
    try (destruct sx); try (destruct sy); cbn [SFcompare];
    try reflexivity;
    try (f_equal; symmetry; apply Z.compare_lt_iff; lia);
    try (f_equal; symmetry; apply Z.compare_gt_iff; lia).
  - (* both negative *)
    destruct (Z.compare_spec ex ey) as [E|E|E]; f_equal; symmetry.
    + subst ey. change (Pos.compare_cont Eq mx my) with (Pos.compare mx my).
      rewrite Z.compare_opp, Z.add_compare_mono_l.
      change (Z.pos my ?= Z.pos mx) with (Pos.compare my mx).
      apply Pos.compare_antisym.
    + apply Z.compare_gt_iff. nia.
    + apply Z.compare_lt_iff. nia.
  - destruct (Z.compare_spec ex ey) as [E|E|E]; f_equal; symmetry.
    + subst ey. change (Pos.compare_cont Eq mx my) with (Pos.compare mx my).
      rewrite Z.add_compare_mono_l. reflexivity.
    + apply Z.compare_lt_iff. nia.
    + apply Z.compare_gt_iff. nia.
Qed.

Lemma ltb_ord x y :
  PrimFloat.is_nan x = false -> PrimFloat.is_nan y = false ->
  (x <? y)%float = (Float64.ord x <? Float64.ord y).
Proof.
  intros Hx Hy. rewrite ltb_spec. unfold SFltb. rewrite compare_ord by assumption.
  unfold Z.ltb. now destruct (_ ?= _).
Qed.

Lemma leb_ord x y :
  PrimFloat.is_nan x = false -> PrimFloat.is_nan y = false ->
  (x <=? y)%float = (Float64.ord x <=? Float64.ord y).
Proof.
  intros Hx Hy. rewrite leb_spec. unfold SFleb. rewrite compare_ord by assumption.
  unfold Z.leb. now destruct (_ ?= _).
Qed.

Lemma ltb_not_nan x y : (x <? y)%float = true ->
  PrimFloat.is_nan x = false /\ PrimFloat.is_nan y = false.
Proof.
  rewrite ltb_spec, !is_nan_false. unfold SFltb.
  destruct (Prim2SF x) as [[]|[]| |[] ? ?], (Prim2SF y) as [[]|[]| |[] ? ?];
    cbn [SFcompare]; intros H; try discriminate H; split; discriminate.
Qed.

(** ** The wire format of a deployment *)

Section Wire.
Import Effects.

Lemma byteZ_byte_of_Z z : Solana.byteZ (Transactions.byte_of_Z z) = z mod 256.
Proof.
  unfold Solana.byteZ, Transactions.byte_of_Z.
  pose proof (Z.mod_pos_bound z 256 ltac:(lia)) as B.
  destruct (Byte.of_N (Z.to_N (z mod 256))) as [b|] eqn:E.
  - apply Byte.to_of_N in E. rewrite E. lia.
  - apply Byte.of_N_None_iff in E. lia.
Qed.

Lemma le_value_bytesLE n : forall z,
  Spec.le_value (Transactions.bytesLE n z) = z mod 256 ^ Z.of_nat n.
Proof.
  induction n as [|n IH]; intros z.
  - cbn. now rewrite Z.mod_1_r.
  - cbn [Transactions.bytesLE Spec.le_value].
    rewrite byteZ_byte_of_Z, IH.
    rewrite Nat2Z.inj_succ, Z.pow_succ_r by lia.
    rewrite (Z.rem_mul_r z 256 (256 ^ Z.of_nat n)) by lia. lia.
Qed.

Lemma length_bytesLE n : forall z, List.length (Transactions.bytesLE n z) = n.
Proof. induction n as [|n IH]; intros z; cbn; [reflexivity|now rewrite IH]. Qed.

Lemma writeBigUInt64LE_value value bytes :
  Transactions.writeBigUInt64LE value = Some bytes ->
  0 <= value < 2 ^ 64 /\ List.length bytes = 8%nat /\ Spec.le_value bytes = value.
Proof.
  unfold Transactions.writeBigUInt64LE.
  destruct ((0 <=? value) && (value <? 2 ^ 64)) eqn:E; [|discriminate].
  intros H. assert (Hb : bytes = Transactions.bytesLE 8 value) by congruence.
  clear H. subst bytes.
  apply andb_true_iff in E. destruct E as [E1%Z.leb_le E2%Z.ltb_lt].
  split; [lia|]. split; [apply length_bytesLE|].
  rewrite le_value_bytesLE. apply Z.mod_small. split; [lia|exact E2].
Qed.

Lemma writeUInt32LE_value value bytes :
  Transactions.writeUInt32LE value = Some bytes ->
  0 <= value < 2 ^ 32 /\ List.length bytes = 4%nat /\ Spec.le_value bytes = value.
Proof.
  unfold Transactions.writeUInt32LE.
  destruct ((0 <=? value) && (value <? 2 ^ 32)) eqn:E; [|discriminate].
  intros H. assert (Hb : bytes = Transactions.bytesLE 4 value) by congruence.
  clear H. subst bytes.
  apply andb_true_iff in E. destruct E as [E1%Z.leb_le E2%Z.ltb_lt].
  split; [lia|]. split; [apply length_bytesLE|].
  rewrite le_value_bytesLE. apply Z.mod_small. split; [lia|exact E2].
Qed.

(** The mask after the targets [targets], starting from [mask]. *)
Lemma mask_fold_bits targets : forall mask i,
  Z.testbit
    (fold_left
       (fun mask target =>
          let squareIndex := target.(Detection.id) - 1 in
          if (0 <=? squareIndex) && (squareIndex <? 25)
          then Z.lor mask (Z.shiftl 1 squareIndex)
          else mask) targets mask) i
  = Z.testbit mask i
    || existsb (fun t => (t.(Detection.id) - 1 =? i) && (0 <=? i) && (i <? 25)) targets.
Proof.
  induction targets as [|t targets IH]; intros mask i; cbn [fold_left existsb].
  - now rewrite orb_false_r.
  - rewrite IH. cbv zeta.
    destruct ((0 <=? Detection.id t - 1) && (Detection.id t - 1 <? 25)) eqn:E.
    + apply andb_true_iff in E. destruct E as [E1%Z.leb_le E2%Z.ltb_lt].
      rewrite Z.lor_spec, Z.shiftl_1_l, Z.pow2_bits_eqb by lia.
      destruct (Z.eqb_spec (Detection.id t - 1) i) as [Hi|Hi].
      * assert (L : (0 <=? i) = true) by (apply Z.leb_le; lia).
        assert (U : (i <? 25) = true) by (apply Z.ltb_lt; lia).
        rewrite L, U. cbn [andb orb]. now rewrite !orb_true_r.
      * cbn [andb orb]. now rewrite orb_false_r.
    + destruct (Z.eqb_spec (Detection.id t - 1) i) as [Hi|Hi]; [|reflexivity].
      subst i. rewrite <- andb_assoc, E, andb_false_r. reflexivity.
Qed.

Lemma mask_fold_bound targets : forall mask,
  0 <= mask < 2 ^ 25 ->
  0 <= fold_left
         (fun mask target =>
            let squareIndex := target.(Detection.id) - 1 in
            if (0 <=? squareIndex) && (squareIndex <? 25)
            then Z.lor mask (Z.shiftl 1 squareIndex)
            else mask) targets mask < 2 ^ 25.
Proof.
  induction targets as [|t targets IH]; intros mask B; cbn [fold_left].
  - exact B.
  - apply IH. cbv zeta.
    destruct ((0 <=? Detection.id t - 1) && (Detection.id t - 1 <? 25)) eqn:E;
      [|exact B].
    apply andb_true_iff in E. destruct E as [E1%Z.leb_le E2%Z.ltb_lt].
    rewrite Z.shiftl_1_l.
    assert (P : 0 < 2 ^ (Detection.id t - 1)) by (apply Z.pow_pos_nonneg; lia).
    split; [apply Z.lor_nonneg; lia|].
    apply Z.log2_lt_pow2; [|].
    + assert (0 <= Z.lor mask (2 ^ (Detection.id t - 1))) by (apply Z.lor_nonneg; lia).
      assert (Z.lor mask (2 ^ (Detection.id t - 1)) <> 0).
      { intros H0. apply Z.lor_eq_0_iff in H0. lia. }
      lia.
    + rewrite Z.log2_lor by lia. rewrite Z.log2_pow2 by lia.
      apply Z.max_lub_lt; [|lia].
      destruct (Z.eq_dec mask 0) as [->|]; [cbn; lia|].
      apply Z.log2_lt_pow2; lia.
Qed.

End Wire.

(** X1. [createSquaresMask]: bit [i] of the mask is set exactly when some
    target names square [i + 1] and [i] is one of the 25 square indexes;
    targets with any other id are ignored. The mask lies below [2^25], so
    writing it as an unsigned 32-bit integer cannot fail, and the four
    bytes written read back as the mask. *)
Theorem squares_mask_bits (targets : list Detection.EvEntry) :
  let mask := Transactions.createSquaresMask targets in
  (forall i,
      Z.testbit mask i
      = existsb (fun t => (t.(Detection.id) - 1 =? i) && (0 <=? i) && (i <? 25))
          targets)
  /\ 0 <= mask < 2 ^ 25
  /\ exists bytes,
      Transactions.writeUInt32LE mask = Some bytes
      /\ List.length bytes = 4%nat
      /\ Spec.le_value bytes = mask.
Proof.
  intros mask.
  assert (B : 0 <= mask < 2 ^ 25) by (apply mask_fold_bound; lia).
  split; [|split; [exact B|]].
  - intros i. unfold mask, Transactions.createSquaresMask.
    rewrite mask_fold_bits. now rewrite Z.bits_0.
  - unfold Transactions.writeUInt32LE.
    assert (E : (0 <=? mask) && (mask <? 2 ^ 32) = true).
    { apply andb_true_iff. split; [apply Z.leb_le|apply Z.ltb_lt]; [lia|].
      eapply Z.lt_trans; [apply B|]. reflexivity. }
    rewrite E. eexists. split; [reflexivity|].
    apply writeUInt32LE_value. unfold Transactions.writeUInt32LE. now rewrite E.
Qed.

Section SequencerRuns.
Import Effects.

Ltac step :=
  first
    [ rewrite bind_assoc | rewrite bind_ret | rewrite bind_getState
    | rewrite bind_log | rewrite bind_emit | rewrite bind_setAppState
    | rewrite bind_await | rewrite bind_orThrow | rewrite bind_throw ].

Ltac split_run :=
  match goal with
  | |- context [match ?x with _ => _ end] =>
      lazymatch x with
      | context [match _ with _ => _ end] => fail
      | context [outcomeOf] => fail
      | _ => destruct x eqn:?
      end
  end.

Ltac run :=
  repeat first
    [ step
    | rewrite bind_tryCatch
    | rewrite tryCatch_bind_assoc | rewrite tryCatch_bind_ret
    | rewrite tryCatch_bind_getState | rewrite tryCatch_bind_log
    | rewrite tryCatch_bind_emit | rewrite tryCatch_bind_setAppState
    | rewrite tryCatch_bind_await | rewrite tryCatch_bind_orThrow
    | rewrite tryCatch_log | rewrite tryCatch_emit | rewrite tryCatch_ret
    | rewrite outcomeOf_prepend | rewrite stateOf_prepend
    | rewrite traceOf_prepend
    | progress cbn [outcomeOf stateOf traceOf fst snd]
    | split_run ].

Lemma tryCatch_setAppState (h : string -> M unit) newState s :
  tryCatch (setAppState newState) h s
  = (Returned tt, State.setAppState newState s, [Write newState]).
Proof. reflexivity. Qed.

Lemma sendDeployTx_payload targets connection signer st :
  let r := Transactions.sendDeployTx targets connection (Some signer) st in
  Spec.submissions (traceOf r) = []
  \/ exists lamports amount mask tx,
      JS.BigInt_floor (st.(State.customDeployAmount) / Constants.SOL_PER_LAMPORT)%float
      = Some lamports
      /\ Transactions.writeBigUInt64LE lamports = Some amount
      /\ Transactions.writeUInt32LE (Transactions.createSquaresMask targets) = Some mask
      /\ targets <> []
      /\ Spec.submissions (traceOf r) = [tx]
      /\ In (Transactions.deployInstruction signer st.(State.currentRoundId)
                amount mask) tx.
Proof.
  unfold Transactions.sendDeployTx, Transactions.buildAndSend. cbv zeta.
  destruct targets as [|t targets]; [now left|].
  cbn [List.length Nat.eqb].
  run; rewrite ?tryCatch_setAppState; cbn [outcomeOf stateOf traceOf fst snd].
  all: cbn [Spec.submissions flat_map app].
  all: try (now left).
  all: right; do 4 eexists.
  all: repeat split; try eassumption; try discriminate; try reflexivity.
  all: cbn [In]; tauto.
Qed.


(** X3. A deployment attempt is contained: [sendDeployTx] never throws,
    whatever the node answers. It leaves the state as it was, except
    after a transaction the node accepted and a balance it reported:
    then the wallet balance, and nothing else, is updated to that balance
    in SOL. Without a signer or without targets it sends no request to
    the node at all. *)
Theorem deploy_attempt_contained (targets : list Detection.EvEntry)
    (connection : Effects.Connection) (signer : option Effects.Keypair)
    (st : State.AppState) :
  let r := Transactions.sendDeployTx targets connection signer st in
  Effects.outcomeOf r = Effects.Returned tt
  /\ (Effects.stateOf r = st
      \/ exists key tx signature newBalance,
          signer = Some key
          /\ Spec.submissions (Effects.traceOf r) = [tx]
          /\ connection.(Effects.sendAndConfirmTransaction) tx
             = Effects.Resolved signature
          /\ connection.(Effects.getBalance) key.(Effects.publicKey)
             = Effects.Resolved newBalance
          /\ Effects.stateOf r
             = State.setAppState
                 [State.Set_userBalance
                    (newBalance / Transactions.LAMPORTS_PER_SOL)%float] st)
  /\ (signer = None \/ targets = [] ->
      existsb Ref.isRpc (Effects.traceOf r) = false).
Proof.
  unfold Transactions.sendDeployTx, Transactions.buildAndSend. cbv zeta.
  destruct signer as [key|].
  2:{ repeat split; try (now left). }
  destruct targets as [|t targets].
  { repeat split; try (now left). }
  cbn [List.length Nat.eqb].
  run; rewrite ?tryCatch_setAppState; cbn [outcomeOf stateOf traceOf fst snd].
  all: (split; [reflexivity|split; [|intros [H|H]; discriminate H]]).
  all: try (left; reflexivity).
  all: right; do 4 eexists; split; [reflexivity|].
  all: cbn [Spec.submissions flat_map app].
  all: repeat split; try eassumption; reflexivity.
Qed.

(** X2. The payload of a deployment. A transaction that [sendDeployTx]
    submits carries the deployment instruction whose 13 bytes are the
    opcode 6, the stake per square in lamports as an unsigned 64-bit
    little-endian integer, and the mask of the targets as an unsigned
    32-bit little-endian integer. The stake is the floor of
    [customDeployAmount / SOL_PER_LAMPORT], which must be a finite number
    below [2^64] for anything to be submitted. *)
Theorem deploy_payload (targets : list Detection.EvEntry)
    (connection : Effects.Connection) (signer : Effects.Keypair)
    (st : State.AppState) (tx : Effects.Transaction) :
  let r := Transactions.sendDeployTx targets connection (Some signer) st in
  In tx (Spec.submissions (Effects.traceOf r)) ->
  exists lamports amount mask,
    JS.BigInt_floor
      (st.(State.customDeployAmount) / Constants.SOL_PER_LAMPORT)%float
    = Some lamports
    /\ 0 <= lamports < 2 ^ 64
    /\ In (Effects.OreInstruction
             (Transactions.deployAccounts signer st.(State.currentRoundId))
             ("006"%byte :: amount ++ mask)) tx
    /\ List.length amount = 8%nat /\ Spec.le_value amount = lamports
    /\ List.length mask = 4%nat
    /\ Spec.le_value mask = Transactions.createSquaresMask targets
    /\ targets <> [].
Proof.
  intros r Hin.
  destruct (sendDeployTx_payload targets connection signer st)
    as [Hnone | (lamports & amount & mask & tx' & Hl & Ha & Hm & Ht & Hs & Hi)];
    fold r in Hnone || fold r in Hs.
  { rewrite Hnone in Hin. destruct Hin. }
  rewrite Hs in Hin. destruct Hin as [<-|[]].
  apply writeBigUInt64LE_value in Ha. destruct Ha as (Hr & Hla & Hva).
  apply writeUInt32LE_value in Hm. destruct Hm as (_ & Hlm & Hvm).
  exists lamports, amount, mask. repeat split; try assumption; lia.
Qed.

Lemma deploy_payload_witness :
  let r := Transactions.sendDeployTx Samples.targets (Samples.node 41 40)
             (Some Samples.keypair) (Samples.running "3x EV") in
  exists tx lamports amount mask,
    Spec.submissions (Effects.traceOf r) = [tx]
    /\ JS.BigInt_floor
         ((Samples.running "3x EV").(State.customDeployAmount)
          / Constants.SOL_PER_LAMPORT)%float = Some lamports
    /\ Spec.le_value amount = lamports
    /\ Spec.le_value mask = Transactions.createSquaresMask Samples.targets.
Proof.
  intros r.
  set (tx := hd [] (Spec.submissions (Effects.traceOf r))).
  assert (Hs : Spec.submissions (Effects.traceOf r) = [tx])
    by (vm_compute; reflexivity).
  assert (Hin : In tx (Spec.submissions (Effects.traceOf r)))
    by (rewrite Hs; left; reflexivity).
  destruct (deploy_payload Samples.targets (Samples.node 41 40)
              Samples.keypair (Samples.running "3x EV") tx Hin)
    as (lamports & amount & mask & Hl & _ & _ & _ & Ha & _ & Hm & _).
  exists tx, lamports, amount, mask.
  split; [exact Hs|]. split; [exact Hl|]. split; [exact Ha|exact Hm].
Defined.

(** X4. A deployment that comes too late. When the node rejects the
    submitted transaction with an error that mentions
    [InvalidAccountData] (the round has ended), [sendDeployTx] logs that
    the deployment was skipped as its last action, asks for no balance
    and leaves the state as it was. *)
Theorem deploy_rejected_too_late (targets : list Detection.EvEntry)
    (connection : Effects.Connection) (signer : Effects.Keypair)
    (st : State.AppState) (tx : Effects.Transaction) (message : string) :
  let r := Transactions.sendDeployTx targets connection (Some signer) st in
  In tx (Spec.submissions (Effects.traceOf r)) ->
  connection.(Effects.sendAndConfirmTransaction) tx = Effects.Rejected message ->
  Transactions.includes "InvalidAccountData" message = true ->
  Effects.stateOf r = st
  /\ existsb Ref.isBalanceRequest (Effects.traceOf r) = false
  /\ last (Effects.traceOf r) Effects.Screen_render
     = Effects.Log Effects.L_deploy_skipped_too_late.
Proof.
  unfold Transactions.sendDeployTx, Transactions.buildAndSend. cbv zeta.
  destruct targets as [|t targets]; [intros []|].
  cbn [List.length Nat.eqb].
  run; rewrite ?tryCatch_setAppState; cbn [outcomeOf stateOf traceOf fst snd].
  all: cbn [Spec.submissions flat_map app In] in *.
  all: try (intros []; fail).
  all: intros [<-|[]] Hrej Hinc.
  all: try congruence.
  all: repeat split; reflexivity.
Qed.

Lemma deploy_rejected_too_late_witness :
  let st := Samples.running "3x EV" in
  let r := Transactions.sendDeployTx Samples.targets Samples2.lateNode
             (Some Samples.keypair) st in
  Spec.submissions (Effects.traceOf r) <> []
  /\ Effects.stateOf r = st
  /\ last (Effects.traceOf r) Effects.Screen_render
     = Effects.Log Effects.L_deploy_skipped_too_late.
Proof.
  intros st r.
  set (tx := hd [] (Spec.submissions (Effects.traceOf r))).
  assert (Hs : Spec.submissions (Effects.traceOf r) = [tx])
    by (vm_compute; reflexivity).
  assert (Hin : In tx (Spec.submissions (Effects.traceOf r)))
    by (rewrite Hs; left; reflexivity).
  destruct (deploy_rejected_too_late Samples.targets Samples2.lateNode
              Samples.keypair st tx
              "failed to send transaction: custom program error: InvalidAccountData"
              Hin eq_refl) as (H1 & _ & H3).
  { vm_compute; reflexivity. }
  split; [rewrite Hs; discriminate|]. split; [exact H1|exact H3].
Defined.

End SequencerRuns.

(** ** The board analyzer: what the lists hold *)

Section Analyzer.

Lemma sort_permutation {A} (cmp : A -> A -> float) (l : list A) :
  Permutation (JSArray.sort cmp l) l.
Proof.
  unfold JSArray.sort.
  assert (G : forall acc, Permutation
                (fold_left (fun acc x => JSArray.insert cmp x acc) l acc) (acc ++ l)).
  { induction l as [|x l IH]; intros acc; cbn [fold_left].
    - now rewrite app_nil_r.
    - rewrite IH. rewrite (insert_perm cmp x acc).
      change (x :: acc) with ([x] ++ acc). rewrite <- app_assoc.
      apply Permutation_app_swap_app. }
  apply (G []).
Qed.

Lemma is_finite_not_nan x : PrimFloat.is_finite x = true -> PrimFloat.is_nan x = false.
Proof.
  unfold PrimFloat.is_finite. rewrite negb_true_iff, orb_false_iff. tauto.
Qed.

Lemma analysis_parts st rd analysis :
  Detection.analyzeBoardState st (Some rd) = Some analysis ->
  let T := (JS.Number_of_Z rd.(Solana.Round.total_deployed)
            * Constants.SOL_PER_LAMPORT)%float in
  let ore := Ev.getOreValueInSOL st rd in
  Forall2 (fun i f => Detection.square rd T ore i = Some f)
    (seq 0 25) analysis.(Detection.fullAnalysis)
  /\ analysis.(Detection.byEV) = Ref.byEV_of analysis.(Detection.fullAnalysis)
  /\ analysis.(Detection.byRatio) = Ref.byRatio_of analysis.(Detection.fullAnalysis)
  /\ analysis.(Detection.bestEV) = hd_error analysis.(Detection.byEV)
  /\ analysis.(Detection.bestRatio) = hd_error analysis.(Detection.byRatio).
Proof.
  intros H T ore. unfold Detection.analyzeBoardState in H. fold T ore in H.
  destruct (Detection.squares rd T ore (seq 0 Detection.NUM_SQUARES))
    as [full|] eqn:Hsq; [|discriminate].
  assert (E : analysis
              = {| Detection.bestEV := hd_error (Ref.byEV_of full);
                   Detection.bestRatio := hd_error (Ref.byRatio_of full);
                   Detection.byEV := Ref.byEV_of full;
                   Detection.byRatio := Ref.byRatio_of full;
                   Detection.fullAnalysis := full |})
    by (cbv zeta in H; unfold Ref.byEV_of, Ref.byRatio_of; congruence).
  subst analysis. cbn [Detection.byRatio Detection.byEV Detection.fullAnalysis
                       Detection.bestEV Detection.bestRatio].
  split; [|repeat split]. exact (squares_spec rd T ore _ _ Hsq).
Qed.

Lemma Forall2_ids rd T ore idxs full :
  Forall2 (fun i f => Detection.square rd T ore i = Some f) idxs full ->
  map Detection.f_id full = map (fun i => Z.of_nat i + 1) idxs.
Proof.
  induction 1 as [|i f idxs full Hi H IH]; [reflexivity|].
  cbn [map]. rewrite IH, (square_id rd T ore i f Hi). reflexivity.
Qed.

Lemma sorted_lt_NoDup (l : list Z) : StronglySorted Z.lt l -> NoDup l.
Proof.
  induction 1 as [|a l Hs IH Ha]; constructor; [|assumption].
  intros Hin. rewrite Forall_forall in Ha. specialize (Ha a Hin). lia.
Qed.

Lemma full_ids_NoDup rd T ore full :
  Forall2 (fun i f => Detection.square rd T ore i = Some f) (seq 0 25) full ->
  NoDup (map Detection.f_id full).
Proof.
  intros H. apply sorted_lt_NoDup, StronglySorted_map.
  exact (squares_ids_sorted rd T ore _ _ (seq_sorted 0 _) H).
Qed.

Lemma NoDup_filter {A} (p : A -> bool) (f : A -> Z) l :
  NoDup (map f l) -> NoDup (map f (filter p l)).
Proof.
  induction l as [|x l IH]; cbn [map filter]; [auto|].
  intros H. inversion H as [|? ? Hx Hl]; subst.
  destruct (p x); [|now apply IH].
  cbn [map]. constructor; [|now apply IH].
  intros Hin. apply Hx. apply in_map_iff in Hin. destruct Hin as (y & Hy & Hin).
  apply filter_In in Hin. apply in_map_iff. exists y. tauto.
Qed.

(** What [byEV] holds: the squares of positive EV, each once. *)
Lemma byEV_entries full :
  NoDup (map Detection.f_id full) ->
  NoDup (map Detection.id (Ref.byEV_of full))
  /\ (forall e, In e (Ref.byEV_of full) <->
                exists f, In f full /\ e = Detection.evOf f
                          /\ (0 <? f.(Detection.f_ev))%float = true).
Proof.
  intros Hnd. unfold Ref.byEV_of.
  set (cmp := fun a b : Detection.EvEntry => (Detection.ev b - Detection.ev a)%float).
  set (evs := filter _ _).
  pose proof (sort_permutation cmp evs) as Hp.
  split.
  - apply (Permutation_NoDup (l := map Detection.id evs)).
    + apply Permutation_map. now symmetry.
    + apply NoDup_filter. rewrite map_map. exact Hnd.
  - intros e. split.
    + intros He. apply (Permutation_in _ Hp) in He.
      apply filter_In in He. destruct He as [He Hpos].
      apply in_map_iff in He. destruct He as (f & <- & Hf).
      exists f. auto.
    + intros (f & Hf & -> & Hpos).
      apply (Permutation_in _ (Permutation_sym Hp)).
      apply filter_In. split; [now apply in_map|exact Hpos].
Qed.

Lemma byRatio_entries full :
  NoDup (map Detection.f_id full) ->
  NoDup (map Detection.r_id (Ref.byRatio_of full))
  /\ (forall r, In r (Ref.byRatio_of full) <->
                exists f, In f full /\ r = Detection.ratioOf f
                          /\ (f.(Detection.f_ratio) <? infinity)%float = true
                          /\ (0 <? f.(Detection.f_ratio))%float = true).
Proof.
  intros Hnd. unfold Ref.byRatio_of.
  set (cmp := fun a b : Detection.RatioEntry =>
                (Detection.ratio a - Detection.ratio b)%float).
  set (rs := filter _ _).
  pose proof (sort_permutation cmp rs) as Hp.
  split.
  - apply (Permutation_NoDup (l := map Detection.r_id rs)).
    + apply Permutation_map. now symmetry.
    + apply NoDup_filter. rewrite map_map. exact Hnd.
  - intros e. split.
    + intros He. apply (Permutation_in _ Hp) in He.
      apply filter_In in He. destruct He as [He Hpos].
      apply in_map_iff in He. destruct He as (f & <- & Hf).
      apply andb_true_iff in Hpos. exists f. tauto.
    + intros (f & Hf & -> & Hinf & Hpos).
      apply (Permutation_in _ (Permutation_sym Hp)).
      apply filter_In. split; [now apply in_map|].
      cbn [Detection.ratioOf Detection.ratio]. now rewrite Hinf, Hpos.
Qed.

End Analyzer.

(** X5. The analysis covers the board. Whenever [analyzeBoardState]
    returns for a round, [fullAnalysis] holds the 25 squares in order,
    with the ids 1 to 25; [byEV] holds exactly the squares of
    [fullAnalysis] whose EV is positive and [byRatio] exactly those whose
    ratio is positive and finite, each square at most once; and
    [bestEV] and [bestRatio] are the first entries of the two rankings
    ([null] when the ranking is empty). *)
Theorem analysis_covers_board (st : State.AppState) (rd : Solana.RoundData)
    (analysis : Detection.Analysis) :
  Detection.analyzeBoardState st (Some rd) = Some analysis ->
  map Detection.f_id analysis.(Detection.fullAnalysis)
  = map (fun i => Z.of_nat i + 1) (seq 0 25)
  /\ NoDup (map Detection.id analysis.(Detection.byEV))
  /\ NoDup (map Detection.r_id analysis.(Detection.byRatio))
  /\ (forall e, In e analysis.(Detection.byEV) <->
        exists f, In f analysis.(Detection.fullAnalysis)
                  /\ e = Detection.evOf f
                  /\ (0 <? f.(Detection.f_ev))%float = true)
  /\ (forall r, In r analysis.(Detection.byRatio) <->
        exists f, In f analysis.(Detection.fullAnalysis)
                  /\ r = Detection.ratioOf f
                  /\ (f.(Detection.f_ratio) <? infinity)%float = true
                  /\ (0 <? f.(Detection.f_ratio))%float = true)
  /\ analysis.(Detection.bestEV) = hd_error analysis.(Detection.byEV)
  /\ analysis.(Detection.bestRatio) = hd_error analysis.(Detection.byRatio).
Proof.
  intros H. destruct (analysis_parts st rd analysis H) as (Hall & HE & HR & HbE & HbR).
  pose proof (full_ids_NoDup _ _ _ _ Hall) as Hnd.
  destruct (byEV_entries _ Hnd) as [HE1 HE2].
  destruct (byRatio_entries _ Hnd) as [HR1 HR2].
  rewrite HE, HR in *.
  split; [exact (Forall2_ids _ _ _ _ _ Hall)|].
  repeat split; try assumption; try apply HE2; try apply HR2.
Qed.

Lemma analysis_covers_board_witness :
  exists analysis,
    Detection.analyzeBoardState (Samples.running "3x EV") (Some Samples.round)
    = Some analysis
    /\ List.length analysis.(Detection.fullAnalysis) = 25%nat
    /\ NoDup (map Detection.id analysis.(Detection.byEV)).
Proof.
  set (st := Samples.running "3x EV").
  set (analysis := match Detection.analyzeBoardState st (Some Samples.round) with
                   | Some a => a
                   | None => Detection.emptyAnalysis
                   end).
  assert (Ha : Detection.analyzeBoardState st (Some Samples.round) = Some analysis)
    by (vm_compute; reflexivity).
  destruct (analysis_covers_board st Samples.round analysis Ha)
    as (Hids & Hnd & _).
  exists analysis. split; [exact Ha|]. split; [|exact Hnd].
  rewrite <- (length_map Detection.f_id), Hids, length_map. reflexivity.
Defined.

Section Best.
Variables (rd : Solana.RoundData) (T ore : float).

Lemma square_ev_not_nan i f :
  Detection.square rd T ore i = Some f ->
  PrimFloat.is_nan f.(Detection.f_ev) = false.
Proof.
  unfold Detection.square.
  destruct (nth_error _ i) as [c|]; [|discriminate].
  destruct (nth_error _ i) as [d|]; [|discriminate].
  intros H.
  assert (E : f.(Detection.f_ev)
              = let EV := Ev.EV (Ev.computeEVStarForBlock
                                   (JS.Number_of_Z d * Constants.SOL_PER_LAMPORT) T ore) in
                if JS.isFinite EV then EV else neg_infinity).
  { injection H as <-. reflexivity. }
  rewrite E. cbv zeta.
  destruct (JS.isFinite _) eqn:Hf; [now apply is_finite_not_nan|reflexivity].
Qed.

Lemma byEV_sorted full :
  Forall2 (fun i f => Detection.square rd T ore i = Some f) (seq 0 25) full ->
  StronglySorted
    (Spec.sortsBefore (fun e => - Spec.rank e.(Detection.ev)) Detection.id)
    (Ref.byEV_of full).
Proof.
  intros Hall. unfold Ref.byEV_of.
  pose proof (squares_ids_sorted rd T ore _ _ (seq_sorted 0 _) Hall) as Hids.
  set (evs := filter _ _).
  assert (Hev : forall e, In e evs -> Spec.posfin e.(Detection.ev)).
  { intros e He. apply filter_In in He. destruct He as [He Hpos].
    apply in_map_iff in He. destruct He as (f & <- & Hf).
    destruct (Forall2_In_right _ _ _ _ Hall Hf) as (i & _ & Hi).
    now apply (square_facts rd T ore i f Hi). }
  apply sort_sorted.
  - apply StronglySorted_filter, StronglySorted_map. exact Hids.
  - intros a b Ha Hb. apply ltb_opp_rank; now apply Hev.
Qed.

End Best.

Lemma ord_zero : Float64.ord 0%float = 0.
Proof. reflexivity. Qed.

(** X6. The best square. When [bestEV] is a square, its EV is positive
    and no square of the board has a larger one; among the squares with
    that EV it is the one with the lowest id. When [bestEV] is [null], no
    square of the board has a positive EV. *)
Theorem best_square_is_maximum (st : State.AppState) (rd : Solana.RoundData)
    (analysis : Detection.Analysis) :
  Detection.analyzeBoardState st (Some rd) = Some analysis ->
  match analysis.(Detection.bestEV) with
  | Some best =>
      (0 <? best.(Detection.ev))%float = true
      /\ (exists f, In f analysis.(Detection.fullAnalysis)
                    /\ best = Detection.evOf f)
      /\ forall f, In f analysis.(Detection.fullAnalysis) ->
           (f.(Detection.f_ev) <=? best.(Detection.ev))%float = true
           /\ ((f.(Detection.f_ev) =? best.(Detection.ev))%float = true ->
               best.(Detection.id) <= f.(Detection.f_id))
  | None =>
      analysis.(Detection.byEV) = []
      /\ forall f, In f analysis.(Detection.fullAnalysis) ->
           (0 <? f.(Detection.f_ev))%float = false
  end.
Proof.
  intros H. destruct (analysis_parts st rd analysis H) as (Hall & HE & _ & HbE & _).
  set (T := (JS.Number_of_Z _ * _)%float) in Hall.
  set (ore := Ev.getOreValueInSOL st rd) in Hall.
  pose proof (full_ids_NoDup _ _ _ _ Hall) as Hnd.
  destruct (byEV_entries _ Hnd) as [_ Hin].
  pose proof (byEV_sorted rd T ore _ Hall) as Hs.
  rewrite HbE, HE. clear HbE HE.
  destruct (Ref.byEV_of analysis.(Detection.fullAnalysis)) as [|best rest] eqn:E;
    cbn [hd_error].
  - split; [reflexivity|]. intros f Hf.
    destruct (0 <? Detection.f_ev f)%float eqn:Hp; [|reflexivity].
    destruct (proj2 (Hin (Detection.evOf f))) as []. exists f. auto.
  - destruct (proj1 (Hin best) (or_introl eq_refl)) as (fb & Hfb & Eb & Hpos).
    assert (Pb : Spec.posfin best.(Detection.ev)).
    { destruct (Forall2_In_right _ _ _ _ Hall Hfb) as (i & _ & Hi).
      rewrite Eb. now apply (square_facts rd T ore i fb Hi). }
    split; [now rewrite Eb|]. split; [now exists fb|].
    intros f Hf.
    destruct (Forall2_In_right _ _ _ _ Hall Hf) as (i & _ & Hi).
    destruct (0 <? Detection.f_ev f)%float eqn:Hp.
    + (* a ranked square: it is the best one or comes after it *)
      assert (Pf : Spec.posfin f.(Detection.f_ev))
        by now apply (square_facts rd T ore i f Hi).
      assert (Hfin : In (Detection.evOf f) (best :: rest))
        by (apply Hin; exists f; auto).
      rewrite leb_rank, eqb_rank by assumption.
      rewrite Z.leb_le, Z.eqb_eq.
      destruct Hfin as [Hbest|Hrest]; [rewrite Hbest; cbn; lia|].
      inversion Hs as [|? ? _ Hb]; subst.
      rewrite Forall_forall in Hb. specialize (Hb _ Hrest).
      unfold Spec.sortsBefore in Hb. cbn [Detection.evOf Detection.ev Detection.id] in Hb.
      cbn [Detection.evOf Detection.ev Detection.id]. lia.
    + (* an unranked square: its EV is not positive *)
      pose proof (square_ev_not_nan rd T ore i f Hi) as Nf.
      assert (Nb : PrimFloat.is_nan best.(Detection.ev) = false).
      { destruct (Forall2_In_right _ _ _ _ Hall Hfb) as (j & _ & Hj).
        rewrite Eb. exact (square_ev_not_nan rd T ore j fb Hj). }
      assert (N0 : PrimFloat.is_nan 0%float = false) by reflexivity.
      rewrite ltb_ord, ord_zero in Hp by assumption.
      assert (Hpos' : (0 <? Detection.ev best)%float = true) by now rewrite Eb.
      rewrite ltb_ord, ord_zero in Hpos' by assumption.
      apply Z.ltb_ge in Hp. apply Z.ltb_lt in Hpos'.
      split.
      * rewrite leb_ord by assumption. apply Z.leb_le. lia.
      * intros Heq. rewrite eqb_spec in Heq.
        exfalso. revert Heq. unfold SFeqb. rewrite compare_ord by assumption.
        destruct (Z.compare_spec (Float64.ord (Detection.f_ev f))
                    (Float64.ord (Detection.ev best))); try discriminate; lia.
Qed.

Lemma best_square_is_maximum_witness :
  exists analysis best,
    Detection.analyzeBoardState (Samples.running "3x EV") (Some Samples.round)
    = Some analysis
    /\ analysis.(Detection.bestEV) = Some best
    /\ best.(Detection.id) = 2
    /\ forall f, In f analysis.(Detection.fullAnalysis) ->
         (f.(Detection.f_ev) <=? best.(Detection.ev))%float = true.
Proof.
  set (st := Samples.running "3x EV").
  set (analysis := match Detection.analyzeBoardState st (Some Samples.round) with
                   | Some a => a
                   | None => Detection.emptyAnalysis
                   end).
  assert (Ha : Detection.analyzeBoardState st (Some Samples.round) = Some analysis)
    by (vm_compute; reflexivity).
  pose proof (best_square_is_maximum st Samples.round analysis Ha) as Hb.
  destruct (Detection.bestEV analysis) as [best|] eqn:Eb.
  - exists analysis, best. split; [exact Ha|]. split; [exact Eb|].
    split.
    + assert (Eb' : option_map Detection.id (Detection.bestEV analysis) = Some 2)
        by (vm_compute; reflexivity).
      rewrite Eb in Eb'. now injection Eb'.
    + intros f Hf. now apply Hb.
  - exfalso. assert (Eb' : Detection.bestEV analysis <> None)
      by (vm_compute; discriminate).
    now apply Eb'.
Defined.

Section Unstaked.
Local Open Scope float_scope.

Lemma zero_stake : JS.Number_of_Z 0 * Constants.SOL_PER_LAMPORT = 0.
Proof. vm_compute. reflexivity. Qed.

Lemma computeEV_unstaked T ore :
  Ev.computeEVStarForBlock 0 T ore = {| Ev.y := 0; Ev.EV := neg_infinity |}.
Proof.
  unfold Ev.computeEVStarForBlock.
  change (negb (JS.isFinite 0) || (0 <=? 0)) with true. reflexivity.
Qed.

Lemma computeEV_empty_board O ore :
  Ev.EV (Ev.computeEVStarForBlock O 0 ore) = neg_infinity.
Proof.
  unfold Ev.computeEVStarForBlock.
  destruct (negb (JS.isFinite O) || (O <=? 0)); [reflexivity|].
  change (negb (JS.isFinite 0) || (0 <=? 0)) with true. reflexivity.
Qed.

Lemma div_zero_not_positive c : (0 <? 0 / c) = false.
Proof.
  rewrite ltb_spec, div_spec.
  change (Prim2SF 0) with (S754_zero false).
  destruct (Prim2SF c) as [[]|[]| |[] m e]; reflexivity.
Qed.

Lemma square_unstaked rd T ore i f :
  Detection.square rd T ore i = Some f ->
  nth_error rd.(Solana.Round.deployed) i = Some 0%Z ->
  (0 <? f.(Detection.f_ev)) = false
  /\ ((f.(Detection.f_ratio) <? infinity) && (0 <? f.(Detection.f_ratio))) = false.
Proof.
  unfold Detection.square. intros H Hd. rewrite Hd in H.
  destruct (nth_error _ i) as [c|]; [|discriminate].
  rewrite zero_stake, computeEV_unstaked in H. cbn [Ev.EV] in H.
  change (JS.isFinite neg_infinity) with false in H. cbv iota in H.
  assert (E : f = {| Detection.f_id := Z.of_nat i + 1; Detection.f_sol := 0;
                     Detection.f_count := JS.Number_of_Z c;
                     Detection.f_ratio :=
                       if 0 <? JS.Number_of_Z c then 0 / JS.Number_of_Z c
                       else infinity;
                     Detection.f_ev := neg_infinity |}) by congruence.
  rewrite E. cbn [Detection.f_ev Detection.f_ratio]. split; [reflexivity|].
  destruct (0 <? JS.Number_of_Z c).
  - rewrite div_zero_not_positive. apply andb_false_r.
  - reflexivity.
Qed.

Lemma square_empty_board rd ore i f :
  Detection.square rd 0 ore i = Some f -> (0 <? f.(Detection.f_ev)) = false.
Proof.
  unfold Detection.square.
  destruct (nth_error _ i) as [c|]; [|discriminate].
  destruct (nth_error _ i) as [d|]; [|discriminate].
  rewrite computeEV_empty_board.
  change (JS.isFinite neg_infinity) with false. cbv iota.
  intros H.
  assert (E : f.(Detection.f_ev) = neg_infinity) by (injection H as <-; reflexivity).
  rewrite E. reflexivity.
Qed.

End Unstaked.

Lemma Forall2_In_left {A B} (P : A -> B -> Prop) l1 l2 x :
  Forall2 P l1 l2 -> In x l1 -> exists y, In y l2 /\ P x y.
Proof.
  induction 1 as [|a b l1 l2 Hab H IH]; [intros []|].
  intros [<-|Hin].
  - exists b. split; [now left|assumption].
  - destruct (IH Hin) as (y & Hy & Hxy). exists y. split; [now right|assumption].
Qed.

(** X7. Nothing staked, nothing ranked. In the analysis of a round, a
    square on which nothing is deployed appears neither in [byEV] nor in
    [byRatio]; and when nothing at all is deployed in the round
    ([total_deployed] is 0) the EV ranking is empty and there is no best
    square, so that the trigger has nothing to deploy to. *)
Theorem unstaked_square_unranked (st : State.AppState) (rd : Solana.RoundData)
    (analysis : Detection.Analysis) :
  Detection.analyzeBoardState st (Some rd) = Some analysis ->
  (forall i, nth_error rd.(Solana.Round.deployed) i = Some 0 ->
     ~ In (Z.of_nat i + 1) (map Detection.id analysis.(Detection.byEV))
     /\ ~ In (Z.of_nat i + 1) (map Detection.r_id analysis.(Detection.byRatio)))
  /\ (rd.(Solana.Round.total_deployed) = 0 ->
      analysis.(Detection.byEV) = []
      /\ analysis.(Detection.bestEV) = None
      /\ forall appMode, Automation.selectTargets appMode analysis = []).
Proof.
  intros H. destruct (analysis_parts st rd analysis H) as (Hall & HE & HR & HbE & _).
  set (T := (JS.Number_of_Z _ * _)%float) in Hall.
  set (ore := Ev.getOreValueInSOL st rd) in Hall.
  pose proof (full_ids_NoDup _ _ _ _ Hall) as Hnd.
  destruct (byEV_entries _ Hnd) as [_ HinE].
  destruct (byRatio_entries _ Hnd) as [_ HinR].
  split.
  - intros i Hd.
    assert (Hsq : forall f, In f analysis.(Detection.fullAnalysis) ->
                    f.(Detection.f_id) = Z.of_nat i + 1 ->
                    Detection.square rd T ore i = Some f).
    { intros f Hf Hid.
      destruct (Forall2_In_right _ _ _ _ Hall Hf) as (j & _ & Hj).
      pose proof (square_id rd T ore j f Hj) as Hid'.
      assert (j = i) by lia. now subst j. }
    split; intros Hin; apply in_map_iff in Hin; destruct Hin as (e & Hid & He).
    + rewrite HE in He. apply HinE in He. destruct He as (f & Hf & -> & Hpos).
      destruct (square_unstaked rd T ore i f (Hsq f Hf Hid) Hd) as [Hev _].
      congruence.
    + rewrite HR in He. apply HinR in He.
      destruct He as (f & Hf & -> & Hinf & Hpos).
      destruct (square_unstaked rd T ore i f (Hsq f Hf Hid) Hd) as [_ Hr].
      rewrite Hinf, Hpos in Hr. discriminate Hr.
  - intros H0.
    assert (T0 : T = 0%float) by (unfold T; rewrite H0; exact zero_stake).
    assert (Hnil : analysis.(Detection.byEV) = []).
    { destruct analysis.(Detection.byEV) as [|e rest] eqn:E; [reflexivity|].
      exfalso.
      assert (Hin : In e (Ref.byEV_of analysis.(Detection.fullAnalysis)))
        by (rewrite <- HE; now left).
      apply HinE in Hin. destruct Hin as (f & Hf & _ & Hpos).
      destruct (Forall2_In_right _ _ _ _ Hall Hf) as (j & _ & Hj).
      rewrite T0 in Hj. rewrite (square_empty_board rd ore j f Hj) in Hpos.
      discriminate Hpos. }
    split; [exact Hnil|]. rewrite HbE, Hnil. split; [reflexivity|].
    intros appMode. unfold Automation.selectTargets. rewrite HbE, Hnil.
    cbn [hd_error]. repeat destruct (String.eqb _ _); reflexivity.
Qed.

Lemma unstaked_square_unranked_witness :
  exists analysis,
    Detection.analyzeBoardState (Samples.running "3x EV") (Some Samples.round)
    = Some analysis
    /\ nth_error Samples.round.(Solana.Round.deployed) 4 = Some 0
    /\ ~ In 5 (map Detection.id analysis.(Detection.byEV))
    /\ ~ In 5 (map Detection.r_id analysis.(Detection.byRatio)).
Proof.
  set (st := Samples.running "3x EV").
  set (analysis := match Detection.analyzeBoardState st (Some Samples.round) with
                   | Some a => a
                   | None => Detection.emptyAnalysis
                   end).
  assert (Ha : Detection.analyzeBoardState st (Some Samples.round) = Some analysis)
    by (vm_compute; reflexivity).
  destruct (unstaked_square_unranked st Samples.round analysis Ha) as [Hsq _].
  exists analysis. split; [exact Ha|]. split; [reflexivity|].
  exact (Hsq 4%nat eq_refl).
Defined.

(** ** The targets of the trigger *)

Section Targets.
Import Effects.

Lemma not_in_logs {A} (e : Effect) (f : A -> LogLine) (l : list A) :
  (forall line, e <> Log line) -> ~ In e (map (fun x => Log (f x)) l).
Proof.
  intros He Hin. apply in_map_iff in Hin. destruct Hin as (x & Hx & _).
  exact (He _ (eq_sym Hx)).
Qed.

(** A deployment is requested only with the targets the mode selects
    from an analysis that has a best square, with speculation off and a
    signer loaded. *)
Lemma analyzeAndDeploy_calls appMode isSpeculating customDeployAmount roundData
    signer st1 targets key :
  In (Call_sendDeployTx targets key)
     (traceOf (Automation.analyzeAndDeploy appMode isSpeculating
                 customDeployAmount roundData signer st1)) ->
  exists analysis best,
    Detection.analyzeBoardState st1 roundData = Some analysis
    /\ analysis.(Detection.bestEV) = Some best
    /\ targets = Automation.selectTargets appMode analysis
    /\ targets <> []
    /\ isSpeculating = false
    /\ signer = Some key.
Proof.
  unfold Automation.analyzeAndDeploy, bind, emit, getState, orThrow, log, emit,
    ret, throw.
  cbn [outcomeOf stateOf traceOf fst snd app].
  destruct (Detection.analyzeBoardState st1 roundData) as [analysis|] eqn:Ha;
    cbn [outcomeOf stateOf traceOf fst snd app In].
  2:{ intros [H|[]]; discriminate H. }
  destruct (Detection.bestEV analysis) as [best|] eqn:Hb;
    cbn [outcomeOf stateOf traceOf fst snd app In].
  2:{ intros [H|[H|[]]]; discriminate H. }
  destruct (Automation.selectTargets appMode analysis) as [|t0 ts] eqn:Ht;
    cbn [outcomeOf stateOf traceOf fst snd app In List.length Nat.eqb].
  { intros [H|[H|[]]]; discriminate H. }
  assert (Hlogs : forall l : list Detection.EvEntry,
            ~ In (Call_sendDeployTx targets key)
                (map (fun target => Log (L_auto_target target.(Detection.id)
                                           target.(Detection.ev))) l)).
  { intros l. apply not_in_logs. discriminate. }
  destruct isSpeculating;
    cbn [outcomeOf stateOf traceOf fst snd app In map].
  { intros [H|[H|[H|H]]]; try discriminate H.
    apply in_app_or in H. destruct H as [H|[H|[]]]; [|discriminate H].
    now apply (Hlogs ts) in H. }
  destruct signer as [k|];
    cbn [outcomeOf stateOf traceOf fst snd app In map].
  - intros [H|[H|[H|H]]]; try discriminate H.
    apply in_app_or in H. destruct H as [H|[H|[]]].
    { now apply (Hlogs ts) in H. }
    exists analysis, best. rewrite Ht.
    repeat split; try congruence.
  - intros [H|[H|[H|H]]]; try discriminate H.
    apply in_app_or in H. destruct H as [H|[H|[H|[]]]]; try discriminate H.
    now apply (Hlogs ts) in H.
Qed.

Lemma analyzeBoardState_flag st roundData :
  Detection.analyzeBoardState
    (State.setAppState [State.Set_automationHasRunThisRound true] st) roundData
  = Detection.analyzeBoardState st roundData.
Proof. reflexivity. Qed.

Lemma runAutomationCheck_calls roundData secondsRemaining signer st targets key :
  In (Call_sendDeployTx targets key)
     (traceOf (Automation.runAutomationCheck roundData secondsRemaining signer st)) ->
  Spec.qualifies st secondsRemaining = true
  /\ exists analysis best,
      Detection.analyzeBoardState st roundData = Some analysis
      /\ analysis.(Detection.bestEV) = Some best
      /\ targets = Automation.selectTargets st.(State.appMode) analysis
      /\ targets <> []
      /\ st.(State.isSpeculating) = false
      /\ signer = Some key.
Proof.
  destruct (Spec.qualifies st secondsRemaining) eqn:Hq.
  - rewrite qualifies_true_fires by assumption. cbv zeta.
    cbn [traceOf snd In]. intros [H|[H|H]]; try discriminate H.
    split; [reflexivity|].
    apply analyzeAndDeploy_calls in H. now rewrite analyzeBoardState_flag in H.
  - rewrite qualifies_false_noop by assumption. intros [].
Qed.

Lemma selectTargets_firstn st rd analysis appMode :
  Detection.analyzeBoardState st (Some rd) = Some analysis ->
  Automation.selectTargets appMode analysis
  = firstn (Ref.modeCount appMode) analysis.(Detection.byEV).
Proof.
  intros H. destruct (analysis_parts st rd analysis H) as (_ & _ & _ & HbE & _).
  unfold Automation.selectTargets, Ref.modeCount. rewrite HbE.
  destruct (String.eqb appMode Constants.APP_MODES.ONE_X_EV).
  { now destruct analysis.(Detection.byEV). }
  repeat destruct (String.eqb _ _); reflexivity.
Qed.

Lemma NoDup_firstn {A} n (l : list A) : NoDup l -> NoDup (firstn n l).
Proof.
  intros H. rewrite <- (firstn_skipn n l) in H.
  exact (NoDup_app_remove_r _ _ H).
Qed.

Lemma In_firstn {A} n (l : list A) x : In x (firstn n l) -> In x l.
Proof.
  intros H. rewrite <- (firstn_skipn n l). apply in_or_app. now left.
Qed.

End Targets.

(** X8. What the trigger deploys to. Whenever [runAutomationCheck]
    requests a deployment, the guards have passed, speculation is off and
    a signer is loaded, the round detail is present and analysed, and
    the targets are the first squares of the EV ranking: one in mode
    1x, up to three in mode 3x, up to five in mode 5x. There is at least
    one target and there are at most five; every target has a positive
    EV and an id from 1 to 25, and no square is targeted twice. *)
Theorem trigger_deploys_top_of_ranking (st : State.AppState)
    (roundData : option Solana.RoundData) (secondsRemaining : Z)
    (signer : option Effects.Keypair)
    (targets : list Detection.EvEntry) (key : Effects.Keypair) :
  In (Effects.Call_sendDeployTx targets key)
     (Effects.traceOf
        (Automation.runAutomationCheck roundData secondsRemaining signer st)) ->
  signer = Some key
  /\ st.(State.isSpeculating) = false
  /\ st.(State.appMode) <> Constants.APP_MODES.IDLE
  /\ 0 < secondsRemaining <= 8
  /\ st.(State.automationHasRunThisRound) = false
  /\ exists rd analysis,
      roundData = Some rd
      /\ Detection.analyzeBoardState st (Some rd) = Some analysis
      /\ targets = firstn (Ref.modeCount st.(State.appMode))
                     analysis.(Detection.byEV)
      /\ (1 <= List.length targets <= 5)%nat
      /\ List.length targets
         = Nat.min (Ref.modeCount st.(State.appMode))
             (List.length analysis.(Detection.byEV))
      /\ NoDup (map Detection.id targets)
      /\ forall t, In t targets ->
           (0 <? t.(Detection.ev))%float = true
           /\ 1 <= t.(Detection.id) <= 25.
Proof.
  intros Hin. apply runAutomationCheck_calls in Hin.
  destruct Hin as (Hq & analysis & best & Ha & Hb & Ht & Hne & Hs & Hk).
  apply qualifies_true_iff in Hq. destruct Hq as (Hm & Hw & Hf).
  repeat (split; [assumption|]).
  destruct roundData as [rd|].
  2:{ cbn in Ha. injection Ha as <-. discriminate Hb. }
  exists rd, analysis. split; [reflexivity|]. split; [exact Ha|].
  rewrite (selectTargets_firstn st rd analysis _ Ha) in Ht.
  destruct (analysis_parts st rd analysis Ha) as (Hall & HE & _).
  pose proof (Forall2_ids _ _ _ _ _ Hall) as Hids.
  destruct (byEV_entries _ (full_ids_NoDup _ _ _ _ Hall)) as [HndE HinE].
  rewrite <- HE in HndE, HinE.
  assert (Hlen : List.length targets
                 = Nat.min (Ref.modeCount st.(State.appMode))
                     (List.length analysis.(Detection.byEV)))
    by (rewrite Ht; apply length_firstn).
  assert (Hc : (Ref.modeCount st.(State.appMode) <= 5)%nat).
  { unfold Ref.modeCount. repeat destruct (String.eqb _ _); lia. }
  split; [exact Ht|]. split.
  { destruct targets; [now elim Hne|]. cbn [List.length] in *. lia. }
  split; [exact Hlen|]. split.
  { rewrite Ht, <- firstn_map. now apply NoDup_firstn. }
  intros t Hin. rewrite Ht in Hin. apply In_firstn in Hin.
  apply HinE in Hin. destruct Hin as (f & Hf' & -> & Hpos).
  split; [exact Hpos|]. cbn [Detection.evOf Detection.id].
  assert (Hfid : In f.(Detection.f_id) (map Detection.f_id analysis.(Detection.fullAnalysis)))
    by now apply in_map.
  rewrite Hids in Hfid. apply in_map_iff in Hfid.
  destruct Hfid as (i & <- & Hi). apply in_seq in Hi. lia.
Qed.

Lemma trigger_deploys_top_of_ranking_witness :
  exists targets,
    In (Effects.Call_sendDeployTx targets Samples.keypair)
       (Effects.traceOf
          (Automation.runAutomationCheck (Some Samples.round) 5
             (Some Samples.keypair) (Samples.running "3x EV")))
    /\ map Detection.id targets = [2; 1; 3]
    /\ NoDup (map Detection.id targets).
Proof.
  set (st := Samples.running "3x EV").
  set (targets := match Detection.analyzeBoardState st (Some Samples.round) with
                  | Some a => firstn 3 a.(Detection.byEV)
                  | None => []
                  end).
  assert (Hin : In (Effects.Call_sendDeployTx targets Samples.keypair)
                   (Effects.traceOf
                      (Automation.runAutomationCheck (Some Samples.round) 5
                         (Some Samples.keypair) st))).
  { vm_compute. do 7 right. left. reflexivity. }
  destruct (trigger_deploys_top_of_ranking st (Some Samples.round) 5
              (Some Samples.keypair) targets Samples.keypair Hin)
    as (_ & _ & _ & _ & _ & rd & analysis & _ & _ & _ & _ & _ & Hnd & _).
  exists targets. split; [exact Hin|]. split; [vm_compute; reflexivity|exact Hnd].
Defined.

(** ** The round state tracker: every notification *)

Section TrackerRuns.
Import Effects.

Ltac step :=
  first
    [ rewrite bind_assoc | rewrite bind_ret | rewrite bind_getState
    | rewrite bind_log | rewrite bind_emit | rewrite bind_setAppState
    | rewrite bind_await | rewrite bind_orThrow | rewrite bind_throw ].

Ltac split_run :=
  match goal with
  | |- context [match ?x with _ => _ end] =>
      lazymatch x with
      | context [match _ with _ => _ end] => fail
      | context [outcomeOf] => fail
      | _ => destruct x eqn:?
      end
  end.

Ltac run :=
  repeat first
    [ step
    | rewrite bind_tryCatch
    | rewrite tryCatch_bind_assoc | rewrite tryCatch_bind_ret
    | rewrite tryCatch_bind_getState | rewrite tryCatch_bind_log
    | rewrite tryCatch_bind_emit | rewrite tryCatch_bind_setAppState
    | rewrite tryCatch_bind_await | rewrite tryCatch_bind_orThrow
    | rewrite tryCatch_log | rewrite tryCatch_emit | rewrite tryCatch_ret
    | rewrite tryCatch_setAppState
    | rewrite outcomeOf_prepend | rewrite stateOf_prepend
    | rewrite traceOf_prepend
    | progress cbn [outcomeOf stateOf traceOf fst snd]
    | split_run ].

Ltac fields :=
  cbn [State.setAppState fold_left State.assign State.appMode State.isSpeculating
       State.isAudioEnabled State.customDeployAmount State.userBalance
       State.priceOreSol State.currentRoundId State.currentBoardData
       State.currentRoundData State.automationHasRunThisRound
       State.checkpointHasRunThisRound State.roundSubscriptionId
       State.winnerAnnounced State.lastWinner State.isTransitioningRound] in *.

Lemma tryCatch_bind_run {A B} (m : M A) (k : A -> M B) (h : string -> M B) s :
  tryCatch (bind m k) h s
  = match outcomeOf (m s) with
    | Returned a => prepend (traceOf (m s)) (tryCatch (k a) h (stateOf (m s)))
    | Threw message => prepend (traceOf (m s)) (h message (stateOf (m s)))
    end.
Proof.
  unfold tryCatch, bind, prepend. cbv zeta.
  destruct (outcomeOf (m s)) as [a|message] eqn:E; cbn [outcomeOf stateOf traceOf fst snd].
  - destruct (outcomeOf (k a (stateOf (m s)))) as [b|message] eqn:E2;
      cbn [outcomeOf stateOf traceOf fst snd];
      fold (outcomeOf (k a (stateOf (m s)))); rewrite ?E2; [reflexivity|].
    now rewrite app_assoc.
  - reflexivity.
Qed.

Lemma bind_returns {A B} (m : M A) (k : A -> M B) s a :
  outcomeOf (m s) = Returned a ->
  bind m k s = prepend (traceOf (m s)) (k a (stateOf (m s))).
Proof. intros H. unfold bind. cbv zeta. now rewrite H. Qed.

Lemma processRoundUpdate_run data st :
  Game.processRoundUpdate data st
  = match Solana.parseRound data with
    | Some roundData =>
        (Returned tt, State.setAppState [State.Set_currentRoundData (Some roundData)] st,
         [Write [State.Set_currentRoundData (Some roundData)];
          Call_updateTUI roundData])
    | None => (Returned tt, st, [Log (L_error_parsing_round Transactions.E_decode)])
    end.
Proof.
  unfold Game.processRoundUpdate.
  rewrite tryCatch_bind_orThrow.
  destruct (Solana.parseRound data) as [rd|]; [|reflexivity].
  rewrite tryCatch_bind_setAppState, tryCatch_emit. reflexivity.
Qed.

(** Finalizing a round never throws and touches neither the settings nor
    what is tracked about the round: it can only replace the round
    detail and announce the winner. *)
Lemma finalizeOldRound_frame connection roundId st :
  let r := Game.finalizeOldRound connection roundId st in
  outcomeOf r = Returned tt
  /\ Ref.settingsOf (stateOf r) = Ref.settingsOf st
  /\ Ref.trackingOf (stateOf r) = Ref.trackingOf st
  /\ existsb Ref.isSubscription (traceOf r) = false
  /\ hd_error (traceOf r) = Some (Log (L_fetching_final_data roundId)).
Proof.
  unfold Game.finalizeOldRound, Game.displayWinner. cbv zeta.
  run. all: repeat split.
Qed.

(** Setting up a round. *)
Lemma setUpNewRound_frame connection newRoundId roundSubscriptionId s :
  let r := Game.setUpNewRound connection newRoundId roundSubscriptionId s in
  Ref.settingsOf (stateOf r) = Ref.settingsOf s
  /\ Ref.trackingOf (stateOf r)
     = (newRoundId, s.(State.currentBoardData), false, false,
        Some (connection.(onAccountChange) (Solana.getRoundPda newRoundId)),
        s.(State.isTransitioningRound))
  /\ State.winnerAnnounced (stateOf r) = false
  /\ State.lastWinner (stateOf r) = s.(State.lastWinner)
  /\ existsb Spec.isFinalization (traceOf r) = false
  /\ existsb Ref.isAnnouncement (traceOf r) = false
  /\ firstn 2 (traceOf r)
     = [Write [State.Set_automationHasRunThisRound false;
               State.Set_checkpointHasRunThisRound false];
        Write [State.Set_currentRoundId newRoundId;
               State.Set_currentRoundData None;
               State.Set_winnerAnnounced false]]
  /\ In (Rpc_onAccountChange (Solana.getRoundPda newRoundId)) (traceOf r).
Proof.
  unfold Game.setUpNewRound, Automation.resetRoundFlags. cbv zeta.
  run; rewrite ?processRoundUpdate_run.
  all: repeat split_run.
  all: cbn [outcomeOf stateOf traceOf fst snd app].
  all: repeat split; try reflexivity.
  all: cbn [In]; repeat (first [left; reflexivity | right]).
Qed.

Lemma tryCatch_returns {A} (m : M A) (h : string -> M A) s a :
  outcomeOf (m s) = Returned a -> tryCatch m h s = m s.
Proof. intros H. unfold tryCatch. cbv zeta. now rewrite H. Qed.

(** A board notification that parses, case by case: a round change
    after a tracked round, an update of the tracked round, and any other
    round id. *)
Lemma processBoardUpdate_cases connection data st b :
  Solana.parseBoard data = Some b ->
  let st1 := State.setAppState [State.Set_currentBoardData (Some b)] st in
  let cur := st.(State.currentRoundId) in
  let new := b.(Solana.Board.round_id) in
  let h := fun message =>
             bind (log (L_error_processing_board message))
                  (fun _ => setAppState [State.Set_isTransitioningRound false]) in
  Game.processBoardUpdate connection data st
  = if (cur <? new) && (-1 <? cur) then
      let fin := Game.finalizeOldRound connection cur
                   (State.setAppState [State.Set_isTransitioningRound true] st1) in
      prepend
        ([Write [State.Set_currentBoardData (Some b)];
          Write [State.Set_isTransitioningRound true];
          Call_finalizeOldRound cur]
         ++ traceOf fin ++ [Write [State.Set_isTransitioningRound false]])
        (tryCatch (Game.setUpNewRound connection new st.(State.roundSubscriptionId)) h
           (State.setAppState [State.Set_isTransitioningRound false] (stateOf fin)))
    else if new =? cur then
      prepend
        [Write [State.Set_currentBoardData (Some b)];
         Rpc_getAccountInfo (Solana.getRoundPda cur)]
        match connection.(getAccountInfo) (Solana.getRoundPda cur) with
        | Resolved (Some roundData) => Game.processRoundUpdate roundData st1
        | Resolved None => (Returned tt, st1, [])
        | Rejected message => h message st1
        end
    else
      prepend [Write [State.Set_currentBoardData (Some b)]]
        (tryCatch (Game.setUpNewRound connection new st.(State.roundSubscriptionId)) h
           st1).
Proof.
  intros Hb st1 cur new h. unfold Game.processBoardUpdate. cbv zeta.
  rewrite tryCatch_bind_orThrow, Hb.
  rewrite tryCatch_bind_setAppState, tryCatch_bind_getState. fold st1.
  change (State.currentRoundId st1) with cur.
  change (State.roundSubscriptionId st1) with (State.roundSubscriptionId st).
  fold new. fold h.
  rewrite tryCatch_bind_run.
  destruct ((cur <? new) && (-1 <? cur)) eqn:Hc.
  - apply andb_true_iff in Hc. destruct Hc as [Hlt%Z.ltb_lt _].
    destruct (finalizeOldRound_frame connection cur
                (State.setAppState [State.Set_isTransitioningRound true] st1))
      as (Hfin & _).
    cbv zeta in Hfin.
    rewrite bind_setAppState, bind_emit.
    rewrite (bind_returns _ _ _ tt Hfin).
    unfold setAppState at 1 2 3.
    rewrite !outcomeOf_prepend, !stateOf_prepend, !traceOf_prepend.
    cbn [outcomeOf stateOf traceOf fst snd].
    replace (new =? cur) with false by (symmetry; apply Z.eqb_neq; lia).
    rewrite !prepend_prepend. cbv zeta.
    f_equal.
  - unfold ret at 1 2 3. cbn [outcomeOf stateOf traceOf fst snd].
    rewrite prepend_nil.
    destruct (new =? cur) eqn:He.
    + rewrite tryCatch_bind_await.
      destruct (getAccountInfo connection (Solana.getRoundPda cur))
        as [[roundData|]|message]; rewrite prepend_prepend; cbn [app]; f_equal.
    + reflexivity.
Qed.

(** Setting up a round under the failsafe of [processBoardUpdate]. *)
Lemma setUpNewRound_guarded connection newRoundId roundSubscriptionId s :
  let h := fun message =>
             bind (log (L_error_processing_board message))
                  (fun _ => setAppState [State.Set_isTransitioningRound false]) in
  let setup := Game.setUpNewRound connection newRoundId roundSubscriptionId s in
  let r := tryCatch (Game.setUpNewRound connection newRoundId roundSubscriptionId) h s in
  outcomeOf r = Returned tt
  /\ Ref.settingsOf (stateOf r) = Ref.settingsOf s
  /\ State.currentRoundId (stateOf r) = newRoundId
  /\ State.currentBoardData (stateOf r) = s.(State.currentBoardData)
  /\ State.automationHasRunThisRound (stateOf r) = false
  /\ State.checkpointHasRunThisRound (stateOf r) = false
  /\ State.roundSubscriptionId (stateOf r)
     = Some (connection.(onAccountChange) (Solana.getRoundPda newRoundId))
  /\ State.winnerAnnounced (stateOf r) = false
  /\ State.lastWinner (stateOf r) = s.(State.lastWinner)
  /\ (s.(State.isTransitioningRound) = false ->
      State.isTransitioningRound (stateOf r) = false)
  /\ (traceOf r = traceOf setup
      \/ exists message,
          outcomeOf setup = Threw message
          /\ traceOf r
             = traceOf setup
               ++ [Log (L_error_processing_board message);
                   Write [State.Set_isTransitioningRound false]]).
Proof.
  intros h setup r.
  destruct (setUpNewRound_frame connection newRoundId roundSubscriptionId s)
    as (Hset & Htr & Hw & Hl & _).
  fold setup in Hset, Htr, Hw, Hl.
  unfold Ref.settingsOf in Hset. unfold Ref.trackingOf in Htr.
  injection Hset as S1 S2 S3 S4 S5 S6. injection Htr as T1 T2 T3 T4 T5 T6.
  unfold r, tryCatch. fold setup. cbv zeta.
  destruct (outcomeOf setup) as [[]|message] eqn:Ho.
  - unfold Ref.settingsOf. rewrite Ho, S1, S2, S3, S4, S5, S6.
    repeat split; try assumption; try congruence. now left.
  - unfold h, bind, log, emit, setAppState.
    cbn [outcomeOf stateOf traceOf fst snd app].
    unfold Ref.settingsOf. fields.
    rewrite S1, S2, S3, S4, S5, S6.
    repeat split; try assumption; try congruence.
    right. exists message. split; reflexivity.
Qed.

Lemma board_handler_run message s :
  bind (log (L_error_processing_board message))
       (fun _ => setAppState [State.Set_isTransitioningRound false]) s
  = (Returned tt, State.setAppState [State.Set_isTransitioningRound false] s,
     [Log (L_error_processing_board message);
      Write [State.Set_isTransitioningRound false]]).
Proof. reflexivity. Qed.

(** X9. Every board notification is absorbed. [processBoardUpdate] never
    throws, and it never touches the user's settings, the balance or the
    price. Every notification decodes, whatever its length: the board
    has as round id, start slot and end slot the integers the notified
    account stores at offsets 8, 16 and 24, bytes past its end counting
    as zero. That board is stored, and afterwards the tracked round id
    is its round id. If no transition was in progress before, none is in
    progress afterwards. *)
Theorem board_update_tracks_board (connection : Effects.Connection)
    (data : Solana.Buffer) (st : State.AppState) :
  let r := Game.processBoardUpdate connection data st in
  let boardData :=
    {| Solana.Board.round_id := Spec.u64At 8 data;
       Solana.Board.start_slot := Spec.u64At 16 data;
       Solana.Board.end_slot := Spec.u64At 24 data |} in
  Effects.outcomeOf r = Effects.Returned tt
  /\ Ref.settingsOf (Effects.stateOf r) = Ref.settingsOf st
  /\ Solana.parseBoard data = Some boardData
  /\ hd_error (Effects.traceOf r)
     = Some (Effects.Write [State.Set_currentBoardData (Some boardData)])
  /\ State.currentBoardData (Effects.stateOf r) = Some boardData
  /\ State.currentRoundId (Effects.stateOf r) = Spec.u64At 8 data
  /\ (st.(State.isTransitioningRound) = false ->
      State.isTransitioningRound (Effects.stateOf r) = false).
Proof.
  intros r boardData. unfold r.
  assert (Hb : Solana.parseBoard data = Some boardData).
  { destruct (parseBoard_reads data) as ([i s e] & Hb & H1 & H2 & H3).
    cbn [Solana.Board.round_id Solana.Board.start_slot Solana.Board.end_slot]
      in H1, H2, H3.
    subst i s e. exact Hb. }
  rewrite (processBoardUpdate_cases connection data st boardData Hb). cbv zeta.
  change (Solana.Board.round_id boardData) with (Spec.u64At 8 data).
  destruct ((State.currentRoundId st <? Spec.u64At 8 data)
            && (-1 <? State.currentRoundId st)) eqn:Hc.
  - rewrite outcomeOf_prepend, stateOf_prepend, traceOf_prepend.
    match goal with
    | |- context [tryCatch (Game.setUpNewRound ?c ?n ?sub) _ ?s] =>
        destruct (setUpNewRound_guarded c n sub s)
          as (Ho & Hs & Hid & Hbd & _ & _ & _ & _ & _ & Ht & _);
        destruct (finalizeOldRound_frame connection (State.currentRoundId st)
                    (State.setAppState [State.Set_isTransitioningRound true]
                       (State.setAppState
                          [State.Set_currentBoardData (Some boardData)] st)))
          as (_ & Hfs & Hft & _)
    end.
    cbv zeta in Ho, Hs, Hid, Hbd, Ht, Hfs, Hft.
    unfold Ref.trackingOf in Hft. injection Hft as _ F2 _ _ _ _.
    split; [exact Ho|]. split; [rewrite Hs; exact Hfs|].
    split; [exact Hb|]. split; [reflexivity|].
    split; [rewrite Hbd; exact F2|]. split; [exact Hid|].
    intros _. now apply Ht.
  - destruct (Spec.u64At 8 data =? State.currentRoundId st) eqn:He.
    + apply Z.eqb_eq in He.
      rewrite outcomeOf_prepend, stateOf_prepend, traceOf_prepend.
      destruct (getAccountInfo connection _) as [[roundData|]|message].
      * rewrite processRoundUpdate_run.
        destruct (Solana.parseRound roundData); repeat split; auto.
      * repeat split; auto.
      * rewrite board_handler_run. repeat split; auto.
    + rewrite outcomeOf_prepend, stateOf_prepend, traceOf_prepend.
      match goal with
      | |- context [tryCatch (Game.setUpNewRound ?c ?n ?sub) _ ?s] =>
          destruct (setUpNewRound_guarded c n sub s)
            as (Ho & Hs & Hid & Hbd & _ & _ & _ & _ & _ & Ht & _)
      end.
      cbv zeta in Ho, Hs, Hid, Hbd, Ht.
      split; [exact Ho|]. split; [exact Hs|].
      split; [exact Hb|]. split; [reflexivity|].
      split; [exact Hbd|]. split; [exact Hid|]. exact Ht.
Qed.

(** A notification cut off after 31 bytes still gives the board: the
    last byte of the end slot counts as zero. *)
Lemma board_update_tracks_board_witness :
  let data := firstn 31 Samples.boardAccount in
  let r := Game.processBoardUpdate (Samples.node 0 0) data
             (Samples.running "3x EV") in
  Solana.parseBoard data = Some Samples.board
  /\ State.currentBoardData (Effects.stateOf r) = Some Samples.board
  /\ State.currentRoundId (Effects.stateOf r) = 42.
Proof.
  intros data r.
  pose proof (board_update_tracks_board (Samples.node 0 0) data
                (Samples.running "3x EV")) as H.
  cbv zeta in H. destruct H as (_ & _ & Hb & _ & Hs & Hid & _).
  assert (E : {| Solana.Board.round_id := Spec.u64At 8 data;
                 Solana.Board.start_slot := Spec.u64At 16 data;
                 Solana.Board.end_slot := Spec.u64At 24 data |}
              = Samples.board) by (vm_compute; reflexivity).
  assert (E8 : Spec.u64At 8 data = 42) by (vm_compute; reflexivity).
  rewrite E in Hb, Hs. rewrite E8 in Hid.
  split; [exact Hb|]. split; [exact Hs|exact Hid].
Defined.

(** X10. A round change. When the notified round id is greater than the
    tracked one, and a round was tracked, [processBoardUpdate] raises the
    transition flag, finalizes the round that was tracked, lowers the
    flag, and only then resets the round flags and sets up the notified
    round; a failure of the setup is logged after it. Afterwards the
    notified round is tracked with both round flags cleared, the winner
    not announced, a subscription to its account, and no transition in
    progress. *)
Theorem round_change_finalizes_then_resets (connection : Effects.Connection)
    (data : Solana.Buffer) (st : State.AppState) (boardData : Solana.BoardData) :
  Solana.parseBoard data = Some boardData ->
  -1 < st.(State.currentRoundId) < boardData.(Solana.Board.round_id) ->
  let cur := st.(State.currentRoundId) in
  let new := boardData.(Solana.Board.round_id) in
  let r := Game.processBoardUpdate connection data st in
  let fin :=
    Game.finalizeOldRound connection cur
      (State.setAppState
         [State.Set_currentBoardData (Some boardData);
          State.Set_isTransitioningRound true] st) in
  let setup :=
    Game.setUpNewRound connection new st.(State.roundSubscriptionId)
      (State.setAppState [State.Set_isTransitioningRound false]
         (Effects.stateOf fin)) in
  (exists rest,
      Effects.traceOf r
      = [Effects.Write [State.Set_currentBoardData (Some boardData)];
         Effects.Write [State.Set_isTransitioningRound true];
         Effects.Call_finalizeOldRound cur]
        ++ Effects.traceOf fin
        ++ [Effects.Write [State.Set_isTransitioningRound false]]
        ++ Effects.traceOf setup ++ rest
      /\ (rest = []
          \/ exists message,
              Effects.outcomeOf setup = Effects.Threw message
              /\ rest = [Effects.Log (Effects.L_error_processing_board message);
                         Effects.Write [State.Set_isTransitioningRound false]]))
  /\ existsb Spec.isFinalization (Effects.traceOf setup) = false
  /\ Ref.trackingOf (Effects.stateOf r)
     = (new, Some boardData, false, false,
        Some (connection.(Effects.onAccountChange) (Solana.getRoundPda new)),
        false)
  /\ State.winnerAnnounced (Effects.stateOf r) = false.
Proof.
  intros Hb [Hlo Hhi] cur new r fin setup. unfold r.
  rewrite (processBoardUpdate_cases connection data st boardData Hb). cbv zeta.
  fold cur new.
  replace ((cur <? new) && (-1 <? cur)) with true
    by (symmetry; apply andb_true_iff; split; apply Z.ltb_lt; assumption).
  change (State.setAppState [State.Set_isTransitioningRound true]
            (State.setAppState [State.Set_currentBoardData (Some boardData)] st))
    with (State.setAppState
            [State.Set_currentBoardData (Some boardData);
             State.Set_isTransitioningRound true] st).
  fold fin.
  rewrite traceOf_prepend, stateOf_prepend.
  destruct (setUpNewRound_guarded connection new st.(State.roundSubscriptionId)
              (State.setAppState [State.Set_isTransitioningRound false] (stateOf fin)))
    as (_ & _ & Hid & Hbd & Ha & Hc & Hsub & Hw & _ & Ht & Htr).
  cbv zeta in Hid, Hbd, Ha, Hc, Hsub, Hw, Ht, Htr. fold setup in Htr.
  destruct (finalizeOldRound_frame connection cur
              (State.setAppState
                 [State.Set_currentBoardData (Some boardData);
                  State.Set_isTransitioningRound true] st))
    as (_ & _ & Hft & _).
  cbv zeta in Hft. fold fin in Hft.
  unfold Ref.trackingOf in Hft. injection Hft as _ F2 _ _ _ _.
  destruct (setUpNewRound_frame connection new st.(State.roundSubscriptionId)
              (State.setAppState [State.Set_isTransitioningRound false] (stateOf fin)))
    as (_ & _ & _ & _ & Hnf & _).
  cbv zeta in Hnf. fold setup in Hnf.
  split; [|split; [exact Hnf|split]].
  - destruct Htr as [Htr|(message & Ho & Htr)]; rewrite Htr.
    + exists []. split; [|now left]. rewrite app_nil_r, <- !app_assoc. reflexivity.
    + eexists. split; [|right; exists message; split; [exact Ho|reflexivity]].
      rewrite <- !app_assoc. reflexivity.
  - unfold Ref.trackingOf. rewrite Hid, Hbd, Ha, Hc, Hsub, Ht by reflexivity.
    fields. rewrite F2. reflexivity.
  - exact Hw.
Qed.

Lemma round_change_finalizes_then_resets_witness :
  let st := State.assign (State.Set_currentRoundId 41) (Samples.running "3x EV") in
  let r := Game.processBoardUpdate (Samples.node 0 0) Samples.boardAccount st in
  Ref.trackingOf (Effects.stateOf r)
  = (42, Some Samples.board, false, false, Some 1, false)
  /\ nth_error (Effects.traceOf r) 2 = Some (Effects.Call_finalizeOldRound 41).
Proof.
  intros st r.
  assert (Hb : Solana.parseBoard Samples.boardAccount = Some Samples.board)
    by (vm_compute; reflexivity).
  assert (Hr : -1 < st.(State.currentRoundId) < Samples.board.(Solana.Board.round_id))
    by (vm_compute; split; reflexivity).
  destruct (round_change_finalizes_then_resets (Samples.node 0 0)
              Samples.boardAccount st Samples.board Hb Hr)
    as ((rest & Htr & _) & _ & Ht & _).
  split; [exact Ht|]. fold r in Htr. rewrite Htr. reflexivity.
Defined.

(** X11. An update of the tracked round. When the notified round id is
    the tracked one, [processBoardUpdate] re-reads the round account and
    nothing else: it finalizes nothing, announces nothing and leaves the
    subscription alone; the tracked id, the round flags, the
    subscription and the announcement state stay as they were. The round
    detail is replaced exactly when the node returns an account: every
    account decodes, whatever its length, and the detail it gives is
    stored; without an account the detail stays as it was. *)
Theorem same_round_update_keeps_round (connection : Effects.Connection)
    (data : Solana.Buffer) (st : State.AppState) (boardData : Solana.BoardData) :
  Solana.parseBoard data = Some boardData ->
  boardData.(Solana.Board.round_id) = st.(State.currentRoundId) ->
  let r := Game.processBoardUpdate connection data st in
  existsb Spec.isFinalization (Effects.traceOf r) = false
  /\ existsb Ref.isSubscription (Effects.traceOf r) = false
  /\ existsb Ref.isAnnouncement (Effects.traceOf r) = false
  /\ State.currentRoundId (Effects.stateOf r) = st.(State.currentRoundId)
  /\ State.automationHasRunThisRound (Effects.stateOf r)
     = st.(State.automationHasRunThisRound)
  /\ State.checkpointHasRunThisRound (Effects.stateOf r)
     = st.(State.checkpointHasRunThisRound)
  /\ State.roundSubscriptionId (Effects.stateOf r) = st.(State.roundSubscriptionId)
  /\ State.winnerAnnounced (Effects.stateOf r) = st.(State.winnerAnnounced)
  /\ State.lastWinner (Effects.stateOf r) = st.(State.lastWinner)
  /\ match connection.(Effects.getAccountInfo)
             (Solana.getRoundPda st.(State.currentRoundId)) with
     | Effects.Resolved (Some roundAccount) =>
         exists roundData,
           Solana.parseRound roundAccount = Some roundData
           /\ roundData.(Solana.Round.id) = Spec.u64At 8 roundAccount
           /\ roundData.(Solana.Round.slot_hash) = Spec.bytesAt 216 32 roundAccount
           /\ roundData.(Solana.Round.total_deployed) = Spec.u64At 536 roundAccount
           /\ State.currentRoundData (Effects.stateOf r) = Some roundData
     | _ => State.currentRoundData (Effects.stateOf r) = st.(State.currentRoundData)
     end.
Proof.
  intros Hb He r. unfold r.
  rewrite (processBoardUpdate_cases connection data st boardData Hb). cbv zeta.
  rewrite He.
  replace ((State.currentRoundId st <? State.currentRoundId st)
           && (-1 <? State.currentRoundId st)) with false
    by (symmetry; apply andb_false_iff; left; apply Z.ltb_irrefl).
  rewrite Z.eqb_refl, traceOf_prepend, stateOf_prepend.
  destruct (getAccountInfo connection _) as [[roundAccount|]|message].
  - rewrite processRoundUpdate_run.
    destruct (parseRound_reads roundAccount)
      as (roundData & -> & Hi & _ & Hh & _ & _ & _ & _ & _ & _ & Htd & _).
    repeat split. exists roundData. repeat split; assumption.
  - repeat split.
  - rewrite board_handler_run. repeat split.
Qed.

Lemma same_round_update_keeps_round_witness :
  let st := Samples.running "3x EV" in
  let r := Game.processBoardUpdate (Samples.node 0 0) Samples.boardAccount st in
  existsb Ref.isSubscription (Effects.traceOf r) = false
  /\ State.currentRoundId (Effects.stateOf r) = 42
  /\ State.automationHasRunThisRound (Effects.stateOf r) = false.
Proof.
  intros st r.
  assert (Hb : Solana.parseBoard Samples.boardAccount = Some Samples.board)
    by (vm_compute; reflexivity).
  destruct (same_round_update_keeps_round (Samples.node 0 0) Samples.boardAccount
              st Samples.board Hb eq_refl)
    as (_ & Hs & _ & Hid & Ha & _).
  split; [exact Hs|]. split; [exact Hid|exact Ha].
Defined.

(** X12. A notification for an older round. When the notified round id is
    lower than the tracked one, [processBoardUpdate] does not ignore it:
    without finalizing anything it clears the round flags and tracks the
    notified, older round, so that the trigger is armed again. *)
Theorem older_round_notification_retracks (connection : Effects.Connection)
    (data : Solana.Buffer) (st : State.AppState) (boardData : Solana.BoardData) :
  Solana.parseBoard data = Some boardData ->
  boardData.(Solana.Board.round_id) < st.(State.currentRoundId) ->
  let r := Game.processBoardUpdate connection data st in
  existsb Spec.isFinalization (Effects.traceOf r) = false
  /\ State.currentRoundId (Effects.stateOf r) = boardData.(Solana.Board.round_id)
  /\ State.automationHasRunThisRound (Effects.stateOf r) = false
  /\ State.checkpointHasRunThisRound (Effects.stateOf r) = false
  /\ State.winnerAnnounced (Effects.stateOf r) = false
  /\ In (Effects.Rpc_onAccountChange
            (Solana.getRoundPda boardData.(Solana.Board.round_id)))
        (Effects.traceOf r).
Proof.
  intros Hb Hlt r. unfold r.
  rewrite (processBoardUpdate_cases connection data st boardData Hb). cbv zeta.
  replace ((State.currentRoundId st <? Solana.Board.round_id boardData)
           && (-1 <? State.currentRoundId st)) with false
    by (symmetry; apply andb_false_iff; left; apply Z.ltb_ge; lia).
  replace (Solana.Board.round_id boardData =? State.currentRoundId st) with false
    by (symmetry; apply Z.eqb_neq; lia).
  rewrite traceOf_prepend, stateOf_prepend.
  match goal with
  | |- context [tryCatch (Game.setUpNewRound ?c ?n ?sub) _ ?s] =>
      destruct (setUpNewRound_guarded c n sub s)
        as (_ & _ & Hid & _ & Ha & Hc & _ & Hw & _ & _ & Htr);
      destruct (setUpNewRound_frame c n sub s)
        as (_ & _ & _ & _ & Hnf & _ & _ & Hin)
  end.
  cbv zeta in Hid, Ha, Hc, Hw, Htr, Hnf, Hin.
  repeat (split; [try assumption|]).
  - cbn [app existsb Spec.isFinalization orb].
    destruct Htr as [->|(message & _ & ->)]; [exact Hnf|].
    rewrite existsb_app, Hnf. reflexivity.
  - right. destruct Htr as [->|(message & _ & ->)]; [exact Hin|].
    rewrite !in_app_iff. tauto.
Qed.

Lemma older_round_notification_retracks_witness :
  let st := State.assign (State.Set_automationHasRunThisRound true)
              (State.assign (State.Set_currentRoundId 43) (Samples.running "3x EV")) in
  let r := Game.processBoardUpdate (Samples.node 0 0) Samples.boardAccount st in
  State.currentRoundId (Effects.stateOf r) = 42
  /\ State.automationHasRunThisRound (Effects.stateOf r) = false.
Proof.
  intros st r.
  assert (Hb : Solana.parseBoard Samples.boardAccount = Some Samples.board)
    by (vm_compute; reflexivity).
  assert (Hlt : Samples.board.(Solana.Board.round_id) < st.(State.currentRoundId))
    by (vm_compute; reflexivity).
  destruct (older_round_notification_retracks (Samples.node 0 0)
              Samples.boardAccount st Samples.board Hb Hlt)
    as (_ & Hid & Ha & _).
  split; [exact Hid|exact Ha].
Defined.

(** The slot hash of a decoded round account: the bytes the account
    stores from offset 216, at most 32. *)
Lemma parseRound_slot_hash (data : Solana.Buffer) (rd : Solana.RoundData) :
  Solana.parseRound data = Some rd ->
  rd.(Solana.Round.slot_hash) = Spec.bytesAt 216 32 data.
Proof.
  intros H. destruct (parseRound_reads data) as (r & Hr & _ & _ & Hh & _).
  rewrite Hr in H. now injection H as <-.
Qed.

Lemma winnerOf_range (block : Solana.Buffer) :
  List.length block = 32%nat ->
  exists w, Game.winnerOf block = Some w /\ 1 <= w <= 25.
Proof.
  intros H. unfold Game.winnerOf, Solana.getWinningSquare.
  rewrite (calculateRng_value block H).
  eexists. split; [reflexivity|].
  pose proof (xor4_nonneg block) as Hn.
  pose proof (Z.rem_bound_pos (Spec.xor4 block) 25 Hn ltac:(lia)). lia.
Qed.

(** A slot hash of fewer than 32 bytes has no winner: the fourth word
    cannot be read. *)
Lemma winnerOf_short (block : Solana.Buffer) :
  (List.length block < 32)%nat -> Game.winnerOf block = None.
Proof.
  intros H. unfold Game.winnerOf, Solana.calculateRng.
  assert (H4 : Solana.readBigUInt64LE block 24 = None).
  { unfold Solana.readBigUInt64LE.
    assert (L : (List.length (firstn 8 (skipn 24 block)) < 8)%nat)
      by (rewrite length_firstn, length_skipn; lia).
    destruct (firstn 8 (skipn 24 block))
      as [|b0 [|b1 [|b2 [|b3 [|b4 [|b5 [|b6 [|b7 [|b8 l]]]]]]]]];
      try reflexivity; cbn [List.length] in L; lia. }
  rewrite H4.
  destruct (Solana.readBigUInt64LE block 0); [|reflexivity].
  destruct (Solana.readBigUInt64LE block 8); [|reflexivity].
  destruct (Solana.readBigUInt64LE block 16); reflexivity.
Qed.

Lemma length_bytesAt offset n (data : Solana.Buffer) :
  List.length (Spec.bytesAt offset n data)
  = Nat.min n (List.length data - offset).
Proof. unfold Spec.bytesAt. now rewrite length_firstn, length_skipn. Qed.

(** The winner of the slot hash an account stores. *)
Lemma winnerOf_account (account : Solana.Buffer) :
  match Game.winnerOf (Spec.bytesAt 216 32 account) with
  | Some w => (248 <= List.length account)%nat /\ 1 <= w <= 25
  | None => (List.length account < 248)%nat
  end.
Proof.
  pose proof (length_bytesAt 216 32 account) as L.
  destruct (Nat.le_gt_cases 248 (List.length account)) as [Hl|Hl].
  - destruct (winnerOf_range (Spec.bytesAt 216 32 account)) as (w & -> & Hw);
      [lia|]. split; assumption.
  - rewrite winnerOf_short by lia. exact Hl.
Qed.

Lemma finalizeOldRound_announcement connection roundId st :
  let r := Game.finalizeOldRound connection roundId st in
  (existsb Ref.isAnnouncement (traceOf r) = true <->
   st.(State.winnerAnnounced) = false
   /\ exists account,
       connection.(getAccountInfo) (Solana.getRoundPda roundId)
       = Resolved (Some account)
       /\ (248 <= List.length account)%nat
       /\ Solana.isSlotHashPopulated (Spec.bytesAt 216 32 account) = true)
  /\ (forall roundIdStr winnerStr,
        In (PlayNotificationSound_winner roundIdStr winnerStr) (traceOf r) ->
        roundIdStr = Game.toString roundId
        /\ exists winner,
            1 <= winner <= 25
            /\ winnerStr = Game.toString winner
            /\ State.lastWinner (stateOf r) = winnerStr
            /\ State.winnerAnnounced (stateOf r) = true).
Proof.
  unfold Game.finalizeOldRound, Game.displayWinner. cbv zeta.
  run.
  all: unfold log, emit in *; cbn [traceOf stateOf outcomeOf fst snd] in *.
  all: cbn [existsb Ref.isAnnouncement orb app In]; fields.
  all: repeat match goal with
         | Hp : Solana.parseRound ?b = Some ?r |- _ =>
             let Hh := fresh "Hh" in
             pose proof (parseRound_slot_hash _ _ Hp) as Hh;
             rewrite Hh in *; clear Hp Hh
         end.
  all: repeat match goal with
         | Hw : Game.winnerOf (Spec.bytesAt 216 32 ?b) = _ |- _ =>
             let W := fresh "W" in
             pose proof (winnerOf_account b) as W; rewrite Hw in W;
             revert Hw
         end.
  all: intros.
  all: split;
    [ split;
      [ try (intros H; discriminate H)
      | first [ intros _; reflexivity
              | intros (Hw & account & Hacc & Hlen & Hpop); exfalso ] ]
    | intros roundIdStr winnerStr Hin ].
  all: repeat match goal with
         | H : _ \/ _ |- _ => destruct H as [H|H]
         | H : False |- _ => destruct H
         | H : _ = PlayNotificationSound_winner _ _ |- _ =>
             first [discriminate H | injection H as <- <-]
         end.
  all: try congruence.
  all: try match goal with
         | Hacc : Resolved (Some _) = Resolved (Some _) |- _ =>
             injection Hacc as <-
         end.
  all: try match goal with
         | Hn : Solana.parseRound ?b = None |- _ =>
             destruct (parseRound_reads b) as (? & ? & _)
         end.
  all: try congruence.
  all: try lia.
  all: destruct (State.winnerAnnounced st) eqn:?; cbn [negb] in *; try congruence.
  - intros _. split; [reflexivity|]. exists b. destruct W as [W _].
    split; [reflexivity|]. split; assumption.
  - split; [reflexivity|]. exists z. destruct W as [_ W].
    repeat split; lia.
Qed.

(** X13. Finalizing a round. [finalizeOldRound] never throws and changes
    neither the settings nor what is tracked about the round. It
    announces a winner exactly when the winner has not been announced
    yet and the node returns an account of that round that holds the
    whole slot hash (at least 248 bytes) with a byte of the hash, bytes
    216 to 247, that is not zero. A shorter account has no winner, even
    if the part of the hash it holds is not zero. What is announced is
    the given round id and a winner from 1 to 25, which is stored as the
    last winner together with the mark that the winner has been
    announced. *)
Theorem finalization_announces_winner (connection : Effects.Connection)
    (roundId : Z) (st : State.AppState) :
  let r := Game.finalizeOldRound connection roundId st in
  Effects.outcomeOf r = Effects.Returned tt
  /\ Ref.settingsOf (Effects.stateOf r) = Ref.settingsOf st
  /\ Ref.trackingOf (Effects.stateOf r) = Ref.trackingOf st
  /\ (existsb Ref.isAnnouncement (Effects.traceOf r) = true <->
      st.(State.winnerAnnounced) = false
      /\ exists account,
          connection.(Effects.getAccountInfo) (Solana.getRoundPda roundId)
          = Effects.Resolved (Some account)
          /\ (248 <= List.length account)%nat
          /\ Solana.isSlotHashPopulated (Spec.bytesAt 216 32 account) = true)
  /\ (forall roundIdStr winnerStr,
        In (Effects.PlayNotificationSound_winner roundIdStr winnerStr)
           (Effects.traceOf r) ->
        roundIdStr = Game.toString roundId
        /\ exists winner,
            1 <= winner <= 25
            /\ winnerStr = Game.toString winner
            /\ State.lastWinner (Effects.stateOf r) = winnerStr
            /\ State.winnerAnnounced (Effects.stateOf r) = true).
Proof.
  intros r.
  destruct (finalizeOldRound_frame connection roundId st) as (Ho & Hs & Ht & _).
  destruct (finalizeOldRound_announcement connection roundId st) as (Ha & Hw).
  split; [exact Ho|]. split; [exact Hs|]. split; [exact Ht|].
  split; [exact Ha|exact Hw].
Qed.

End TrackerRuns.

(** ** Steps of the handlers with further effects *)

Section WideSteps.
Import Effects.
Context {E : Type} {A B : Type}.

Lemma wide_prepend_nil (r : Outcome A * State.AppState * list E) :
  Wide.prepend [] r = r.
Proof. now destruct r as [[o s] t]. Qed.

Lemma wide_prepend_prepend t1 t2 (r : Outcome A * State.AppState * list E) :
  Wide.prepend t1 (Wide.prepend t2 r) = Wide.prepend (t1 ++ t2) r.
Proof. unfold Wide.prepend. cbn. now rewrite app_assoc. Qed.

Lemma wide_traceOf_prepend t (r : Outcome A * State.AppState * list E) :
  Wide.traceOf (Wide.prepend t r) = t ++ Wide.traceOf r.
Proof. reflexivity. Qed.

Lemma wide_stateOf_prepend t (r : Outcome A * State.AppState * list E) :
  Wide.stateOf (Wide.prepend t r) = Wide.stateOf r.
Proof. reflexivity. Qed.

Lemma wide_outcomeOf_prepend t (r : Outcome A * State.AppState * list E) :
  Wide.outcomeOf (Wide.prepend t r) = Wide.outcomeOf r.
Proof. reflexivity. Qed.

Lemma wide_bind_ret (a : A) (k : A -> Wide.M B) s :
  Wide.bind (E := E) (Wide.ret a) k s = k a s.
Proof.
  unfold Wide.bind, Wide.ret. cbn. now destruct (k a s) as [[o s'] t].
Qed.

Lemma wide_bind_throw message (k : A -> Wide.M B) s :
  Wide.bind (E := E) (Wide.throw message) k s = (Threw message, s, []).
Proof. reflexivity. Qed.

Lemma wide_bind_getState (k : State.AppState -> Wide.M B) s :
  Wide.bind (E := E) Wide.getState k s = k s s.
Proof.
  unfold Wide.bind, Wide.getState. cbn. now destruct (k s s) as [[o s'] t].
Qed.

Lemma wide_bind_emit (e : E) (k : unit -> Wide.M B) s :
  Wide.bind (Wide.emit e) k s = Wide.prepend [e] (k tt s).
Proof. reflexivity. Qed.

Lemma wide_bind_await (request : E) (p : Settled A) (k : A -> Wide.M B) s :
  Wide.bind (Wide.await request p) k s
  = match p with
    | Resolved a => Wide.prepend [request] (k a s)
    | Rejected message => (Threw message, s, [request])
    end.
Proof. destruct p; reflexivity. Qed.

Lemma wide_bind_orThrow (o : option A) message (k : A -> Wide.M B) s :
  Wide.bind (E := E) (Wide.orThrow o message) k s
  = match o with
    | Some a => k a s
    | None => (Threw message, s, [])
    end.
Proof.
  destruct o as [a|]; [apply wide_bind_ret|reflexivity].
Qed.

Lemma wide_bind_assoc {C} (m : Wide.M A) (f : A -> Wide.M B) (g : B -> Wide.M C) s :
  Wide.bind (E := E) (Wide.bind m f) g s
  = Wide.bind m (fun x => Wide.bind (f x) g) s.
Proof.
  unfold Wide.bind. cbv zeta.
  destruct (Wide.outcomeOf (m s)) as [a|e]; cbn [Wide.outcomeOf Wide.stateOf Wide.traceOf fst snd];
    [|reflexivity].
  destruct (Wide.outcomeOf (f a (Wide.stateOf (m s)))) as [b|e];
    cbn [Wide.outcomeOf Wide.stateOf Wide.traceOf fst snd]; [|reflexivity].
  now rewrite app_assoc.
Qed.

(** A lifted handler, followed by [k]. *)
Lemma wide_bind_lift (inj : Effect -> E) (m : Effects.M A) (k : A -> Wide.M B) s :
  Wide.bind (Wide.lift inj m) k s
  = match outcomeOf (m s) with
    | Returned a => Wide.prepend (map inj (traceOf (m s))) (k a (stateOf (m s)))
    | Threw message => (Threw message, stateOf (m s), map inj (traceOf (m s)))
    end.
Proof.
  unfold Wide.bind, Wide.lift. cbv zeta.
  cbn [Wide.outcomeOf Wide.stateOf Wide.traceOf fst snd].
  now destruct (outcomeOf (m s)).
Qed.

Lemma wide_bind_lift_setAppState (inj : Effect -> E) newState
    (k : unit -> Wide.M B) s :
  Wide.bind (Wide.lift inj (setAppState newState)) k s
  = Wide.prepend [inj (Write newState)] (k tt (State.setAppState newState s)).
Proof. reflexivity. Qed.

(** [try { m; k } catch { h }], by the outcome of [m]. *)
Lemma wide_tryCatch_bind (m : Wide.M A) (k : A -> Wide.M B) (h : string -> Wide.M B) s :
  Wide.tryCatch (E := E) (Wide.bind m k) h s
  = match Wide.outcomeOf (m s) with
    | Returned a =>
        Wide.prepend (Wide.traceOf (m s)) (Wide.tryCatch (k a) h (Wide.stateOf (m s)))
    | Threw message =>
        Wide.prepend (Wide.traceOf (m s)) (h message (Wide.stateOf (m s)))
    end.
Proof.
  unfold Wide.tryCatch, Wide.bind, Wide.prepend. cbv zeta.
  destruct (Wide.outcomeOf (m s)) as [a|message] eqn:E1;
    cbn [Wide.outcomeOf Wide.stateOf Wide.traceOf fst snd].
  - destruct (Wide.outcomeOf (k a (Wide.stateOf (m s)))) as [b|message] eqn:E2;
      cbn [Wide.outcomeOf Wide.stateOf Wide.traceOf fst snd];
      fold (Wide.outcomeOf (k a (Wide.stateOf (m s)))); rewrite ?E2; [reflexivity|].
    now rewrite app_assoc.
  - reflexivity.
Qed.

Lemma wide_tryCatch_ret (b : B) (h : string -> Wide.M B) s :
  Wide.tryCatch (E := E) (Wide.ret b) h s = (Returned b, s, []).
Proof. reflexivity. Qed.

(** A handler that returns, followed by [k]. *)
Lemma wide_bind_returns (m : Wide.M A) (k : A -> Wide.M B) s a :
  Wide.outcomeOf (m s) = Returned a ->
  Wide.bind (E := E) m k s
  = Wide.prepend (Wide.traceOf (m s)) (k a (Wide.stateOf (m s))).
Proof. intros H. unfold Wide.bind. cbv zeta. now rewrite H. Qed.

Lemma wide_bind_tryCatch (m : Wide.M A) (h : string -> Wide.M A)
    (k : A -> Wide.M B) s :
  Wide.bind (E := E) (Wide.tryCatch m h) k s
  = match Wide.outcomeOf (Wide.tryCatch m h s) with
    | Returned a =>
        Wide.prepend (Wide.traceOf (Wide.tryCatch m h s))
          (k a (Wide.stateOf (Wide.tryCatch m h s)))
    | Threw message =>
        (Threw message, Wide.stateOf (Wide.tryCatch m h s),
         Wide.traceOf (Wide.tryCatch m h s))
    end.
Proof. reflexivity. Qed.

End WideSteps.

Section WideCatch.
Import Effects.
Context {E : Type} {B : Type}.

Lemma wide_tryCatch_bind_await {C} (request : E) (p : Settled C)
    (k : C -> Wide.M B) (h : string -> Wide.M B) s :
  Wide.tryCatch (Wide.bind (Wide.await request p) k) h s
  = match p with
    | Resolved a => Wide.prepend [request] (Wide.tryCatch (k a) h s)
    | Rejected message => Wide.prepend [request] (h message s)
    end.
Proof. rewrite wide_tryCatch_bind. destruct p; reflexivity. Qed.

Lemma wide_tryCatch_bind_emit (e : E) (k : unit -> Wide.M B)
    (h : string -> Wide.M B) s :
  Wide.tryCatch (Wide.bind (Wide.emit e) k) h s
  = Wide.prepend [e] (Wide.tryCatch (k tt) h s).
Proof. now rewrite wide_tryCatch_bind. Qed.

Lemma wide_tryCatch_bind_ret {C} (c : C) (k : C -> Wide.M B)
    (h : string -> Wide.M B) s :
  Wide.tryCatch (E := E) (Wide.bind (Wide.ret c) k) h s = Wide.tryCatch (k c) h s.
Proof.
  rewrite wide_tryCatch_bind. cbn [Wide.ret Wide.outcomeOf Wide.traceOf Wide.stateOf fst snd].
  apply wide_prepend_nil.
Qed.

Lemma wide_tryCatch_bind_orThrow {C} (o : option C) message0 (k : C -> Wide.M B)
    (h : string -> Wide.M B) s :
  Wide.tryCatch (E := E) (Wide.bind (Wide.orThrow o message0) k) h s
  = match o with
    | Some a => Wide.tryCatch (k a) h s
    | None => h message0 s
    end.
Proof.
  rewrite wide_tryCatch_bind. destruct o;
    cbn [Wide.orThrow Wide.ret Wide.throw Wide.outcomeOf Wide.traceOf Wide.stateOf fst snd];
    apply wide_prepend_nil.
Qed.

Lemma wide_tryCatch_bind_lift {C} (inj : Effect -> E) (m : Effects.M C)
    (k : C -> Wide.M B) (h : string -> Wide.M B) s :
  Wide.tryCatch (Wide.bind (Wide.lift inj m) k) h s
  = match outcomeOf (m s) with
    | Returned a =>
        Wide.prepend (map inj (traceOf (m s))) (Wide.tryCatch (k a) h (stateOf (m s)))
    | Threw message =>
        Wide.prepend (map inj (traceOf (m s))) (h message (stateOf (m s)))
    end.
Proof. now rewrite wide_tryCatch_bind. Qed.

Lemma wide_tryCatch_bind_lift_setAppState (inj : Effect -> E) newState
    (k : unit -> Wide.M B) (h : string -> Wide.M B) s :
  Wide.tryCatch (Wide.bind (Wide.lift inj (setAppState newState)) k) h s
  = Wide.prepend [inj (Write newState)]
      (Wide.tryCatch (k tt) h (State.setAppState newState s)).
Proof. now rewrite wide_tryCatch_bind. Qed.

Lemma wide_tryCatch_bind_assoc {C D} (m : Wide.M C) (f : C -> Wide.M D)
    (g : D -> Wide.M B) (h : string -> Wide.M B) s :
  Wide.tryCatch (E := E) (Wide.bind (Wide.bind m f) g) h s
  = Wide.tryCatch (Wide.bind m (fun x => Wide.bind (f x) g)) h s.
Proof.
  unfold Wide.tryCatch. cbv zeta. now rewrite wide_bind_assoc.
Qed.

Lemma wide_tryCatch_bind_tryCatch {C} (m : Wide.M C) (h' : string -> Wide.M C)
    (k : C -> Wide.M B) (h : string -> Wide.M B) s :
  Wide.tryCatch (E := E) (Wide.bind (Wide.tryCatch m h') k) h s
  = match Wide.outcomeOf (Wide.tryCatch m h' s) with
    | Returned a =>
        Wide.prepend (Wide.traceOf (Wide.tryCatch m h' s))
          (Wide.tryCatch (k a) h (Wide.stateOf (Wide.tryCatch m h' s)))
    | Threw message =>
        Wide.prepend (Wide.traceOf (Wide.tryCatch m h' s))
          (h message (Wide.stateOf (Wide.tryCatch m h' s)))
    end.
Proof. apply wide_tryCatch_bind. Qed.

Lemma wide_tryCatch_tryCatch (m : Wide.M B) (h' h : string -> Wide.M B) s :
  Wide.tryCatch (E := E) (Wide.tryCatch m h') h s
  = match Wide.outcomeOf (Wide.tryCatch m h' s) with
    | Returned a => Wide.tryCatch m h' s
    | Threw message =>
        Wide.prepend (Wide.traceOf (Wide.tryCatch m h' s))
          (h message (Wide.stateOf (Wide.tryCatch m h' s)))
    end.
Proof.
  unfold Wide.tryCatch at 1. cbv zeta.
  destruct (Wide.outcomeOf (Wide.tryCatch m h' s)); reflexivity.
Qed.

End WideCatch.

(** ** The countdown *)

Section CountdownRuns.
Import Effects.

Lemma runAutomationCheck_state roundData secondsRemaining signer st :
  stateOf (Automation.runAutomationCheck roundData secondsRemaining signer st)
  = if Spec.qualifies st secondsRemaining
    then State.setAppState [State.Set_automationHasRunThisRound true] st
    else st.
Proof.
  destruct (Spec.qualifies st secondsRemaining) eqn:Hq.
  - rewrite qualifies_true_fires by assumption. cbv zeta. cbn [stateOf fst snd].
    destruct (analyzeAndDeploy_shape st.(State.appMode) st.(State.isSpeculating)
                st.(State.customDeployAmount) roundData signer
                (State.setAppState [State.Set_automationHasRunThisRound true] st))
      as (o & rest & -> & _).
    reflexivity.
  - now rewrite qualifies_false_noop.
Qed.

Lemma displayWinner_run roundData roundIdStr st :
  Game.displayWinner roundData roundIdStr st
  = if st.(State.winnerAnnounced) then (Returned tt, st, [])
    else
      match Game.winnerOf roundData.(Solana.Round.slot_hash) with
      | Some winner =>
          (Returned tt,
           State.setAppState [State.Set_lastWinner (Game.toString winner);
                              State.Set_winnerAnnounced true] st,
           [Write [State.Set_lastWinner (Game.toString winner);
                   State.Set_winnerAnnounced true];
            Show_lastWinner (Game.toString winner);
            Show_countdown_waiting;
            PlayNotificationSound_winner roundIdStr (Game.toString winner);
            Screen_render])
      | None => (Threw Transactions.E_decode, st, [])
      end.
Proof.
  unfold Game.displayWinner. rewrite bind_getState.
  destruct (State.winnerAnnounced st); cbn [negb]; [reflexivity|].
  rewrite bind_orThrow.
  destruct (Game.winnerOf _); reflexivity.
Qed.

Ltac fields :=
  cbn [State.setAppState fold_left State.assign State.appMode State.isSpeculating
       State.isAudioEnabled State.customDeployAmount State.userBalance
       State.priceOreSol State.currentRoundId State.currentBoardData
       State.currentRoundData State.automationHasRunThisRound
       State.checkpointHasRunThisRound State.roundSubscriptionId
       State.winnerAnnounced State.lastWinner State.isTransitioningRound] in *.

Ltac wsplit :=
  match goal with
  | |- context [match ?x with _ => _ end] =>
      lazymatch x with
      | context [match _ with _ => _ end] => fail
      | context [Wide.outcomeOf] => fail
      | context [Wide.stateOf] => fail
      | _ => destruct x eqn:?
      end
  end.

Ltac wrun :=
  repeat first
    [ rewrite wide_bind_assoc | rewrite wide_bind_ret | rewrite wide_bind_getState
    | rewrite wide_bind_emit | rewrite wide_bind_await | rewrite wide_bind_orThrow
    | rewrite wide_bind_throw | rewrite wide_bind_lift_setAppState
    | rewrite wide_bind_lift | rewrite wide_bind_tryCatch
    | rewrite wide_tryCatch_bind_assoc | rewrite wide_tryCatch_bind_ret
    | rewrite wide_tryCatch_bind_await | rewrite wide_tryCatch_bind_emit
    | rewrite wide_tryCatch_bind_orThrow
    | rewrite wide_tryCatch_bind_lift_setAppState
    | rewrite wide_tryCatch_bind_lift | rewrite wide_tryCatch_bind_tryCatch
    | rewrite wide_tryCatch_tryCatch
    | rewrite wide_tryCatch_ret
    | rewrite displayWinner_run
    | rewrite wide_outcomeOf_prepend | rewrite wide_stateOf_prepend
    | rewrite wide_traceOf_prepend
    | progress cbn [Wide.outcomeOf Wide.stateOf Wide.traceOf fst snd
                    Wide.await Wide.emit Wide.ret Wide.throw Wide.orThrow
                    Wide.getState Wide.lift outcomeOf stateOf traceOf map]
    | wsplit ].

(** A tick that finds the round running: the announcement is re-armed,
    the trigger is invoked when there is a round detail and no
    transition, and the countdown is written. *)
Lemma updateCountdown_active getSlot connection signer st slotsRemaining :
  Countdown.activeSlots getSlot st = Some slotsRemaining ->
  let st1 := State.setAppState [State.Set_winnerAnnounced false] st in
  let secondsRemaining := Countdown.secondsOf slotsRemaining in
  Countdown.updateCountdown getSlot connection signer st
  = match st.(State.currentRoundData), st.(State.isTransitioningRound),
          secondsRemaining with
    | Some roundData, false, Some seconds =>
        let trigger :=
          Automation.runAutomationCheck (Some roundData) seconds signer st1 in
        (Returned tt, stateOf trigger,
         [Countdown.Rpc_getSlot;
          Countdown.Core (Write [State.Set_winnerAnnounced false])]
         ++ map Countdown.Core (traceOf trigger)
         ++ [Countdown.Show_countdown
               match outcomeOf trigger with
               | Returned _ => Countdown.C_ends_in secondsRemaining
               | Threw _ => Countdown.C_error_slot
               end;
             Countdown.Core Screen_render])
    | _, _, _ =>
        (Returned tt, st1,
         [Countdown.Rpc_getSlot;
          Countdown.Core (Write [State.Set_winnerAnnounced false]);
          Countdown.Show_countdown (Countdown.C_ends_in secondsRemaining);
          Countdown.Core Screen_render])
    end.
Proof.
  unfold Countdown.activeSlots, Countdown.updateCountdown. cbv zeta.
  rewrite wide_bind_getState.
  destruct (State.currentBoardData st) as [b|]; [|discriminate].
  destruct getSlot as [currentSlot|message]; [|discriminate].
  destruct (0 <? _)%float eqn:Hd; [|discriminate].
  intros H. assert (Hs : (JS.Number_of_Z (Solana.Board.end_slot b) - currentSlot)%float
                         = slotsRemaining) by congruence.
  clear H.
  rewrite wide_bind_tryCatch, wide_tryCatch_bind_await. rewrite Hd, Hs.
  rewrite wide_tryCatch_bind_lift_setAppState.
  destruct (State.currentRoundData st) as [roundData|];
    [destruct (State.isTransitioningRound st); cbn [negb];
     [|destruct (Countdown.secondsOf slotsRemaining) as [seconds|]]|].
  1, 3, 4: rewrite wide_tryCatch_bind_ret, wide_tryCatch_ret; reflexivity.
  rewrite wide_tryCatch_bind_lift. cbv zeta.
  destruct (outcomeOf (Automation.runAutomationCheck _ _ _ _)) as [[]|message].
  - rewrite wide_tryCatch_ret. cbn. rewrite app_nil_r. reflexivity.
  - cbn. rewrite app_nil_r. reflexivity.
Qed.

(** A tick that does not find the round running. *)
Lemma updateCountdown_ended getSlot connection signer st :
  Countdown.activeSlots getSlot st = None ->
  exists s t,
    Countdown.updateCountdown getSlot connection signer st = (Returned tt, s, t)
    /\ Ref.trackingOf s = Ref.trackingOf st
    /\ Ref.settingsOf s = Ref.settingsOf st
    /\ (exists t' content,
          t = t' ++ [Countdown.Show_countdown content; Countdown.Core Screen_render])
    /\ existsb Countdown.isTriggerWork t = false
    /\ (st.(State.winnerAnnounced) = true ->
        State.winnerAnnounced s = true
        /\ State.lastWinner s = st.(State.lastWinner)
        /\ existsb Countdown.isAnnouncement t = false)
    /\ (forall roundIdStr winnerStr,
          In (Countdown.Core (PlayNotificationSound_winner roundIdStr winnerStr)) t ->
          st.(State.winnerAnnounced) = false
          /\ roundIdStr = Game.toString st.(State.currentRoundId)
          /\ State.winnerAnnounced s = true
          /\ State.lastWinner s = winnerStr
          /\ exists roundData winner,
              State.currentRoundData s = Some roundData
              /\ Solana.isSlotHashPopulated roundData.(Solana.Round.slot_hash) = true
              /\ Game.winnerOf roundData.(Solana.Round.slot_hash) = Some winner
              /\ winnerStr = Game.toString winner).
Proof.
  unfold Countdown.activeSlots, Countdown.updateCountdown. cbv zeta.
  intros Hact.
  wrun.
  all: try discriminate Hact.
  all: clear Hact.
  all: eexists _, _; (split; [reflexivity|]).
  all: cbn [Wide.prepend Wide.emit Wide.traceOf Wide.stateOf Wide.outcomeOf
            fst snd app].
  all: unfold Ref.trackingOf, Ref.settingsOf; fields.
  all: cbn [existsb Countdown.isTriggerWork Countdown.isAnnouncement
            Spec.isAnalysis Spec.isDeployment orb app In].
  all: (split; [reflexivity|split; [reflexivity|split; [|split; [reflexivity|]]]]).
  all: try match goal with
           | |- exists t' content, ?l = _ =>
               exists (firstn (List.length l - 2) l); eexists;
               cbn [List.length Nat.sub firstn app]; reflexivity
           end.
  all: (split;
        [ intros Hw;
          first [ congruence
                | repeat split; first [reflexivity | assumption] ]
        | intros roundIdStr winnerStr Hin ]).
  all: repeat match goal with
         | H : _ \/ _ |- _ => destruct H as [H|H]
         | H : False |- _ => destruct H
         | H : _ = Countdown.Core (PlayNotificationSound_winner _ _) |- _ =>
             first [discriminate H | injection H as <- <-]
         end.
  all: repeat split; try reflexivity; try assumption.
  all: try (eexists _, _; repeat split; try eassumption; try reflexivity; fail).
Qed.

End CountdownRuns.

Section CountdownFacts.
Import Effects.

Lemma active_or_ended getSlot st :
  (exists slotsRemaining, Countdown.activeSlots getSlot st = Some slotsRemaining)
  \/ Countdown.activeSlots getSlot st = None.
Proof. destruct (Countdown.activeSlots getSlot st); eauto. Qed.

Lemma in_map_core (e : Effect) (t : list Effect) :
  In (Countdown.Core e) (map Countdown.Core t) -> In e t.
Proof.
  intros H. apply in_map_iff in H. destruct H as (e' & He & Hin).
  now injection He as <-.
Qed.

Lemma trigger_state_fields roundData seconds signer st :
  let r := Automation.runAutomationCheck roundData seconds signer st in
  Ref.settingsOf (stateOf r) = Ref.settingsOf st
  /\ State.currentRoundId (stateOf r) = st.(State.currentRoundId)
  /\ State.currentBoardData (stateOf r) = st.(State.currentBoardData)
  /\ State.currentRoundData (stateOf r) = st.(State.currentRoundData)
  /\ State.checkpointHasRunThisRound (stateOf r) = st.(State.checkpointHasRunThisRound)
  /\ State.roundSubscriptionId (stateOf r) = st.(State.roundSubscriptionId)
  /\ State.isTransitioningRound (stateOf r) = st.(State.isTransitioningRound)
  /\ State.winnerAnnounced (stateOf r) = st.(State.winnerAnnounced)
  /\ State.lastWinner (stateOf r) = st.(State.lastWinner).
Proof.
  cbv zeta. rewrite runAutomationCheck_state.
  destruct (Spec.qualifies st seconds); repeat split.
Qed.

End CountdownFacts.

(** X14. A tick in a running round. When [updateCountdown] finds the
    round running (the board is known, the node reports a slot before
    the end slot), it marks the winner as not announced and then, if a
    round detail is stored and no transition is in progress, invokes the
    trigger with the whole seconds that remain; it ends by writing the
    countdown, or the slot-error text if the trigger threw. It returns
    in every case, and apart from what the trigger does to its own flag
    it changes nothing else. *)
Theorem active_tick_invokes_trigger (getSlot : Effects.Settled float)
    (connection : Effects.Connection) (signer : option Effects.Keypair)
    (st : State.AppState) (slotsRemaining : float) :
  Countdown.activeSlots getSlot st = Some slotsRemaining ->
  let st1 := State.setAppState [State.Set_winnerAnnounced false] st in
  let secondsRemaining := Countdown.secondsOf slotsRemaining in
  let r := Countdown.updateCountdown getSlot connection signer st in
  r = match st.(State.currentRoundData), st.(State.isTransitioningRound),
            secondsRemaining with
      | Some roundData, false, Some seconds =>
          let trigger :=
            Automation.runAutomationCheck (Some roundData) seconds signer st1 in
          (Effects.Returned tt, Effects.stateOf trigger,
           [Countdown.Rpc_getSlot;
            Countdown.Core (Effects.Write [State.Set_winnerAnnounced false])]
           ++ map Countdown.Core (Effects.traceOf trigger)
           ++ [Countdown.Show_countdown
                 match Effects.outcomeOf trigger with
                 | Effects.Returned _ => Countdown.C_ends_in secondsRemaining
                 | Effects.Threw _ => Countdown.C_error_slot
                 end;
               Countdown.Core Effects.Screen_render])
      | _, _, _ =>
          (Effects.Returned tt, st1,
           [Countdown.Rpc_getSlot;
            Countdown.Core (Effects.Write [State.Set_winnerAnnounced false]);
            Countdown.Show_countdown (Countdown.C_ends_in secondsRemaining);
            Countdown.Core Effects.Screen_render])
      end
  /\ State.winnerAnnounced (Wide.stateOf r) = false
  /\ State.currentRoundData (Wide.stateOf r) = st.(State.currentRoundData)
  /\ State.currentRoundId (Wide.stateOf r) = st.(State.currentRoundId)
  /\ Ref.settingsOf (Wide.stateOf r) = Ref.settingsOf st.
Proof.
  intros Hact st1 secondsRemaining r.
  pose proof (updateCountdown_active getSlot connection signer st slotsRemaining Hact)
    as Hr.
  cbv zeta in Hr. fold st1 secondsRemaining r in Hr.
  split; [exact Hr|]. rewrite Hr.
  destruct (State.currentRoundData st) as [roundData|] eqn:Hrd;
    [destruct (State.isTransitioningRound st);
     [|destruct secondsRemaining as [seconds|]]|];
    try (repeat split; assumption).
  cbv zeta. cbn [Wide.stateOf fst snd].
  destruct (trigger_state_fields (Some roundData) seconds signer st1)
    as (Hs & Hid & _ & Hd & _ & _ & _ & Hw & _).
  cbv zeta in Hs, Hid, Hd, Hw.
  rewrite Hw, Hd, Hid, Hs. repeat split. exact Hrd.
Qed.

Lemma active_tick_invokes_trigger_witness :
  let st := Samples3.ticking "3x EV" in
  let r := Countdown.updateCountdown (Effects.Resolved 240%float)
             (Samples.node 0 0) (Some Samples.keypair) st in
  Countdown.activeSlots (Effects.Resolved 240%float) st = Some 10%float
  /\ Countdown.secondsOf 10 = Some 4
  /\ State.winnerAnnounced (Wide.stateOf r) = false
  /\ existsb Countdown.isTriggerWork (Wide.traceOf r) = true.
Proof.
  intros st r.
  assert (Hact : Countdown.activeSlots (Effects.Resolved 240%float) st = Some 10%float)
    by (vm_compute; reflexivity).
  pose proof (active_tick_invokes_trigger (Effects.Resolved 240%float)
                (Samples.node 0 0) (Some Samples.keypair) st 10%float Hact) as H.
  cbv zeta in H. destruct H as (_ & Hw & _).
  split; [exact Hact|]. split; [vm_compute; reflexivity|].
  split; [exact Hw|]. vm_compute. reflexivity.
Defined.

(** X15. When a tick deploys. If a tick of [updateCountdown] requests a
    deployment, then the board is known, the node reported a slot before
    the end slot, a round detail is stored, no transition is in
    progress, the whole seconds that remain lie in the window from 1 to
    8, the mode is not idle, the trigger had not fired in this round,
    speculation is off and a signer is loaded; and the deployment is the
    one the trigger requests for the stored round detail. *)
Theorem tick_deploys_only_in_window (getSlot : Effects.Settled float)
    (connection : Effects.Connection) (signer : option Effects.Keypair)
    (st : State.AppState)
    (targets : list Detection.EvEntry) (key : Effects.Keypair) :
  In (Countdown.Core (Effects.Call_sendDeployTx targets key))
     (Wide.traceOf (Countdown.updateCountdown getSlot connection signer st)) ->
  exists slotsRemaining roundData seconds analysis,
    Countdown.activeSlots getSlot st = Some slotsRemaining
    /\ st.(State.currentRoundData) = Some roundData
    /\ st.(State.isTransitioningRound) = false
    /\ Countdown.secondsOf slotsRemaining = Some seconds
    /\ 0 < seconds <= 8
    /\ st.(State.appMode) <> Constants.APP_MODES.IDLE
    /\ st.(State.automationHasRunThisRound) = false
    /\ st.(State.isSpeculating) = false
    /\ signer = Some key
    /\ Detection.analyzeBoardState st (Some roundData) = Some analysis
    /\ targets = Automation.selectTargets st.(State.appMode) analysis
    /\ targets <> [].
Proof.
  intros Hin.
  destruct (active_or_ended getSlot st) as [(d & Hact)|Hend].
  2:{ destruct (updateCountdown_ended getSlot connection signer st Hend)
        as (s & t & Hr & _ & _ & _ & Hno & _).
      rewrite Hr in Hin. cbn [Wide.traceOf snd] in Hin. exfalso.
      assert (Hex : existsb Countdown.isTriggerWork t = true).
      { apply existsb_exists. eexists. split; [exact Hin|reflexivity]. }
      congruence. }
  rewrite (updateCountdown_active getSlot connection signer st d Hact) in Hin.
  cbv zeta in Hin.
  destruct (State.currentRoundData st) as [roundData|] eqn:Hrd;
    [destruct (State.isTransitioningRound st) eqn:Htr;
     [|destruct (Countdown.secondsOf d) as [seconds|] eqn:Hsec]|];
    cbn [Wide.traceOf snd In app] in Hin;
    try (repeat (destruct Hin as [Hin|Hin]; try discriminate Hin); contradiction).
  destruct Hin as [Hin|[Hin|Hin]]; try discriminate Hin.
  apply in_app_or in Hin. destruct Hin as [Hin|Hin].
  2:{ cbn [In] in Hin.
      repeat (destruct Hin as [Hin|Hin]; try discriminate Hin). contradiction. }
  apply in_map_core in Hin.
  apply runAutomationCheck_calls in Hin.
  destruct Hin as (Hq & analysis & best & Ha & _ & Ht & Hne & Hs & Hk).
  apply qualifies_true_iff in Hq. destruct Hq as (Hm & Hw & Hf).
  exists d, roundData, seconds, analysis.
  repeat split; try assumption; try reflexivity; apply Hw.
Qed.

Lemma tick_deploys_only_in_window_witness :
  exists targets seconds,
    In (Countdown.Core (Effects.Call_sendDeployTx targets Samples.keypair))
       (Wide.traceOf
          (Countdown.updateCountdown (Effects.Resolved 240%float)
             (Samples.node 0 0) (Some Samples.keypair) (Samples3.ticking "3x EV")))
    /\ Countdown.secondsOf 10 = Some seconds
    /\ 0 < seconds <= 8
    /\ targets <> [].
Proof.
  set (st := Samples3.ticking "3x EV").
  set (targets := match Detection.analyzeBoardState st (Some Samples.round) with
                  | Some a => firstn 3 a.(Detection.byEV)
                  | None => []
                  end).
  assert (Hin : In (Countdown.Core (Effects.Call_sendDeployTx targets Samples.keypair))
                   (Wide.traceOf
                      (Countdown.updateCountdown (Effects.Resolved 240%float)
                         (Samples.node 0 0) (Some Samples.keypair) st))).
  { vm_compute. do 9 right. left. reflexivity. }
  pose proof (tick_deploys_only_in_window (Effects.Resolved 240%float)
                (Samples.node 0 0) (Some Samples.keypair) st targets
                Samples.keypair Hin) as H.
  destruct H
    as (d & rd & seconds & analysis & Hact & _ & _ & Hsec & Hw & _ & _ & _ & _ & _ & _ & Hne).
  assert (H10 : Countdown.activeSlots (Effects.Resolved 240%float) st = Some 10%float)
    by (vm_compute; reflexivity).
  rewrite H10 in Hact. injection Hact as Hd.
  rewrite <- Hd in Hsec.
  exists targets, seconds.
  split; [exact Hin|]. split; [exact Hsec|]. split; [exact Hw|exact Hne].
Defined.

(** X16. A tick after the end of the round. When [updateCountdown] does
    not find the round running (no board, no answer from the node, or
    the end slot reached), it never invokes the trigger and leaves the
    tracked round, the round flags and the subscription as they are. It
    announces a winner only if none was announced before, and then for
    the tracked round and from a round detail whose slot hash is
    populated, which it stores; once the winner is announced, further
    such ticks announce nothing. *)
Theorem ended_tick_announces_once (getSlot : Effects.Settled float)
    (connection : Effects.Connection) (signer : option Effects.Keypair)
    (st : State.AppState) :
  Countdown.activeSlots getSlot st = None ->
  let r := Countdown.updateCountdown getSlot connection signer st in
  Wide.outcomeOf r = Effects.Returned tt
  /\ Ref.trackingOf (Wide.stateOf r) = Ref.trackingOf st
  /\ existsb Countdown.isTriggerWork (Wide.traceOf r) = false
  /\ (forall roundIdStr winnerStr,
        In (Countdown.Core
              (Effects.PlayNotificationSound_winner roundIdStr winnerStr))
           (Wide.traceOf r) ->
        st.(State.winnerAnnounced) = false
        /\ roundIdStr = Game.toString st.(State.currentRoundId)
        /\ State.lastWinner (Wide.stateOf r) = winnerStr
        /\ exists roundData winner,
            State.currentRoundData (Wide.stateOf r) = Some roundData
            /\ Solana.isSlotHashPopulated roundData.(Solana.Round.slot_hash) = true
            /\ Game.winnerOf roundData.(Solana.Round.slot_hash) = Some winner
            /\ winnerStr = Game.toString winner)
  /\ (st.(State.winnerAnnounced) = true
      \/ existsb Countdown.isAnnouncement (Wide.traceOf r) = true ->
      State.winnerAnnounced (Wide.stateOf r) = true
      /\ forall getSlot' connection' signer',
           Countdown.activeSlots getSlot' (Wide.stateOf r) = None ->
           existsb Countdown.isAnnouncement
             (Wide.traceOf
                (Countdown.updateCountdown getSlot' connection' signer'
                   (Wide.stateOf r))) = false).
Proof.
  intros Hend r.
  destruct (updateCountdown_ended getSlot connection signer st Hend)
    as (s & t & Hr & Htr & _ & _ & Hno & Hann & Hplay).
  unfold r. rewrite Hr. cbn [Wide.outcomeOf Wide.stateOf Wide.traceOf fst snd].
  split; [reflexivity|]. split; [exact Htr|]. split; [exact Hno|]. split.
  - intros roundIdStr winnerStr Hin.
    destruct (Hplay roundIdStr winnerStr Hin) as (H1 & H2 & _ & H4 & H5). auto.
  - intros Hor.
    assert (Hs : State.winnerAnnounced s = true).
    { destruct Hor as [Hw|Hex]; [now apply Hann|].
      apply existsb_exists in Hex. destruct Hex as (e & Hin & He).
      destruct e as [[]| | |]; try discriminate He.
      now apply Hplay in Hin. }
    split; [exact Hs|].
    intros getSlot' connection' signer' Hend'.
    destruct (updateCountdown_ended getSlot' connection' signer' s Hend')
      as (s' & t' & Hr' & _ & _ & _ & _ & Hann' & _).
    rewrite Hr'. cbn [Wide.traceOf snd]. now apply Hann'.
Qed.

Lemma ended_tick_announces_once_witness :
  let st := Samples3.ticking "3x EV" in
  let r := Countdown.updateCountdown (Effects.Resolved 260%float)
             Samples3.finishedNode (Some Samples.keypair) st in
  Countdown.activeSlots (Effects.Resolved 260%float) st = None
  /\ existsb Countdown.isAnnouncement (Wide.traceOf r) = true
  /\ State.winnerAnnounced (Wide.stateOf r) = true
  /\ existsb Countdown.isAnnouncement
       (Wide.traceOf
          (Countdown.updateCountdown (Effects.Resolved 261%float)
             Samples3.finishedNode (Some Samples.keypair) (Wide.stateOf r)))
     = false.
Proof.
  intros st r.
  assert (Hend : Countdown.activeSlots (Effects.Resolved 260%float) st = None)
    by (vm_compute; reflexivity).
  assert (Hex : existsb Countdown.isAnnouncement (Wide.traceOf r) = true)
    by (vm_compute; reflexivity).
  pose proof (ended_tick_announces_once (Effects.Resolved 260%float)
                Samples3.finishedNode (Some Samples.keypair) st Hend) as H.
  cbv zeta in H. destruct H as (_ & _ & _ & _ & Hnext).
  destruct (Hnext (or_intror Hex)) as (Hw & Hsilent).
  split; [exact Hend|]. split; [exact Hex|]. split; [exact Hw|].
  apply Hsilent. vm_compute. reflexivity.
Defined.

(** X17. Every tick is contained. [updateCountdown] never throws,
    whatever the node answers and whatever the trigger does; its last
    two actions are writing the countdown and rendering the screen; and
    it changes neither the settings, the balance or the price, nor the
    tracked round id, the board, the subscription, the checkpoint flag
    or the transition flag. *)
Theorem countdown_tick_contained (getSlot : Effects.Settled float)
    (connection : Effects.Connection) (signer : option Effects.Keypair)
    (st : State.AppState) :
  let r := Countdown.updateCountdown getSlot connection signer st in
  Wide.outcomeOf r = Effects.Returned tt
  /\ (exists t content,
        Wide.traceOf r
        = t ++ [Countdown.Show_countdown content;
                Countdown.Core Effects.Screen_render])
  /\ Ref.settingsOf (Wide.stateOf r) = Ref.settingsOf st
  /\ State.currentRoundId (Wide.stateOf r) = st.(State.currentRoundId)
  /\ State.currentBoardData (Wide.stateOf r) = st.(State.currentBoardData)
  /\ State.roundSubscriptionId (Wide.stateOf r) = st.(State.roundSubscriptionId)
  /\ State.checkpointHasRunThisRound (Wide.stateOf r)
     = st.(State.checkpointHasRunThisRound)
  /\ State.isTransitioningRound (Wide.stateOf r) = st.(State.isTransitioningRound).
Proof.
  intros r. unfold r.
  destruct (active_or_ended getSlot st) as [(d & Hact)|Hend].
  - rewrite (updateCountdown_active getSlot connection signer st d Hact).
    cbv zeta.
    destruct (State.currentRoundData st) as [roundData|];
      [destruct (State.isTransitioningRound st) eqn:Htr;
       [|destruct (Countdown.secondsOf d) as [seconds|]]|];
      cbn [Wide.outcomeOf Wide.stateOf Wide.traceOf fst snd].
    1, 3, 4: (split; [reflexivity|]; split;
              [eexists [_; _], _; reflexivity|repeat split; assumption]).
    match goal with
    | |- context [Automation.runAutomationCheck ?rd ?z ?sg ?s1] =>
        destruct (trigger_state_fields rd z sg s1)
          as (Hs & Hid & Hbd & _ & Hc & Hsub & Ht & _)
    end.
    cbv zeta in Hs, Hid, Hbd, Hc, Hsub, Ht.
    rewrite Hs, Hid, Hbd, Hc, Hsub, Ht.
    split; [reflexivity|]. split.
    { eexists (_ :: _ :: map Countdown.Core _), _. cbn [app]. reflexivity. }
    repeat split. exact Htr.
  - destruct (updateCountdown_ended getSlot connection signer st Hend)
      as (s & t & Hr & Htr & Hs & Hsuf & _).
    rewrite Hr. cbn [Wide.outcomeOf Wide.stateOf Wide.traceOf fst snd].
    unfold Ref.trackingOf in Htr. injection Htr as T1 T2 T3 T4 T5 T6.
    repeat split; assumption.
Qed.

Section Slots.

(** By computation on the 2000 numbers. *)
Lemma seconds_of_slots_check :
  forallb
    (fun k => match Countdown.secondsOf (JS.Number_of_Z (Z.of_nat k)) with
              | Some seconds => seconds =? 2 * Z.of_nat k / 5
              | None => false
              end) (seq 0 2000) = true.
Proof. vm_compute. reflexivity. Qed.

End Slots.

(** X18. The trigger window in slots. When a whole number [k] of slots
    remains, [k] below 2000, the seconds [updateCountdown] computes as
    [Math.floor(k * (MS_PER_SLOT / 1000))] in binary64 arithmetic are
    exactly [floor(2k / 5)]; so the tick lies in the trigger window of 1
    to 8 seconds exactly when between 3 and 22 slots remain. *)
Theorem trigger_window_in_slots (k : Z) :
  0 <= k < 2000 ->
  Countdown.secondsOf (JS.Number_of_Z k) = Some (2 * k / 5)
  /\ (0 < 2 * k / 5 <= 8 <-> 3 <= k <= 22).
Proof.
  intros Hk. split.
  - pose proof seconds_of_slots_check as H.
    rewrite forallb_forall in H. specialize (H (Z.to_nat k)).
    rewrite Z2Nat.id in H by lia.
    destruct (Countdown.secondsOf (JS.Number_of_Z k)) as [seconds|].
    + f_equal. apply Z.eqb_eq. apply H. apply in_seq. lia.
    + discriminate H. apply in_seq. lia.
  - pose proof (Z.div_mod (2 * k) 5 ltac:(lia)) as Hd.
    pose proof (Z.mod_pos_bound (2 * k) 5 ltac:(lia)) as Hm.
    split; intros H; lia.
Qed.

Lemma trigger_window_in_slots_witness :
  Countdown.secondsOf (JS.Number_of_Z 22) = Some 8
  /\ Countdown.secondsOf (JS.Number_of_Z 23) = Some 9
  /\ Countdown.secondsOf (JS.Number_of_Z 2) = Some 0.
Proof.
  destruct (trigger_window_in_slots 22 ltac:(lia)) as [H22 _].
  destruct (trigger_window_in_slots 23 ltac:(lia)) as [H23 _].
  destruct (trigger_window_in_slots 2 ltac:(lia)) as [H2 _].
  split; [exact H22|]. split; [exact H23|exact H2].
Defined.

(** ** Claiming and cashing out *)

Section CashOutRuns.
Import Effects.

Ltac wsplit :=
  match goal with
  | |- context [match ?x with _ => _ end] =>
      lazymatch x with
      | context [match _ with _ => _ end] => fail
      | context [Wide.outcomeOf] => fail
      | context [Wide.stateOf] => fail
      | _ => destruct x eqn:?
      end
  end.

Ltac wrun :=
  repeat first
    [ rewrite wide_bind_assoc | rewrite wide_bind_ret | rewrite wide_bind_getState
    | rewrite wide_bind_emit | rewrite wide_bind_await | rewrite wide_bind_orThrow
    | rewrite wide_bind_throw | rewrite wide_bind_lift_setAppState
    | rewrite wide_bind_lift | rewrite wide_bind_tryCatch
    | rewrite wide_tryCatch_bind_assoc | rewrite wide_tryCatch_bind_ret
    | rewrite wide_tryCatch_bind_await | rewrite wide_tryCatch_bind_emit
    | rewrite wide_tryCatch_bind_orThrow
    | rewrite wide_tryCatch_bind_lift_setAppState
    | rewrite wide_tryCatch_bind_lift | rewrite wide_tryCatch_bind_tryCatch
    | rewrite wide_tryCatch_tryCatch
    | rewrite wide_tryCatch_ret
    | rewrite wide_outcomeOf_prepend | rewrite wide_stateOf_prepend
    | rewrite wide_traceOf_prepend
    | progress cbn [Wide.outcomeOf Wide.stateOf Wide.traceOf fst snd
                    Wide.await Wide.emit Wide.ret Wide.throw Wide.orThrow
                    Wide.getState Wide.lift outcomeOf stateOf traceOf map]
    | wsplit ].

(** What a claim does, case by case. *)
Lemma sendClaimSolTx_run node signer st :
  CashOut.sendClaimSolTx node signer st
  = match signer with
    | None =>
        (Returned false, st,
         [CashOut.Log CashOut.L_claim_failed_signer_not_loaded])
    | Some key =>
        let transaction := [CashOut.claimInstruction key] in
        let failed errorMsg t :=
          (Returned (Transactions.includes "custom program error" errorMsg), st,
           CashOut.Log CashOut.L_attempting_claim
           :: CashOut.Core (Rpc_sendAndConfirmTransaction transaction key)
           :: t
           ++ [CashOut.Log
                 (if Transactions.includes "custom program error" errorMsg
                  then CashOut.L_claim_no_pending_rewards
                  else CashOut.L_claim_failed errorMsg)]) in
        match node.(CashOut.claimAnswer) transaction with
        | Rejected errorMsg => failed errorMsg []
        | Resolved signature =>
            let t :=
              [CashOut.Log (CashOut.L_claim_successful
                              (String.substring 0 16 signature));
               CashOut.Core (Rpc_getBalance key.(publicKey))] in
            match node.(CashOut.balanceAfterClaim) with
            | Rejected errorMsg => failed errorMsg t
            | Resolved newBalance =>
                (Returned true,
                 State.setAppState
                   [State.Set_userBalance
                      (newBalance / Transactions.LAMPORTS_PER_SOL)%float] st,
                 CashOut.Log CashOut.L_attempting_claim
                 :: CashOut.Core (Rpc_sendAndConfirmTransaction transaction key)
                 :: t
                 ++ [CashOut.Core
                       (Write [State.Set_userBalance
                                 (newBalance / Transactions.LAMPORTS_PER_SOL)%float])])
            end
        end
    end.
Proof.
  unfold CashOut.sendClaimSolTx, CashOut.log. cbv zeta.
  destruct signer as [key|]; [|reflexivity].
  rewrite wide_bind_emit, wide_tryCatch_bind_await.
  destruct (CashOut.claimAnswer node _) as [signature|errorMsg].
  - rewrite wide_tryCatch_bind_emit, wide_tryCatch_bind_await.
    destruct (CashOut.balanceAfterClaim node) as [newBalance|errorMsg].
    + rewrite wide_tryCatch_bind_lift_setAppState, wide_tryCatch_ret. reflexivity.
    + destruct (Transactions.includes _ errorMsg); reflexivity.
  - destruct (Transactions.includes _ errorMsg); reflexivity.
Qed.

(** A claim never throws. *)
Lemma sendClaimSolTx_returns node signer st :
  exists claimSuccess,
    Wide.outcomeOf (CashOut.sendClaimSolTx node signer st) = Returned claimSuccess.
Proof.
  rewrite sendClaimSolTx_run. cbv zeta.
  destruct signer as [key|]; [|eexists; reflexivity].
  destruct (CashOut.claimAnswer node _); [|eexists; reflexivity].
  destruct (CashOut.balanceAfterClaim node); eexists; reflexivity.
Qed.

Section Address.
Variable parsePublicKey : string -> option Solana.PublicKey.

(** The last step of the cash-out, case by case. *)
Lemma sendEntireBalance_run node signer toPubkey newBalance st :
  let authority := signer.(publicKey) in
  let amountToSend := (newBalance - CashOut.FEE_BUFFER)%float in
  CashOut.sendEntireBalance node signer toPubkey newBalance st
  = if (amountToSend <=? 0)%float
    then (Returned tt, st, [CashOut.Log (CashOut.L_wallet_empty newBalance)])
    else
      let request :=
        [CashOut.Log
           (CashOut.L_cashing_out
              (amountToSend / Transactions.LAMPORTS_PER_SOL)%float);
         CashOut.Rpc_transfer authority toPubkey amountToSend signer] in
      match node.(CashOut.transferAnswer) authority toPubkey amountToSend with
      | Rejected message =>
          (Returned tt, st,
           request ++ [CashOut.Log (CashOut.L_cash_out_transfer_failed message)])
      | Resolved signature =>
          let t :=
            request
            ++ [CashOut.Log (CashOut.L_cash_out_successful
                               (String.substring 0 16 signature));
                CashOut.Core (Rpc_getBalance authority)] in
          match node.(CashOut.finalBalance) with
          | Rejected message =>
              (Returned tt, st,
               t ++ [CashOut.Log (CashOut.L_cash_out_transfer_failed message)])
          | Resolved finalBalance =>
              (Returned tt,
               State.setAppState
                 [State.Set_userBalance
                    (finalBalance / Transactions.LAMPORTS_PER_SOL)%float] st,
               t ++ [CashOut.Core
                       (Write [State.Set_userBalance
                                 (finalBalance / Transactions.LAMPORTS_PER_SOL)%float])])
          end
      end.
Proof.
  unfold CashOut.sendEntireBalance, CashOut.log. cbv zeta.
  destruct (_ <=? 0)%float; [reflexivity|].
  rewrite wide_bind_emit, wide_tryCatch_bind_await.
  destruct (CashOut.transferAnswer node _ _ _) as [signature|message];
    [|reflexivity].
  rewrite wide_tryCatch_bind_emit, wide_tryCatch_bind_await.
  destruct (CashOut.finalBalance node) as [finalBalance|message]; reflexivity.
Qed.

(** The cash-out up to the transfer, case by case. *)
Lemma executeFullCashOut_run targetAddress node signer st :
  CashOut.executeFullCashOut parsePublicKey targetAddress node signer st
  = match signer with
    | None =>
        (Returned tt, st,
         [CashOut.Log CashOut.L_cash_out_failed_signer_not_loaded])
    | Some key =>
        match parsePublicKey targetAddress with
        | None =>
            (Returned tt, st,
             [CashOut.Log (CashOut.L_cash_out_invalid_address targetAddress)])
        | Some toPubkey =>
            let claim := CashOut.sendClaimSolTx node signer st in
            match Wide.outcomeOf claim with
            | Returned true =>
                let waited :=
                  Wide.traceOf claim
                  ++ [CashOut.Log CashOut.L_waiting_for_balance;
                      CashOut.Sleep 2000;
                      CashOut.Core (Rpc_getBalance key.(publicKey))] in
                match node.(CashOut.newBalanceAnswer) with
                | Rejected message =>
                    (Returned tt, Wide.stateOf claim,
                     waited
                     ++ [CashOut.Log (CashOut.L_cash_out_failed_balance message)])
                | Resolved newBalance =>
                    let newBalanceSol :=
                      (newBalance / Transactions.LAMPORTS_PER_SOL)%float in
                    Wide.prepend
                      (waited
                       ++ [CashOut.Core (Write [State.Set_userBalance newBalanceSol]);
                           CashOut.Log (CashOut.L_new_total_balance newBalanceSol)])
                      (CashOut.sendEntireBalance node key toPubkey newBalance
                         (State.setAppState [State.Set_userBalance newBalanceSol]
                            (Wide.stateOf claim)))
                end
            | _ =>
                (Returned tt, Wide.stateOf claim,
                 Wide.traceOf claim
                 ++ [CashOut.Log CashOut.L_cash_out_aborted_claim_failed])
            end
        end
    end.
Proof.
  unfold CashOut.executeFullCashOut, CashOut.log. cbv zeta.
  destruct signer as [key|]; [|reflexivity].
  destruct (parsePublicKey targetAddress) as [toPubkey|]; [|reflexivity].
  destruct (sendClaimSolTx_returns node (Some key) st) as [claimSuccess Hc].
  rewrite wide_bind_returns with (a := claimSuccess) by exact Hc.
  rewrite Hc.
  destruct claimSuccess; cbn [negb].
  - rewrite !wide_bind_emit, wide_bind_tryCatch, wide_tryCatch_bind_await.
    destruct (CashOut.newBalanceAnswer node) as [b|message].
    + rewrite wide_tryCatch_bind_lift_setAppState, wide_tryCatch_bind_emit,
        wide_tryCatch_ret.
      unfold Wide.prepend.
      cbn [Wide.outcomeOf Wide.stateOf Wide.traceOf fst snd app].
      rewrite <- !app_assoc. reflexivity.
    + unfold Wide.prepend. cbn. rewrite <- !app_assoc. reflexivity.
  - reflexivity.
Qed.

End Address.

End CashOutRuns.

Section CashOutFacts.
Import Effects.
Variable parsePublicKey : string -> option Solana.PublicKey.

Lemma setAppState_userBalance_twice v w st :
  State.setAppState [State.Set_userBalance w]
    (State.setAppState [State.Set_userBalance v] st)
  = State.setAppState [State.Set_userBalance w] st.
Proof. now destruct st. Qed.

(** The state after a claim: at most the balance is written. *)
Lemma sendClaimSolTx_state node signer st :
  let r := CashOut.sendClaimSolTx node signer st in
  Wide.stateOf r = st
  \/ exists v, Wide.stateOf r = State.setAppState [State.Set_userBalance v] st.
Proof.
  cbv zeta. rewrite sendClaimSolTx_run. cbv zeta.
  destruct signer as [key|]; [|now left].
  destruct (CashOut.claimAnswer node _); [|now left].
  destruct (CashOut.balanceAfterClaim node); [right; eexists; reflexivity|now left].
Qed.

(** The requests of a claim: one transaction, the claim instruction. *)
Lemma sendClaimSolTx_trace node signer st :
  let r := CashOut.sendClaimSolTx node signer st in
  filter CashOut.isTransfer (Wide.traceOf r) = []
  /\ filter CashOut.isClaim (Wide.traceOf r)
     = match signer with
       | None => []
       | Some key =>
           [CashOut.Core
              (Rpc_sendAndConfirmTransaction [CashOut.claimInstruction key] key)]
       end.
Proof.
  cbv zeta. rewrite sendClaimSolTx_run. cbv zeta.
  destruct signer as [key|]; [|split; reflexivity].
  destruct (CashOut.claimAnswer node _); [|split; reflexivity].
  destruct (CashOut.balanceAfterClaim node); split; reflexivity.
Qed.

(** The transfers of a cash-out. *)
Lemma executeFullCashOut_transfers targetAddress node signer st :
  filter CashOut.isTransfer
    (Wide.traceOf
       (CashOut.executeFullCashOut parsePublicKey targetAddress node signer st))
  = match signer, parsePublicKey targetAddress with
    | Some key, Some toPubkey =>
        match Wide.outcomeOf (CashOut.sendClaimSolTx node signer st),
              node.(CashOut.newBalanceAnswer) with
        | Returned true, Resolved newBalance =>
            if (newBalance - CashOut.FEE_BUFFER <=? 0)%float then []
            else [CashOut.Rpc_transfer key.(publicKey) toPubkey
                    (newBalance - CashOut.FEE_BUFFER)%float key]
        | _, _ => []
        end
    | _, _ => []
    end.
Proof.
  rewrite executeFullCashOut_run. cbv zeta.
  destruct signer as [key|]; [|reflexivity].
  destruct (parsePublicKey targetAddress) as [toPubkey|]; [|reflexivity].
  pose proof (sendClaimSolTx_trace node (Some key) st) as [Ht _].
  destruct (Wide.outcomeOf _) as [[|]|message].
  - destruct (CashOut.newBalanceAnswer node) as [newBalance|message].
    + rewrite wide_traceOf_prepend, sendEntireBalance_run. cbv zeta.
      rewrite !filter_app, Ht.
      destruct (_ <=? 0)%float; [reflexivity|].
      destruct (CashOut.transferAnswer node _ _ _); [|reflexivity].
      destruct (CashOut.finalBalance node); reflexivity.
    + cbn [Wide.traceOf snd]. rewrite !filter_app, Ht. reflexivity.
  - cbn [Wide.traceOf snd]. rewrite !filter_app, Ht. reflexivity.
  - cbn [Wide.traceOf snd]. rewrite !filter_app, Ht. reflexivity.
Qed.

(** The claims of a cash-out. *)
Lemma executeFullCashOut_claims targetAddress node signer st :
  filter CashOut.isClaim
    (Wide.traceOf
       (CashOut.executeFullCashOut parsePublicKey targetAddress node signer st))
  = match signer, parsePublicKey targetAddress with
    | Some key, Some _ =>
        [CashOut.Core
           (Rpc_sendAndConfirmTransaction [CashOut.claimInstruction key] key)]
    | _, _ => []
    end.
Proof.
  rewrite executeFullCashOut_run. cbv zeta.
  destruct signer as [key|]; [|reflexivity].
  destruct (parsePublicKey targetAddress) as [toPubkey|]; [|reflexivity].
  pose proof (sendClaimSolTx_trace node (Some key) st) as [_ Ht].
  destruct (Wide.outcomeOf _) as [[|]|message].
  - destruct (CashOut.newBalanceAnswer node) as [newBalance|message].
    + rewrite wide_traceOf_prepend, sendEntireBalance_run. cbv zeta.
      rewrite !filter_app, Ht.
      destruct (_ <=? 0)%float; [reflexivity|].
      destruct (CashOut.transferAnswer node _ _ _); [|reflexivity].
      destruct (CashOut.finalBalance node); reflexivity.
    + cbn [Wide.traceOf snd]. rewrite !filter_app, Ht. reflexivity.
  - cbn [Wide.traceOf snd]. rewrite !filter_app, Ht. reflexivity.
  - cbn [Wide.traceOf snd]. rewrite !filter_app, Ht. reflexivity.
Qed.

(** The result and the state of a cash-out. *)
Lemma executeFullCashOut_state targetAddress node signer st :
  let r := CashOut.executeFullCashOut parsePublicKey targetAddress node signer st in
  Wide.outcomeOf r = Returned tt
  /\ (Wide.stateOf r = st
      \/ exists v,
           Wide.stateOf r = State.setAppState [State.Set_userBalance v] st).
Proof.
  cbv zeta. rewrite executeFullCashOut_run. cbv zeta.
  destruct signer as [key|]; [|split; [reflexivity|now left]].
  destruct (parsePublicKey targetAddress) as [toPubkey|];
    [|split; [reflexivity|now left]].
  pose proof (sendClaimSolTx_state node (Some key) st) as Hs. cbv zeta in Hs.
  assert (Hw : forall w,
             exists v,
               State.setAppState [State.Set_userBalance w]
                 (Wide.stateOf (CashOut.sendClaimSolTx node (Some key) st))
               = State.setAppState [State.Set_userBalance v] st).
  { intros w. exists w. destruct Hs as [->|[v ->]]; [reflexivity|].
    apply setAppState_userBalance_twice. }
  destruct (Wide.outcomeOf (CashOut.sendClaimSolTx node (Some key) st))
    as [[|]|message];
    try (split; [reflexivity|exact Hs]).
  destruct (CashOut.newBalanceAnswer node) as [newBalance|message];
    [|split; [reflexivity|exact Hs]].
  rewrite wide_outcomeOf_prepend, wide_stateOf_prepend, sendEntireBalance_run.
  cbv zeta.
  destruct (_ <=? 0)%float; [split; [reflexivity|right; apply Hw]|].
  destruct (CashOut.transferAnswer node _ _ _);
    [|split; [reflexivity|right; apply Hw]].
  destruct (CashOut.finalBalance node);
    [|split; [reflexivity|right; apply Hw]].
  split; [reflexivity|right].
  cbn [Wide.stateOf fst snd]. rewrite setAppState_userBalance_twice. apply Hw.
Qed.

End CashOutFacts.

(** X19. executeFullCashOut asks for a transfer only with the loaded signer
    as sender and signer, to the address that was typed, after a claim
    that reported success, and for the balance fetched after the claim
    less 5000 lamports, which is not zero or less. *)
Theorem cash_out_transfer_guarded parsePublicKey targetAddress node signer st
    fromPubkey toPubkey lamports key :
  In (CashOut.Rpc_transfer fromPubkey toPubkey lamports key)
    (Wide.traceOf
       (CashOut.executeFullCashOut parsePublicKey targetAddress node signer st)) ->
  signer = Some key
  /\ fromPubkey = key.(Effects.publicKey)
  /\ parsePublicKey targetAddress = Some toPubkey
  /\ Wide.outcomeOf (CashOut.sendClaimSolTx node signer st) = Effects.Returned true
  /\ exists newBalance,
       node.(CashOut.newBalanceAnswer) = Effects.Resolved newBalance
       /\ lamports = (newBalance - 5000)%float
       /\ (lamports <=? 0)%float = false.
Proof.
  intros H.
  assert (Hf : In (CashOut.Rpc_transfer fromPubkey toPubkey lamports key)
                 (filter CashOut.isTransfer
                    (Wide.traceOf
                       (CashOut.executeFullCashOut parsePublicKey targetAddress
                          node signer st)))).
  { apply filter_In. split; [exact H|reflexivity]. }
  rewrite executeFullCashOut_transfers in Hf.
  destruct signer as [k|]; [|destruct Hf].
  destruct (parsePublicKey targetAddress) as [to|]; [|destruct Hf].
  destruct (Wide.outcomeOf _) as [[|]|message]; try destruct Hf.
  destruct (CashOut.newBalanceAnswer node) as [newBalance|message];
    [|destruct Hf].
  destruct (_ <=? 0)%float eqn:Hle; [destruct Hf|].
  destruct Hf as [Hf|[]]. injection Hf as <- <- <- <-.
  repeat (split; [reflexivity|]).
  exists newBalance. repeat split. exact Hle.
Qed.

Lemma cash_out_transfer_guarded_witness :
  In (CashOut.Rpc_transfer Samples.keypair.(Effects.publicKey)
        Samples3.destination 999995000%float Samples.keypair)
    (Wide.traceOf
       (CashOut.executeFullCashOut Samples3.parseAddress "destination"
          Samples3.nothingToClaim (Some Samples.keypair)
          (Samples.running "idle")))
  /\ Samples3.parseAddress "destination" = Some Samples3.destination
  /\ exists newBalance,
       Samples3.nothingToClaim.(CashOut.newBalanceAnswer)
       = Effects.Resolved newBalance
       /\ 999995000%float = (newBalance - 5000)%float.
Proof.
  assert (H : In (CashOut.Rpc_transfer Samples.keypair.(Effects.publicKey)
                    Samples3.destination 999995000%float Samples.keypair)
                (Wide.traceOf
                   (CashOut.executeFullCashOut Samples3.parseAddress "destination"
                      Samples3.nothingToClaim (Some Samples.keypair)
                      (Samples.running "idle")))).
  { vm_compute. tauto. }
  split; [exact H|].
  pose proof (cash_out_transfer_guarded _ _ _ _ _ _ _ _ _ H)
    as (_ & _ & Hp & _ & b & Hb & Hl & _).
  split; [exact Hp|]. exists b. split; [exact Hb|exact Hl].
Defined.

(** X20. When the signer is loaded, the address is valid, the claim
    reported success and the balance fetched afterwards exceeds 5000
    lamports, executeFullCashOut asks for exactly one transfer: of that
    balance less 5000 lamports, from the signer to the address. A claim
    that the program rejected counts as a success. *)
Theorem cash_out_sends_whole_balance parsePublicKey targetAddress node key st
    toPubkey newBalance :
  parsePublicKey targetAddress = Some toPubkey ->
  (match node.(CashOut.claimAnswer) [CashOut.claimInstruction key] with
   | Effects.Resolved _ =>
       match node.(CashOut.balanceAfterClaim) with
       | Effects.Resolved _ => True
       | Effects.Rejected errorMsg =>
           Transactions.includes "custom program error" errorMsg = true
       end
   | Effects.Rejected errorMsg =>
       Transactions.includes "custom program error" errorMsg = true
   end) ->
  node.(CashOut.newBalanceAnswer) = Effects.Resolved newBalance ->
  (newBalance - 5000 <=? 0)%float = false ->
  filter CashOut.isTransfer
    (Wide.traceOf
       (CashOut.executeFullCashOut parsePublicKey targetAddress node (Some key) st))
  = [CashOut.Rpc_transfer key.(Effects.publicKey) toPubkey
       (newBalance - 5000)%float key].
Proof.
  intros Hp Hc Hb Hle.
  rewrite executeFullCashOut_transfers, Hp, Hb.
  change CashOut.FEE_BUFFER with 5000%float. rewrite Hle.
  rewrite sendClaimSolTx_run. cbv zeta.
  destruct (CashOut.claimAnswer node _) as [signature|errorMsg].
  - destruct (CashOut.balanceAfterClaim node) as [b|errorMsg]; [reflexivity|].
    cbn [Wide.outcomeOf fst]. now rewrite Hc.
  - cbn [Wide.outcomeOf fst]. now rewrite Hc.
Qed.

Lemma cash_out_sends_whole_balance_witness :
  filter CashOut.isTransfer
    (Wide.traceOf
       (CashOut.executeFullCashOut Samples3.parseAddress "destination"
          Samples3.nothingToClaim (Some Samples.keypair)
          (Samples.running "idle")))
  = [CashOut.Rpc_transfer Samples.keypair.(Effects.publicKey)
       Samples3.destination (1000000000 - 5000)%float Samples.keypair].
Proof.
  apply (cash_out_sends_whole_balance Samples3.parseAddress "destination"
           Samples3.nothingToClaim Samples.keypair (Samples.running "idle")
           Samples3.destination 1000000000%float);
    vm_compute; reflexivity.
Defined.

(** X21. executeFullCashOut never throws; it sends the claim at most once
    and asks for at most one transfer; of the state it changes at most
    the wallet balance. *)
Theorem cash_out_contained parsePublicKey targetAddress node signer st :
  let r := CashOut.executeFullCashOut parsePublicKey targetAddress node signer st in
  Wide.outcomeOf r = Effects.Returned tt
  /\ (List.length (filter CashOut.isClaim (Wide.traceOf r)) <= 1)%nat
  /\ (List.length (filter CashOut.isTransfer (Wide.traceOf r)) <= 1)%nat
  /\ (Wide.stateOf r = st
      \/ exists v, Wide.stateOf r = State.assign (State.Set_userBalance v) st).
Proof.
  cbv zeta.
  pose proof (executeFullCashOut_state parsePublicKey targetAddress node signer st)
    as Hs. cbv zeta in Hs. destruct Hs as [Ho Hs].
  split; [exact Ho|]. split; [|split; [|exact Hs]].
  - rewrite executeFullCashOut_claims.
    destruct signer; [destruct (parsePublicKey targetAddress)|]; cbn; lia.
  - rewrite executeFullCashOut_transfers.
    destruct signer as [k|]; [destruct (parsePublicKey targetAddress)|];
      [|cbn; lia..].
    destruct (Wide.outcomeOf (CashOut.sendClaimSolTx node (Some k) st))
      as [[|]|message]; [|cbn; lia..].
    destruct (CashOut.newBalanceAnswer node); [|cbn; lia].
    destruct (_ <=? 0)%float; cbn; lia.
Qed.

(** X22. Without a signer, or with a text that is not an address,
    executeFullCashOut only writes a line to the log: no request is sent
    and the state is unchanged. *)
Theorem cash_out_needs_signer_and_address parsePublicKey targetAddress node
    signer st :
  signer = None \/ parsePublicKey targetAddress = None ->
  let r := CashOut.executeFullCashOut parsePublicKey targetAddress node signer st in
  Wide.stateOf r = st
  /\ exists line, Wide.traceOf r = [CashOut.Log line].
Proof.
  intros H. cbv zeta. rewrite executeFullCashOut_run. cbv zeta.
  destruct signer as [key|].
  - destruct H as [H|H]; [discriminate|]. rewrite H.
    split; [reflexivity|eexists; reflexivity].
  - split; [reflexivity|eexists; reflexivity].
Qed.

Lemma cash_out_needs_signer_and_address_witness :
  Wide.traceOf
    (CashOut.executeFullCashOut Samples3.parseAddress "somewhere"
       Samples3.nothingToClaim (Some Samples.keypair) (Samples.running "idle"))
  = [CashOut.Log (CashOut.L_cash_out_invalid_address "somewhere")].
Proof.
  pose proof (cash_out_needs_signer_and_address Samples3.parseAddress "somewhere"
                Samples3.nothingToClaim (Some Samples.keypair)
                (Samples.running "idle") (or_intror eq_refl)) as H.
  cbv zeta in H. destruct H as [_ [line H]].
  rewrite H. f_equal. vm_compute in H. now injection H as <-.
Defined.

(** X23. sendClaimSolTx with a signer never throws and sends one
    transaction: the claim instruction alone. It returns true exactly
    when the claim was accepted and the balance could be read afterwards,
    or when the text of the error contains "custom program error"; so an
    accepted claim whose balance request fails otherwise is reported as a
    failure. The wallet balance is written only in the first case, as
    the lamports read divided by 10^9. *)
Theorem claim_reports_success node key st :
  let transaction := [CashOut.claimInstruction key] in
  let r := CashOut.sendClaimSolTx node (Some key) st in
  let tolerated errorMsg :=
    Transactions.includes "custom program error" errorMsg = true in
  (exists claimSuccess, Wide.outcomeOf r = Effects.Returned claimSuccess)
  /\ filter CashOut.isClaim (Wide.traceOf r)
     = [CashOut.Core (Effects.Rpc_sendAndConfirmTransaction transaction key)]
  /\ (Wide.outcomeOf r = Effects.Returned true <->
      match node.(CashOut.claimAnswer) transaction with
      | Effects.Rejected errorMsg => tolerated errorMsg
      | Effects.Resolved _ =>
          match node.(CashOut.balanceAfterClaim) with
          | Effects.Resolved _ => True
          | Effects.Rejected errorMsg => tolerated errorMsg
          end
      end)
  /\ Wide.stateOf r
     = match node.(CashOut.claimAnswer) transaction,
             node.(CashOut.balanceAfterClaim) with
       | Effects.Resolved _, Effects.Resolved newBalance =>
           State.assign (State.Set_userBalance (newBalance / 1000000000)%float) st
       | _, _ => st
       end.
Proof.
  cbv zeta.
  pose proof (sendClaimSolTx_trace node (Some key) st) as [_ Ht].
  cbv zeta in Ht.
  split; [apply sendClaimSolTx_returns|]. split; [exact Ht|].
  rewrite sendClaimSolTx_run. cbv zeta.
  destruct (CashOut.claimAnswer node _) as [signature|errorMsg].
  - destruct (CashOut.balanceAfterClaim node) as [newBalance|errorMsg].
    + split; [split; [trivial|reflexivity]|reflexivity].
    + split; [|reflexivity]. cbn [Wide.outcomeOf fst].
      destruct (Transactions.includes _ errorMsg);
        split; congruence.
  - split; [|reflexivity]. cbn [Wide.outcomeOf fst].
    destruct (Transactions.includes _ errorMsg);
      split; congruence.
Qed.

(** ** The best EV of the dashboard *)

Lemma ord_finite x :
  PrimFloat.is_finite x = true -> - 2 ^ 64 < Float64.ord x < 2 ^ 64.
Proof.
  intros Hf. unfold Float64.ord.
  assert (Hn : PrimFloat.is_nan x = false) by now apply is_finite_not_nan.
  unfold PrimFloat.is_finite, PrimFloat.is_infinity in Hf.
  apply negb_true_iff, orb_false_iff in Hf. destruct Hf as [_ Hi].
  rewrite eqb_spec, abs_spec in Hi.
  change (Prim2SF infinity) with (S754_infinity false) in Hi.
  destruct (Prim2SF x) as [s|s| |s m e] eqn:E.
  - lia.
  - destruct s; discriminate Hi.
  - lia.
  - pose proof (finite_bounds x s m e E) as [Be Bm].
    change (2 ^ 64) with (2048 * 2 ^ 53). destruct s; nia.
Qed.

Lemma ord_rank x : Spec.posfin x -> Float64.ord x = Spec.rank x + 1075 * 2 ^ 53.
Proof.
  intros (m & e & H). unfold Float64.ord, Spec.rank. rewrite H. lia.
Qed.

Section Scan.
Variables (rd : Solana.RoundData) (T ore : float).

(** A square of the analysis has the EV of the dashboard, when it is
    finite. *)
Lemma square_blockEV i f :
  Detection.square rd T ore i = Some f ->
  exists EV,
    Dashboard.blockEV rd T ore i = Some EV
    /\ f.(Detection.f_id) = Z.of_nat i + 1
    /\ f.(Detection.f_ev) = if JS.isFinite EV then EV else neg_infinity.
Proof.
  unfold Detection.square, Dashboard.blockEV.
  destruct (nth_error _ i) as [c|]; [|discriminate].
  destruct (nth_error _ i) as [d|]; [|discriminate].
  intros [= <-]. eexists. split; [reflexivity|]. split; reflexivity.
Qed.

Lemma scan_spec idxs : forall b evs0 b' evs',
  StronglySorted lt idxs ->
  PrimFloat.is_nan b.(Dashboard.ev) = false ->
  Dashboard.scan rd T ore idxs b evs0 = Some (b', evs') ->
  Dashboard.Scanned rd T ore idxs b b'
  /\ exists EVs,
       evs' = evs0 ++ EVs
       /\ Forall2 (fun i EV => Dashboard.blockEV rd T ore i = Some EV) idxs EVs.
Proof.
  induction idxs as [|i idxs IH]; intros b evs0 b' evs' Hs Hn;
    cbn [Dashboard.scan].
  { intros [= <- <-]. split.
    - split; [exact Hn|]. split; [lia|]. split; [now left|]. intros j EV [].
    - exists []. split; [now rewrite app_nil_r|constructor]. }
  destruct (Dashboard.blockEV rd T ore i) as [EV|] eqn:Hi; [|discriminate].
  inversion Hs as [|? ? Hs' Hlt]; subst. rewrite Forall_forall in Hlt.
  set (b1 := if (JS.isFinite EV && (b.(Dashboard.ev) <? EV)%float)%bool
             then {| Dashboard.ev := EV; Dashboard.id := Z.of_nat i + 1 |}
             else b).
  intros H.
  assert (Hn1 : PrimFloat.is_nan b1.(Dashboard.ev) = false).
  { unfold b1. destruct (JS.isFinite EV) eqn:Hf; cbn [andb]; [|exact Hn].
    destruct (_ <? _)%float; [|exact Hn]. now apply is_finite_not_nan. }
  destruct (IH b1 (evs0 ++ [EV]) b' evs' Hs' Hn1 H)
    as ((N' & Hle & Hor & Hall) & EVs & -> & HF).
  split.
  2:{ exists (EV :: EVs). split; [now rewrite <- app_assoc|].
      constructor; assumption. }
  (* the step from [b] to [b1] *)
  assert (Hstep :
            (b1 = b
             /\ (PrimFloat.is_finite EV = true ->
                 Float64.ord EV <= Float64.ord b.(Dashboard.ev)))
            \/ (b1 = {| Dashboard.ev := EV; Dashboard.id := Z.of_nat i + 1 |}
                /\ PrimFloat.is_finite EV = true
                /\ Float64.ord b.(Dashboard.ev) < Float64.ord EV)).
  { unfold b1, JS.isFinite. destruct (PrimFloat.is_finite EV) eqn:Hf; cbn [andb].
    - pose proof (is_finite_not_nan _ Hf) as Hne.
      rewrite ltb_ord by assumption.
      destruct (Z.ltb_spec (Float64.ord (Dashboard.ev b)) (Float64.ord EV)).
      + right. auto.
      + left. split; [reflexivity|intros _; lia].
    - left. split; [reflexivity|discriminate]. }
  unfold Dashboard.Scanned. split; [exact N'|].
  destruct Hstep as [[E1 Hsmall]|(E1 & Hf & Hgt)].
  - (* the best square is kept at [i] *)
    rewrite E1 in *. split; [exact Hle|]. split.
    + destruct Hor as [->|(Hlt' & Hfin & j & Hj & Hbj & Hid)]; [now left|].
      right. split; [exact Hlt'|]. split; [exact Hfin|].
      exists j. split; [now right|]. split; assumption.
    + intros j EVj [<-|Hj] Hbj Hfj.
      * rewrite Hi in Hbj. injection Hbj as <-.
        specialize (Hsmall Hfj). split; [lia|]. intros Heq.
        destruct Hor as [->|(Hlt' & _)]; [now left|lia].
      * exact (Hall j EVj Hj Hbj Hfj).
  - (* square [i] becomes the best *)
    assert (Eev : Dashboard.ev b1 = EV) by now rewrite E1.
    assert (Eid : Dashboard.id b1 = Z.of_nat i + 1) by now rewrite E1.
    rewrite Eev in Hle. split; [lia|]. split.
    + right. destruct Hor as [->|(Hlt' & Hfin & j & Hj & Hbj & Hid)].
      * rewrite Eev. split; [lia|]. split; [exact Hf|].
        exists i. split; [now left|]. split; [exact Hi|exact Eid].
      * rewrite Eev in Hlt'. split; [lia|]. split; [exact Hfin|].
        exists j. split; [now right|]. split; assumption.
    + intros j EVj [<-|Hj] Hbj Hfj.
      * rewrite Hi in Hbj. injection Hbj as <-. split; [lia|].
        intros Heq. right.
        destruct Hor as [->|(Hlt' & _)]; [rewrite Eid; lia|].
        rewrite Eev in Hlt'. lia.
      * destruct (Hall j EVj Hj Hbj Hfj) as [H1 H2]. split; [exact H1|].
        intros Heq. right. destruct (H2 Heq) as [->|Hid]; [|exact Hid].
        rewrite Eid. specialize (Hlt j Hj). lia.
Qed.

End Scan.

Section DashboardFacts.
Variables (st : State.AppState) (rd : Solana.RoundData).

Let T := (JS.Number_of_Z rd.(Solana.Round.total_deployed)
          * Constants.SOL_PER_LAMPORT)%float.
Let ore := Ev.getOreValueInSOL st rd.

Let start : Dashboard.BestEV :=
  {| Dashboard.ev := neg_infinity; Dashboard.id := -1 |}.

(** The loop over the whole board. *)
Lemma bestOf_spec best evs :
  Dashboard.bestOf st rd = Some (best, evs) ->
  Dashboard.Scanned rd T ore (seq 0 25) start best
  /\ Forall2 (fun i EV => Dashboard.blockEV rd T ore i = Some EV) (seq 0 25) evs.
Proof.
  unfold Dashboard.bestOf. fold T ore start. intros H.
  apply scan_spec in H; [|apply seq_sorted|reflexivity].
  destruct H as (Hs & EVs & -> & HF).
  split; [exact Hs|exact HF].
Qed.

Lemma bestOf_id best evs :
  Dashboard.bestOf st rd = Some (best, evs) ->
  best = start
  \/ (1 <= best.(Dashboard.id) <= 25
      /\ PrimFloat.is_finite best.(Dashboard.ev) = true
      /\ Dashboard.blockEV rd T ore (Z.to_nat (best.(Dashboard.id) - 1))
         = Some best.(Dashboard.ev)).
Proof.
  intros H. destruct (bestOf_spec best evs H) as ((_ & _ & Hor & _) & _).
  destruct Hor as [->|(_ & Hf & i & Hi & Hb & Hid)]; [now left|right].
  apply in_seq in Hi. split; [lia|]. split; [exact Hf|].
  replace (Z.to_nat (Dashboard.id best - 1)) with i by lia. exact Hb.
Qed.

(** The loop goes through when the analysis does. *)
Lemma bestOf_returns full :
  Forall2 (fun i f => Detection.square rd T ore i = Some f) (seq 0 25) full ->
  exists best evs, Dashboard.bestOf st rd = Some (best, evs).
Proof.
  intros Hall. unfold Dashboard.bestOf. fold T ore.
  assert (G : forall idxs fs b evs0,
             Forall2 (fun i f => Detection.square rd T ore i = Some f) idxs fs ->
             exists best evs, Dashboard.scan rd T ore idxs b evs0 = Some (best, evs)).
  { intros idxs fs b evs0 HF. revert b evs0.
    induction HF as [|i f idxs fs Hi HF IH]; intros b evs0; cbn [Dashboard.scan].
    - eauto.
    - destruct (square_blockEV rd T ore i f Hi) as (EV & -> & _). apply IH. }
  exact (G _ _ _ _ Hall).
Qed.

Lemma blockEVs_nth (P : nat -> float -> Prop) a n evs :
  Forall2 P (seq a n) evs ->
  forall j EV, nth_error evs j = Some EV -> (j < n)%nat /\ P (a + j)%nat EV.
Proof.
  revert a evs. induction n as [|n IH]; intros a evs HF j EV Hj; cbn [seq] in HF.
  - inversion HF; subst. destruct j; discriminate Hj.
  - inversion HF as [|? EV0 ? evs' H0 HF']; subst.
    destruct j as [|j]; cbn [nth_error] in Hj.
    + injection Hj as <-. split; [lia|]. now rewrite Nat.add_0_r.
    + destruct (IH _ _ HF' j EV Hj) as [Hlt HP]. split; [lia|].
      now replace (a + S j)%nat with (S a + j)%nat by lia.
Qed.

Lemma blockEVs_at (P : nat -> float -> Prop) a n evs :
  Forall2 P (seq a n) evs ->
  forall j EV, (j < n)%nat -> P (a + j)%nat EV ->
               (forall i x y, P i x -> P i y -> x = y) ->
               nth_error evs j = Some EV.
Proof.
  revert a evs. induction n as [|n IH]; intros a evs HF j EV Hj HP Hfun; [lia|].
  cbn [seq] in HF. inversion HF as [|? EV0 ? evs' H0 HF']; subst.
  destruct j as [|j]; cbn [nth_error].
  - rewrite Nat.add_0_r in HP. f_equal. exact (Hfun _ _ _ H0 HP).
  - apply (IH _ _ HF'); [lia| |exact Hfun].
    now replace (S a + j)%nat with (a + S j)%nat by lia.
Qed.

End DashboardFacts.

(** X24. The dashboard and the trigger agree on the best square. When
    the analysis of a round goes through, so does the loop of
    [updateTUI] that looks for the best EV, over 25 squares. If the
    analysis has a best square, the best-EV widget shows that square
    with that EV: the square a 1x EV deployment goes to. If it has none,
    whatever square the widget shows has an EV that is not positive. *)
Theorem dashboard_best_is_first_target (st : State.AppState)
    (rd : Solana.RoundData) (analysis : Detection.Analysis) :
  Detection.analyzeBoardState st (Some rd) = Some analysis ->
  exists content blockEVs,
    Dashboard.bestEVDisplay st rd = Some (content, blockEVs)
    /\ List.length blockEVs = 25%nat
    /\ match analysis.(Detection.bestEV) with
       | Some best =>
           content = Dashboard.Best_square best.(Detection.id) best.(Detection.ev)
       | None =>
           forall id ev, content = Dashboard.Best_square id ev ->
                         (0 <? ev)%float = false
       end.
Proof.
  intros H. destruct (analysis_parts st rd analysis H) as (Hall & HE & _ & HbE & _).
  set (T := (JS.Number_of_Z _ * _)%float) in Hall.
  set (ore := Ev.getOreValueInSOL st rd) in Hall.
  destruct (bestOf_returns st rd _ Hall) as (b & evs & Hb).
  destruct (bestOf_spec st rd b evs Hb) as ((Nb & _ & Hor & Hmax) & HF).
  fold T ore in Hor, Hmax, HF.
  unfold Dashboard.bestEVDisplay. rewrite Hb.
  exists (Dashboard.contentOf b), evs. split; [reflexivity|].
  split. { apply Forall2_length in HF. now rewrite <- HF. }
  pose proof (full_ids_NoDup _ _ _ _ Hall) as Hnd.
  destruct (byEV_entries _ Hnd) as [_ Hin].
  pose proof (byEV_sorted rd T ore _ Hall) as Hs.
  rewrite HbE, HE. clear HbE HE.
  assert (N0 : PrimFloat.is_nan 0%float = false) by reflexivity.
  (* a square the loop has chosen is a square of the analysis *)
  assert (Hsq : forall i, In i (seq 0 25) ->
                  Dashboard.blockEV rd T ore i = Some b.(Dashboard.ev) ->
                  PrimFloat.is_finite b.(Dashboard.ev) = true ->
                  exists f, In f analysis.(Detection.fullAnalysis)
                            /\ f.(Detection.f_id) = Z.of_nat i + 1
                            /\ f.(Detection.f_ev) = b.(Dashboard.ev)).
  { intros i Hi Hbi Hfi.
    assert (Hex : exists f, In f analysis.(Detection.fullAnalysis)
                            /\ Detection.square rd T ore i = Some f).
    { clear - Hall Hi. induction Hall as [|j f idxs fs Hj HF' IH]; [destruct Hi|].
      destruct Hi as [<-|Hi].
      - exists f. split; [now left|exact Hj].
      - destruct (IH Hi) as (g & Hg & Hsqg). exists g. split; [now right|exact Hsqg]. }
    destruct Hex as (f & Hf & Hsqf). exists f. split; [exact Hf|].
    destruct (square_blockEV rd T ore i f Hsqf) as (EV & HEV & Hid & Hev).
    rewrite Hbi in HEV. injection HEV as <-. split; [exact Hid|].
    rewrite Hev. unfold JS.isFinite. now rewrite Hfi. }
  destruct (Ref.byEV_of analysis.(Detection.fullAnalysis)) as [|best rest] eqn:E;
    cbn [hd_error].
  - (* no square has a positive EV *)
    intros id ev Hc. unfold Dashboard.contentOf in Hc.
    destruct (Dashboard.id b =? -1); [discriminate|]. injection Hc as <- <-.
    destruct Hor as [->|(_ & Hfin & i & Hi & Hbi & Hid)]; [reflexivity|].
    destruct (Hsq i Hi Hbi Hfin) as (f & Hf & _ & Hev).
    destruct (0 <? Dashboard.ev b)%float eqn:Hp; [|reflexivity].
    destruct (proj2 (Hin (Detection.evOf f))) as []. exists f.
    split; [exact Hf|]. split; [reflexivity|now rewrite Hev].
  - (* the best square of the analysis *)
    destruct (proj1 (Hin best) (or_introl eq_refl)) as (fb & Hfb & Eb & Hpos).
    destruct (Forall2_In_right _ _ _ _ Hall Hfb) as (k & Hk & Hsk).
    destruct (square_blockEV rd T ore k fb Hsk) as (EVk & HEVk & Hidk & Hevk).
    assert (Pb : Spec.posfin fb.(Detection.f_ev))
      by now apply (square_facts rd T ore k fb Hsk).
    assert (Hfk : PrimFloat.is_finite EVk = true).
    { unfold JS.isFinite in Hevk. destruct (PrimFloat.is_finite EVk); [reflexivity|].
      rewrite Hevk in Hpos. discriminate Hpos. }
    assert (Ek : fb.(Detection.f_ev) = EVk)
      by (unfold JS.isFinite in Hevk; now rewrite Hfk in Hevk).
    assert (N1 : PrimFloat.is_nan EVk = false) by now apply is_finite_not_nan.
    assert (Ok : 0 < Float64.ord EVk).
    { rewrite Ek, ltb_ord, ord_zero in Hpos by assumption. now apply Z.ltb_lt. }
    destruct (Hmax k EVk Hk HEVk Hfk) as [Hle Htie].
    destruct Hor as [->|(_ & Hfin & m & Hm & Hbm & Hidm)].
    { exfalso. change (Float64.ord EVk <= - 2 ^ 64) in Hle. lia. }
    destruct (Hsq m Hm Hbm Hfin) as (fm & Hfm & Hidfm & Hevm).
    assert (Pm0 : (0 <? fm.(Detection.f_ev))%float = true).
    { rewrite Hevm, ltb_ord, ord_zero by assumption. apply Z.ltb_lt. lia. }
    assert (Hinm : In (Detection.evOf fm) (best :: rest))
      by (apply Hin; exists fm; auto).
    assert (Pm : Spec.posfin fm.(Detection.f_ev)).
    { destruct (Forall2_In_right _ _ _ _ Hall Hfm) as (j & _ & Hj).
      now apply (square_facts rd T ore j fm Hj). }
    assert (Hsame : Z.of_nat m = Z.of_nat k).
    { destruct Hinm as [Hbest|Hrest].
      - assert (Detection.id best = Detection.id (Detection.evOf fm))
          by now rewrite Hbest.
        rewrite Eb in H0. cbn [Detection.evOf Detection.id] in H0. lia.
      - exfalso. apply StronglySorted_inv in Hs. destruct Hs as [_ Hbr].
        rewrite Forall_forall in Hbr. specialize (Hbr _ Hrest).
        rewrite Eb in Hbr. unfold Spec.sortsBefore in Hbr.
        cbn [Detection.evOf Detection.ev Detection.id] in Hbr.
        pose proof (ord_rank _ Pb) as R1. pose proof (ord_rank _ Pm) as R2.
        rewrite Ek in R1. rewrite Hevm in R2.
        rewrite Ek, Hevm in Hbr.
        assert (Heq : Float64.ord EVk = Float64.ord (Dashboard.ev b)) by lia.
        destruct (Htie Heq) as [Hst|Hid'].
        + rewrite Hst in Hfin. discriminate Hfin.
        + lia. }
    apply Nat2Z.inj in Hsame. subst m.
    rewrite HEVk in Hbm. injection Hbm as Hbm.
    unfold Dashboard.contentOf.
    destruct (Z.eqb_spec (Dashboard.id b) (-1)) as [Hneg|_]; [lia|].
    rewrite Eb. cbn [Detection.evOf Detection.id Detection.ev].
    rewrite Hidk, Hidm, Ek, Hbm. reflexivity.
Qed.

Lemma dashboard_best_is_first_target_witness :
  exists analysis ev blockEVs,
    Detection.analyzeBoardState (Samples.running "1x EV") (Some Samples.round)
    = Some analysis
    /\ option_map Detection.id analysis.(Detection.bestEV) = Some 2
    /\ Dashboard.bestEVDisplay (Samples.running "1x EV") Samples.round
       = Some (Dashboard.Best_square 2 ev, blockEVs).
Proof.
  set (st := Samples.running "1x EV").
  set (analysis := match Detection.analyzeBoardState st (Some Samples.round) with
                   | Some a => a
                   | None => Detection.emptyAnalysis
                   end).
  assert (Ha : Detection.analyzeBoardState st (Some Samples.round) = Some analysis)
    by (vm_compute; reflexivity).
  assert (Hid : option_map Detection.id analysis.(Detection.bestEV) = Some 2)
    by (vm_compute; reflexivity).
  pose proof (dashboard_best_is_first_target st Samples.round analysis Ha) as H.
  destruct H as (content & blockEVs & Hd & _ & Hm).
  destruct (Detection.bestEV analysis) as [best|] eqn:Eb; [|discriminate Hid].
  cbn [option_map] in Hid. injection Hid as Hid. rewrite Hid in Hm.
  exists analysis, best.(Detection.ev), blockEVs.
  split; [exact Ha|]. split; [rewrite Eb; cbn [option_map]; now rewrite Hid|].
  now rewrite <- Hm.
Defined.

(** X25. What the best-EV widget shows. When the loop of [updateTUI] goes
    through, the widget shows 'n/a (all negative)' only if no square has
    a finite EV. Otherwise it shows a square of the board with its EV,
    which is finite and the greatest finite EV of the board, and the
    first square with that EV; so a board whose finite EVs are all
    negative shows a square with a negative EV. *)
Theorem dashboard_shows_greatest_finite_ev (st : State.AppState)
    (rd : Solana.RoundData) (content : Dashboard.Content)
    (blockEVs : list float) :
  Dashboard.bestEVDisplay st rd = Some (content, blockEVs) ->
  match content with
  | Dashboard.Best_none =>
      Forall (fun EV => PrimFloat.is_finite EV = false) blockEVs
  | Dashboard.Best_square id ev =>
      1 <= id <= 25
      /\ nth_error blockEVs (Z.to_nat (id - 1)) = Some ev
      /\ PrimFloat.is_finite ev = true
      /\ forall j EV,
           nth_error blockEVs j = Some EV -> PrimFloat.is_finite EV = true ->
           (EV <=? ev)%float = true
           /\ ((EV =? ev)%float = true -> id <= Z.of_nat j + 1)
  end.
Proof.
  unfold Dashboard.bestEVDisplay.
  destruct (Dashboard.bestOf st rd) as [[b evs]|] eqn:Hb; [|discriminate].
  intros [= <- <-].
  destruct (bestOf_spec st rd b evs Hb) as ((Nb & _ & Hor & Hmax) & HF).
  set (T := (JS.Number_of_Z _ * _)%float) in *.
  set (ore := Ev.getOreValueInSOL st rd) in *.
  pose proof (blockEVs_nth _ 0 25 evs HF) as Hnth. cbn [Nat.add] in Hnth.
  unfold Dashboard.contentOf.
  destruct (Z.eqb_spec (Dashboard.id b) (-1)) as [Hneg|Hpos].
  - (* nothing was found *)
    destruct Hor as [->|(_ & _ & i & _ & _ & Hid)]; [|lia].
    apply Forall_forall. intros EV Hin.
    apply In_nth_error in Hin. destruct Hin as [j Hj].
    destruct (Hnth j EV Hj) as [Hlt HbEV].
    destruct (PrimFloat.is_finite EV) eqn:Hf; [exfalso|reflexivity].
    assert (Hj' : In j (seq 0 25)) by (apply in_seq; lia).
    destruct (Hmax j EV Hj' HbEV Hf) as [Hle _].
    pose proof (ord_finite EV Hf) as B.
    change (Float64.ord EV <= - 2 ^ 64) in Hle. lia.
  - destruct Hor as [->|(_ & Hfin & i & Hi & Hbi & Hid)]; [now elim Hpos|].
    apply in_seq in Hi. split; [lia|]. split.
    { replace (Z.to_nat (Dashboard.id b - 1)) with i by lia.
      apply (blockEVs_at _ 0 25 evs HF); [lia|exact Hbi|].
      intros ? ? ? E1 E2. congruence. }
    split; [exact Hfin|].
    intros j EV Hj Hf. destruct (Hnth j EV Hj) as [Hlt HbEV].
    assert (Hj' : In j (seq 0 25)) by (apply in_seq; lia).
    destruct (Hmax j EV Hj' HbEV Hf) as [Hle Htie].
    pose proof (is_finite_not_nan _ Hf) as N1.
    split; [rewrite leb_ord by assumption; now apply Z.leb_le|].
    intros Heq. rewrite eqb_spec in Heq. unfold SFeqb in Heq.
    rewrite compare_ord in Heq by assumption.
    destruct (Z.compare_spec (Float64.ord EV) (Float64.ord (Dashboard.ev b)))
      as [E|E|E]; try discriminate Heq.
    destruct (Htie E) as [Hst|Hle']; [|exact Hle'].
    rewrite Hst in Hfin. discriminate Hfin.
Qed.

Lemma dashboard_shows_greatest_finite_ev_witness :
  exists ev blockEVs,
    Dashboard.bestEVDisplay (Samples.running "1x EV") Samples.round
    = Some (Dashboard.Best_square 2 ev, blockEVs)
    /\ nth_error blockEVs 1 = Some ev
    /\ PrimFloat.is_finite ev = true.
Proof.
  set (st := Samples.running "1x EV").
  set (shown := match Dashboard.bestEVDisplay st Samples.round with
                | Some (Dashboard.Best_square _ ev, blockEVs) => (ev, blockEVs)
                | _ => (0%float, [])
                end).
  assert (Hd : Dashboard.bestEVDisplay st Samples.round
               = Some (Dashboard.Best_square 2 (fst shown), snd shown))
    by (vm_compute; reflexivity).
  pose proof (dashboard_shows_greatest_finite_ev st Samples.round _ _ Hd) as H.
  cbv beta iota in H. destruct H as (_ & Hn & Hf & _).
  exists (fst shown), (snd shown).
  split; [exact Hd|]. split; [exact Hn|exact Hf].
Defined.

(** ** The account layouts *)

Section Accounts.
Import Solana.

Lemma nth_error_map_seq {A} (f : nat -> A) k i :
  (i < k)%nat -> nth_error (map f (seq 0 k)) i = Some (f i).
Proof.
  intros H. rewrite nth_error_map, nth_error_seq.
  destruct (Nat.ltb_spec i k); [reflexivity|lia].
Qed.

(** X26. The layout of a round account. An account of at least 560 bytes
    decodes with [parseRound], whatever follows those bytes. After the
    discriminator of 8 bytes the fields lie at fixed offsets: the id at
    8, the 25 deployed amounts from 16, the slot hash in bytes 216 to
    247, the 25 counts from 248, then [expires_at] at 448, the
    motherlode at 456, the two keys at 464 and 496, and the four totals
    from 528; every integer is read as [readBigUInt64LE] reads it. *)
Theorem round_account_layout (data : Solana.Buffer) :
  (560 <= List.length data)%nat ->
  exists r,
    Solana.parseRound data = Some r
    /\ Solana.readBigUInt64LE data 8 = Some r.(Solana.Round.id)
    /\ (forall i, (i < 25)%nat ->
          Solana.readBigUInt64LE data (16 + 8 * i)
          = nth_error r.(Solana.Round.deployed) i)
    /\ r.(Solana.Round.slot_hash) = firstn 32 (skipn 216 data)
    /\ (forall i, (i < 25)%nat ->
          Solana.readBigUInt64LE data (248 + 8 * i)
          = nth_error r.(Solana.Round.count) i)
    /\ Solana.readBigUInt64LE data 448 = Some r.(Solana.Round.expires_at)
    /\ Solana.readBigUInt64LE data 456 = Some r.(Solana.Round.motherlode)
    /\ r.(Solana.Round.rent_payer) = firstn 32 (skipn 464 data)
    /\ r.(Solana.Round.top_miner) = firstn 32 (skipn 496 data)
    /\ Solana.readBigUInt64LE data 528 = Some r.(Solana.Round.top_miner_reward)
    /\ Solana.readBigUInt64LE data 536 = Some r.(Solana.Round.total_deployed)
    /\ Solana.readBigUInt64LE data 544 = Some r.(Solana.Round.total_vaulted)
    /\ Solana.readBigUInt64LE data 552 = Some r.(Solana.Round.total_winnings).
Proof.
  intros H.
  destruct (parseRound_reads data)
    as (r & Hr & Hi & Hd & Hh & Hc & Hx & Hm & Hrp & Htm & Htr & Htd & Htv & Htw).
  exists r. split; [exact Hr|].
  rewrite Hi, Hd, Hh, Hc, Hx, Hm, Hrp, Htm, Htr, Htd, Htv, Htw.
  rewrite !keyAt_full by lia.
  repeat split;
    try (intros i Hlt; rewrite nth_error_map_seq by exact Hlt);
    try (apply readBigUInt64LE_u64At; lia).
Qed.

Lemma round_account_layout_witness :
  exists r,
    Solana.parseRound Samples3.finishedRoundAccount = Some r
    /\ r.(Solana.Round.id) = 42
    /\ r.(Solana.Round.slot_hash) = Samples.block
    /\ r.(Solana.Round.total_deployed) = 34500000000.
Proof.
  assert (L : (560 <= List.length Samples3.finishedRoundAccount)%nat)
    by (apply Nat.leb_le; vm_compute; reflexivity).
  pose proof (round_account_layout Samples3.finishedRoundAccount L) as H.
  destruct H as (r & Hr & Hid & _ & Hh & _ & _ & _ & _ & _ & _ & Htd & _).
  exists r. split; [exact Hr|].
  split; [vm_compute in Hid; injection Hid as Hid; symmetry; exact Hid|].
  split; [rewrite Hh; vm_compute; reflexivity|].
  vm_compute in Htd. injection Htd as Htd. symmetry. exact Htd.
Defined.

(** X27. The layout of the board account. An account of at least 32
    bytes decodes with [parseBoard]: after the discriminator of 8 bytes,
    the round id is the integer at offset 8, the start slot the one at
    16 and the end slot the one at 24. *)
Theorem board_account_layout (data : Solana.Buffer) :
  (32 <= List.length data)%nat ->
  exists board,
    Solana.parseBoard data = Some board
    /\ Solana.readBigUInt64LE data 8 = Some board.(Solana.Board.round_id)
    /\ Solana.readBigUInt64LE data 16 = Some board.(Solana.Board.start_slot)
    /\ Solana.readBigUInt64LE data 24 = Some board.(Solana.Board.end_slot).
Proof.
  intros H.
  destruct (parseBoard_reads data) as (board & Hb & H1 & H2 & H3).
  exists board. split; [exact Hb|]. rewrite H1, H2, H3.
  repeat split; apply readBigUInt64LE_u64At; lia.
Qed.

Lemma board_account_layout_witness :
  Solana.parseBoard Samples.boardAccount = Some Samples.board.
Proof.
  assert (L : (32 <= List.length Samples.boardAccount)%nat)
    by (apply Nat.leb_le; vm_compute; reflexivity).
  pose proof (board_account_layout Samples.boardAccount L) as H.
  destruct H as (board & Hb & H1 & H2 & H3).
  rewrite Hb. f_equal. destruct board as [r s e].
  cbn [Board.round_id Board.start_slot Board.end_slot] in H1, H2, H3.
  vm_compute in H1, H2, H3.
  injection H1 as <-. injection H2 as <-. injection H3 as <-. reflexivity.
Defined.

(** X28. The layout of a miner account. An account of at least 536
    bytes decodes with [parseMiner]. After the discriminator of 8 bytes:
    the authority in bytes 8 to 39, the 25 deployed amounts from 40, the
    25 cumulative amounts from 240, the checkpoint fee at 440, the
    checkpoint id at 448, the two claim times at 456 and 464, the
    rewards factor in bytes 472 to 487, the three rewards at 488, 496
    and 504, the round id at 512 and the lifetime rewards at 520 and
    528. *)
Theorem miner_account_layout (data : Solana.Buffer) :
  (536 <= List.length data)%nat ->
  exists miner,
    Solana.parseMiner data = Some miner
    /\ miner.(Solana.Miner.authority) = firstn 32 (skipn 8 data)
    /\ (forall i, (i < 25)%nat ->
          Solana.readBigUInt64LE data (40 + 8 * i)
          = nth_error miner.(Solana.Miner.deployed) i)
    /\ (forall i, (i < 25)%nat ->
          Solana.readBigUInt64LE data (240 + 8 * i)
          = nth_error miner.(Solana.Miner.cumulative) i)
    /\ Solana.readBigUInt64LE data 440 = Some miner.(Solana.Miner.checkpoint_fee)
    /\ Solana.readBigUInt64LE data 448 = Some miner.(Solana.Miner.checkpoint_id)
    /\ Solana.readBigUInt64LE data 456 = Some miner.(Solana.Miner.last_claim_ore_at)
    /\ Solana.readBigUInt64LE data 464 = Some miner.(Solana.Miner.last_claim_sol_at)
    /\ miner.(Solana.Miner.rewards_factor) = firstn 16 (skipn 472 data)
    /\ Solana.readBigUInt64LE data 488 = Some miner.(Solana.Miner.rewards_sol)
    /\ Solana.readBigUInt64LE data 496 = Some miner.(Solana.Miner.rewards_ore)
    /\ Solana.readBigUInt64LE data 504 = Some miner.(Solana.Miner.refined_ore)
    /\ Solana.readBigUInt64LE data 512 = Some miner.(Solana.Miner.round_id)
    /\ Solana.readBigUInt64LE data 520
       = Some miner.(Solana.Miner.lifetime_rewards_sol)
    /\ Solana.readBigUInt64LE data 528
       = Some miner.(Solana.Miner.lifetime_rewards_ore).
Proof.
  intros H.
  destruct (parseMiner_reads data)
    as (miner & Hm & Ha & Hd & Hc & Hcf & Hci & Hlo & Hls & Hrf & Hrs & Hro & Hre
        & Hri & Hl1 & Hl2).
  exists miner. split; [exact Hm|].
  rewrite Ha, Hd, Hc, Hcf, Hci, Hlo, Hls, Hrf, Hrs, Hro, Hre, Hri, Hl1, Hl2.
  rewrite keyAt_full by lia.
  repeat split;
    try (intros i Hlt; rewrite nth_error_map_seq by exact Hlt);
    try (apply readBigUInt64LE_u64At; lia).
Qed.

Lemma miner_account_layout_witness :
  exists miner,
    Solana.parseMiner (Samples.minerAccount 41 40) = Some miner
    /\ miner.(Solana.Miner.authority) = Samples.keypair.(Effects.publicKey)
    /\ miner.(Solana.Miner.checkpoint_id) = 40
    /\ miner.(Solana.Miner.round_id) = 41.
Proof.
  assert (L : (536 <= List.length (Samples.minerAccount 41 40))%nat)
    by (apply Nat.leb_le; vm_compute; reflexivity).
  pose proof (miner_account_layout (Samples.minerAccount 41 40) L) as H.
  destruct H as (miner & Hm & Ha & _ & _ & _ & Hc & _ & _ & _ & _ & _ & _ & Hr & _).
  exists miner. split; [exact Hm|].
  split; [rewrite Ha; vm_compute; reflexivity|].
  split; [vm_compute in Hc; injection Hc as Hc; symmetry; exact Hc|].
  vm_compute in Hr. injection Hr as Hr. symmetry. exact Hr.
Defined.

End Accounts.

(** ** Accounts that end early *)

(** An account of round 42 cut off after 300 bytes holds the slot hash:
    its winner is announced. *)
Lemma finalization_announces_winner_witness :
  let account := firstn 300 Samples3.finishedRoundAccount in
  let r := Game.finalizeOldRound Samples3.cutNode 42 (Samples.running "3x EV") in
  List.length account = 300%nat
  /\ Solana.parseRound account <> None
  /\ existsb Ref.isAnnouncement (Effects.traceOf r) = true
  /\ State.winnerAnnounced (Effects.stateOf r) = true.
Proof.
  intros account r.
  pose proof (finalization_announces_winner Samples3.cutNode 42
                (Samples.running "3x EV")) as H.
  cbv zeta in H. destruct H as (_ & _ & _ & Hiff & _).
  assert (Ha : existsb Ref.isAnnouncement (Effects.traceOf r) = true).
  { apply (proj2 Hiff). split; [reflexivity|]. exists account.
    split; [reflexivity|].
    split; [apply Nat.leb_le; vm_compute; reflexivity|vm_compute; reflexivity]. }
  split; [vm_compute; reflexivity|].
  split; [destruct (parseRound_reads account) as (rd & -> & _); discriminate|].
  split; [exact Ha|]. vm_compute. reflexivity.
Defined.
